(** * Branch Output: the audio bridge buffer and the output lifecycle

    A shallow embedding of [src/plugin-main.cpp].  The filter instance
    ([filter_t]) is a record; a function of the plugin is a function
    from the filter, and the answers of the host, to the filter it
    leaves and the host calls and log lines it issues.

    [plugin-main.hpp] and the headers of the host declare the constants
    and the structures the functions use.  The constants
    ([MAX_AUDIO_BUFFER_FRAMES], [AUDIO_OUTPUT_FRAMES], [MAX_AUDIO_MIXES],
    the timeouts, the size of the chunk header) are section variables.
    The integer fields of the structures are read as [size_t], the type
    of the locals they are assigned to and from in the functions, with
    the wrap-around of a 64-bit host; [frames] of [obs_audio_data],
    [mixers], the width and the height are [uint32_t].  The functions
    are embedded as compiled without [NO_AUDIO]. *)

From Stdlib Require Import ZArith Lia Bool List String.
From Stdlib Require Import Floats.SpecFloat.
From stdpp Require Import base list gmap strings.
Import ListNotations.

#[local] Open Scope Z_scope.
#[local] Unset Default Proof Using.

(** ** Machine integers *)

(** [size_t] arithmetic on a 64-bit host. *)
Definition SIZE_MODULUS : Z := 2 ^ 64.
Definition wrap_size (z : Z) : Z := z mod SIZE_MODULUS.
Arguments wrap_size : simpl never.

(** [uint32_t], the type of [obs_audio_data::frames] and of [mixers]. *)
Definition UINT32_MODULUS : Z := 2 ^ 32.

(** ** Samples: IEEE 754 binary32

    A [float] is a [spec_float] of precision 24 and maximal exponent
    128, in canonical form; addition rounds to nearest even. *)

Definition sample : Type := spec_float.

Definition f32_add (a b : sample) : sample := SFadd 24 128 a b.
Definition f32_zero : sample := S754_zero false.
(** [1.0f] and [-1.0f] *)
Definition f32_one : sample := S754_finite false 8388608 (-23).
Definition f32_minus_one : sample := S754_finite true 8388608 (-23).
(** [0.8f], the binary32 number nearest to 0.8 *)
Definition f32_0_8 : sample := S754_finite false 13421773 (-24).
(** [a > b] and [a < b] on floats (false as soon as one side is a NaN) *)
Definition f32_gt (a b : sample) : bool := SFltb b a.
Definition f32_lt (a b : sample) : bool := SFltb a b.

(** The body of the innermost loop of [audio_input_callback]:
    the input sample is added to the destination sample, and the sum is
    replaced by [1.0f] when it is greater than [1.0f], by [-1.0f] when it
    is less than [-1.0f]. *)
Definition mix_sample (out inp : sample) : sample :=
  let acc := f32_add out inp in
  if f32_gt acc f32_one then f32_one
  else if f32_lt acc f32_minus_one then f32_minus_one
  else acc.

(** ** Data model *)

Inductive audio_source_type_t :=
| AUDIO_SOURCE_TYPE_SILENCE
| AUDIO_SOURCE_TYPE_FILTER
| AUDIO_SOURCE_TYPE_CAPTURE
| AUDIO_SOURCE_TYPE_MASTER.

Definition audio_source_type_eqb (a b : audio_source_type_t) : bool :=
  match a, b with
  | AUDIO_SOURCE_TYPE_SILENCE, AUDIO_SOURCE_TYPE_SILENCE
  | AUDIO_SOURCE_TYPE_FILTER, AUDIO_SOURCE_TYPE_FILTER
  | AUDIO_SOURCE_TYPE_CAPTURE, AUDIO_SOURCE_TYPE_CAPTURE
  | AUDIO_SOURCE_TYPE_MASTER, AUDIO_SOURCE_TYPE_MASTER => true
  | _, _ => false
  end.

(** [audio_buffer_chunk_header_t].  [data_idx] is the zero-initialised
    array of byte offsets, one per channel; an index past the end of the
    list reads 0 ("channel absent"). *)
Record audio_buffer_chunk_header_t := {
  data_idx : list Z;
  frames : Z;
  timestamp : Z;
  offset : Z;
  channels : Z
}.

Definition data_idx_at (h : audio_buffer_chunk_header_t) (ch : nat) : Z :=
  default 0 (data_idx h !! ch).

Definition set_offset (v : Z) (h : audio_buffer_chunk_header_t) :=
  {| data_idx := data_idx h; frames := frames h; timestamp := timestamp h;
     offset := v; channels := channels h |}.

(** One chunk of the deque [audio_buffer]: the header followed by the
    planar float payload, [channels * frames] samples, channel after
    channel.  The byte deque is a list of chunks: [push_audio_to_buffer]
    appends the header and the planes of one chunk,
    [audio_input_callback] peeks, patches and pops at the front by the
    size it computes from the header, which is the size appended
    ([pushed_chunk_framed] below). *)
Record chunk_t := {
  header : audio_buffer_chunk_header_t;
  payload : list sample
}.

(** [obs_audio_data]: [data[ch]] is a pointer to [frames] floats, or NULL. *)
Record obs_audio_data := {
  ad_data : list (option (list sample));
  ad_frames : Z;
  ad_timestamp : Z
}.

Definition ad_data_at (a : obs_audio_data) (ch : nat) : option (list sample) :=
  mjoin (ad_data a !! ch).

(** Handles of host objects (service, output, encoder, view, ...). *)
Definition handle : Type := positive.

(** [p != NULL] *)
Definition is_some {A} (o : option A) : bool :=
  match o with Some _ => true | None => false end.

Inductive log_level := LOG_ERROR | LOG_WARNING | LOG_INFO | LOG_DEBUG.

(** [filter_t].  A host object is the handle held, or NULL.  Of the
    scratch buffer [audio_conv_buffer] the size is state; its content is
    written by a peek before every read. *)
Record filter_t := {
  filter_active : bool;
  output_active : bool;
  stored_settings_rev : Z;
  active_settings_rev : Z;
  connect_attempting_at : Z;
  last_available_at : Z;
  width : Z;
  height : Z;
  service : option handle;
  stream_output : option handle;
  audio_encoder : option handle;
  video_encoder : option handle;
  view : option handle;
  video_output : option handle;
  audio_output : option handle;
  audio_source : option handle;
  audio_source_type : audio_source_type_t;
  audio_mix_idx : Z;
  audio_channels : Z;
  samples_per_sec : Z;
  audio_buffer : list chunk_t;
  audio_buffer_frames : Z;
  audio_conv_buffer_size : Z;
  audio_skip : Z
}.

(** Field updates ([filter->x = v]). *)

Definition set_output_active v (f : filter_t) : filter_t :=
  {| filter_active := filter_active f; output_active := v;
     stored_settings_rev := stored_settings_rev f;
     active_settings_rev := active_settings_rev f;
     connect_attempting_at := connect_attempting_at f;
     last_available_at := last_available_at f; width := width f;
     height := height f; service := service f;
     stream_output := stream_output f; audio_encoder := audio_encoder f;
     video_encoder := video_encoder f; view := view f;
     video_output := video_output f; audio_output := audio_output f;
     audio_source := audio_source f;
     audio_source_type := audio_source_type f;
     audio_mix_idx := audio_mix_idx f; audio_channels := audio_channels f;
     samples_per_sec := samples_per_sec f; audio_buffer := audio_buffer f;
     audio_buffer_frames := audio_buffer_frames f;
     audio_conv_buffer_size := audio_conv_buffer_size f;
     audio_skip := audio_skip f |}.

Definition set_stored_settings_rev v (f : filter_t) : filter_t :=
  {| filter_active := filter_active f; output_active := output_active f;
     stored_settings_rev := v; active_settings_rev := active_settings_rev f;
     connect_attempting_at := connect_attempting_at f;
     last_available_at := last_available_at f; width := width f;
     height := height f; service := service f;
     stream_output := stream_output f; audio_encoder := audio_encoder f;
     video_encoder := video_encoder f; view := view f;
     video_output := video_output f; audio_output := audio_output f;
     audio_source := audio_source f;
     audio_source_type := audio_source_type f;
     audio_mix_idx := audio_mix_idx f; audio_channels := audio_channels f;
     samples_per_sec := samples_per_sec f; audio_buffer := audio_buffer f;
     audio_buffer_frames := audio_buffer_frames f;
     audio_conv_buffer_size := audio_conv_buffer_size f;
     audio_skip := audio_skip f |}.

Definition set_active_settings_rev v (f : filter_t) : filter_t :=
  {| filter_active := filter_active f; output_active := output_active f;
     stored_settings_rev := stored_settings_rev f; active_settings_rev := v;
     connect_attempting_at := connect_attempting_at f;
     last_available_at := last_available_at f; width := width f;
     height := height f; service := service f;
     stream_output := stream_output f; audio_encoder := audio_encoder f;
     video_encoder := video_encoder f; view := view f;
     video_output := video_output f; audio_output := audio_output f;
     audio_source := audio_source f;
     audio_source_type := audio_source_type f;
     audio_mix_idx := audio_mix_idx f; audio_channels := audio_channels f;
     samples_per_sec := samples_per_sec f; audio_buffer := audio_buffer f;
     audio_buffer_frames := audio_buffer_frames f;
     audio_conv_buffer_size := audio_conv_buffer_size f;
     audio_skip := audio_skip f |}.

Definition set_connect_attempting_at v (f : filter_t) : filter_t :=
  {| filter_active := filter_active f; output_active := output_active f;
     stored_settings_rev := stored_settings_rev f;
     active_settings_rev := active_settings_rev f;
     connect_attempting_at := v; last_available_at := last_available_at f;
     width := width f; height := height f; service := service f;
     stream_output := stream_output f; audio_encoder := audio_encoder f;
     video_encoder := video_encoder f; view := view f;
     video_output := video_output f; audio_output := audio_output f;
     audio_source := audio_source f;
     audio_source_type := audio_source_type f;
     audio_mix_idx := audio_mix_idx f; audio_channels := audio_channels f;
     samples_per_sec := samples_per_sec f; audio_buffer := audio_buffer f;
     audio_buffer_frames := audio_buffer_frames f;
     audio_conv_buffer_size := audio_conv_buffer_size f;
     audio_skip := audio_skip f |}.

Definition set_last_available_at v (f : filter_t) : filter_t :=
  {| filter_active := filter_active f; output_active := output_active f;
     stored_settings_rev := stored_settings_rev f;
     active_settings_rev := active_settings_rev f;
     connect_attempting_at := connect_attempting_at f;
     last_available_at := v; width := width f; height := height f;
     service := service f; stream_output := stream_output f;
     audio_encoder := audio_encoder f; video_encoder := video_encoder f;
     view := view f; video_output := video_output f;
     audio_output := audio_output f; audio_source := audio_source f;
     audio_source_type := audio_source_type f;
     audio_mix_idx := audio_mix_idx f; audio_channels := audio_channels f;
     samples_per_sec := samples_per_sec f; audio_buffer := audio_buffer f;
     audio_buffer_frames := audio_buffer_frames f;
     audio_conv_buffer_size := audio_conv_buffer_size f;
     audio_skip := audio_skip f |}.

Definition set_width v (f : filter_t) : filter_t :=
  {| filter_active := filter_active f; output_active := output_active f;
     stored_settings_rev := stored_settings_rev f;
     active_settings_rev := active_settings_rev f;
     connect_attempting_at := connect_attempting_at f;
     last_available_at := last_available_at f; width := v;
     height := height f; service := service f;
     stream_output := stream_output f; audio_encoder := audio_encoder f;
     video_encoder := video_encoder f; view := view f;
     video_output := video_output f; audio_output := audio_output f;
     audio_source := audio_source f;
     audio_source_type := audio_source_type f;
     audio_mix_idx := audio_mix_idx f; audio_channels := audio_channels f;
     samples_per_sec := samples_per_sec f; audio_buffer := audio_buffer f;
     audio_buffer_frames := audio_buffer_frames f;
     audio_conv_buffer_size := audio_conv_buffer_size f;
     audio_skip := audio_skip f |}.

Definition set_height v (f : filter_t) : filter_t :=
  {| filter_active := filter_active f; output_active := output_active f;
     stored_settings_rev := stored_settings_rev f;
     active_settings_rev := active_settings_rev f;
     connect_attempting_at := connect_attempting_at f;
     last_available_at := last_available_at f; width := width f; height := v;
     service := service f; stream_output := stream_output f;
     audio_encoder := audio_encoder f; video_encoder := video_encoder f;
     view := view f; video_output := video_output f;
     audio_output := audio_output f; audio_source := audio_source f;
     audio_source_type := audio_source_type f;
     audio_mix_idx := audio_mix_idx f; audio_channels := audio_channels f;
     samples_per_sec := samples_per_sec f; audio_buffer := audio_buffer f;
     audio_buffer_frames := audio_buffer_frames f;
     audio_conv_buffer_size := audio_conv_buffer_size f;
     audio_skip := audio_skip f |}.

Definition set_service v (f : filter_t) : filter_t :=
  {| filter_active := filter_active f; output_active := output_active f;
     stored_settings_rev := stored_settings_rev f;
     active_settings_rev := active_settings_rev f;
     connect_attempting_at := connect_attempting_at f;
     last_available_at := last_available_at f; width := width f;
     height := height f; service := v; stream_output := stream_output f;
     audio_encoder := audio_encoder f; video_encoder := video_encoder f;
     view := view f; video_output := video_output f;
     audio_output := audio_output f; audio_source := audio_source f;
     audio_source_type := audio_source_type f;
     audio_mix_idx := audio_mix_idx f; audio_channels := audio_channels f;
     samples_per_sec := samples_per_sec f; audio_buffer := audio_buffer f;
     audio_buffer_frames := audio_buffer_frames f;
     audio_conv_buffer_size := audio_conv_buffer_size f;
     audio_skip := audio_skip f |}.

Definition set_stream_output v (f : filter_t) : filter_t :=
  {| filter_active := filter_active f; output_active := output_active f;
     stored_settings_rev := stored_settings_rev f;
     active_settings_rev := active_settings_rev f;
     connect_attempting_at := connect_attempting_at f;
     last_available_at := last_available_at f; width := width f;
     height := height f; service := service f; stream_output := v;
     audio_encoder := audio_encoder f; video_encoder := video_encoder f;
     view := view f; video_output := video_output f;
     audio_output := audio_output f; audio_source := audio_source f;
     audio_source_type := audio_source_type f;
     audio_mix_idx := audio_mix_idx f; audio_channels := audio_channels f;
     samples_per_sec := samples_per_sec f; audio_buffer := audio_buffer f;
     audio_buffer_frames := audio_buffer_frames f;
     audio_conv_buffer_size := audio_conv_buffer_size f;
     audio_skip := audio_skip f |}.

Definition set_audio_encoder v (f : filter_t) : filter_t :=
  {| filter_active := filter_active f; output_active := output_active f;
     stored_settings_rev := stored_settings_rev f;
     active_settings_rev := active_settings_rev f;
     connect_attempting_at := connect_attempting_at f;
     last_available_at := last_available_at f; width := width f;
     height := height f; service := service f;
     stream_output := stream_output f; audio_encoder := v;
     video_encoder := video_encoder f; view := view f;
     video_output := video_output f; audio_output := audio_output f;
     audio_source := audio_source f;
     audio_source_type := audio_source_type f;
     audio_mix_idx := audio_mix_idx f; audio_channels := audio_channels f;
     samples_per_sec := samples_per_sec f; audio_buffer := audio_buffer f;
     audio_buffer_frames := audio_buffer_frames f;
     audio_conv_buffer_size := audio_conv_buffer_size f;
     audio_skip := audio_skip f |}.

Definition set_video_encoder v (f : filter_t) : filter_t :=
  {| filter_active := filter_active f; output_active := output_active f;
     stored_settings_rev := stored_settings_rev f;
     active_settings_rev := active_settings_rev f;
     connect_attempting_at := connect_attempting_at f;
     last_available_at := last_available_at f; width := width f;
     height := height f; service := service f;
     stream_output := stream_output f; audio_encoder := audio_encoder f;
     video_encoder := v; view := view f; video_output := video_output f;
     audio_output := audio_output f; audio_source := audio_source f;
     audio_source_type := audio_source_type f;
     audio_mix_idx := audio_mix_idx f; audio_channels := audio_channels f;
     samples_per_sec := samples_per_sec f; audio_buffer := audio_buffer f;
     audio_buffer_frames := audio_buffer_frames f;
     audio_conv_buffer_size := audio_conv_buffer_size f;
     audio_skip := audio_skip f |}.

Definition set_view v (f : filter_t) : filter_t :=
  {| filter_active := filter_active f; output_active := output_active f;
     stored_settings_rev := stored_settings_rev f;
     active_settings_rev := active_settings_rev f;
     connect_attempting_at := connect_attempting_at f;
     last_available_at := last_available_at f; width := width f;
     height := height f; service := service f;
     stream_output := stream_output f; audio_encoder := audio_encoder f;
     video_encoder := video_encoder f; view := v;
     video_output := video_output f; audio_output := audio_output f;
     audio_source := audio_source f;
     audio_source_type := audio_source_type f;
     audio_mix_idx := audio_mix_idx f; audio_channels := audio_channels f;
     samples_per_sec := samples_per_sec f; audio_buffer := audio_buffer f;
     audio_buffer_frames := audio_buffer_frames f;
     audio_conv_buffer_size := audio_conv_buffer_size f;
     audio_skip := audio_skip f |}.

Definition set_video_output v (f : filter_t) : filter_t :=
  {| filter_active := filter_active f; output_active := output_active f;
     stored_settings_rev := stored_settings_rev f;
     active_settings_rev := active_settings_rev f;
     connect_attempting_at := connect_attempting_at f;
     last_available_at := last_available_at f; width := width f;
     height := height f; service := service f;
     stream_output := stream_output f; audio_encoder := audio_encoder f;
     video_encoder := video_encoder f; view := view f; video_output := v;
     audio_output := audio_output f; audio_source := audio_source f;
     audio_source_type := audio_source_type f;
     audio_mix_idx := audio_mix_idx f; audio_channels := audio_channels f;
     samples_per_sec := samples_per_sec f; audio_buffer := audio_buffer f;
     audio_buffer_frames := audio_buffer_frames f;
     audio_conv_buffer_size := audio_conv_buffer_size f;
     audio_skip := audio_skip f |}.

Definition set_audio_output v (f : filter_t) : filter_t :=
  {| filter_active := filter_active f; output_active := output_active f;
     stored_settings_rev := stored_settings_rev f;
     active_settings_rev := active_settings_rev f;
     connect_attempting_at := connect_attempting_at f;
     last_available_at := last_available_at f; width := width f;
     height := height f; service := service f;
     stream_output := stream_output f; audio_encoder := audio_encoder f;
     video_encoder := video_encoder f; view := view f;
     video_output := video_output f; audio_output := v;
     audio_source := audio_source f;
     audio_source_type := audio_source_type f;
     audio_mix_idx := audio_mix_idx f; audio_channels := audio_channels f;
     samples_per_sec := samples_per_sec f; audio_buffer := audio_buffer f;
     audio_buffer_frames := audio_buffer_frames f;
     audio_conv_buffer_size := audio_conv_buffer_size f;
     audio_skip := audio_skip f |}.

Definition set_audio_source v (f : filter_t) : filter_t :=
  {| filter_active := filter_active f; output_active := output_active f;
     stored_settings_rev := stored_settings_rev f;
     active_settings_rev := active_settings_rev f;
     connect_attempting_at := connect_attempting_at f;
     last_available_at := last_available_at f; width := width f;
     height := height f; service := service f;
     stream_output := stream_output f; audio_encoder := audio_encoder f;
     video_encoder := video_encoder f; view := view f;
     video_output := video_output f; audio_output := audio_output f;
     audio_source := v; audio_source_type := audio_source_type f;
     audio_mix_idx := audio_mix_idx f; audio_channels := audio_channels f;
     samples_per_sec := samples_per_sec f; audio_buffer := audio_buffer f;
     audio_buffer_frames := audio_buffer_frames f;
     audio_conv_buffer_size := audio_conv_buffer_size f;
     audio_skip := audio_skip f |}.

Definition set_audio_source_type v (f : filter_t) : filter_t :=
  {| filter_active := filter_active f; output_active := output_active f;
     stored_settings_rev := stored_settings_rev f;
     active_settings_rev := active_settings_rev f;
     connect_attempting_at := connect_attempting_at f;
     last_available_at := last_available_at f; width := width f;
     height := height f; service := service f;
     stream_output := stream_output f; audio_encoder := audio_encoder f;
     video_encoder := video_encoder f; view := view f;
     video_output := video_output f; audio_output := audio_output f;
     audio_source := audio_source f; audio_source_type := v;
     audio_mix_idx := audio_mix_idx f; audio_channels := audio_channels f;
     samples_per_sec := samples_per_sec f; audio_buffer := audio_buffer f;
     audio_buffer_frames := audio_buffer_frames f;
     audio_conv_buffer_size := audio_conv_buffer_size f;
     audio_skip := audio_skip f |}.

Definition set_audio_mix_idx v (f : filter_t) : filter_t :=
  {| filter_active := filter_active f; output_active := output_active f;
     stored_settings_rev := stored_settings_rev f;
     active_settings_rev := active_settings_rev f;
     connect_attempting_at := connect_attempting_at f;
     last_available_at := last_available_at f; width := width f;
     height := height f; service := service f;
     stream_output := stream_output f; audio_encoder := audio_encoder f;
     video_encoder := video_encoder f; view := view f;
     video_output := video_output f; audio_output := audio_output f;
     audio_source := audio_source f;
     audio_source_type := audio_source_type f; audio_mix_idx := v;
     audio_channels := audio_channels f;
     samples_per_sec := samples_per_sec f; audio_buffer := audio_buffer f;
     audio_buffer_frames := audio_buffer_frames f;
     audio_conv_buffer_size := audio_conv_buffer_size f;
     audio_skip := audio_skip f |}.

Definition set_audio_channels v (f : filter_t) : filter_t :=
  {| filter_active := filter_active f; output_active := output_active f;
     stored_settings_rev := stored_settings_rev f;
     active_settings_rev := active_settings_rev f;
     connect_attempting_at := connect_attempting_at f;
     last_available_at := last_available_at f; width := width f;
     height := height f; service := service f;
     stream_output := stream_output f; audio_encoder := audio_encoder f;
     video_encoder := video_encoder f; view := view f;
     video_output := video_output f; audio_output := audio_output f;
     audio_source := audio_source f;
     audio_source_type := audio_source_type f;
     audio_mix_idx := audio_mix_idx f; audio_channels := v;
     samples_per_sec := samples_per_sec f; audio_buffer := audio_buffer f;
     audio_buffer_frames := audio_buffer_frames f;
     audio_conv_buffer_size := audio_conv_buffer_size f;
     audio_skip := audio_skip f |}.

Definition set_samples_per_sec v (f : filter_t) : filter_t :=
  {| filter_active := filter_active f; output_active := output_active f;
     stored_settings_rev := stored_settings_rev f;
     active_settings_rev := active_settings_rev f;
     connect_attempting_at := connect_attempting_at f;
     last_available_at := last_available_at f; width := width f;
     height := height f; service := service f;
     stream_output := stream_output f; audio_encoder := audio_encoder f;
     video_encoder := video_encoder f; view := view f;
     video_output := video_output f; audio_output := audio_output f;
     audio_source := audio_source f;
     audio_source_type := audio_source_type f;
     audio_mix_idx := audio_mix_idx f; audio_channels := audio_channels f;
     samples_per_sec := v; audio_buffer := audio_buffer f;
     audio_buffer_frames := audio_buffer_frames f;
     audio_conv_buffer_size := audio_conv_buffer_size f;
     audio_skip := audio_skip f |}.

Definition set_audio_buffer v (f : filter_t) : filter_t :=
  {| filter_active := filter_active f; output_active := output_active f;
     stored_settings_rev := stored_settings_rev f;
     active_settings_rev := active_settings_rev f;
     connect_attempting_at := connect_attempting_at f;
     last_available_at := last_available_at f; width := width f;
     height := height f; service := service f;
     stream_output := stream_output f; audio_encoder := audio_encoder f;
     video_encoder := video_encoder f; view := view f;
     video_output := video_output f; audio_output := audio_output f;
     audio_source := audio_source f;
     audio_source_type := audio_source_type f;
     audio_mix_idx := audio_mix_idx f; audio_channels := audio_channels f;
     samples_per_sec := samples_per_sec f; audio_buffer := v;
     audio_buffer_frames := audio_buffer_frames f;
     audio_conv_buffer_size := audio_conv_buffer_size f;
     audio_skip := audio_skip f |}.

Definition set_audio_buffer_frames v (f : filter_t) : filter_t :=
  {| filter_active := filter_active f; output_active := output_active f;
     stored_settings_rev := stored_settings_rev f;
     active_settings_rev := active_settings_rev f;
     connect_attempting_at := connect_attempting_at f;
     last_available_at := last_available_at f; width := width f;
     height := height f; service := service f;
     stream_output := stream_output f; audio_encoder := audio_encoder f;
     video_encoder := video_encoder f; view := view f;
     video_output := video_output f; audio_output := audio_output f;
     audio_source := audio_source f;
     audio_source_type := audio_source_type f;
     audio_mix_idx := audio_mix_idx f; audio_channels := audio_channels f;
     samples_per_sec := samples_per_sec f; audio_buffer := audio_buffer f;
     audio_buffer_frames := v;
     audio_conv_buffer_size := audio_conv_buffer_size f;
     audio_skip := audio_skip f |}.

Definition set_audio_conv_buffer_size v (f : filter_t) : filter_t :=
  {| filter_active := filter_active f; output_active := output_active f;
     stored_settings_rev := stored_settings_rev f;
     active_settings_rev := active_settings_rev f;
     connect_attempting_at := connect_attempting_at f;
     last_available_at := last_available_at f; width := width f;
     height := height f; service := service f;
     stream_output := stream_output f; audio_encoder := audio_encoder f;
     video_encoder := video_encoder f; view := view f;
     video_output := video_output f; audio_output := audio_output f;
     audio_source := audio_source f;
     audio_source_type := audio_source_type f;
     audio_mix_idx := audio_mix_idx f; audio_channels := audio_channels f;
     samples_per_sec := samples_per_sec f; audio_buffer := audio_buffer f;
     audio_buffer_frames := audio_buffer_frames f;
     audio_conv_buffer_size := v; audio_skip := audio_skip f |}.

Definition set_audio_skip v (f : filter_t) : filter_t :=
  {| filter_active := filter_active f; output_active := output_active f;
     stored_settings_rev := stored_settings_rev f;
     active_settings_rev := active_settings_rev f;
     connect_attempting_at := connect_attempting_at f;
     last_available_at := last_available_at f; width := width f;
     height := height f; service := service f;
     stream_output := stream_output f; audio_encoder := audio_encoder f;
     video_encoder := video_encoder f; view := view f;
     video_output := video_output f; audio_output := audio_output f;
     audio_source := audio_source f;
     audio_source_type := audio_source_type f;
     audio_mix_idx := audio_mix_idx f; audio_channels := audio_channels f;
     samples_per_sec := samples_per_sec f; audio_buffer := audio_buffer f;
     audio_buffer_frames := audio_buffer_frames f;
     audio_conv_buffer_size := audio_conv_buffer_size f; audio_skip := v |}.

(** ** Host calls and log lines

    What a function of the plugin does to its host, in program order.
    The constructors carry the names of the host functions; a creation
    call is recorded whether or not the host granted it. *)

Record settings_t := {
  server : string;
  custom_audio_source : bool;
  audio_source_uuid : string;
  video_encoder_id : string;
  audio_encoder_id : string;
  audio_bitrate : Z
}.

Inductive event :=
| obs_log (level : log_level) (format : string)
| obs_source_dec_showing (parent : option handle)
| obs_source_inc_showing (parent : option handle)
| obs_output_stop (output : handle)
| obs_output_release (output : handle)
| obs_service_release (svc : handle)
| obs_encoder_release (encoder : handle)
| obs_source_remove_audio_capture_callback (src : handle)
| obs_source_add_audio_capture_callback (src : handle)
| obs_source_release (src : handle)
| obs_weak_source_release (weak : handle)
| obs_remove_raw_audio_callback (mix_idx : Z)
| obs_add_raw_audio_callback (mix_idx : Z)
| audio_output_close (audio : handle)
| audio_output_open
| obs_view_set_source (v : handle) (src : option handle)
| obs_view_remove (v : handle)
| obs_view_destroy (v : handle)
| obs_view_create
| obs_view_add2 (v : handle)
| obs_service_create (settings : settings_t)
| obs_output_create (type : string) (settings : settings_t)
| obs_video_encoder_create (id : string) (settings : settings_t)
| obs_audio_encoder_create (id : string) (bitrate : Z)
| obs_output_start (output : handle)
| obs_service_apply_encoder_settings (svc : handle)
| obs_output_set_reconnect_settings (output : handle)
| obs_output_set_service (output svc : handle)
| obs_encoder_set_scaled_size (encoder : handle)
| obs_encoder_set_video (encoder : handle) (video : option handle)
| obs_output_set_video_encoder (output encoder : handle)
| obs_encoder_set_audio (encoder : handle) (audio : option handle)
| obs_output_set_audio_encoder (output encoder : handle)
| obs_data_save_json_safe (settings : settings_t).

(** ** The audio bridge buffer *)

(** The outcome of a function whose loop is run on fuel: its result; a
    read past the end of the deque, which the program does not define;
    or fuel exhausted. *)
Inductive outcome (A : Type) :=
| Done (a : A)
| OutOfContract
| OutOfFuel.
Arguments Done {A} a.
Arguments OutOfContract {A}.
Arguments OutOfFuel {A}.

(** [audio_output_data mixes[]]: [mixes[mix_idx].data[ch]] is an array of
    floats. *)
Abbreviation mixes_t := (list (list (list sample))).

Record audio_input_result := {
  res_filter : filter_t;
  res_mixes : mixes_t;
  res_out_ts : Z;
  res_return : bool;
  res_log : list event;
  (** ghost: the frames taken from the buffer, which is how far the
      output offset advanced *)
  res_drained : Z
}.

Section AudioBridge.

(** Constants of [plugin-main.hpp] and of the host's audio headers. *)
Variable MAX_AUDIO_BUFFER_FRAMES : Z.
Variable AUDIO_OUTPUT_FRAMES : Z.
Variable MAX_AUDIO_MIXES : nat.
(** [sizeof(audio_buffer_chunk_header_t)] *)
Variable HEADER_SIZE : Z.

(** *** push_audio_to_buffer *)

(** One turn of the loop that computes the header: a channel whose
    pointer is NULL is skipped, any other gets the byte offset of its
    plane and is counted. *)
Definition header_step (a : obs_audio_data)
    (h : audio_buffer_chunk_header_t) (ch : nat) : audio_buffer_chunk_header_t :=
  match ad_data_at a ch with
  | None => h
  | Some _ =>
      {| data_idx :=
           <[ch := wrap_size (HEADER_SIZE + channels h * ad_frames a * 4)]> (data_idx h);
         frames := frames h; timestamp := timestamp h; offset := offset h;
         channels := wrap_size (channels h + 1) |}
  end.

Definition compute_header (nch : nat) (a : obs_audio_data) : audio_buffer_chunk_header_t :=
  foldl (header_step a)
    {| data_idx := replicate nch 0; frames := ad_frames a;
       timestamp := ad_timestamp a; offset := 0; channels := 0 |}
    (seq 0 nch).

(** The planes pushed behind the header, in channel order: of every
    channel whose pointer is not NULL, the first [frames * 4] bytes,
    a product of [uint32_t] that wraps from 2^30 frames on; 4 bytes make
    a float. *)
Definition plane (a : obs_audio_data) (ch : nat) : list sample :=
  match ad_data_at a ch with
  | None => []
  | Some xs => take (Z.to_nat ((ad_frames a * 4) mod UINT32_MODULUS / 4)) xs
  end.

Definition compute_payload (nch : nat) (a : obs_audio_data) : list sample :=
  concat (map (plane a) (seq 0 nch)).

Definition buffer_full_msg : string := "%s: The audio buffer is full".
Definition expand_msg : string := "%s: Expand audio_conv_buffer from %zu to %zu bytes".

Definition push_audio_to_buffer (filter : filter_t) (audio_data : obs_audio_data)
  : filter_t * list event :=
  if negb (output_active filter)
     || audio_source_type_eqb (audio_source_type filter) AUDIO_SOURCE_TYPE_SILENCE
     || (ad_frames audio_data =? 0)
  then (filter, [])
  else
    let full :=
      wrap_size (audio_buffer_frames filter + ad_frames audio_data)
        >? MAX_AUDIO_BUFFER_FRAMES in
    let filter1 :=
      if full then set_audio_buffer_frames 0 (set_audio_buffer [] filter)
      else filter in
    let log1 := if full then [obs_log LOG_WARNING buffer_full_msg] else [] in
    let nch := Z.to_nat (audio_channels filter1) in
    let hdr := compute_header nch audio_data in
    let filter2 :=
      set_audio_buffer
        (audio_buffer filter1
           ++ [{| header := hdr; payload := compute_payload nch audio_data |}])
        filter1 in
    let data_size :=
      wrap_size (HEADER_SIZE + channels hdr * ad_frames audio_data * 4) in
    let grow := data_size >? audio_conv_buffer_size filter2 in
    let filter3 :=
      if grow then set_audio_conv_buffer_size data_size filter2 else filter2 in
    let log2 := if grow then [obs_log LOG_INFO expand_msg] else [] in
    (set_audio_buffer_frames
       (wrap_size (audio_buffer_frames filter3 + ad_frames audio_data)) filter3,
     log1 ++ log2).

(** *** audio_input_callback *)

(** The innermost loop: [n] samples of [inp] from [in_pos] on are mixed
    into [out] from [out_pos] on.  A position outside either array is
    left alone (the program has no such access when the host hands it
    [AUDIO_OUTPUT_FRAMES] floats per channel). *)
Fixpoint accumulate (n : nat) (out_pos in_pos : nat) (inp out : list sample)
  : list sample :=
  match n with
  | O => out
  | S n' =>
      let out' :=
        match out !! out_pos, inp !! in_pos with
        | Some o, Some x => <[out_pos := mix_sample o x]> out
        | _, _ => out
        end in
      accumulate n' (S out_pos) (S in_pos) inp out'
  end.

(** The float index, in the payload, of the first sample a channel
    contributes: the bytes from [data_idx[ch]] on, read as floats, then
    [offset] floats further. *)
Definition in_position (hdr : audio_buffer_chunk_header_t) (ch : nat) : nat :=
  Z.to_nat ((data_idx_at hdr ch - HEADER_SIZE) / 4 + offset hdr).

Definition mix_channel (hdr : audio_buffer_chunk_header_t) (conv : list sample)
    (nframes out_offset : Z) (mix_idx : nat) (mixes : mixes_t) (ch : nat) : mixes_t :=
  if data_idx_at hdr ch =? 0 then mixes
  else
    alter
      (alter
         (accumulate (Z.to_nat nframes) (Z.to_nat out_offset) (in_position hdr ch) conv)
         ch)
      mix_idx mixes.

Definition mix_bus (nch : nat) (mixers : Z) (hdr : audio_buffer_chunk_header_t)
    (conv : list sample) (nframes out_offset : Z) (mixes : mixes_t) (mix_idx : nat)
  : mixes_t :=
  if Z.land mixers (Z.shiftl 1 (Z.of_nat mix_idx)) =? 0 then mixes
  else foldl (mix_channel hdr conv nframes out_offset mix_idx) mixes (seq 0 nch).

Definition mix_chunk (nch : nat) (mixers : Z) (hdr : audio_buffer_chunk_header_t)
    (conv : list sample) (nframes out_offset : Z) (mixes : mixes_t) : mixes_t :=
  foldl (mix_bus nch mixers hdr conv nframes out_offset) mixes (seq 0 MAX_AUDIO_MIXES).

(** The state of the draining loop: the filter, the local [max_frames]
    and the destination buses. *)
Record drain_state := {
  ds_filter : filter_t;
  ds_max_frames : Z;
  ds_mixes : mixes_t
}.

(** One turn of the [while] loop on the front chunk [c]. *)
Definition drain_chunk (mixers : Z) (st : drain_state) (c : chunk_t)
    (rest : list chunk_t) : drain_state :=
  let filter := ds_filter st in
  let max_frames := ds_max_frames st in
  let hdr := header c in
  let data_size := wrap_size (HEADER_SIZE + channels hdr * frames hdr * 4) in
  let conv := take (Z.to_nat ((data_size - HEADER_SIZE) / 4)) (payload c) in
  let chunk_frames := wrap_size (frames hdr - offset hdr) in
  let nframes := if chunk_frames >? max_frames then max_frames else chunk_frames in
  let out_offset := wrap_size (AUDIO_OUTPUT_FRAMES - max_frames) in
  let mixes :=
    mix_chunk (Z.to_nat (audio_channels filter)) mixers hdr conv nframes out_offset
      (ds_mixes st) in
  let buffer :=
    if nframes =? chunk_frames then rest
    else {| header := set_offset (wrap_size (offset hdr + nframes)) hdr;
            payload := payload c |} :: rest in
  {| ds_filter :=
       set_audio_buffer_frames (wrap_size (audio_buffer_frames filter - nframes))
         (set_audio_buffer buffer filter);
     ds_max_frames := wrap_size (max_frames - nframes);
     ds_mixes := mixes |}.

Fixpoint drain_loop (fuel : nat) (mixers : Z) (st : drain_state) : outcome drain_state :=
  if (ds_max_frames st >? 0) && negb (audio_buffer_frames (ds_filter st) =? 0) then
    match fuel with
    | O => OutOfFuel
    | S fuel' =>
        match audio_buffer (ds_filter st) with
        | [] => OutOfContract
        | c :: rest => drain_loop fuel' mixers (drain_chunk mixers st c rest)
        end
    end
  else Done st.

Definition wait_msg : string := "%s: Wait for frames...".

(** [obs_get_audio_info] is the host's answer; [start_ts_in], [mixers]
    and [mixes] are the arguments of the callback. *)
Definition audio_input_callback (obs_get_audio_info : bool) (filter : filter_t)
    (start_ts_in : Z) (mixers : Z) (mixes : mixes_t) : outcome audio_input_result :=
  if negb (output_active filter)
     || audio_source_type_eqb (audio_source_type filter) AUDIO_SOURCE_TYPE_SILENCE
     || negb obs_get_audio_info
  then
    Done {| res_filter := filter; res_mixes := mixes; res_out_ts := start_ts_in;
            res_return := true; res_log := []; res_drained := 0 |}
  else if audio_buffer_frames filter <? AUDIO_OUTPUT_FRAMES then
    Done {| res_filter := set_audio_skip (wrap_size (audio_skip filter + 1)) filter;
            res_mixes := mixes; res_out_ts := start_ts_in; res_return := true;
            res_log :=
              if audio_skip filter =? 0 then [obs_log LOG_DEBUG wait_msg] else [];
            res_drained := 0 |}
  else
    let filter0 := set_audio_skip 0 filter in
    match
      drain_loop (S (length (audio_buffer filter0))) mixers
        {| ds_filter := filter0; ds_max_frames := AUDIO_OUTPUT_FRAMES;
           ds_mixes := mixes |}
    with
    | Done st =>
        Done {| res_filter := ds_filter st; res_mixes := ds_mixes st;
                res_out_ts := start_ts_in; res_return := true; res_log := [];
                res_drained := AUDIO_OUTPUT_FRAMES - ds_max_frames st |}
    | OutOfContract => OutOfContract
    | OutOfFuel => OutOfFuel
    end.

(** *** The production adapters *)

(** [convert_audio_data] copies the plane pointers, the frame count and
    the timestamp of the host's [audio_data]: the same record here. *)
Definition convert_audio_data (src : obs_audio_data) : obs_audio_data :=
  {| ad_data := ad_data src; ad_frames := ad_frames src;
     ad_timestamp := ad_timestamp src |}.

Definition audio_filter_callback (filter : filter_t) (audio_data : obs_audio_data)
  : filter_t * list event :=
  match audio_source_type filter with
  | AUDIO_SOURCE_TYPE_FILTER => push_audio_to_buffer filter audio_data
  | _ => (filter, [])
  end.

Definition audio_capture_callback (filter : filter_t) (audio_data : obs_audio_data)
    (muted : bool) : filter_t * list event :=
  if muted || negb (is_some (audio_source filter)) then (filter, [])
  else push_audio_to_buffer filter (convert_audio_data audio_data).

Definition master_audio_callback (filter : filter_t) (audio_data : obs_audio_data)
  : filter_t * list event :=
  push_audio_to_buffer filter (convert_audio_data audio_data).

End AudioBridge.

(** ** The output lifecycle *)

(** The answers of the host during one call into the plugin.  A creation
    call answers a handle or NULL; the clock is read once per call. *)
Record host_t := {
  host_obs_initialized : bool;
  host_obs_source_enabled : bool;
  host_obs_filter_get_parent : option handle;
  host_obs_get_video_info : bool;
  host_fps_num : Z;
  host_fps_den : Z;
  host_obs_source_get_width : Z;
  host_obs_source_get_height : Z;
  host_obs_source_get_settings : settings_t;
  host_obs_service_create : option handle;
  host_obs_service_get_preferred_output_type : option string;
  host_obs_service_get_connect_info : option string;
  host_obs_output_create : option handle;
  host_os_gettime_ns : Z;
  host_obs_view_create : option handle;
  host_obs_view_add2 : option handle;
  host_audio_output_get_channels : Z;
  host_audio_output_get_sample_rate : Z;
  host_obs_get_source_by_uuid : option handle;
  host_obs_source_get_weak_source : option handle;
  host_obs_weak_source_get_source : option handle;
  host_audio_output_open : option handle;
  host_obs_video_encoder_create : option handle;
  host_obs_audio_encoder_create : option handle;
  host_obs_output_start : bool;
  host_obs_output_active : bool;
  host_obs_scene_from_source : bool;
  (** per scene of the frontend: does [obs_scene_find_source_recursive]
      find the source there *)
  host_scenes : list bool
}.

(** A function body with early [return]s: from the filter to the filter
    it leaves and the host calls it issues, in order. *)
Inductive flow (A : Type) :=
| Next (a : A)
| Return.
Arguments Next {A} a.
Arguments Return {A}.

Definition M (A : Type) : Type := filter_t -> flow A * filter_t * list event.

Definition ret {A} (a : A) : M A := fun f => (Next a, f, []).
Definition bind {A B} (m : M A) (k : A -> M B) : M B :=
  fun f =>
    match m f with
    | (Next a, f1, e1) =>
        match k a f1 with
        | (r, f2, e2) => (r, f2, e1 ++ e2)
        end
    | (Return, f1, e1) => (Return, f1, e1)
    end.

Notation "x <- m ;; k" := (bind m (fun x => k))
  (at level 100, m at next level, right associativity).
Notation "m ;; k" := (bind m (fun _ => k))
  (at level 100, right associativity).

Definition skip : M unit := ret tt.
Definition return_ : M unit := fun f => (Return, f, []).
Definition get : M filter_t := fun f => (Next f, f, []).
Definition modify (g : filter_t -> filter_t) : M unit := fun f => (Next tt, g f, []).
Definition emit (e : event) : M unit := fun f => (Next tt, f, [e]).
Definition when (b : bool) (m : M unit) : M unit := if b then m else skip.
(** Run a function on a filter; the result is the filter it leaves and
    the calls it issued. *)
Definition run (m : M unit) (filter : filter_t) : filter_t * list event :=
  match m filter with
  | (_, f1, e1) => (f1, e1)
  end.
(** A call of a [void] function: its [return] ends the callee only. *)
Definition call (m : M unit) : M unit :=
  fun f => (Next tt, fst (run m f), snd (run m f)).

Definition wrap_u32 (z : Z) : Z := z mod UINT32_MODULUS.
Definition wrap_u64 (z : Z) : Z := z mod 2 ^ 64.
Arguments wrap_u32 : simpl never.
Arguments wrap_u64 : simpl never.

(** [strlen(s) != 0] *)
Definition nonempty (s : string) : bool :=
  match s with EmptyString => false | String _ _ => true end.

(** [sscanf(s, "master_track_%zu", &trackNo)] with [s] known to start
    with the literal.  [%zu] is converted as the C library does
    ([strtoull] in base 10): white space is skipped, one sign is
    accepted, and the decimal digits that follow are converted; a number
    past the largest [size_t] gives the largest [size_t], and a minus
    sign negates in [size_t].  With no digit at that place nothing is
    converted and [trackNo] keeps its initial 0. *)
Definition digit_of (c : Ascii.ascii) : option Z :=
  let n := Z.of_nat (Ascii.nat_of_ascii c) in
  if (48 <=? n) && (n <=? 57) then Some (n - 48) else None.

(** [isspace]: the space and the controls from tab to carriage return. *)
Definition is_space (c : Ascii.ascii) : bool :=
  let n := Z.of_nat (Ascii.nat_of_ascii c) in
  (n =? 32) || ((9 <=? n) && (n <=? 13)).

Fixpoint skip_spaces (s : string) : string :=
  match s with
  | EmptyString => s
  | String c rest => if is_space c then skip_spaces rest else s
  end.

(** The number the leading digits of [s] write, behind [acc]. *)
Fixpoint scan_digits (acc : Z) (s : string) : Z :=
  match s with
  | EmptyString => acc
  | String c rest =>
      match digit_of c with
      | Some d => scan_digits (acc * 10 + d) rest
      | None => acc
      end
  end.

Definition starts_with_digit (s : string) : bool :=
  match s with
  | EmptyString => false
  | String c _ => is_some (digit_of c)
  end.

(** [%zu] on [s], for a variable that holds 0. *)
Definition scan_size (s : string) : Z :=
  let s := skip_spaces s in
  let code :=
    match s with
    | String c _ => Z.of_nat (Ascii.nat_of_ascii c)
    | EmptyString => 0
    end in
  (* '-' and '+' *)
  let minus := code =? 45 in
  let plus := code =? 43 in
  let digits :=
    match s with
    | String _ rest => if minus || plus then rest else s
    | EmptyString => s
    end in
  if starts_with_digit digits then
    let v := scan_digits 0 digits in
    if SIZE_MODULUS <=? v then SIZE_MODULUS - 1
    else if minus then wrap_size (- v)
    else v
  else 0.

Definition scan_track_no (source_uuid : string) : Z :=
  scan_size (String.substring 13 (String.length source_uuid - 13) source_uuid).

Definition stop_succeeded_msg : string := "%s: Stopping stream output succeeded".
Definition source_not_found_msg : string := "%s: Filter source not found".
Definition service_failed_msg : string := "%s: Service creation failed".
Definition output_failed_msg : string := "%s: Stream output creation failed".
Definition video_output_failed_msg : string := "%s: Video output association failed".
Definition use_master_msg : string := "%s: Use master track %zu".
Definition use_source_msg : string := "%s: Use %s as an audio source".
Definition audio_source_failed_msg : string := "%s: Audio source retrieval failed".
Definition use_filter_msg : string := "%s: Use filter audio as an audio source".
Definition audio_disabled_msg : string := "%s: Audio is disabled".
Definition audio_output_failed_msg : string := "%s: Opening audio output failed".
Definition video_encoder_failed_msg : string := "%s: Video encoder creation failed".
Definition audio_encoder_failed_msg : string := "%s: Audio encoder creation failed".
Definition start_succeeded_msg : string := "%s: Starting stream output succeeded".
Definition start_failed_msg : string := "%s: Starting stream output failed".
Definition reactivate_msg : string := "%s: Attempting reactivate the stream output".
Definition settings_changed_msg : string := "%s: Settings change detected, Attempting restart".
Definition restart_msg : string := "%s: Attempting restart the stream output".
Definition updating_msg : string := "%s: Filter updating".
Definition updated_msg : string := "%s: Filter updated".

Section Lifecycle.

(** Constants of [plugin-main.hpp] and of the host headers. *)
Variable MAX_AUDIO_MIXES : nat.
Variable CONNECT_ATTEMPTING_TIMEOUT_NS : Z.
Variable AVAILAVILITY_CHECK_INTERVAL_NS : Z.

(** *** stop_output *)

Definition stop_output (host : host_t) : M unit :=
  let parent := host_obs_filter_get_parent host in
  modify (set_connect_attempting_at 0) ;;
  filter <- get ;;
  match stream_output filter with
  | Some output =>
      when (output_active filter)
        (emit (obs_source_dec_showing parent) ;; emit (obs_output_stop output)) ;;
      emit (obs_output_release output) ;;
      modify (set_stream_output None)
  | None => skip
  end ;;
  match service filter with
  | Some svc => emit (obs_service_release svc) ;; modify (set_service None)
  | None => skip
  end ;;
  match audio_encoder filter with
  | Some enc => emit (obs_encoder_release enc) ;; modify (set_audio_encoder None)
  | None => skip
  end ;;
  match video_encoder filter with
  | Some enc => emit (obs_encoder_release enc) ;; modify (set_video_encoder None)
  | None => skip
  end ;;
  match audio_source_type filter with
  | AUDIO_SOURCE_TYPE_CAPTURE =>
      match audio_source filter with
      | Some weak =>
          match host_obs_weak_source_get_source host with
          | Some src =>
              emit (obs_source_remove_audio_capture_callback src) ;;
              emit (obs_source_release src)
          | None => skip
          end ;;
          emit (obs_weak_source_release weak) ;;
          modify (set_audio_source None)
      | None => skip
      end
  | AUDIO_SOURCE_TYPE_MASTER =>
      emit (obs_remove_raw_audio_callback (audio_mix_idx filter))
  | _ => skip
  end ;;
  modify (set_audio_source_type AUDIO_SOURCE_TYPE_SILENCE) ;;
  match audio_output filter with
  | Some audio => emit (audio_output_close audio) ;; modify (set_audio_output None)
  | None => skip
  end ;;
  match view filter with
  | Some v =>
      emit (obs_view_set_source v None) ;;
      emit (obs_view_remove v) ;;
      emit (obs_view_destroy v) ;;
      modify (set_view None)
  | None => skip
  end ;;
  modify (set_audio_buffer_frames 0) ;;
  modify (set_audio_skip 0) ;;
  modify (set_audio_buffer []) ;;
  when (output_active filter)
    (modify (set_output_active false) ;;
     emit (obs_log LOG_INFO stop_succeeded_msg)).

(** *** start_output *)

(** The output type: the one the service prefers, or else one chosen
    by the prefix of the server URL. *)
Definition output_type (host : host_t) : string :=
  match host_obs_service_get_preferred_output_type host with
  | Some type => type
  | None =>
      match host_obs_service_get_connect_info host with
      | Some url =>
          if String.prefix "ftl" url then "ftl_output"
          else if negb (String.prefix "rtmp" url) then "ffmpeg_mpegts_muxer"
          else "rtmp_output"
      | None => "rtmp_output"
      end
  end%string.

(** The part of [start_output] that selects the audio source. *)
Definition retrieve_audio_source (host : host_t) (settings : settings_t) : M unit :=
  if custom_audio_source settings then
    let source_uuid := audio_source_uuid settings in
    when (nonempty source_uuid && negb (String.eqb source_uuid "no_audio"))
      (if String.prefix "master_track_" source_uuid then
         let trackNo := scan_track_no source_uuid in
         emit (obs_log LOG_INFO use_master_msg) ;;
         when (trackNo <=? Z.of_nat MAX_AUDIO_MIXES)
           (modify (set_audio_mix_idx (wrap_size (trackNo - 1))) ;;
            modify (set_audio_source_type AUDIO_SOURCE_TYPE_MASTER) ;;
            emit (obs_add_raw_audio_callback (wrap_size (trackNo - 1))))
       else
         match host_obs_get_source_by_uuid host with
         | Some src =>
             emit (obs_log LOG_INFO use_source_msg) ;;
             modify (set_audio_source (host_obs_source_get_weak_source host)) ;;
             modify (set_audio_source_type AUDIO_SOURCE_TYPE_CAPTURE) ;;
             match host_obs_source_get_weak_source host with
             | None =>
                 emit (obs_log LOG_ERROR audio_source_failed_msg) ;;
                 emit (obs_source_release src) ;;
                 return_
             | Some _ =>
                 emit (obs_source_add_audio_capture_callback src) ;;
                 emit (obs_source_release src)
             end
         | None => skip
         end)
  else
    emit (obs_log LOG_INFO use_filter_msg) ;;
    modify (set_audio_source_type AUDIO_SOURCE_TYPE_FILTER).

(** [start_output] after the forced release of what is held. *)
Definition start_body (host : host_t) (settings : settings_t) : M unit :=
  when (negb (host_obs_initialized host) || negb (host_obs_source_enabled host))
    return_ ;;
  match host_obs_filter_get_parent host with
  | None => emit (obs_log LOG_ERROR source_not_found_msg) ;; return_
  | Some parent =>
  when (negb (host_obs_get_video_info host)) return_ ;;
  let w := host_obs_source_get_width host in
  let w := wrap_u32 (w + Z.land w 1) in
  modify (set_width w) ;;
  let h := host_obs_source_get_height host in
  let h := wrap_u32 (h + Z.land h 1) in
  modify (set_height h) ;;
  when ((w =? 0) || (h =? 0) || (host_fps_den host =? 0) || (host_fps_num host =? 0))
    return_ ;;
  filter <- get ;;
  modify (set_active_settings_rev (stored_settings_rev filter)) ;;
  emit (obs_service_create settings) ;;
  modify (set_service (host_obs_service_create host)) ;;
  match host_obs_service_create host with
  | None => emit (obs_log LOG_ERROR service_failed_msg) ;; return_
  | Some svc =>
  emit (obs_service_apply_encoder_settings svc) ;;
  emit (obs_output_create (output_type host) settings) ;;
  modify (set_stream_output (host_obs_output_create host)) ;;
  match host_obs_output_create host with
  | None => emit (obs_log LOG_ERROR output_failed_msg) ;; return_
  | Some output =>
  emit (obs_output_set_reconnect_settings output) ;;
  emit (obs_output_set_service output svc) ;;
  modify (set_connect_attempting_at (host_os_gettime_ns host)) ;;
  emit obs_view_create ;;
  modify (set_view (host_obs_view_create host)) ;;
  match host_obs_view_create host with
  | Some v =>
      emit (obs_view_set_source v (Some parent)) ;;
      emit (obs_view_add2 v) ;;
      modify (set_video_output (host_obs_view_add2 host))
  | None =>
      (* the host answers NULL for a NULL view *)
      modify (set_video_output None)
  end ;;
  filter <- get ;;
  when (negb (is_some (video_output filter)))
    (emit (obs_log LOG_ERROR video_output_failed_msg) ;; return_) ;;
  modify (set_audio_source_type AUDIO_SOURCE_TYPE_SILENCE) ;;
  modify (set_audio_source None) ;;
  modify (set_audio_mix_idx 0) ;;
  modify (set_audio_channels (host_audio_output_get_channels host)) ;;
  modify (set_samples_per_sec (host_audio_output_get_sample_rate host)) ;;
  modify (set_audio_buffer_frames 0) ;;
  modify (set_audio_skip 0) ;;
  retrieve_audio_source host settings ;;
  filter <- get ;;
  when (audio_source_type_eqb (audio_source_type filter) AUDIO_SOURCE_TYPE_SILENCE)
    (emit (obs_log LOG_INFO audio_disabled_msg)) ;;
  emit audio_output_open ;;
  match host_audio_output_open host with
  | None => emit (obs_log LOG_ERROR audio_output_failed_msg) ;; return_
  | Some audio =>
  modify (set_audio_output (Some audio)) ;;
  emit (obs_video_encoder_create (video_encoder_id settings) settings) ;;
  modify (set_video_encoder (host_obs_video_encoder_create host)) ;;
  match host_obs_video_encoder_create host with
  | None => emit (obs_log LOG_ERROR video_encoder_failed_msg) ;; return_
  | Some venc =>
  emit (obs_encoder_set_scaled_size venc) ;;
  emit (obs_encoder_set_video venc (video_output filter)) ;;
  emit (obs_output_set_video_encoder output venc) ;;
  emit (obs_audio_encoder_create (audio_encoder_id settings) (audio_bitrate settings)) ;;
  modify (set_audio_encoder (host_obs_audio_encoder_create host)) ;;
  match host_obs_audio_encoder_create host with
  | None => emit (obs_log LOG_ERROR audio_encoder_failed_msg) ;; return_
  | Some aenc =>
  emit (obs_encoder_set_audio aenc (Some audio)) ;;
  emit (obs_output_set_audio_encoder output aenc) ;;
  emit (obs_output_start output) ;;
  if host_obs_output_start host then
    modify (set_output_active true) ;;
    emit (obs_source_inc_showing (Some parent)) ;;
    emit (obs_log LOG_INFO start_succeeded_msg)
  else
    emit (obs_log LOG_ERROR start_failed_msg)
  end end end end end
  end.

Definition start_output (host : host_t) (settings : settings_t) : M unit :=
  call (stop_output host) ;;
  start_body host settings.

(** *** update *)

Definition update (settings : settings_t) : M unit :=
  emit (obs_log LOG_DEBUG updating_msg) ;;
  filter <- get ;;
  modify (set_stored_settings_rev (wrap_size (stored_settings_rev filter + 1))) ;;
  emit (obs_data_save_json_safe settings) ;;
  emit (obs_log LOG_INFO updated_msg).

(** *** restart_output *)

Definition restart_output (host : host_t) : M unit :=
  filter <- get ;;
  when (output_active filter) (call (stop_output host)) ;;
  let settings := host_obs_source_get_settings host in
  when (nonempty (server settings)) (call (start_output host settings)).

Definition connect_attempting_timed_out (host : host_t) (filter : filter_t) : bool :=
  negb (connect_attempting_at filter =? 0)
  && (wrap_u64 (host_os_gettime_ns host - connect_attempting_at filter)
        >? CONNECT_ATTEMPTING_TIMEOUT_NS).

Definition source_available (host : host_t) : M bool :=
  filter <- get ;;
  let now := host_os_gettime_ns host in
  if wrap_u64 (now - last_available_at filter) <? AVAILAVILITY_CHECK_INTERVAL_NS
  then ret true
  else
    modify (set_last_available_at now) ;;
    if host_obs_scene_from_source host then ret true
    else ret (existsb id (host_scenes host)).

(** *** video_tick *)

Definition video_tick (host : host_t) : M unit :=
  filter <- get ;;
  when (negb (filter_active filter)) return_ ;;
  let source_enabled := host_obs_source_enabled host in
  if output_active filter then
    let stream_active := host_obs_output_active host in
    if source_enabled then
      when (connect_attempting_timed_out host filter)
        (when (negb stream_active)
           (emit (obs_log LOG_INFO reactivate_msg) ;;
            call (start_output host (host_obs_source_get_settings host)) ;;
            return_) ;;
         when (active_settings_rev filter <? stored_settings_rev filter)
           (emit (obs_log LOG_INFO settings_changed_msg) ;;
            call (restart_output host) ;;
            return_) ;;
         when stream_active
           (let w := host_obs_source_get_width host in
            let w := wrap_u32 (w + Z.land w 1) in
            let h := host_obs_source_get_height host in
            let h := wrap_u32 (h + Z.land h 1) in
            available <-
              (if (w =? 0) || (h =? 0) then ret false else source_available host) ;;
            when (negb available) (call (stop_output host) ;; return_) ;;
            when (negb (width filter =? w) || negb (height filter =? h))
              (emit (obs_log LOG_INFO restart_msg) ;;
               call (start_output host (host_obs_source_get_settings host)) ;;
               return_)))
    else
      when stream_active (call (stop_output host) ;; return_)
  else
    when source_enabled (call (restart_output host) ;; return_).

End Lifecycle.


(** ** The life of a filter instance *)

Definition loading_msg : string := "Recently settings loading".
Definition loaded_msg : string := "Recently settings loaded".
Definition creating_msg : string := "%s: Filter creating".
Definition settings_json_msg : string := "filter_settings_json=%s".
Definition created_msg : string := "%s: Filter created".
Definition destroying_msg : string := "%s: Filter destroying".
Definition destroyed_msg : string := "%s: Filter destroyed".

(** *** destroy

    The mutex, the scratch buffer and the filter itself are freed after
    [stop_output]; the filter the model leaves is the one that is freed. *)
Definition destroy (host : host_t) : M unit :=
  emit (obs_log LOG_DEBUG destroying_msg) ;;
  call (stop_output host) ;;
  emit (obs_log LOG_INFO destroyed_msg).

(** The filter [bzalloc] hands out: every field zero.  Which enumerator
    of the audio source type is zero is [plugin-main.hpp]'s. *)
Definition zeroed_filter (zero : audio_source_type_t) : filter_t :=
  {| filter_active := false; output_active := false;
     stored_settings_rev := 0; active_settings_rev := 0;
     connect_attempting_at := 0; last_available_at := 0;
     width := 0; height := 0; service := None; stream_output := None;
     audio_encoder := None; video_encoder := None; view := None;
     video_output := None; audio_output := None; audio_source := None;
     audio_source_type := zero; audio_mix_idx := 0;
     audio_channels := 0; samples_per_sec := 0; audio_buffer := [];
     audio_buffer_frames := 0; audio_conv_buffer_size := 0; audio_skip := 0 |}.

Definition set_filter_active v (f : filter_t) : filter_t :=
  {| filter_active := v; output_active := output_active f;
     stored_settings_rev := stored_settings_rev f;
     active_settings_rev := active_settings_rev f;
     connect_attempting_at := connect_attempting_at f;
     last_available_at := last_available_at f; width := width f;
     height := height f; service := service f;
     stream_output := stream_output f; audio_encoder := audio_encoder f;
     video_encoder := video_encoder f; view := view f;
     video_output := video_output f; audio_output := audio_output f;
     audio_source := audio_source f;
     audio_source_type := audio_source_type f;
     audio_mix_idx := audio_mix_idx f; audio_channels := audio_channels f;
     samples_per_sec := samples_per_sec f; audio_buffer := audio_buffer f;
     audio_buffer_frames := audio_buffer_frames f;
     audio_conv_buffer_size := audio_conv_buffer_size f;
     audio_skip := audio_skip f |}.

Section Settings.

(** *** The settings object

    [create] and [load_recently] work on the settings object of the
    host, [obs_data_t]: a map from names to items.  What an item holds
    (the value the user set, a default, a nested object) is the host's,
    and so are the three functions below. *)
Variable item : Type.

Definition obs_data_t : Type := gmap string item.

(** [obs_data_get_string] on an item that is there. *)
Variable item_string : item -> string.
(** What [obs_data_apply] leaves at a name of the applied data: the item
    applied, laid over what the target has there. *)
Variable copy_item : option item -> item -> option item.
(** The text of [obs_data_get_json]. *)
Variable obs_data_get_json : obs_data_t -> string.
(** The enumerator of the audio source type that is zero. *)
Variable ZERO_AUDIO_SOURCE_TYPE : audio_source_type_t.

(** The empty string when there is no item of that name. *)
Definition obs_data_get_string (data : obs_data_t) (name : string) : string :=
  match data !! name with
  | Some i => item_string i
  | None => EmptyString
  end.

Definition obs_data_erase (data : obs_data_t) (name : string) : obs_data_t :=
  delete name data.

(** Every item of [apply_data] is copied to the target; the target keeps
    the items under the other names. *)
Definition obs_data_apply (target apply_data : obs_data_t) : obs_data_t :=
  merge (fun old new =>
           match new with
           | Some i => copy_item old i
           | None => old
           end) target apply_data.

(** *** load_recently

    [recently_settings] is what [obs_data_create_from_json_file] answers
    for the settings file of the module: NULL when there is no file to
    read.  The settings object is written in place; the function
    answers the settings it leaves. *)
Definition load_recently (recently_settings : option obs_data_t)
    (settings : obs_data_t) : obs_data_t * list event :=
  let settings' :=
    match recently_settings with
    | Some recently =>
        let recently := obs_data_erase recently "server" in
        let recently := obs_data_erase recently "key" in
        let recently := obs_data_erase recently "custom_audio_source" in
        let recently := obs_data_erase recently "audio_source" in
        obs_data_apply settings recently
    | None => settings
    end in
  (settings', [obs_log LOG_DEBUG loading_msg; obs_log LOG_INFO loaded_msg]).

(** *** create

    [obs_data_get_last_json] answers the text the last
    [obs_data_get_json] on the object produced, which is the one of the
    second log line.  The function answers the filter it allocates, the
    settings it leaves and its log lines. *)
Definition create (recently_settings : option obs_data_t) (settings : obs_data_t)
    : filter_t * obs_data_t * list event :=
  let last_json := obs_data_get_json settings in
  let filter := zeroed_filter ZERO_AUDIO_SOURCE_TYPE in
  let loaded :=
    if String.eqb last_json "{}"
    then load_recently recently_settings settings
    else (settings, []) in
  let server := obs_data_get_string (fst loaded) "server" in
  (set_filter_active (nonempty server) filter,
   fst loaded,
   [obs_log LOG_DEBUG creating_msg; obs_log LOG_DEBUG settings_json_msg]
   ++ snd loaded ++ [obs_log LOG_INFO created_msg]).

End Settings.

(** *** The calls of the host into an instance

    Between [create] and [destroy] the host calls [video_tick] once per
    frame and [update] when the settings change. *)
Inductive instance_call :=
| tick_call (host : host_t)
| update_call (settings : settings_t).

Section Instance.

Variable MAX_AUDIO_MIXES : nat.
Variable CONNECT_ATTEMPTING_TIMEOUT_NS : Z.
Variable AVAILAVILITY_CHECK_INTERVAL_NS : Z.

Definition instance_step (c : instance_call) : M unit :=
  match c with
  | tick_call host =>
      video_tick MAX_AUDIO_MIXES CONNECT_ATTEMPTING_TIMEOUT_NS
        AVAILAVILITY_CHECK_INTERVAL_NS host
  | update_call settings => update settings
  end.

Fixpoint instance_calls (calls : list instance_call) : M unit :=
  match calls with
  | [] => skip
  | c :: rest => call (instance_step c) ;; instance_calls rest
  end.

End Instance.

(** ** Vocabulary of the properties *)

(** The frames of a chunk that are still to be drained. *)
Definition chunk_remaining (c : chunk_t) : Z :=
  frames (header c) - offset (header c).

Definition buffered_sum (buffer : list chunk_t) : Z :=
  foldr (fun c acc => chunk_remaining c + acc) 0 buffer.

(** A chunk in the deque has frames left, and its frame count is the
    [uint32_t] it was pushed with. *)
Definition live_chunk (c : chunk_t) : Prop :=
  0 <= offset (header c) < frames (header c)
  /\ frames (header c) < UINT32_MODULUS.

(** The frame counter agrees with the deque. *)
Definition buffer_consistent (filter : filter_t) : Prop :=
  Forall live_chunk (audio_buffer filter)
  /\ audio_buffer_frames filter = buffered_sum (audio_buffer filter)
  /\ audio_buffer_frames filter < SIZE_MODULUS - UINT32_MODULUS.

(** The guard of [push_audio_to_buffer] and of [audio_input_callback]
    lets the call through. *)
Definition bridge_open (filter : filter_t) : Prop :=
  output_active filter = true
  /\ audio_source_type filter <> AUDIO_SOURCE_TYPE_SILENCE.

(** [frames] is a [uint32_t]. *)
Definition frames_in_range (a : obs_audio_data) : Prop :=
  0 <= ad_frames a < UINT32_MODULUS.

(** The byte count of a plane, [frames * 4] in [uint32_t], does not
    wrap: the push appends the planes whole, as the header says. *)
Definition planes_whole (a : obs_audio_data) : Prop :=
  ad_frames a * 4 < UINT32_MODULUS.

(** The push returns at its guard. *)
Definition push_rejected (filter : filter_t) (a : obs_audio_data) : bool :=
  negb (output_active filter)
  || audio_source_type_eqb (audio_source_type filter) AUDIO_SOURCE_TYPE_SILENCE
  || (ad_frames a =? 0).

(** The push would take the frame counter past the ceiling. *)
Definition push_overflows (MAX_AUDIO_BUFFER_FRAMES : Z) (filter : filter_t)
    (a : obs_audio_data) : bool :=
  wrap_size (audio_buffer_frames filter + ad_frames a) >? MAX_AUDIO_BUFFER_FRAMES.

(** The push resets the buffer. *)
Definition push_resets (MAX_AUDIO_BUFFER_FRAMES : Z) (filter : filter_t)
    (a : obs_audio_data) : bool :=
  negb (push_rejected filter a) && push_overflows MAX_AUDIO_BUFFER_FRAMES filter a.

(** The frames a push adds to the buffer: none when it returns at its
    guard. *)
Definition push_accepted_frames (filter : filter_t) (a : obs_audio_data) : Z :=
  if push_rejected filter a then 0 else ad_frames a.

(** The pull callback gets past its guard, to the drain under the lock. *)
Definition drain_reached (obs_get_audio_info : bool) (filter : filter_t) : bool :=
  output_active filter
  && negb (audio_source_type_eqb (audio_source_type filter) AUDIO_SOURCE_TYPE_SILENCE)
  && obs_get_audio_info.

(** A run of the two entry points of the bridge on one filter. *)
Inductive bridge_op :=
| Push (audio_data : obs_audio_data)
| Drain (obs_get_audio_info : bool) (start_ts_in mixers : Z) (mixes : mixes_t).

Definition push_in_range (o : bridge_op) : Prop :=
  match o with
  | Push a => frames_in_range a /\ planes_whole a
  | Drain _ _ _ _ => True
  end.

(** What a run adds up: the frames handed to push, the frames drained
    towards the buses, and whether some push reset the buffer. *)
Record tally := {
  t_filter : filter_t;
  t_pushed : Z;
  t_drained : Z;
  t_reset : bool
}.

Section BridgeRuns.

Variable MAX_AUDIO_BUFFER_FRAMES : Z.
Variable AUDIO_OUTPUT_FRAMES : Z.
Variable MAX_AUDIO_MIXES : nat.
Variable HEADER_SIZE : Z.

Definition bridge_step (t : tally) (o : bridge_op) : outcome tally :=
  match o with
  | Push a =>
      Done {| t_filter :=
                fst (push_audio_to_buffer MAX_AUDIO_BUFFER_FRAMES HEADER_SIZE
                       (t_filter t) a);
              t_pushed := t_pushed t + ad_frames a;
              t_drained := t_drained t;
              t_reset :=
                t_reset t || push_resets MAX_AUDIO_BUFFER_FRAMES (t_filter t) a |}
  | Drain info ts mixers mixes =>
      match
        audio_input_callback AUDIO_OUTPUT_FRAMES MAX_AUDIO_MIXES HEADER_SIZE info
          (t_filter t) ts mixers mixes
      with
      | Done r =>
          Done {| t_filter := res_filter r; t_pushed := t_pushed t;
                  t_drained := t_drained t + res_drained r;
                  t_reset := t_reset t |}
      | OutOfContract => OutOfContract
      | OutOfFuel => OutOfFuel
      end
  end.

Fixpoint bridge_run (t : tally) (ops : list bridge_op) : outcome tally :=
  match ops with
  | [] => Done t
  | o :: ops' =>
      match bridge_step t o with
      | Done t' => bridge_run t' ops'
      | OutOfContract => OutOfContract
      | OutOfFuel => OutOfFuel
      end
  end.

Definition start_tally (filter : filter_t) : tally :=
  {| t_filter := filter; t_pushed := 0; t_drained := 0; t_reset := false |}.

End BridgeRuns.

(** Two filters agree on every field but the deque, its frame counter,
    the scratch size and the starvation streak: the fields the bridge
    may write. *)
Definition same_outside_bridge (f g : filter_t) : Prop :=
  set_audio_skip 0
    (set_audio_conv_buffer_size 0 (set_audio_buffer_frames 0 (set_audio_buffer [] f)))
  = set_audio_skip 0
      (set_audio_conv_buffer_size 0 (set_audio_buffer_frames 0 (set_audio_buffer [] g))).

(** What every step of a run keeps: the bridge is open, the buffer is
    consistent, and as long as no push reset the buffer the frames
    drained and the frames buffered add up to the frames there at the
    start ([base]) and the frames pushed. *)
Definition balanced (base : Z) (t : tally) : Prop :=
  bridge_open (t_filter t)
  /\ buffer_consistent (t_filter t)
  /\ (t_reset t = false ->
      t_drained t + audio_buffer_frames (t_filter t) = base + t_pushed t).

(** ** Vocabulary of the lifecycle properties *)

(** The filter [stop_output] leaves: nothing held, the bridge closed and
    empty, the output inactive.  [video_output], owned by the view, and
    an [audio_source] that does not go with a capture source type, are
    not touched. *)
Definition stopped (f : filter_t) : filter_t :=
  {| filter_active := filter_active f; output_active := false;
     stored_settings_rev := stored_settings_rev f;
     active_settings_rev := active_settings_rev f;
     connect_attempting_at := 0;
     last_available_at := last_available_at f; width := width f;
     height := height f; service := None; stream_output := None;
     audio_encoder := None; video_encoder := None; view := None;
     video_output := video_output f; audio_output := None;
     audio_source :=
       match audio_source_type f with
       | AUDIO_SOURCE_TYPE_CAPTURE => None
       | _ => audio_source f
       end;
     audio_source_type := AUDIO_SOURCE_TYPE_SILENCE;
     audio_mix_idx := audio_mix_idx f; audio_channels := audio_channels f;
     samples_per_sec := samples_per_sec f; audio_buffer := [];
     audio_buffer_frames := 0;
     audio_conv_buffer_size := audio_conv_buffer_size f; audio_skip := 0 |}.

(** The host calls of [stop_output], resource by resource. *)
Definition stop_calls (host : host_t) (f : filter_t) : list event :=
  match stream_output f with
  | Some output =>
      (if output_active f
       then [obs_source_dec_showing (host_obs_filter_get_parent host);
             obs_output_stop output]
       else [])
      ++ [obs_output_release output]
  | None => []
  end
  ++ match service f with
     | Some svc => [obs_service_release svc]
     | None => []
     end
  ++ match audio_encoder f with
     | Some enc => [obs_encoder_release enc]
     | None => []
     end
  ++ match video_encoder f with
     | Some enc => [obs_encoder_release enc]
     | None => []
     end
  ++ match audio_source_type f with
     | AUDIO_SOURCE_TYPE_CAPTURE =>
         match audio_source f with
         | Some weak =>
             match host_obs_weak_source_get_source host with
             | Some src =>
                 [obs_source_remove_audio_capture_callback src; obs_source_release src]
             | None => []
             end
             ++ [obs_weak_source_release weak]
         | None => []
         end
     | AUDIO_SOURCE_TYPE_MASTER => [obs_remove_raw_audio_callback (audio_mix_idx f)]
     | _ => []
     end
  ++ match audio_output f with
     | Some audio => [audio_output_close audio]
     | None => []
     end
  ++ match view f with
     | Some v => [obs_view_set_source v None; obs_view_remove v; obs_view_destroy v]
     | None => []
     end
  ++ (if output_active f then [obs_log LOG_INFO stop_succeeded_msg] else []).

(** Idle: the output is inactive, no host object is held, no audio
    source is selected, no connection attempt is timed, and the bridge
    is empty. *)
Definition idle (f : filter_t) : Prop :=
  output_active f = false
  /\ stream_output f = None
  /\ service f = None
  /\ audio_encoder f = None
  /\ video_encoder f = None
  /\ audio_output f = None
  /\ view f = None
  /\ audio_source_type f = AUDIO_SOURCE_TYPE_SILENCE
  /\ connect_attempting_at f = 0
  /\ audio_buffer f = []
  /\ audio_buffer_frames f = 0
  /\ audio_skip f = 0.

(** The log lines at error level among the calls. *)
Definition is_error_log (e : event) : bool :=
  match e with
  | obs_log LOG_ERROR _ => true
  | _ => false
  end.

Definition is_output_start (e : event) : bool :=
  match e with
  | obs_output_start _ => true
  | _ => false
  end.

(** [start_output] gets as far as acquiring resources: the host is
    initialised, the filter is enabled, it has a parent, there is video,
    and the even-rounded size and the frame rate are not zero. *)
Definition start_admitted (host : host_t) : bool :=
  host_obs_initialized host
  && host_obs_source_enabled host
  && is_some (host_obs_filter_get_parent host)
  && host_obs_get_video_info host
  && negb (wrap_u32 (host_obs_source_get_width host
                     + Z.land (host_obs_source_get_width host) 1) =? 0)
  && negb (wrap_u32 (host_obs_source_get_height host
                     + Z.land (host_obs_source_get_height host) 1) =? 0)
  && negb (host_fps_den host =? 0)
  && negb (host_fps_num host =? 0).

(** The settings select a named source, the host finds it, and its weak
    reference cannot be taken. *)
Definition audio_source_lost (host : host_t) (settings : settings_t) : bool :=
  custom_audio_source settings
  && nonempty (audio_source_uuid settings)
  && negb (String.eqb (audio_source_uuid settings) "no_audio")
  && negb (String.prefix "master_track_" (audio_source_uuid settings))
  && is_some (host_obs_get_source_by_uuid host)
  && negb (is_some (host_obs_source_get_weak_source host)).

(** One of the resources [start_output] asks the host for is refused. *)
Definition acquisition_fails (host : host_t) (settings : settings_t) : bool :=
  negb (is_some (host_obs_service_create host))
  || negb (is_some (host_obs_output_create host))
  || negb (is_some (host_obs_view_create host))
  || negb (is_some (host_obs_view_add2 host))
  || audio_source_lost host settings
  || negb (is_some (host_audio_output_open host))
  || negb (is_some (host_obs_video_encoder_create host))
  || negb (is_some (host_obs_audio_encoder_create host)).


(** What a start that got as far as acquiring resources leaves, whether
    or not it then succeeds: the active revision is the stored one, both
    the stored revision and the filter's enabled flag are as before, and
    the service was asked for with the settings handed in. *)
Definition admitted_start (settings : settings_t) (before : filter_t)
    (r : filter_t * list event) : Prop :=
  active_settings_rev (fst r) = stored_settings_rev before
  /\ stored_settings_rev (fst r) = stored_settings_rev before
  /\ filter_active (fst r) = filter_active before
  /\ In (obs_service_create settings) (snd r).

(** What any start leaves untouched. *)
Definition kept_by_start (before : filter_t) (r : filter_t * list event) : Prop :=
  stored_settings_rev (fst r) = stored_settings_rev before
  /\ filter_active (fst r) = filter_active before.

(** What a start leaves when the host grants everything: the output
    active, started once. *)
Definition granted_start (r : filter_t * list event) : Prop :=
  output_active (fst r) = true
  /\ is_some (stream_output (fst r)) = true
  /\ existsb is_output_start (snd r) = true.

(** ** Vocabulary of the mixing properties *)

(** The pull writes to bus [m]: it is one of the [MAX_AUDIO_MIXES] buses
    and its bit is set in [mixers]. *)
Definition bus_selected (MAX_AUDIO_MIXES : nat) (mixers : Z) (m : nat) : bool :=
  (m <? MAX_AUDIO_MIXES)%nat
  && negb (Z.land mixers (Z.shiftl 1 (Z.of_nat m)) =? 0).

(** [mixes[m].data[ch]] *)
Definition bus_channel (mixes : mixes_t) (m ch : nat) : option (list sample) :=
  mixes !! m ≫= (fun bus => bus !! ch).

(** [inp] mixed, sample by sample, onto the samples of [out] from
    [out_pos] on; the rest of [out] as it was. *)
Definition mixed_into (out_pos : nat) (out inp : list sample) : list sample :=
  take out_pos out
  ++ zip_with mix_sample (take (length inp) (drop out_pos out)) inp
  ++ drop (out_pos + length inp) out.

(** The channels below [ch] whose plane pointer is not NULL. *)
Fixpoint present_before (a : obs_audio_data) (ch : nat) : nat :=
  match ch with
  | O => O
  | S n => present_before a n + (if is_some (ad_data_at a n) then 1 else 0)
  end.

(** Every plane handed to push holds at least [frames] floats. *)
Definition planes_sized (a : obs_audio_data) : Prop :=
  forall ch xs, ad_data_at a ch = Some xs -> (Z.to_nat (ad_frames a) <= length xs)%nat.

(** The chunk [c] with [k] frames drained. *)
Definition drained_to (k : Z) (c : chunk_t) : chunk_t :=
  {| header := set_offset k (header c); payload := payload c |}.

(** Accumulation and hard clip as the specification words them, on the
    binary32 numbers of the library: the sum, rounded to nearest even,
    is replaced by 1 when it is above 1 and by -1 when it is below
    -1. *)
Definition hard_clip (s : sample) : sample :=
  if SFltb f32_one s then f32_one
  else if SFltb s f32_minus_one then f32_minus_one
  else s.

Definition clipped_sum (o x : sample) : sample := hard_clip (SFadd 24 128 o x).

Definition is_nan (s : sample) : bool :=
  match s with S754_nan => true | _ => false end.

(** [-1 <= s <= 1] in the order of the numbers; a NaN compares with
    nothing and is not in the range. *)
Definition in_unit_range (s : sample) : Prop :=
  (SFcompare f32_minus_one s = Some Lt \/ SFcompare f32_minus_one s = Some Eq)
  /\ (SFcompare s f32_one = Some Lt \/ SFcompare s f32_one = Some Eq).

(** A sample of [-1, 1] other than the negative zero. *)
Definition plain_sample (x : sample) : Prop :=
  in_unit_range x /\ x <> S754_zero true.

(** What the pull does to one destination array for one chunk: nothing
    when the channel is absent from the chunk, the innermost loop
    otherwise. *)
Definition channel_mix (HEADER_SIZE : Z) (hdr : audio_buffer_chunk_header_t)
    (conv : list sample) (nframes out_offset : Z) (ch : nat)
  : list sample -> list sample :=
  if data_idx_at hdr ch =? 0 then id
  else accumulate (Z.to_nat nframes) (Z.to_nat out_offset)
         (in_position HEADER_SIZE hdr ch) conv.

(** The chunk a push appends for [a]. *)
Definition pushed_chunk (HEADER_SIZE : Z) (filter : filter_t) (a : obs_audio_data)
  : chunk_t :=
  {| header := compute_header HEADER_SIZE (Z.to_nat (audio_channels filter)) a;
     payload := compute_payload (Z.to_nat (audio_channels filter)) a |}.

(** The samples of channel [ch] that a pull of [n] frames mixes in when
    [k] frames of the chunk pushed for [a] are drained already. *)
Definition front_window (a : obs_audio_data) (k n : Z) (ch : nat) : list sample :=
  take (Z.to_nat n) (drop (Z.to_nat k) (plane a ch)).

(** The filter after such a pull: the front chunk keeps its place with
    its offset advanced, or is gone when the pull took all that was left
    of it; the counter is [n] less; the starvation streak is over. *)
Definition after_front_pull (HEADER_SIZE : Z) (a : obs_audio_data)
    (filter : filter_t) (rest : list chunk_t) (k n : Z) : filter_t :=
  set_audio_buffer_frames (audio_buffer_frames filter - n)
    (set_audio_buffer
       (if k + n =? ad_frames a then rest
        else drained_to (k + n) (pushed_chunk HEADER_SIZE filter a) :: rest)
       (set_audio_skip 0 filter)).

(** ** Vocabulary of the tick properties *)

(** The size the tick compares with the one the output was started on:
    the size of the source, rounded up to even. *)
Definition monitored_width (host : host_t) : Z :=
  wrap_u32 (host_obs_source_get_width host + Z.land (host_obs_source_get_width host) 1).
Definition monitored_height (host : host_t) : Z :=
  wrap_u32 (host_obs_source_get_height host + Z.land (host_obs_source_get_height host) 1).

(** The tick gets as far as monitoring the source: the filter and the
    source are enabled, the output and the stream are active, the
    connection attempt is timed out and no settings change is pending. *)
Definition monitoring (CONNECT_ATTEMPTING_TIMEOUT_NS : Z) (host : host_t)
    (f : filter_t) : Prop :=
  filter_active f = true
  /\ output_active f = true
  /\ host_obs_source_enabled host = true
  /\ host_obs_output_active host = true
  /\ connect_attempting_timed_out CONNECT_ATTEMPTING_TIMEOUT_NS host f = true
  /\ stored_settings_rev f <= active_settings_rev f.

(** The availability of the source is looked up again: the last lookup
    is at least the check interval old. *)
Definition check_due (AVAILAVILITY_CHECK_INTERVAL_NS : Z) (host : host_t)
    (f : filter_t) : bool :=
  negb (wrap_u64 (host_os_gettime_ns host - last_available_at f)
          <? AVAILAVILITY_CHECK_INTERVAL_NS).

(** The lookup finds the source: it is a scene, or some scene of the
    frontend holds it. *)
Definition source_found (host : host_t) : bool :=
  host_obs_scene_from_source host || existsb id (host_scenes host).

(** The filter after the availability test of a tick. *)
Definition after_check (AVAILAVILITY_CHECK_INTERVAL_NS : Z) (host : host_t)
    (f : filter_t) : filter_t :=
  if check_due AVAILAVILITY_CHECK_INTERVAL_NS host f
  then set_last_available_at (host_os_gettime_ns host) f
  else f.

(** ** Vocabulary of the start properties *)

(** A call that asks the host for an object, registers a callback with
    it, or starts the output. *)
Definition is_acquisition (e : event) : bool :=
  match e with
  | obs_service_create _ | obs_output_create _ _ | obs_view_create
  | obs_view_add2 _ | audio_output_open | obs_video_encoder_create _ _
  | obs_audio_encoder_create _ _ | obs_add_raw_audio_callback _
  | obs_source_add_audio_capture_callback _ | obs_output_start _
  | obs_source_inc_showing _ => true
  | _ => false
  end.

(** What a start leaves when it returns before it acquires anything:
    the filter Idle, nothing asked of the host, the active revision as
    it was; an error is logged only for a filter without a parent. *)
Definition nothing_acquired (host : host_t) (before : filter_t)
    (r : filter_t * list event) : Prop :=
  idle (fst r)
  /\ existsb is_acquisition (snd r) = false
  /\ active_settings_rev (fst r) = active_settings_rev before
  /\ (existsb is_error_log (snd r) = true -> host_obs_filter_get_parent host = None).

(** What a start leaves when the host hands over every object it is
    asked for: the objects are held, the geometry is the source's
    rounded up to even, the audio format is the host's, the bridge is
    empty, the connection attempt is timed from now, the active revision
    is the stored one, and the output is active when the host started
    it; an error is logged when it did not. *)
Definition all_granted (host : host_t) (before : filter_t)
    (r : filter_t * list event) : Prop :=
  service (fst r) = host_obs_service_create host
  /\ stream_output (fst r) = host_obs_output_create host
  /\ view (fst r) = host_obs_view_create host
  /\ video_output (fst r) = host_obs_view_add2 host
  /\ audio_output (fst r) = host_audio_output_open host
  /\ video_encoder (fst r) = host_obs_video_encoder_create host
  /\ audio_encoder (fst r) = host_obs_audio_encoder_create host
  /\ output_active (fst r) = host_obs_output_start host
  /\ connect_attempting_at (fst r) = host_os_gettime_ns host
  /\ width (fst r) = monitored_width host
  /\ height (fst r) = monitored_height host
  /\ audio_channels (fst r) = host_audio_output_get_channels host
  /\ samples_per_sec (fst r) = host_audio_output_get_sample_rate host
  /\ audio_buffer (fst r) = []
  /\ audio_buffer_frames (fst r) = 0
  /\ audio_skip (fst r) = 0
  /\ active_settings_rev (fst r) = stored_settings_rev before
  /\ existsb is_output_start (snd r) = true
  /\ existsb is_error_log (snd r) = negb (host_obs_output_start host)
  /\ (host_obs_output_start host = true ->
      In (obs_source_inc_showing (host_obs_filter_get_parent host)) (snd r)
      /\ In (obs_log LOG_INFO start_succeeded_msg) (snd r)).

(** The start gets as far as selecting the audio source. *)
Definition reaches_audio (host : host_t) : bool :=
  start_admitted host
  && is_some (host_obs_service_create host)
  && is_some (host_obs_output_create host)
  && is_some (host_obs_view_create host)
  && is_some (host_obs_view_add2 host).

(** The audio source a start selects, by what the settings ask for: the
    filter's own audio unless a custom source is asked for; silence for
    an empty name and for "no_audio"; a master track for
    "master_track_N", as long as N is at most [MAX_AUDIO_MIXES]; or else
    the source of that name, when the host finds it. *)
Definition audio_selected (MAX_AUDIO_MIXES : nat) (host : host_t)
    (settings : settings_t) (r : filter_t * list event) : Prop :=
  let uuid := audio_source_uuid settings in
  let track := scan_track_no uuid in
  (custom_audio_source settings = false ->
   audio_source_type (fst r) = AUDIO_SOURCE_TYPE_FILTER
   /\ audio_source (fst r) = None)
  /\ (custom_audio_source settings = true ->
      nonempty uuid = false \/ String.eqb uuid "no_audio" = true ->
      audio_source_type (fst r) = AUDIO_SOURCE_TYPE_SILENCE
      /\ audio_source (fst r) = None
      /\ In (obs_log LOG_INFO audio_disabled_msg) (snd r))
  /\ (custom_audio_source settings = true ->
      String.prefix "master_track_" uuid = true ->
      audio_source (fst r) = None
      /\ if track <=? Z.of_nat MAX_AUDIO_MIXES
         then audio_source_type (fst r) = AUDIO_SOURCE_TYPE_MASTER
              /\ audio_mix_idx (fst r) = wrap_size (track - 1)
              /\ In (obs_add_raw_audio_callback (wrap_size (track - 1))) (snd r)
         else audio_source_type (fst r) = AUDIO_SOURCE_TYPE_SILENCE)
  /\ (custom_audio_source settings = true ->
      nonempty uuid = true ->
      String.eqb uuid "no_audio" = false ->
      String.prefix "master_track_" uuid = false ->
      match host_obs_get_source_by_uuid host with
      | Some src =>
          audio_source_type (fst r) = AUDIO_SOURCE_TYPE_CAPTURE
          /\ audio_source (fst r) = host_obs_source_get_weak_source host
          /\ In (obs_source_release src) (snd r)
          /\ (is_some (host_obs_source_get_weak_source host) = true ->
              In (obs_source_add_audio_capture_callback src) (snd r))
      | None =>
          audio_source_type (fst r) = AUDIO_SOURCE_TYPE_SILENCE
          /\ audio_source (fst r) = None
      end).

(** The mix indices a raw audio callback is registered on, and removed
    from, among the calls; the sources an audio capture callback is
    registered on, and removed from. *)
Definition raw_callbacks_added (es : list event) : list Z :=
  omap (fun e => match e with obs_add_raw_audio_callback i => Some i | _ => None end) es.
Definition raw_callbacks_removed (es : list event) : list Z :=
  omap (fun e => match e with obs_remove_raw_audio_callback i => Some i | _ => None end) es.
Definition capture_callbacks_added (es : list event) : list handle :=
  omap (fun e =>
          match e with
          | obs_source_add_audio_capture_callback src => Some src
          | _ => None
          end) es.
Definition capture_callbacks_removed (es : list event) : list handle :=
  omap (fun e =>
          match e with
          | obs_source_remove_audio_capture_callback src => Some src
          | _ => None
          end) es.
Definition showing_raised (es : list event) : list (option handle) :=
  omap (fun e => match e with obs_source_inc_showing p => Some p | _ => None end) es.
Definition showing_lowered (es : list event) : list (option handle) :=
  omap (fun e => match e with obs_source_dec_showing p => Some p | _ => None end) es.

(** What the stop that follows a start undoes, [host'] being the answers
    of the host at the stop: the raw audio callbacks removed are the
    ones the start registered; the capture callback is removed from the
    source the weak reference resolves to when the start registered one,
    and none is removed when it registered none; the showing count of
    the parent is lowered once when the start raised it. *)
Definition callbacks_paired (host' : host_t) (r : filter_t * list event) : Prop :=
  raw_callbacks_removed (stop_calls host' (fst r)) = raw_callbacks_added (snd r)
  /\ capture_callbacks_removed (stop_calls host' (fst r))
     = match capture_callbacks_added (snd r) with
       | [] => []
       | _ :: _ => option_list (host_obs_weak_source_get_source host')
       end
  /\ length (showing_lowered (stop_calls host' (fst r)))
     = length (showing_raised (snd r)).

(** The objects a start asks the host for. *)
Inductive resource_kind :=
| SERVICE | STREAM_OUTPUT | VIEW | AUDIO_OUTPUT | VIDEO_ENCODER | AUDIO_ENCODER.

Definition asks_for (k : resource_kind) (e : event) : bool :=
  match k, e with
  | SERVICE, obs_service_create _
  | STREAM_OUTPUT, obs_output_create _ _
  | VIEW, obs_view_create
  | AUDIO_OUTPUT, audio_output_open
  | VIDEO_ENCODER, obs_video_encoder_create _ _
  | AUDIO_ENCODER, obs_audio_encoder_create _ _ => true
  | _, _ => false
  end.

Definition granted (host : host_t) (k : resource_kind) : option handle :=
  match k with
  | SERVICE => host_obs_service_create host
  | STREAM_OUTPUT => host_obs_output_create host
  | VIEW => host_obs_view_create host
  | AUDIO_OUTPUT => host_audio_output_open host
  | VIDEO_ENCODER => host_obs_video_encoder_create host
  | AUDIO_ENCODER => host_obs_audio_encoder_create host
  end.

Definition release_of (k : resource_kind) (h : handle) : event :=
  match k with
  | SERVICE => obs_service_release h
  | STREAM_OUTPUT => obs_output_release h
  | VIEW => obs_view_destroy h
  | AUDIO_OUTPUT => audio_output_close h
  | VIDEO_ENCODER | AUDIO_ENCODER => obs_encoder_release h
  end.

(** Every object the host handed over during the start is released by
    the stop that follows. *)
Definition released_by_stop (host host' : host_t) (r : filter_t * list event) : Prop :=
  forall k h,
    existsb (asks_for k) (snd r) = true ->
    granted host k = Some h ->
    In (release_of k h) (stop_calls host' (fst r)).

(** The filter a call leaves satisfies [P]. *)
Definition leaves (P : filter_t -> Prop) (r : filter_t * list event) : Prop :=
  P (fst r).
Arguments leaves : simpl never.

(** An active output holds every object it runs on. *)
Definition active_holds (f : filter_t) : Prop :=
  output_active f = true ->
  is_some (service f) && is_some (stream_output f) && is_some (view f)
  && is_some (video_output f) && is_some (audio_output f)
  && is_some (video_encoder f) && is_some (audio_encoder f) = true.

(** A weak reference to an audio source is held only under the capture
    source type. *)
Definition source_tracked (f : filter_t) : Prop :=
  is_some (audio_source f) = true ->
  audio_source_type f = AUDIO_SOURCE_TYPE_CAPTURE.

(** What a start does to the revisions: the stored one is untouched, the
    active one is as before or the stored one. *)
Definition revisions_after_start (before : filter_t) (r : filter_t * list event)
  : Prop :=
  stored_settings_rev (fst r) = stored_settings_rev before
  /\ (active_settings_rev (fst r) = active_settings_rev before
      \/ active_settings_rev (fst r) = stored_settings_rev before).

(** What the lifecycle does to the revisions of a filter that had them
    in order: they stay in order, and the stored one is untouched. *)
Definition revisions_kept (before g : filter_t) : Prop :=
  active_settings_rev g <= stored_settings_rev g
  /\ stored_settings_rev g = stored_settings_rev before.

(** ** Vocabulary of the stream properties *)

(** Audio data the push buffers as a chunk the pull can address: some
    frames, planes that hold them and are appended whole, and a chunk
    size within [size_t]. *)
Definition pushable (HEADER_SIZE : Z) (filter : filter_t) (a : obs_audio_data) : Prop :=
  frames_in_range a
  /\ 0 < ad_frames a
  /\ HEADER_SIZE + 4 * ad_frames a * Z.of_nat (Z.to_nat (audio_channels filter))
     < SIZE_MODULUS
  /\ planes_sized a
  /\ planes_whole a.

Definition stream_frames (stream : list obs_audio_data) : Z :=
  foldr (fun a acc => ad_frames a + acc) 0 stream.

(** The deque that holds the chunks pushed for [stream], in the order
    pushed, the first of them with [k] frames drained. *)
Definition chunks_of (HEADER_SIZE : Z) (filter : filter_t)
    (stream : list obs_audio_data) (k : Z) : list chunk_t :=
  match stream with
  | [] => []
  | a :: rest =>
      drained_to k (pushed_chunk HEADER_SIZE filter a)
      :: map (pushed_chunk HEADER_SIZE filter) rest
  end.

(** That deque once [n] more frames are drained. *)
Fixpoint stream_rest (HEADER_SIZE : Z) (filter : filter_t)
    (stream : list obs_audio_data) (k n : Z) : list chunk_t :=
  match stream with
  | [] => []
  | a :: rest =>
      if n <? ad_frames a - k
      then chunks_of HEADER_SIZE filter (a :: rest) (k + n)
      else stream_rest HEADER_SIZE filter rest 0 (n - (ad_frames a - k))
  end.

(** What draining [n] frames of the stream does to the destination array
    of channel [ch], from position [pos] on: chunk after chunk, the
    frames left of the chunk, or as many as are still asked for, are
    mixed in behind those of the chunk before; a chunk without the
    channel leaves its stretch of the array alone. *)
Fixpoint stream_mix (stream : list obs_audio_data) (k n : Z) (pos ch : nat)
    (out : list sample) : list sample :=
  match stream with
  | [] => out
  | a :: rest =>
      let t := Z.min (ad_frames a - k) n in
      let out' :=
        if is_some (ad_data_at a ch)
        then mixed_into pos out (front_window a k t ch)
        else out in
      if n <=? ad_frames a - k then out'
      else stream_mix rest 0 (n - t) (pos + Z.to_nat t) ch out'
  end.

(** The samples of channel [ch] in the stream, in the order pushed. *)
Definition stream_plane (stream : list obs_audio_data) (ch : nat) : list sample :=
  concat (map (fun a => plane a ch) stream).

(** The channel is there in every chunk of the stream. *)
Definition channel_throughout (stream : list obs_audio_data) (ch : nat) : Prop :=
  Forall (fun a => is_some (ad_data_at a ch) = true) stream.

(** The filter after the pushes of a stream, one after the other. *)
Definition pushes (MAX_AUDIO_BUFFER_FRAMES HEADER_SIZE : Z) (filter : filter_t)
    (stream : list obs_audio_data) : filter_t :=
  foldl (fun f a => fst (push_audio_to_buffer MAX_AUDIO_BUFFER_FRAMES HEADER_SIZE f a))
    filter stream.

(** ** Vocabulary of the pulls in sequence *)

(** One call of the pull callback by the host: the timestamp, the mask
    of the buses and the buses it hands over. *)
Record pull_call := {
  pc_start_ts : Z;
  pc_mixers : Z;
  pc_mixes : mixes_t
}.

(** The first [n] frames of [mixes[m].data[ch]]. *)
Definition bus_frames (n : Z) (mixes : mixes_t) (m ch : nat) : list sample :=
  take (Z.to_nat n) (default [] (bus_channel mixes m ch)).

(** The stream that is left, and the frames drained of its first chunk,
    once [n] more frames are drained. *)
Fixpoint stream_advance (stream : list obs_audio_data) (k n : Z)
  : list obs_audio_data * Z :=
  match stream with
  | [] => ([], 0)
  | a :: rest =>
      if n <? ad_frames a - k then (a :: rest, k + n)
      else stream_advance rest 0 (n - (ad_frames a - k))
  end.

(** The frames of channel [ch] pushed for [a]: the first [frames]
    floats of the array handed over. *)
Definition pushed_frames (a : obs_audio_data) (ch : nat) : list sample :=
  take (Z.to_nat (ad_frames a)) (default [] (ad_data_at a ch)).

(** The frames of channel [ch] pushed for a stream, in the order
    pushed. *)
Definition stream_pushed (stream : list obs_audio_data) (ch : nat) : list sample :=
  concat (map (fun a => pushed_frames a ch) stream).

Section PullRuns.

Variable AUDIO_OUTPUT_FRAMES : Z.
Variable MAX_AUDIO_MIXES : nat.
Variable HEADER_SIZE : Z.

(** Calls of the pull callback one after the other, each with
    [obs_get_audio_info] succeeding: the filter they leave and their
    results, in the order of the calls. *)
Fixpoint pull_each (filter : filter_t) (calls : list pull_call)
  : outcome (filter_t * list audio_input_result) :=
  match calls with
  | [] => Done (filter, [])
  | c :: rest =>
      match
        audio_input_callback AUDIO_OUTPUT_FRAMES MAX_AUDIO_MIXES HEADER_SIZE true
          filter (pc_start_ts c) (pc_mixers c) (pc_mixes c)
      with
      | Done r =>
          match pull_each (res_filter r) rest with
          | Done (f, rs) => Done (f, r :: rs)
          | OutOfContract => OutOfContract
          | OutOfFuel => OutOfFuel
          end
      | OutOfContract => OutOfContract
      | OutOfFuel => OutOfFuel
      end
  end.

(** The call hands [mixes[m].data[ch]] over with room for the frames of
    a pull, and selects bus [m]. *)
Definition serves (c : pull_call) (m ch : nat) : Prop :=
  bus_selected MAX_AUDIO_MIXES (pc_mixers c) m = true
  /\ exists out,
       bus_channel (pc_mixes c) m ch = Some out
       /\ (Z.to_nat AUDIO_OUTPUT_FRAMES <= length out)%nat.

End PullRuns.

(** ** Vocabulary of the bridge invariants *)

(** The bytes of a chunk, as the pull computes them from its header
    before it copies the chunk to the scratch buffer. *)
Definition chunk_data_size (HEADER_SIZE : Z) (c : chunk_t) : Z :=
  wrap_size (HEADER_SIZE + channels (header c) * frames (header c) * 4).

(** The scratch buffer [audio_conv_buffer] is large enough for every
    chunk of the deque. *)
Definition scratch_fits (HEADER_SIZE : Z) (filter : filter_t) : Prop :=
  Forall
    (fun c => chunk_data_size HEADER_SIZE c <= audio_conv_buffer_size filter)
    (audio_buffer filter).

(** A push of at most [MAX_AUDIO_BUFFER_FRAMES] frames. *)
Definition push_sized (MAX_AUDIO_BUFFER_FRAMES : Z) (o : bridge_op) : Prop :=
  match o with
  | Push a =>
      frames_in_range a /\ planes_whole a /\ ad_frames a <= MAX_AUDIO_BUFFER_FRAMES
  | Drain _ _ _ _ => True
  end.

(** ** Vocabulary of the instance properties *)

(** The names [load_recently] erases from the recently saved settings:
    where the stream goes and where the audio comes from. *)
Definition own_names : list string :=
  ["server"; "key"; "custom_audio_source"; "audio_source"]%string.

(** A filter that holds no object of the host and runs no output. *)
Definition holds_nothing (f : filter_t) : Prop :=
  output_active f = false
  /\ service f = None
  /\ stream_output f = None
  /\ audio_encoder f = None
  /\ video_encoder f = None
  /\ view f = None
  /\ video_output f = None
  /\ audio_output f = None
  /\ audio_source f = None
  /\ audio_buffer f = []
  /\ audio_buffer_frames f = 0.

Definition is_log (e : event) : bool :=
  match e with
  | obs_log _ _ => true
  | _ => false
  end.

(** What [update] issues: log lines and the save of the settings. *)
Definition is_update_event (e : event) : bool :=
  match e with
  | obs_log _ _ | obs_data_save_json_safe _ => true
  | _ => false
  end.

Definition is_update_call (c : instance_call) : bool :=
  match c with
  | update_call _ => true
  | tick_call _ => false
  end.

(** ** Concrete instances

    Values for the constants: 6 mix buses and 1024 frames per pull, a
    ceiling of 131071 buffered frames, a chunk header of 96 bytes, 15 s
    of connection timeout, 1 s between two availability checks. *)

Definition EX_MAX_AUDIO_BUFFER_FRAMES : Z := 131071.
Definition EX_AUDIO_OUTPUT_FRAMES : Z := 1024.
Definition EX_MAX_AUDIO_MIXES : nat := 6.
Definition EX_HEADER_SIZE : Z := 96.
Definition EX_CONNECT_ATTEMPTING_TIMEOUT_NS : Z := 15000000000.
Definition EX_AVAILAVILITY_CHECK_INTERVAL_NS : Z := 1000000000.

(** A filter as [create] leaves it, with two settings updates since. *)
Definition ex_idle : filter_t :=
  {| filter_active := true; output_active := false;
     stored_settings_rev := 5; active_settings_rev := 3;
     connect_attempting_at := 0; last_available_at := 0;
     width := 0; height := 0; service := None; stream_output := None;
     audio_encoder := None; video_encoder := None; view := None;
     video_output := None; audio_output := None; audio_source := None;
     audio_source_type := AUDIO_SOURCE_TYPE_SILENCE; audio_mix_idx := 0;
     audio_channels := 2; samples_per_sec := 48000; audio_buffer := [];
     audio_buffer_frames := 0; audio_conv_buffer_size := 0; audio_skip := 0 |}.

(** A filter whose output runs on the filter's own audio, nothing
    buffered yet. *)
Definition ex_open : filter_t :=
  {| filter_active := true; output_active := true;
     stored_settings_rev := 3; active_settings_rev := 3;
     connect_attempting_at := 1000000000; last_available_at := 0;
     width := 1920; height := 1080; service := Some 2%positive;
     stream_output := Some 3%positive; audio_encoder := Some 8%positive;
     video_encoder := Some 7%positive; view := Some 4%positive;
     video_output := Some 5%positive; audio_output := Some 6%positive;
     audio_source := None; audio_source_type := AUDIO_SOURCE_TYPE_FILTER;
     audio_mix_idx := 0; audio_channels := 2; samples_per_sec := 48000;
     audio_buffer := []; audio_buffer_frames := 0;
     audio_conv_buffer_size := 0; audio_skip := 0 |}.

(** The same with two settings updates not yet applied. *)
Definition ex_behind : filter_t := set_stored_settings_rev 5 ex_open.

(** Stereo audio: [n] frames, [x] on the left, [y] on the right. *)
Definition ex_audio (n : Z) (x y : sample) : obs_audio_data :=
  {| ad_data := [Some (replicate (Z.to_nat n) x); Some (replicate (Z.to_nat n) y)];
     ad_frames := n; ad_timestamp := 0 |}.

(** Two silent buses of two channels, [n] frames each. *)
Definition ex_mixes (n : Z) : mixes_t :=
  replicate 2 (replicate 2 (replicate (Z.to_nat n) f32_zero)).

Definition ex_settings (server_url : string) : settings_t :=
  {| server := server_url; custom_audio_source := false;
     audio_source_uuid := ""; video_encoder_id := "obs_x264";
     audio_encoder_id := "ffmpeg_aac"; audio_bitrate := 160 |}.

(** A host that is up and shows a 1920x1080 source at 30 fps, at time
    [now], with the given current settings and the given answer to the
    creation of the service; everything else is granted. *)
Definition ex_host (now : Z) (settings : settings_t) (svc : option handle) : host_t :=
  {| host_obs_initialized := true; host_obs_source_enabled := true;
     host_obs_filter_get_parent := Some 1%positive;
     host_obs_get_video_info := true; host_fps_num := 30; host_fps_den := 1;
     host_obs_source_get_width := 1920; host_obs_source_get_height := 1080;
     host_obs_source_get_settings := settings;
     host_obs_service_create := svc;
     host_obs_service_get_preferred_output_type := None;
     host_obs_service_get_connect_info := Some (server settings);
     host_obs_output_create := Some 3%positive;
     host_os_gettime_ns := now;
     host_obs_view_create := Some 4%positive;
     host_obs_view_add2 := Some 5%positive;
     host_audio_output_get_channels := 2;
     host_audio_output_get_sample_rate := 48000;
     host_obs_get_source_by_uuid := None;
     host_obs_source_get_weak_source := None;
     host_obs_weak_source_get_source := None;
     host_audio_output_open := Some 6%positive;
     host_obs_video_encoder_create := Some 7%positive;
     host_obs_audio_encoder_create := Some 8%positive;
     host_obs_output_start := true; host_obs_output_active := true;
     host_obs_scene_from_source := true; host_scenes := [] |}.

Definition ex_server : string := "rtmp://example.invalid/live".

Definition is_service_create (e : event) : bool :=
  match e with
  | obs_service_create _ => true
  | _ => false
  end.

(** The filter with [n] chunks of 1024 frames of 0.8 pushed. *)
Definition ex_filled (n : nat) : filter_t :=
  Nat.iter n
    (fun f =>
       fst (push_audio_to_buffer EX_MAX_AUDIO_BUFFER_FRAMES EX_HEADER_SIZE f
              (ex_audio 1024 f32_0_8 f32_0_8)))
    ex_open.

(** A run of the bridge: 1500 and 1000 frames pushed, three pulls. *)
Definition ex_ops : list bridge_op :=
  [Push (ex_audio 1500 f32_0_8 f32_zero);
   Push (ex_audio 1000 f32_zero f32_0_8);
   Drain true 0 3 (ex_mixes 1024);
   Drain true 0 3 (ex_mixes 1024);
   Drain true 0 3 (ex_mixes 1024)].

(** A host like [ex_host] that grants everything, with the eye icon of
    the filter on or off, the stream up or down, the source in a scene
    or in none, and a source of the given size. *)
Definition ex_host_at (enabled stream_active found : bool) (w h now : Z)
    (settings : settings_t) : host_t :=
  {| host_obs_initialized := true; host_obs_source_enabled := enabled;
     host_obs_filter_get_parent := Some 1%positive;
     host_obs_get_video_info := true; host_fps_num := 30; host_fps_den := 1;
     host_obs_source_get_width := w; host_obs_source_get_height := h;
     host_obs_source_get_settings := settings;
     host_obs_service_create := Some 2%positive;
     host_obs_service_get_preferred_output_type := None;
     host_obs_service_get_connect_info := Some (server settings);
     host_obs_output_create := Some 3%positive;
     host_os_gettime_ns := now;
     host_obs_view_create := Some 4%positive;
     host_obs_view_add2 := Some 5%positive;
     host_audio_output_get_channels := 2;
     host_audio_output_get_sample_rate := 48000;
     host_obs_get_source_by_uuid := Some 9%positive;
     host_obs_source_get_weak_source := Some 10%positive;
     host_obs_weak_source_get_source := Some 9%positive;
     host_audio_output_open := Some 6%positive;
     host_obs_video_encoder_create := Some 7%positive;
     host_obs_audio_encoder_create := Some 8%positive;
     host_obs_output_start := true; host_obs_output_active := stream_active;
     host_obs_scene_from_source := found; host_scenes := [] |}.

(** Settings that ask for the audio source of the given name. *)
Definition ex_settings_audio (uuid : string) : settings_t :=
  {| server := ex_server; custom_audio_source := true;
     audio_source_uuid := uuid; video_encoder_id := "obs_x264";
     audio_encoder_id := "ffmpeg_aac"; audio_bitrate := 160 |}.

(** A filter whose output runs on the audio captured from a source. *)
Definition ex_capturing : filter_t :=
  set_audio_source (Some 10%positive)
    (set_audio_source_type AUDIO_SOURCE_TYPE_CAPTURE ex_open).

(** [1.5f] *)
Definition f32_1_5 : sample := S754_finite false 12582912 (-23).

(** A call of the pull callback on two silent buses of [n] frames, both
    selected, or neither. *)
Definition ex_call (n : Z) : pull_call :=
  {| pc_start_ts := 0; pc_mixers := 3; pc_mixes := ex_mixes n |}.

Definition ex_call_unselected (n : Z) : pull_call :=
  {| pc_start_ts := 0; pc_mixers := 0; pc_mixes := ex_mixes n |}.

(** A stream of 1500 and 1000 frames. *)
Definition ex_long_stream : list obs_audio_data :=
  [ex_audio 1500 f32_0_8 f32_zero; ex_audio 1000 f32_zero f32_0_8].

(** A stream of two chunks: four frames on the left, then five on the
    right; and the filter after they are pushed. *)
Definition ex_stream : list obs_audio_data :=
  [ex_audio 4 f32_0_8 f32_zero; ex_audio 5 f32_zero f32_0_8].

Definition ex_streamed : filter_t :=
  pushes EX_MAX_AUDIO_BUFFER_FRAMES EX_HEADER_SIZE ex_open ex_stream.


(** Settings objects with strings for items: an item applied replaces
    the one that is there, and the JSON text is [{}] exactly for the
    empty object. *)
Definition ex_copy_item (old : option string) (new : string) : option string :=
  Some new.

Definition ex_get_json (data : obs_data_t string) : string :=
  match map_to_list data with
  | [] => "{}"
  | _ :: _ => "{...}"
  end.

Definition ex_create :=
  create string id ex_copy_item ex_get_json AUDIO_SOURCE_TYPE_SILENCE.

Definition ex_recently : obs_data_t string :=
  list_to_map
    [("server", "rtmp://recent.example/live"); ("key", "recent-key");
     ("audio_source", "master_track_1"); ("video_encoder", "obs_x264")]%string.

Definition ex_named : obs_data_t string :=
  list_to_map [("server", "rtmp://own.example/live")]%string.

(** * Properties *)

(** ** Integers *)

Lemma wrap_size_small (z : Z) : 0 <= z < SIZE_MODULUS -> wrap_size z = z.
Proof. intros H. unfold wrap_size. apply Z.mod_small. exact H. Qed.

Lemma wrap_size_0 : wrap_size 0 = 0.
Proof. reflexivity. Qed.

Lemma gtb_true (a b : Z) : (a >? b) = true <-> b < a.
Proof. rewrite Z.gtb_ltb. apply Z.ltb_lt. Qed.

Lemma gtb_false (a b : Z) : (a >? b) = false <-> a <= b.
Proof. rewrite Z.gtb_ltb. rewrite Z.ltb_ge. reflexivity. Qed.

(** ** The guard of the push entry point *)

Section PushGuard.

Variable MAX_AUDIO_BUFFER_FRAMES : Z.
Variable HEADER_SIZE : Z.

#[local] Abbreviation push :=
  (push_audio_to_buffer MAX_AUDIO_BUFFER_FRAMES HEADER_SIZE).

(** C10. A push while the output is not active, or while the audio
    source is Silence, or of zero frames, returns the filter it was
    given, field for field (deque, frame counter and scratch size
    included), and logs nothing. *)
Theorem push_guard_leaves_filter (filter : filter_t) (audio_data : obs_audio_data) :
  output_active filter = false
  \/ audio_source_type filter = AUDIO_SOURCE_TYPE_SILENCE
  \/ ad_frames audio_data = 0 ->
  push filter audio_data = (filter, []).
Proof.
  intros Hguard. unfold push_audio_to_buffer.
  destruct Hguard as [Hact | [Hsil | Hzero]].
  - rewrite Hact. reflexivity.
  - rewrite Hsil. simpl. rewrite orb_true_r. reflexivity.
  - rewrite Hzero. simpl. rewrite orb_true_r. reflexivity.
Qed.

End PushGuard.

(** ** Starvation *)

Section Starvation.

Variable AUDIO_OUTPUT_FRAMES : Z.
Variable MAX_AUDIO_MIXES : nat.
Variable HEADER_SIZE : Z.

#[local] Abbreviation pull :=
  (audio_input_callback AUDIO_OUTPUT_FRAMES MAX_AUDIO_MIXES HEADER_SIZE).

Lemma drain_reached_guard (info : bool) (filter : filter_t) :
  negb (output_active filter)
  || audio_source_type_eqb (audio_source_type filter) AUDIO_SOURCE_TYPE_SILENCE
  || negb info
  = negb (drain_reached info filter).
Proof.
  unfold drain_reached.
  destruct (output_active filter), (audio_source_type filter), info; reflexivity.
Qed.

(** C4. A pull that finds fewer than [AUDIO_OUTPUT_FRAMES] frames
    buffered returns at once with every destination bus exactly as it
    was handed in and no frame drained.  When the call got as far as the
    drain, the filter it leaves differs only in [audio_skip], which is
    one more (in [size_t]), and the "Wait for frames" line is logged if
    and only if [audio_skip] was 0, that is on the first starved cycle
    of a streak: the streak counter it leaves is not 0, so the starved
    cycles that follow log nothing. *)
Theorem starved_pull_writes_nothing (info : bool) (filter : filter_t)
    (start_ts_in mixers : Z) (mixes : mixes_t) :
  audio_buffer_frames filter < AUDIO_OUTPUT_FRAMES ->
  exists r,
    pull info filter start_ts_in mixers mixes = Done r
    /\ res_mixes r = mixes
    /\ res_drained r = 0
    /\ res_out_ts r = start_ts_in
    /\ res_return r = true
    /\ (drain_reached info filter = true ->
        res_filter r = set_audio_skip (wrap_size (audio_skip filter + 1)) filter
        /\ res_log r =
             (if audio_skip filter =? 0 then [obs_log LOG_DEBUG wait_msg] else [])
        /\ (0 <= audio_skip filter < SIZE_MODULUS - 1 ->
            audio_skip (res_filter r) <> 0))
    /\ (drain_reached info filter = false ->
        res_filter r = filter /\ res_log r = []).
Proof.
  intros Hstarved. unfold audio_input_callback.
  rewrite drain_reached_guard.
  destruct (drain_reached info filter) eqn:Hreach; simpl.
  - apply Z.ltb_lt in Hstarved. rewrite Hstarved.
    eexists. split; [reflexivity |]. simpl.
    repeat split; try discriminate; try reflexivity.
    intros Hskip. unfold SIZE_MODULUS in Hskip.
    rewrite wrap_size_small by (unfold SIZE_MODULUS; lia). lia.
  - eexists. split; [reflexivity |]. simpl.
    repeat split; try discriminate; reflexivity.
Qed.

End Starvation.

(** ** What a push leaves *)

Section PushEffect.

Variable MAX_AUDIO_BUFFER_FRAMES : Z.
Variable HEADER_SIZE : Z.

#[local] Abbreviation push :=
  (push_audio_to_buffer MAX_AUDIO_BUFFER_FRAMES HEADER_SIZE).
#[local] Abbreviation pushed_chunk := (pushed_chunk HEADER_SIZE).

Lemma header_step_keeps (a : obs_audio_data) (h : audio_buffer_chunk_header_t)
    (ch : nat) :
  frames (header_step HEADER_SIZE a h ch) = frames h
  /\ offset (header_step HEADER_SIZE a h ch) = offset h
  /\ timestamp (header_step HEADER_SIZE a h ch) = timestamp h.
Proof.
  unfold header_step. destruct (ad_data_at a ch); simpl; auto.
Qed.

Lemma header_fold_keeps (a : obs_audio_data) (chs : list nat) :
  forall h,
    frames (foldl (header_step HEADER_SIZE a) h chs) = frames h
    /\ offset (foldl (header_step HEADER_SIZE a) h chs) = offset h
    /\ timestamp (foldl (header_step HEADER_SIZE a) h chs) = timestamp h.
Proof.
  induction chs as [| ch chs IH]; intros h; simpl.
  - auto.
  - destruct (IH (header_step HEADER_SIZE a h ch)) as (Hf & Ho & Ht).
    destruct (header_step_keeps a h ch) as (Hf' & Ho' & Ht').
    rewrite Hf, Ho, Ht. auto.
Qed.

Lemma compute_header_frames (nch : nat) (a : obs_audio_data) :
  frames (compute_header HEADER_SIZE nch a) = ad_frames a.
Proof. unfold compute_header. apply header_fold_keeps. Qed.

Lemma compute_header_offset (nch : nat) (a : obs_audio_data) :
  offset (compute_header HEADER_SIZE nch a) = 0.
Proof. unfold compute_header. apply header_fold_keeps. Qed.

Lemma compute_header_timestamp (nch : nat) (a : obs_audio_data) :
  timestamp (compute_header HEADER_SIZE nch a) = ad_timestamp a.
Proof. unfold compute_header. apply header_fold_keeps. Qed.

(** The deque, the frame counter and the guard fields after a push that
    got past the guard. *)
Lemma push_accepted (filter : filter_t) (a : obs_audio_data) :
  push_rejected filter a = false ->
  let kept :=
    if push_overflows MAX_AUDIO_BUFFER_FRAMES filter a then []
    else audio_buffer filter in
  let counted :=
    if push_overflows MAX_AUDIO_BUFFER_FRAMES filter a then 0
    else audio_buffer_frames filter in
  audio_buffer (fst (push filter a)) = kept ++ [pushed_chunk filter a]
  /\ audio_buffer_frames (fst (push filter a)) = wrap_size (counted + ad_frames a)
  /\ output_active (fst (push filter a)) = output_active filter
  /\ audio_source_type (fst (push filter a)) = audio_source_type filter
  /\ audio_channels (fst (push filter a)) = audio_channels filter
  /\ audio_skip (fst (push filter a)) = audio_skip filter.
Proof.
  intros Hacc. unfold push_rejected in Hacc.
  unfold push_audio_to_buffer, push_overflows. rewrite Hacc.
  destruct (wrap_size (audio_buffer_frames filter + ad_frames a)
              >? MAX_AUDIO_BUFFER_FRAMES);
    simpl;
    match goal with |- context [if ?b then _ else _] => destruct b end;
    simpl; repeat split; reflexivity.
Qed.

Lemma push_rejected_false (filter : filter_t) (a : obs_audio_data) :
  push_rejected filter a = false ->
  bridge_open filter /\ ad_frames a <> 0.
Proof.
  unfold push_rejected, bridge_open. intros H.
  apply orb_false_elim in H as [H Hz]. apply orb_false_elim in H as [Ha Hs].
  apply negb_false_iff in Ha. apply Z.eqb_neq in Hz.
  repeat split; auto.
  intros Heq. rewrite Heq in Hs. discriminate.
Qed.

Lemma bridge_open_not_rejected (filter : filter_t) (a : obs_audio_data) :
  bridge_open filter -> ad_frames a <> 0 -> push_rejected filter a = false.
Proof.
  intros [Ha Hs] Hz. unfold push_rejected. rewrite Ha.
  apply Z.eqb_neq in Hz. rewrite Hz.
  destruct (audio_source_type filter); try reflexivity. congruence.
Qed.

(** C1 (as the code has it). A push that gets past the guard and finds
    that the buffered frames plus its own would exceed
    [MAX_AUDIO_BUFFER_FRAMES] logs the warning, drops the whole deque and
    then appends: afterwards the chunk just pushed, undrained, is the
    only chunk in the deque, and the frame counter is the frame count of
    that chunk, which is not 0. *)
Theorem overflowing_push_keeps_trigger (filter : filter_t) (a : obs_audio_data) :
  push_rejected filter a = false ->
  frames_in_range a ->
  push_overflows MAX_AUDIO_BUFFER_FRAMES filter a = true ->
  audio_buffer (fst (push filter a)) = [pushed_chunk filter a]
  /\ frames (header (pushed_chunk filter a)) = ad_frames a
  /\ offset (header (pushed_chunk filter a)) = 0
  /\ audio_buffer_frames (fst (push filter a)) = ad_frames a
  /\ audio_buffer_frames (fst (push filter a)) <> 0
  /\ In (obs_log LOG_WARNING buffer_full_msg) (snd (push filter a)).
Proof.
  intros Hacc Hrange Hover.
  destruct (push_accepted filter a Hacc) as (Hbuf & Hcnt & _).
  rewrite Hover in Hbuf, Hcnt. simpl in Hbuf, Hcnt.
  destruct (push_rejected_false filter a Hacc) as [_ Hnz].
  assert (Hsmall : wrap_size (ad_frames a) = ad_frames a).
  { apply wrap_size_small. unfold frames_in_range, UINT32_MODULUS in Hrange.
    unfold SIZE_MODULUS. lia. }
  rewrite Z.add_0_l, Hsmall in Hcnt.
  split; [exact Hbuf |].
  split; [apply compute_header_frames |].
  split; [apply compute_header_offset |].
  split; [exact Hcnt |].
  split; [rewrite Hcnt; exact Hnz |].
  unfold push_audio_to_buffer. unfold push_rejected in Hacc. rewrite Hacc.
  unfold push_overflows in Hover. rewrite Hover.
  simpl. left. reflexivity.
Qed.

End PushEffect.

(** ** The frame counter and the deque agree *)

Lemma buffered_sum_app (l : list chunk_t) (c : chunk_t) :
  buffered_sum (l ++ [c]) = buffered_sum l + chunk_remaining c.
Proof.
  induction l as [| d l IH]; simpl.
  - lia.
  - rewrite IH. lia.
Qed.

Lemma buffered_sum_nonneg (l : list chunk_t) :
  Forall live_chunk l -> 0 <= buffered_sum l.
Proof.
  induction 1 as [| c l Hc _ IH]; simpl.
  - lia.
  - unfold live_chunk in Hc. unfold chunk_remaining. lia.
Qed.

Lemma same_outside_bridge_trans (f g h : filter_t) :
  same_outside_bridge f g -> same_outside_bridge g h -> same_outside_bridge f h.
Proof. unfold same_outside_bridge. congruence. Qed.

Lemma same_outside_bridge_open (f g : filter_t) :
  same_outside_bridge f g -> bridge_open f -> bridge_open g.
Proof.
  unfold same_outside_bridge, bridge_open. intros Heq [Ha Hs].
  apply (f_equal output_active) in Heq as Ha'.
  apply (f_equal audio_source_type) in Heq as Hs'.
  simpl in Ha', Hs'. rewrite <- Ha', <- Hs'. auto.
Qed.

Section Consistency.

Variable MAX_AUDIO_BUFFER_FRAMES : Z.
Variable AUDIO_OUTPUT_FRAMES : Z.
Variable MAX_AUDIO_MIXES : nat.
Variable HEADER_SIZE : Z.

#[local] Abbreviation push :=
  (push_audio_to_buffer MAX_AUDIO_BUFFER_FRAMES HEADER_SIZE).
#[local] Abbreviation pull :=
  (audio_input_callback AUDIO_OUTPUT_FRAMES MAX_AUDIO_MIXES HEADER_SIZE).
#[local] Abbreviation loop :=
  (drain_loop AUDIO_OUTPUT_FRAMES MAX_AUDIO_MIXES HEADER_SIZE).
#[local] Abbreviation turn :=
  (drain_chunk AUDIO_OUTPUT_FRAMES MAX_AUDIO_MIXES HEADER_SIZE).

Lemma push_same_outside (filter : filter_t) (a : obs_audio_data) :
  same_outside_bridge filter (fst (push filter a)).
Proof.
  unfold push_audio_to_buffer, same_outside_bridge.
  repeat match goal with |- context [if ?b then _ else _] => destruct b end;
    reflexivity.
Qed.

(** A push keeps the counter and the deque in agreement; unless it
    resets the buffer, the counter grows by the frames it took in. *)
Lemma push_consistent (filter : filter_t) (a : obs_audio_data) :
  MAX_AUDIO_BUFFER_FRAMES < SIZE_MODULUS - UINT32_MODULUS ->
  frames_in_range a ->
  buffer_consistent filter ->
  buffer_consistent (fst (push filter a))
  /\ (push_resets MAX_AUDIO_BUFFER_FRAMES filter a = false ->
      audio_buffer_frames (fst (push filter a))
      = audio_buffer_frames filter + push_accepted_frames filter a).
Proof.
  intros Hmax Hrange (Hlive & Hsum & Hbound).
  unfold push_resets, push_accepted_frames.
  destruct (push_rejected filter a) eqn:Hrej.
  - unfold push_rejected in Hrej. unfold push_audio_to_buffer. rewrite Hrej.
    simpl. split; [repeat split; assumption | intros _; lia].
  - destruct (push_accepted MAX_AUDIO_BUFFER_FRAMES HEADER_SIZE filter a Hrej)
      as (Hbuf & Hcnt & _).
    destruct (push_rejected_false filter a Hrej) as [_ Hnz].
    pose proof (buffered_sum_nonneg _ Hlive) as Hnonneg.
    unfold frames_in_range in Hrange.
    assert (Hchunk : live_chunk (pushed_chunk HEADER_SIZE filter a)).
    { unfold live_chunk, pushed_chunk. simpl.
      rewrite compute_header_frames, compute_header_offset. lia. }
    assert (Hrem : chunk_remaining (pushed_chunk HEADER_SIZE filter a) = ad_frames a).
    { unfold chunk_remaining, pushed_chunk. simpl.
      rewrite compute_header_frames, compute_header_offset. lia. }
    unfold buffer_consistent. rewrite Hbuf, Hcnt.
    unfold push_overflows in *.
    unfold UINT32_MODULUS, SIZE_MODULUS in *.
    destruct (wrap_size (audio_buffer_frames filter + ad_frames a)
                >? MAX_AUDIO_BUFFER_FRAMES) eqn:Hover; simpl.
    + rewrite Z.add_0_l, wrap_size_small by (unfold SIZE_MODULUS; lia).
      split; [| discriminate].
      split; [constructor; [exact Hchunk | constructor] |].
      rewrite Hrem. lia.
    + apply gtb_false in Hover.
      rewrite wrap_size_small in Hover by (unfold SIZE_MODULUS; lia).
      rewrite wrap_size_small by (unfold SIZE_MODULUS; lia).
      split; [| intros _; reflexivity].
      split; [apply Forall_app; split; [exact Hlive | constructor; [exact Hchunk | constructor]] |].
      rewrite buffered_sum_app, Hrem. lia.
Qed.

(** The loop never runs out of the fuel the callback gives it. *)
Lemma drain_loop_fuel (mixers : Z) (fuel : nat) :
  forall st,
    (length (audio_buffer (ds_filter st)) < fuel)%nat \/ ds_max_frames st = 0 ->
    loop fuel mixers st <> OutOfFuel.
Proof.
  induction fuel as [| fuel IH]; intros st Hfuel.
  - destruct Hfuel as [Hlen | Hzero]; [lia |].
    simpl. rewrite Hzero. simpl. discriminate.
  - simpl.
    destruct ((ds_max_frames st >? 0)
              && negb (audio_buffer_frames (ds_filter st) =? 0)) eqn:Hcond;
      [| discriminate].
    destruct Hfuel as [Hlen | Hzero].
    2: { rewrite Hzero in Hcond. discriminate. }
    destruct (audio_buffer (ds_filter st)) as [| c rest] eqn:Hbuf;
      [discriminate |].
    apply IH. unfold drain_chunk. simpl.
    set (chunk_frames := wrap_size (frames (header c) - offset (header c))).
    destruct (chunk_frames >? ds_max_frames st) eqn:Hcmp.
    + right. rewrite Z.sub_diag. reflexivity.
    + rewrite Z.eqb_refl. left. simpl in Hlen. lia.
Qed.

(** The callback always gives its loop fuel enough. *)
Lemma pull_has_fuel (info : bool) (filter : filter_t) (ts mixers : Z)
    (mixes : mixes_t) :
  pull info filter ts mixers mixes <> OutOfFuel.
Proof.
  unfold audio_input_callback.
  destruct (negb (output_active filter)
            || audio_source_type_eqb (audio_source_type filter) AUDIO_SOURCE_TYPE_SILENCE
            || negb info); [discriminate |].
  destruct (audio_buffer_frames filter <? AUDIO_OUTPUT_FRAMES); [discriminate |].
  pose proof (drain_loop_fuel mixers (S (length (audio_buffer (set_audio_skip 0 filter))))
                {| ds_filter := set_audio_skip 0 filter;
                   ds_max_frames := AUDIO_OUTPUT_FRAMES; ds_mixes := mixes |}
                (or_introl (Nat.lt_succ_diag_r _))) as Hfuel.
  destruct (loop (S (length (audio_buffer (set_audio_skip 0 filter)))) mixers _);
    [discriminate | discriminate | contradiction].
Qed.

(** One turn of the loop on a consistent buffer. *)
Lemma drain_chunk_consistent (mixers : Z) (st : drain_state) (c : chunk_t)
    (rest : list chunk_t) :
  buffer_consistent (ds_filter st) ->
  audio_buffer (ds_filter st) = c :: rest ->
  0 < ds_max_frames st < SIZE_MODULUS ->
  let st' := turn mixers st c rest in
  buffer_consistent (ds_filter st')
  /\ audio_buffer_frames (ds_filter st) - audio_buffer_frames (ds_filter st')
     = ds_max_frames st - ds_max_frames st'
  /\ 0 <= ds_max_frames st' < ds_max_frames st
  /\ same_outside_bridge (ds_filter st) (ds_filter st')
  /\ audio_skip (ds_filter st') = audio_skip (ds_filter st).
Proof.
  intros (Hlive & Hsum & Hbound) Hbuf Hmax. rewrite Hbuf in Hlive, Hsum.
  apply Forall_cons in Hlive as [Hc Hrest].
  pose proof (buffered_sum_nonneg _ Hrest) as Hnonneg.
  simpl in Hsum. unfold chunk_remaining in Hsum.
  destruct Hc as [Hoff Hfr].
  unfold UINT32_MODULUS, SIZE_MODULUS in *.
  unfold drain_chunk, buffer_consistent. simpl.
  rewrite (wrap_size_small (frames (header c) - offset (header c)))
    by (unfold SIZE_MODULUS; lia).
  destruct (frames (header c) - offset (header c) >? ds_max_frames st) eqn:Hcmp.
  - apply gtb_true in Hcmp.
    assert (Hne : (ds_max_frames st =? frames (header c) - offset (header c)) = false)
      by (apply Z.eqb_neq; lia).
    rewrite Hne. simpl.
    rewrite !wrap_size_small by (unfold SIZE_MODULUS; lia).
    repeat split; try lia; try reflexivity.
    + constructor; [| exact Hrest].
      unfold live_chunk, UINT32_MODULUS. simpl. lia.
    + unfold chunk_remaining. simpl. lia.
    + unfold SIZE_MODULUS, UINT32_MODULUS. lia.
  - apply gtb_false in Hcmp. rewrite Z.eqb_refl. simpl.
    rewrite !wrap_size_small by (unfold SIZE_MODULUS; lia).
    repeat split; try lia; try reflexivity; try exact Hrest.
    unfold SIZE_MODULUS, UINT32_MODULUS. lia.
Qed.

(** The loop on a consistent buffer ends, leaves a consistent buffer,
    and takes from the counter what it takes from [max_frames]. *)
Lemma drain_loop_consistent (mixers : Z) (fuel : nat) :
  forall st,
    buffer_consistent (ds_filter st) ->
    ds_max_frames st < SIZE_MODULUS ->
    (length (audio_buffer (ds_filter st)) < fuel)%nat \/ ds_max_frames st <= 0 ->
    exists st',
      loop fuel mixers st = Done st'
      /\ buffer_consistent (ds_filter st')
      /\ audio_buffer_frames (ds_filter st) - audio_buffer_frames (ds_filter st')
         = ds_max_frames st - ds_max_frames st'
      /\ ds_max_frames st' <= ds_max_frames st
      /\ (0 <= ds_max_frames st -> 0 <= ds_max_frames st')
      /\ same_outside_bridge (ds_filter st) (ds_filter st')
      /\ audio_skip (ds_filter st') = audio_skip (ds_filter st).
Proof.
  induction fuel as [| fuel IH]; intros st Hcons Hmax Hfuel.
  - destruct Hfuel as [Hlen | Hzero]; [lia |].
    exists st. simpl.
    replace (ds_max_frames st >? 0) with false
      by (symmetry; apply gtb_false; lia).
    simpl. repeat split; try lia; try reflexivity; apply Hcons.
  - simpl.
    destruct (ds_max_frames st >? 0) eqn:Hpos; simpl.
    2: { exists st. repeat split; try lia; try reflexivity; apply Hcons. }
    destruct (audio_buffer_frames (ds_filter st) =? 0) eqn:Hempty; simpl.
    { exists st. repeat split; try lia; try reflexivity; apply Hcons. }
    apply gtb_true in Hpos. apply Z.eqb_neq in Hempty.
    destruct (audio_buffer (ds_filter st)) as [| c rest] eqn:Hbuf.
    { destruct Hcons as (_ & Hsum & _). rewrite Hbuf in Hsum. simpl in Hsum.
      contradiction. }
    destruct (drain_chunk_consistent mixers st c rest Hcons Hbuf)
      as (Hcons' & Hdiff & Hmax' & Hsame & Hskip); [lia |].
    destruct (IH (turn mixers st c rest) Hcons') as (st' & Hrun & Hc & Hd & Hle & Hge & Hs & Hk).
    + lia.
    + unfold drain_chunk. simpl.
      set (chunk_frames := wrap_size (frames (header c) - offset (header c))).
      destruct (chunk_frames >? ds_max_frames st) eqn:Hcmp.
      * right. rewrite Z.sub_diag, wrap_size_0. lia.
      * rewrite Z.eqb_refl. left. simpl.
        destruct Hfuel as [Hlen | Hle0]; [simpl in Hlen; lia | lia].
    + exists st'. split; [exact Hrun |].
      split; [exact Hc |].
      split; [lia |].
      split; [lia |].
      split; [intros _; apply Hge; lia |].
      split; [exact (same_outside_bridge_trans _ _ _ Hsame Hs) |].
      congruence.
Qed.

(** A pull on a consistent buffer returns, leaves a consistent buffer
    and takes from the frame counter exactly the frames it drains. *)
Lemma pull_consistent (info : bool) (filter : filter_t) (ts mixers : Z)
    (mixes : mixes_t) :
  buffer_consistent filter ->
  exists r,
    pull info filter ts mixers mixes = Done r
    /\ buffer_consistent (res_filter r)
    /\ res_drained r + audio_buffer_frames (res_filter r) = audio_buffer_frames filter
    /\ 0 <= res_drained r
    /\ same_outside_bridge filter (res_filter r).
Proof.
  intros Hcons. unfold audio_input_callback.
  destruct (negb (output_active filter)
            || audio_source_type_eqb (audio_source_type filter) AUDIO_SOURCE_TYPE_SILENCE
            || negb info).
  { eexists. split; [reflexivity |]. simpl.
    repeat split; try lia; try reflexivity; apply Hcons. }
  destruct (audio_buffer_frames filter <? AUDIO_OUTPUT_FRAMES) eqn:Hstarved.
  { eexists. split; [reflexivity |]. simpl.
    repeat split; try lia; try reflexivity; apply Hcons. }
  apply Z.ltb_ge in Hstarved.
  destruct (drain_loop_consistent mixers
              (S (length (audio_buffer (set_audio_skip 0 filter))))
              {| ds_filter := set_audio_skip 0 filter;
                 ds_max_frames := AUDIO_OUTPUT_FRAMES; ds_mixes := mixes |})
    as (st' & Hrun & Hc & Hd & Hle & Hge & Hs & Hk).
  - exact Hcons.
  - simpl. destruct Hcons as (_ & _ & Hb). unfold SIZE_MODULUS, UINT32_MODULUS in *. lia.
  - left. simpl. lia.
  - rewrite Hrun. eexists. split; [reflexivity |]. simpl in *.
    split; [exact Hc |].
    split; [lia |].
    split.
    + destruct (Z_le_gt_dec 0 AUDIO_OUTPUT_FRAMES) as [Hnn | Hneg].
      * specialize (Hge Hnn). lia.
      * lia.
    + eapply same_outside_bridge_trans; [| exact Hs]. reflexivity.
Qed.

End Consistency.

(** ** Frame conservation *)

Section Conservation.

Variable MAX_AUDIO_BUFFER_FRAMES : Z.
Variable AUDIO_OUTPUT_FRAMES : Z.
Variable MAX_AUDIO_MIXES : nat.
Variable HEADER_SIZE : Z.

#[local] Abbreviation push :=
  (push_audio_to_buffer MAX_AUDIO_BUFFER_FRAMES HEADER_SIZE).
#[local] Abbreviation pull :=
  (audio_input_callback AUDIO_OUTPUT_FRAMES MAX_AUDIO_MIXES HEADER_SIZE).
#[local] Abbreviation step :=
  (bridge_step MAX_AUDIO_BUFFER_FRAMES AUDIO_OUTPUT_FRAMES MAX_AUDIO_MIXES HEADER_SIZE).
#[local] Abbreviation run_ops :=
  (bridge_run MAX_AUDIO_BUFFER_FRAMES AUDIO_OUTPUT_FRAMES MAX_AUDIO_MIXES HEADER_SIZE).

Lemma bridge_step_balanced (base : Z) (t : tally) (o : bridge_op) :
  MAX_AUDIO_BUFFER_FRAMES < SIZE_MODULUS - UINT32_MODULUS ->
  push_in_range o ->
  balanced base t ->
  exists t', step t o = Done t' /\ balanced base t'.
Proof.
  intros Hmax Hrange (Hopen & Hcons & Hbal).
  destruct o as [a | info ts mixers mixes]; simpl in *.
  - destruct Hrange as [Hrange _].
    eexists. split; [reflexivity |]. unfold balanced. simpl.
    destruct (push_consistent MAX_AUDIO_BUFFER_FRAMES HEADER_SIZE (t_filter t) a
                Hmax Hrange Hcons) as [Hcons' Hcnt].
    split; [eapply same_outside_bridge_open; [apply push_same_outside | exact Hopen] |].
    split; [exact Hcons' |].
    intros Hreset. apply orb_false_elim in Hreset as [Hr Hp].
    rewrite (Hcnt Hp). specialize (Hbal Hr).
    unfold push_accepted_frames.
    destruct (push_rejected (t_filter t) a) eqn:Hrej; [| lia].
    assert (Hz : ad_frames a = 0).
    { destruct (Z.eq_dec (ad_frames a) 0) as [Hz | Hnz]; [exact Hz |].
      rewrite (bridge_open_not_rejected _ _ Hopen Hnz) in Hrej. discriminate. }
    lia.
  - destruct (pull_consistent AUDIO_OUTPUT_FRAMES MAX_AUDIO_MIXES HEADER_SIZE
                info (t_filter t) ts mixers mixes Hcons)
      as (r & Hrun & Hcons' & Hdrained & _ & Hsame).
    rewrite Hrun. eexists. split; [reflexivity |]. unfold balanced. simpl.
    split; [eapply same_outside_bridge_open; eassumption |].
    split; [exact Hcons' |].
    intros Hreset. specialize (Hbal Hreset). lia.
Qed.

Lemma bridge_run_balanced (base : Z) (ops : list bridge_op) :
  MAX_AUDIO_BUFFER_FRAMES < SIZE_MODULUS - UINT32_MODULUS ->
  Forall push_in_range ops ->
  forall t, balanced base t ->
  exists t', run_ops t ops = Done t' /\ balanced base t'.
Proof.
  intros Hmax Hops. induction Hops as [| o ops Ho _ IH]; intros t Hbal.
  - exists t. split; [reflexivity | exact Hbal].
  - destruct (bridge_step_balanced base t o Hmax Ho Hbal) as (t1 & Hstep & Hbal1).
    simpl. rewrite Hstep. apply IH. exact Hbal1.
Qed.

(** Any sequence of pushes and pulls on an open bridge whose buffer is
    consistent runs to its end, and if none of the pushes reset the
    buffer, the frames the pulls took and the frames left in the buffer
    are the frames that were in the buffer at the start and the frames
    pushed. *)
Lemma bridge_run_conserves (filter : filter_t) (ops : list bridge_op) :
  MAX_AUDIO_BUFFER_FRAMES < SIZE_MODULUS - UINT32_MODULUS ->
  bridge_open filter ->
  buffer_consistent filter ->
  Forall push_in_range ops ->
  exists t,
    run_ops (start_tally filter) ops = Done t
    /\ (t_reset t = false ->
        t_drained t + audio_buffer_frames (t_filter t)
        = audio_buffer_frames filter + t_pushed t).
Proof.
  intros Hmax Hopen Hcons Hops.
  destruct (bridge_run_balanced (audio_buffer_frames filter) ops Hmax Hops
              (start_tally filter)) as (t & Hrun & _ & _ & Hbal).
  - unfold balanced, start_tally. simpl.
    split; [exact Hopen |]. split; [exact Hcons |]. intros _. lia.
  - exists t. split; [exact Hrun | exact Hbal].
Qed.

End Conservation.

(** ** stop_output *)

(** Case analysis on whatever a [match] or an [if] of the goal looks at. *)
Ltac split_match :=
  match goal with
  | |- context [match ?x with _ => _ end] =>
      is_var x; destruct x
  | |- context [if ?b then _ else _] =>
      is_var b; destruct b
  end.

Section Stop.

Variable host : host_t.

Lemma stop_output_run (f : filter_t) :
  run (stop_output host) f = (stopped f, stop_calls host f).
Proof.
  destruct host, f.
  unfold run, stop_output, stopped, stop_calls; simpl.
  repeat (split_match; simpl); reflexivity.
Qed.

End Stop.

(** A stop logs no error and starts no output. *)
Lemma stop_calls_quiet (host : host_t) (f : filter_t) :
  existsb is_error_log (stop_calls host f) = false
  /\ existsb is_output_start (stop_calls host f) = false.
Proof.
  destruct host, f. unfold stop_calls. simpl.
  repeat (split_match; simpl); split; reflexivity.
Qed.

(** ** Calls in sequence *)

Lemma run_call (m : M unit) (f : filter_t) : run (call m) f = run m f.
Proof. unfold call, run. destruct (m f) as [[r f1] e1]. reflexivity. Qed.

Lemma run_call_then (m k : M unit) (f : filter_t) :
  run (call m ;; k) f
  = (fst (run k (fst (run m f))), snd (run m f) ++ snd (run k (fst (run m f)))).
Proof.
  unfold bind, call, run.
  destruct (m f) as [[r f1] e1]. simpl.
  destruct (k f1) as [[r2 f2] e2]. reflexivity.
Qed.

Lemma run_call_return (m : M unit) (f : filter_t) :
  run (call m ;; return_) f = run m f.
Proof.
  rewrite run_call_then. destruct (run m f) as [f1 e1].
  unfold return_, run. simpl. rewrite app_nil_r. reflexivity.
Qed.

(** ** Idempotent stop *)

Lemma stopped_idle (f : filter_t) : idle (stopped f).
Proof. unfold idle, stopped. simpl. repeat split; reflexivity. Qed.

Lemma idle_stopped (f : filter_t) : idle f -> stopped f = f.
Proof.
  destruct f. unfold idle, stopped. simpl.
  intros (? & ? & ? & ? & ? & ? & ? & ? & ? & ? & ? & ?). subst. reflexivity.
Qed.

Lemma idle_stop_calls (host : host_t) (f : filter_t) :
  idle f -> stop_calls host f = [].
Proof.
  destruct f. unfold idle, stop_calls. simpl.
  intros (? & ? & ? & ? & ? & ? & ? & ? & ? & ? & ? & ?). subst. reflexivity.
Qed.

Lemma stop_output_idle (host : host_t) (f : filter_t) :
  idle f -> run (stop_output host) f = (f, []).
Proof.
  intros Hidle. rewrite stop_output_run.
  rewrite (idle_stopped f Hidle), (idle_stop_calls host f Hidle). reflexivity.
Qed.

(** C8. From Idle, two stops in a row leave the filter as it was and
    issue no host call and no log line.  From any filter at all, a stop
    returns and leaves the filter Idle, logs no error, and has released
    each host object that was held (stream output, service, both
    encoders, audio output, view); a second stop right after changes
    nothing and issues nothing. *)
Theorem stop_output_idempotent (host host' : host_t) (f : filter_t) :
  (idle f ->
   run (call (stop_output host) ;; call (stop_output host')) f = (f, []))
  /\ idle (fst (run (stop_output host) f))
  /\ run (stop_output host') (fst (run (stop_output host) f))
     = (fst (run (stop_output host) f), [])
  /\ existsb is_error_log (snd (run (stop_output host) f)) = false
  /\ (forall o, stream_output f = Some o ->
        In (obs_output_release o) (snd (run (stop_output host) f)))
  /\ (forall s, service f = Some s ->
        In (obs_service_release s) (snd (run (stop_output host) f)))
  /\ (forall e, audio_encoder f = Some e ->
        In (obs_encoder_release e) (snd (run (stop_output host) f)))
  /\ (forall e, video_encoder f = Some e ->
        In (obs_encoder_release e) (snd (run (stop_output host) f)))
  /\ (forall a, audio_output f = Some a ->
        In (audio_output_close a) (snd (run (stop_output host) f)))
  /\ (forall v, view f = Some v ->
        In (obs_view_destroy v) (snd (run (stop_output host) f))).
Proof.
  split.
  { intros Hidle. rewrite run_call_then, run_call.
    rewrite !(stop_output_idle host f Hidle). simpl.
    rewrite (stop_output_idle host' f Hidle). reflexivity. }
  rewrite stop_output_run. simpl.
  split; [apply stopped_idle |].
  split; [apply stop_output_idle, stopped_idle |].
  split; [apply stop_calls_quiet |].
  unfold stop_calls.
  repeat split; intros x Hx; rewrite Hx; rewrite !in_app_iff; simpl; tauto.
Qed.

(** ** start_output *)

Section Start.

Variable MAX_AUDIO_MIXES : nat.

#[local] Abbreviation start := (start_output MAX_AUDIO_MIXES).
#[local] Abbreviation body := (start_body MAX_AUDIO_MIXES).

Lemma start_output_run (host : host_t) (settings : settings_t) (f : filter_t) :
  run (start host settings) f
  = (fst (run (body host settings) (stopped f)),
     stop_calls host f ++ snd (run (body host settings) (stopped f))).
Proof.
  unfold start_output. rewrite run_call_then, stop_output_run.
  reflexivity.
Qed.

(** The condition a stuck computation waits for: the innermost
    scrutinee of its nest of branches. *)
Ltac head_of t :=
  lazymatch t with
  | match ?x with _ => _ end => head_of x
  | (match ?x with _ => _ end) _ => head_of x
  | _ => t
  end.

(** Case analysis on the condition the computation under test waits
    for, remembered in the hypotheses when it is not a variable. *)
Ltac step_head :=
  let split_on t :=
    let h := head_of t in
    first [is_var h; destruct h
          | lazymatch type of h with
            | bool => idtac
            | option _ => idtac
            end;
            let E := fresh "E" in destruct h eqn:E; try rewrite E in *] in
  lazymatch goal with
  | |- ?check ?t = true => split_on t
  | |- ?holds ?t => split_on t
  end.

(** The tests of [start_admitted], one by one. *)
Ltac admitted_tests H :=
  unfold start_admitted in H;
  repeat (let H' := fresh "Hadm" in apply andb_prop in H as [H H']);
  repeat match goal with
         | H0 : negb _ = true |- _ => apply negb_true_iff in H0
         end.

Ltac unfold_flow :=
  unfold run, start_body, retrieve_audio_source, bind, when, skip,
    ret, emit, modify, get, return_, call.


Lemma start_body_admitted (host : host_t) (settings : settings_t) (f : filter_t) :
  start_admitted host = true ->
  admitted_start settings f (run (body host settings) (stopped f)).
Proof.
  intros Hadm. admitted_tests Hadm.
  destruct host, settings, f.
  unfold stopped. unfold_flow.
  simpl in *. subst.
  repeat match goal with H : _ = false |- _ => rewrite H end.
  simpl.
  repeat (step_head; simpl in *; try discriminate Hadm5).
  all: unfold admitted_start; simpl; repeat split; try reflexivity.
  all: rewrite ?in_app_iff; simpl; tauto.
Qed.

Lemma start_body_keeps (host : host_t) (settings : settings_t) (f : filter_t) :
  kept_by_start f (run (body host settings) (stopped f)).
Proof.
  destruct host, settings, f.
  unfold stopped. unfold_flow. simpl.
  repeat (step_head; simpl in *).
  all: unfold kept_by_start; simpl; split; reflexivity.
Qed.

Lemma start_body_granted (host : host_t) (settings : settings_t) (f : filter_t) :
  start_admitted host = true ->
  acquisition_fails host settings = false ->
  host_obs_output_start host = true ->
  granted_start (run (body host settings) (stopped f)).
Proof.
  intros Hadm Hfail Hstart. admitted_tests Hadm.
  destruct host, settings, f.
  unfold acquisition_fails, audio_source_lost in Hfail.
  unfold stopped. unfold_flow.
  simpl in *. subst.
  repeat match goal with H : _ = false |- _ => rewrite H end.
  simpl.
  repeat (step_head; simpl in *; try discriminate Hfail; try discriminate Hadm5).
  all: unfold granted_start; simpl; repeat split; reflexivity.
Qed.

End Start.


(** ** video_tick *)

Lemma run_get_then (k : filter_t -> M unit) (f : filter_t) :
  run (x <- get ;; k x) f = run (k f) f.
Proof.
  unfold bind, get, run. destruct (k f f) as [[r f1] e1]. reflexivity.
Qed.

Lemma run_skip_then (k : M unit) (f : filter_t) : run (skip ;; k) f = run k f.
Proof.
  unfold bind, skip, ret, run. destruct (k f) as [[r f1] e1]. reflexivity.
Qed.

Lemma stopped_stopped (f : filter_t) : stopped (stopped f) = stopped f.
Proof. reflexivity. Qed.

Section Tick.

Variable MAX_AUDIO_MIXES : nat.
Variable CONNECT_ATTEMPTING_TIMEOUT_NS : Z.
Variable AVAILAVILITY_CHECK_INTERVAL_NS : Z.

#[local] Abbreviation start := (start_output MAX_AUDIO_MIXES).
#[local] Abbreviation body := (start_body MAX_AUDIO_MIXES).
#[local] Abbreviation restart := (restart_output MAX_AUDIO_MIXES).
#[local] Abbreviation timed_out :=
  (connect_attempting_timed_out CONNECT_ATTEMPTING_TIMEOUT_NS).
#[local] Abbreviation tick :=
  (video_tick MAX_AUDIO_MIXES CONNECT_ATTEMPTING_TIMEOUT_NS
     AVAILAVILITY_CHECK_INTERVAL_NS).

(** A tick on an enabled filter whose output is inactive, with the
    source enabled and a server configured, is a start on the current
    settings. *)
Lemma tick_inactive_starts (host : host_t) (f : filter_t) :
  filter_active f = true ->
  output_active f = false ->
  host_obs_source_enabled host = true ->
  nonempty (server (host_obs_source_get_settings host)) = true ->
  run (tick host) f = run (start host (host_obs_source_get_settings host)) f.
Proof.
  intros Hfa Hout Hen Hsrv. unfold video_tick.
  rewrite run_get_then. rewrite Hfa, Hout, Hen. unfold when at 1. simpl.
  rewrite run_skip_then. unfold when. rewrite run_call_return.
  unfold restart_output. rewrite run_get_then. rewrite Hout, Hsrv.
  unfold when. rewrite run_skip_then. apply run_call.
Qed.


(** A tick that finds the output and the stream active, the connection
    attempt timed out and the active revision behind the stored one
    logs the change and restarts. *)
Lemma tick_gap_restarts (host : host_t) (f : filter_t) :
  filter_active f = true ->
  host_obs_source_enabled host = true ->
  output_active f = true ->
  host_obs_output_active host = true ->
  timed_out host f = true ->
  active_settings_rev f < stored_settings_rev f ->
  run (tick host) f
  = (fst (run (restart host) f),
     obs_log LOG_INFO settings_changed_msg :: snd (run (restart host) f)).
Proof.
  intros Hfa Hen Hout Hstream Htime Hgap. unfold video_tick.
  rewrite run_get_then. rewrite Hfa, Hout, Hen, Hstream, Htime.
  apply Z.ltb_lt in Hgap. rewrite Hgap.
  unfold when at 1. simpl. rewrite run_skip_then.
  unfold when. unfold bind at 1. unfold skip at 1, ret at 1.
  unfold bind at 1.
  rewrite <- (run_call_return (restart host) f).
  unfold bind, emit, call, return_, run.
  destruct (restart_output MAX_AUDIO_MIXES host f) as [[r f1] e1]. reflexivity.
Qed.

Lemma restart_active_run (host : host_t) (f : filter_t) :
  output_active f = true ->
  run (restart host) f
  = if nonempty (server (host_obs_source_get_settings host))
    then (fst (run (body host (host_obs_source_get_settings host)) (stopped f)),
          stop_calls host f
          ++ snd (run (body host (host_obs_source_get_settings host)) (stopped f)))
    else (stopped f, stop_calls host f).
Proof.
  intros Hout. unfold restart_output. rewrite run_get_then, Hout.
  unfold when at 1. rewrite run_call_then, stop_output_run. simpl.
  destruct (nonempty (server (host_obs_source_get_settings host))); unfold when.
  - rewrite run_call, start_output_run, stopped_stopped.
    rewrite (idle_stop_calls host (stopped f) (stopped_idle f)). reflexivity.
  - unfold skip, ret, run. simpl. rewrite app_nil_r. reflexivity.
Qed.

(** C7 (as the code has it). With the filter enabled, the source
    enabled, the output and the stream active, the connection attempt
    timed out and the active revision behind the stored one, the tick
    logs the change, stops the output and releases it, and, if the
    current settings name a server, starts again on those settings; once
    that start gets as far as acquiring resources, the active revision
    is the stored one and the service has been asked for with the
    current settings; if the host then grants everything and starts the
    output, the output is active again. *)
Theorem revision_gap_restarts (host : host_t) (f : filter_t) (old : handle) :
  filter_active f = true ->
  host_obs_source_enabled host = true ->
  output_active f = true ->
  stream_output f = Some old ->
  host_obs_output_active host = true ->
  timed_out host f = true ->
  active_settings_rev f < stored_settings_rev f ->
  let settings := host_obs_source_get_settings host in
  let r := run (tick host) f in
  In (obs_log LOG_INFO settings_changed_msg) (snd r)
  /\ In (obs_output_stop old) (snd r)
  /\ In (obs_output_release old) (snd r)
  /\ stored_settings_rev (fst r) = stored_settings_rev f
  /\ (nonempty (server settings) = true ->
      start_admitted host = true ->
      active_settings_rev (fst r) = stored_settings_rev f
      /\ In (obs_service_create settings) (snd r)
      /\ (acquisition_fails host settings = false ->
          host_obs_output_start host = true ->
          output_active (fst r) = true))
  /\ (nonempty (server settings) = false -> fst r = stopped f).
Proof.
  intros Hfa Hen Hout Hold Hstream Htime Hgap settings r.
  subst r. rewrite (tick_gap_restarts host f Hfa Hen Hout Hstream Htime Hgap).
  rewrite (restart_active_run host f Hout). fold settings.
  assert (Hstop : In (obs_output_stop old) (stop_calls host f)
                  /\ In (obs_output_release old) (stop_calls host f)).
  { unfold stop_calls. rewrite Hold, Hout. simpl. tauto. }
  destruct Hstop as [Hstop Hrel].
  pose proof (start_body_keeps MAX_AUDIO_MIXES host settings f) as [Hst _].
  destruct (nonempty (server settings)) eqn:Hsrv; simpl.
  - split; [left; reflexivity |].
    split; [right; apply in_or_app; left; exact Hstop |].
    split; [right; apply in_or_app; left; exact Hrel |].
    split; [exact Hst |].
    split; [| discriminate].
    intros _ Hadm.
    destruct (start_body_admitted MAX_AUDIO_MIXES host settings f Hadm)
      as (Hrev & _ & _ & Hsvc).
    split; [exact Hrev |].
    split; [right; apply in_or_app; right; exact Hsvc |].
    intros Hgrant Hstart.
    apply (start_body_granted MAX_AUDIO_MIXES host settings f Hadm Hgrant Hstart).
  - split; [left; reflexivity |].
    split; [right; exact Hstop |].
    split; [right; exact Hrel |].
    split; [reflexivity |].
    split; [discriminate | reflexivity].
Qed.

End Tick.

(** ** Mixing into a destination *)

(** The innermost loop on arrays that hold the positions it touches. *)
Lemma accumulate_app (mid imid : list sample) :
  length mid = length imid ->
  forall pre post ipre ipost,
    accumulate (length mid) (length pre) (length ipre)
      (ipre ++ imid ++ ipost) (pre ++ mid ++ post)
    = pre ++ zip_with mix_sample mid imid ++ post.
Proof.
  revert imid. induction mid as [| o mid IH]; intros [| x imid] Hlen;
    try discriminate; intros pre post ipre ipost.
  - reflexivity.
  - simpl in Hlen. injection Hlen as Hlen.
    cbn [length accumulate].
    change ((o :: mid) ++ post) with (o :: mid ++ post).
    change ((x :: imid) ++ ipost) with (x :: imid ++ ipost).
    change (zip_with mix_sample (o :: mid) (x :: imid))
      with (mix_sample o x :: zip_with mix_sample mid imid).
    rewrite (list_lookup_middle pre (mid ++ post) o (length pre) eq_refl).
    rewrite (list_lookup_middle ipre (imid ++ ipost) x (length ipre) eq_refl).
    rewrite insert_app_r_alt by lia. rewrite Nat.sub_diag.
    change (<[0%nat:=mix_sample o x]> (o :: mid ++ post))
      with (mix_sample o x :: mid ++ post).
    replace (pre ++ mix_sample o x :: mid ++ post)
      with ((pre ++ [mix_sample o x]) ++ mid ++ post)
      by (rewrite <- app_assoc; reflexivity).
    replace (ipre ++ x :: imid ++ ipost) with ((ipre ++ [x]) ++ imid ++ ipost)
      by (rewrite <- app_assoc; reflexivity).
    replace (S (length pre)) with (length (pre ++ [mix_sample o x]))
      by (rewrite length_app; simpl; lia).
    replace (S (length ipre)) with (length (ipre ++ [x]))
      by (rewrite length_app; simpl; lia).
    rewrite (IH imid Hlen). rewrite <- app_assoc. reflexivity.
Qed.

(** The innermost loop, when the destination holds [out_pos + n] samples
    and the input [in_pos + n]: the [n] input samples from [in_pos] on
    are mixed onto the destination from [out_pos] on. *)
Lemma accumulate_mixed (n out_pos in_pos : nat) (inp out : list sample) :
  (out_pos + n <= length out)%nat ->
  (in_pos + n <= length inp)%nat ->
  accumulate n out_pos in_pos inp out
  = mixed_into out_pos out (take n (drop in_pos inp)).
Proof.
  intros Hout Hin.
  assert (Hlen : length (take n (drop out_pos out)) = length (take n (drop in_pos inp))).
  { rewrite !length_take, !length_drop. lia. }
  pose proof (accumulate_app _ _ Hlen (take out_pos out) (drop (out_pos + n) out)
                (take in_pos inp) (drop (in_pos + n) inp)) as Happ.
  rewrite length_take, length_drop in Happ.
  rewrite !length_take in Happ.
  replace (n `min` (length out - out_pos))%nat with n in Happ by lia.
  replace (out_pos `min` length out)%nat with out_pos in Happ by lia.
  replace (in_pos `min` length inp)%nat with in_pos in Happ by lia.
  assert (Hsplit : forall (l : list sample) p,
             take p l ++ take n (drop p l) ++ drop (p + n) l = l).
  { intros l p. rewrite app_assoc, take_take_drop. apply take_drop. }
  rewrite !Hsplit in Happ. rewrite Happ.
  unfold mixed_into. rewrite length_take, length_drop.
  replace (n `min` (length inp - in_pos))%nat with n by lia.
  reflexivity.
Qed.

(** ** Which destinations a chunk is mixed into *)

(** A loop over indices [0 .. n-1] whose turn [i] changes entry [i] only. *)
Lemma foldl_pointwise {A} (g : list A -> nat -> list A) (F : nat -> A -> A) :
  (forall l i j, g l i !! j = (if (j =? i)%nat then F i else id) <$> l !! j) ->
  forall n l j,
    foldl g l (seq 0 n) !! j = (if (j <? n)%nat then F j else id) <$> l !! j.
Proof.
  intros Hg. induction n as [| n IH]; intros l j.
  - simpl. destruct (l !! j); reflexivity.
  - rewrite seq_S, foldl_snoc, Hg, IH. simpl.
    destruct (Nat.eqb_spec j n) as [-> | Hne].
    + rewrite Nat.ltb_irrefl.
      replace (n <? S n)%nat with true by (symmetry; apply Nat.ltb_lt; lia).
      destruct (l !! n); reflexivity.
    + destruct (Nat.ltb_spec j n) as [Hlt | Hge].
      * replace (j <? S n)%nat with true by (symmetry; apply Nat.ltb_lt; lia).
        destruct (l !! j); reflexivity.
      * replace (j <? S n)%nat with false by (symmetry; apply Nat.ltb_ge; lia).
        destruct (l !! j); reflexivity.
Qed.

Section MixChunk.

Variable MAX_AUDIO_MIXES : nat.
Variable HEADER_SIZE : Z.
Variable nch : nat.
Variable mixers : Z.
Variable hdr : audio_buffer_chunk_header_t.
Variable conv : list sample.
Variable nframes out_offset : Z.

#[local] Abbreviation on_channel := (channel_mix HEADER_SIZE hdr conv nframes out_offset).
#[local] Abbreviation channel_turn := (mix_channel HEADER_SIZE hdr conv nframes out_offset).
#[local] Abbreviation bus_turn := (mix_bus HEADER_SIZE nch mixers hdr conv nframes out_offset).

Lemma mix_channel_lookup (m : nat) (mixes : mixes_t) (ch m' : nat) :
  channel_turn m mixes ch !! m'
  = (if (m' =? m)%nat then alter (on_channel ch) ch else id) <$> mixes !! m'.
Proof.
  unfold mix_channel, channel_mix.
  destruct (Nat.eqb_spec m' m) as [-> | Hne].
  - destruct (data_idx_at hdr ch =? 0).
    + destruct (mixes !! m) as [bus |]; simpl; [| reflexivity].
      rewrite (list_alter_id id) by reflexivity. reflexivity.
    + apply list_lookup_alter_eq.
  - destruct (data_idx_at hdr ch =? 0).
    + destruct (mixes !! m'); reflexivity.
    + rewrite list_lookup_alter_ne by congruence.
      destruct (mixes !! m'); reflexivity.
Qed.

Lemma mix_channels_lookup (m : nat) (chs : list nat) :
  forall (mixes : mixes_t) (m' : nat),
    foldl (channel_turn m) mixes chs !! m'
    = (if (m' =? m)%nat
       then fun bus => foldl (fun b ch => alter (on_channel ch) ch b) bus chs
       else id) <$> mixes !! m'.
Proof.
  induction chs as [| ch chs IH]; intros mixes m'; simpl.
  - destruct (m' =? m)%nat, (mixes !! m'); reflexivity.
  - rewrite IH, mix_channel_lookup.
    destruct (m' =? m)%nat, (mixes !! m'); reflexivity.
Qed.

Lemma mix_bus_lookup (mixes : mixes_t) (m m' : nat) :
  bus_turn mixes m !! m'
  = (if (m' =? m)%nat
     then fun bus =>
            if Z.land mixers (Z.shiftl 1 (Z.of_nat m)) =? 0 then bus
            else foldl (fun b ch => alter (on_channel ch) ch b) bus (seq 0 nch)
     else id) <$> mixes !! m'.
Proof.
  unfold mix_bus.
  destruct (Z.land mixers (Z.shiftl 1 (Z.of_nat m)) =? 0).
  - destruct (m' =? m)%nat, (mixes !! m'); reflexivity.
  - apply mix_channels_lookup.
Qed.

(** Every destination array after one chunk: those of a selected bus and
    of a channel below the channel count went through [channel_mix], all
    others are as they were. *)
Lemma mix_chunk_channel (mixes : mixes_t) (m ch : nat) :
  bus_channel
    (mix_chunk MAX_AUDIO_MIXES HEADER_SIZE nch mixers hdr conv nframes out_offset mixes)
    m ch
  = (if bus_selected MAX_AUDIO_MIXES mixers m && (ch <? nch)%nat
     then on_channel ch else id) <$> bus_channel mixes m ch.
Proof.
  unfold bus_channel, mix_chunk, bus_selected.
  rewrite (foldl_pointwise bus_turn
             (fun m bus =>
                if Z.land mixers (Z.shiftl 1 (Z.of_nat m)) =? 0 then bus
                else foldl (fun b ch => alter (on_channel ch) ch b) bus (seq 0 nch)))
    by (intros; apply mix_bus_lookup).
  destruct (mixes !! m) as [bus |]; simpl.
  2: { destruct (m <? MAX_AUDIO_MIXES)%nat; reflexivity. }
  destruct (m <? MAX_AUDIO_MIXES)%nat; simpl.
  2: { destruct (bus !! ch); reflexivity. }
  destruct (Z.land mixers (Z.shiftl 1 (Z.of_nat m)) =? 0); simpl.
  { destruct (bus !! ch); reflexivity. }
  apply (foldl_pointwise (fun b ch => alter (on_channel ch) ch b) on_channel).
  intros l i j. destruct (Nat.eqb_spec j i) as [-> | Hne].
  - apply list_lookup_alter_eq.
  - rewrite list_lookup_alter_ne by congruence. destruct (l !! j); reflexivity.
Qed.

End MixChunk.

(** ** The layout of a pushed chunk *)

Lemma present_before_le (a : obs_audio_data) (ch : nat) :
  (present_before a ch <= ch)%nat.
Proof.
  induction ch as [| ch IH]; simpl; [lia |].
  destruct (is_some (ad_data_at a ch)); lia.
Qed.

Lemma present_before_mono (a : obs_audio_data) (ch ch' : nat) :
  (ch <= ch')%nat -> (present_before a ch <= present_before a ch')%nat.
Proof.
  induction 1 as [| ch' _ IH]; [lia |]. simpl.
  destruct (is_some (ad_data_at a ch')); lia.
Qed.

Section PushedChunk.

Variable HEADER_SIZE : Z.
Variable a : obs_audio_data.
Variable nch : nat.

Hypothesis header_positive : 0 < HEADER_SIZE.
Hypothesis frames_positive : 0 < ad_frames a.
Hypothesis chunk_fits :
  HEADER_SIZE + 4 * ad_frames a * Z.of_nat nch < SIZE_MODULUS.
Hypothesis sized : planes_sized a.
Hypothesis whole : planes_whole a.

#[local] Abbreviation nframes := (Z.to_nat (ad_frames a)).
#[local] Abbreviation header_after n :=
  (foldl (header_step HEADER_SIZE a)
     {| data_idx := replicate nch 0; frames := ad_frames a;
        timestamp := ad_timestamp a; offset := 0; channels := 0 |}
     (seq 0 n)).

Lemma header_after_spec (n : nat) :
  (n <= nch)%nat ->
  channels (header_after n) = Z.of_nat (present_before a n)
  /\ length (data_idx (header_after n)) = nch
  /\ forall ch,
       data_idx_at (header_after n) ch
       = if (ch <? n)%nat && is_some (ad_data_at a ch)
         then HEADER_SIZE + Z.of_nat (present_before a ch) * ad_frames a * 4
         else 0.
Proof using header_positive frames_positive chunk_fits.
  induction n as [| n IH]; intros Hn.
  - simpl. split; [reflexivity |]. split; [apply length_replicate |].
    intros ch. unfold data_idx_at. simpl.
    destruct (replicate nch 0 !! ch) eqn:Hl; [| reflexivity].
    apply lookup_replicate in Hl as [-> _]. reflexivity.
  - destruct IH as (Hc & Hl & Hd); [lia |].
    rewrite seq_S, foldl_snoc.
    set (h := header_after n) in *.
    change (0 + n)%nat with n. unfold header_step. cbn [present_before].
    destruct (ad_data_at a n) as [xs |] eqn:Hdata; simpl.
    + pose proof (present_before_le a n) as Hle.
      split.
      { rewrite Hc. rewrite wrap_size_small; [lia |]. unfold SIZE_MODULUS in *. nia. }
      split; [rewrite length_insert; exact Hl |].
      intros ch. unfold data_idx_at. simpl.
      destruct (Nat.eq_dec ch n) as [-> | Hne].
      * rewrite list_lookup_insert_eq by lia. simpl.
        replace (n <? S n)%nat with true by (symmetry; apply Nat.ltb_lt; lia).
        rewrite Hdata. simpl. rewrite Hc.
        apply wrap_size_small. unfold SIZE_MODULUS in *. nia.
      * rewrite list_lookup_insert_ne by congruence.
        specialize (Hd ch). unfold data_idx_at in Hd. rewrite Hd.
        replace (ch <? S n)%nat with (ch <? n)%nat; [reflexivity |].
        destruct (Nat.ltb_spec ch n), (Nat.ltb_spec ch (S n)); try reflexivity; lia.
    + split; [rewrite Hc; lia |]. split; [exact Hl |].
      intros ch. rewrite Hd.
      destruct (Nat.eq_dec ch n) as [-> | Hne].
      * rewrite Nat.ltb_irrefl. rewrite Hdata. simpl. rewrite andb_false_r. reflexivity.
      * replace (ch <? S n)%nat with (ch <? n)%nat; [reflexivity |].
        destruct (Nat.ltb_spec ch n), (Nat.ltb_spec ch (S n)); try reflexivity; lia.
Qed.

Lemma compute_header_channels :
  channels (compute_header HEADER_SIZE nch a) = Z.of_nat (present_before a nch).
Proof using header_positive frames_positive chunk_fits. apply (header_after_spec nch). lia. Qed.

Lemma compute_header_data_idx (ch : nat) :
  (ch < nch)%nat ->
  data_idx_at (compute_header HEADER_SIZE nch a) ch
  = if is_some (ad_data_at a ch)
    then HEADER_SIZE + Z.of_nat (present_before a ch) * ad_frames a * 4
    else 0.
Proof using header_positive frames_positive chunk_fits.
  intros Hch. destruct (header_after_spec nch) as (_ & _ & Hd); [lia |].
  unfold compute_header. rewrite Hd.
  replace (ch <? nch)%nat with true by (symmetry; apply Nat.ltb_lt; lia).
  reflexivity.
Qed.

(** The floats of a plane that the push appends: [frames] of them. *)
Lemma plane_floats : (ad_frames a * 4) mod UINT32_MODULUS / 4 = ad_frames a.
Proof using frames_positive whole.
  clear header_positive chunk_fits sized.
  unfold planes_whole in whole.
  rewrite Z.mod_small by lia. apply Z.div_mul. discriminate.
Qed.

Lemma plane_length (ch : nat) :
  length (plane a ch) = if is_some (ad_data_at a ch) then nframes else O.
Proof using frames_positive sized whole.
  clear header_positive chunk_fits.
  unfold plane. rewrite plane_floats.
  destruct (ad_data_at a ch) as [xs |] eqn:Hdata; simpl.
  - rewrite length_take. specialize (sized ch xs Hdata). lia.
  - reflexivity.
Qed.

Lemma planes_length (n : nat) :
  length (compute_payload n a) = (present_before a n * nframes)%nat.
Proof using frames_positive sized whole.
  clear header_positive chunk_fits.
  unfold compute_payload. induction n as [| n IH]; [reflexivity |].
  rewrite seq_S, map_app, concat_app, length_app, IH. simpl.
  rewrite app_nil_r, plane_length.
  destruct (is_some (ad_data_at a n)); lia.
Qed.

(** The size the draining loop computes from the header of a pushed
    chunk is the size of what push appended: the header and four bytes
    for every sample of the payload. *)
Lemma pushed_chunk_framed :
  wrap_size
    (HEADER_SIZE
     + channels (compute_header HEADER_SIZE nch a)
       * frames (compute_header HEADER_SIZE nch a) * 4)
  = HEADER_SIZE + 4 * Z.of_nat (length (compute_payload nch a)).
Proof using header_positive frames_positive chunk_fits sized whole.
  rewrite compute_header_channels, compute_header_frames, planes_length.
  pose proof (present_before_le a nch) as Hle.
  rewrite wrap_size_small by (unfold SIZE_MODULUS in *; nia).
  nia.
Qed.

(** The plane of a channel lies in the payload behind the planes of the
    present channels below it. *)
Lemma payload_split (ch : nat) :
  (ch < nch)%nat ->
  exists behind,
    compute_payload nch a = compute_payload ch a ++ plane a ch ++ behind.
Proof using Type.
  clear header_positive frames_positive chunk_fits sized.
  intros Hch. unfold compute_payload.
  assert (Hseq : seq 0 nch = seq 0 ch ++ ch :: seq (S ch) (nch - S ch)).
  { replace nch with (ch + S (nch - S ch))%nat at 1 by lia.
    rewrite seq_app. reflexivity. }
  rewrite Hseq, map_app, concat_app. simpl.
  eexists. reflexivity.
Qed.

(** The samples the draining loop reads for a present channel when [k]
    frames of the chunk are drained already and it takes [n] more. *)
Lemma payload_window (ch : nat) (k n : nat) :
  (ch < nch)%nat ->
  is_some (ad_data_at a ch) = true ->
  (k + n <= nframes)%nat ->
  take n (drop (present_before a ch * nframes + k) (compute_payload nch a))
  = take n (drop k (plane a ch)).
Proof using frames_positive sized whole.
  clear header_positive chunk_fits.
  intros Hch Hpresent Hkn.
  destruct (payload_split ch Hch) as [behind ->].
  pose proof (plane_length ch) as Hlen. rewrite Hpresent in Hlen.
  rewrite drop_app_ge by (rewrite planes_length; lia).
  rewrite planes_length.
  replace (present_before a ch * nframes + k - present_before a ch * nframes)%nat
    with k by lia.
  rewrite drop_app_le by lia.
  rewrite take_app_le by (rewrite length_drop; lia).
  reflexivity.
Qed.

End PushedChunk.

(** ** A pull served by the front chunk *)

Section LoopEquations.

Variable AUDIO_OUTPUT_FRAMES : Z.
Variable MAX_AUDIO_MIXES : nat.
Variable HEADER_SIZE : Z.

#[local] Abbreviation loop :=
  (drain_loop AUDIO_OUTPUT_FRAMES MAX_AUDIO_MIXES HEADER_SIZE).
#[local] Abbreviation turn :=
  (drain_chunk AUDIO_OUTPUT_FRAMES MAX_AUDIO_MIXES HEADER_SIZE).

Lemma drain_loop_done (fuel : nat) (mixers : Z) (st : drain_state) :
  ds_max_frames st = 0 -> loop fuel mixers st = Done st.
Proof. intros Hz. destruct fuel; simpl; rewrite Hz; reflexivity. Qed.

Lemma drain_loop_turn (fuel : nat) (mixers : Z) (st : drain_state)
    (c : chunk_t) (rest : list chunk_t) :
  0 < ds_max_frames st ->
  audio_buffer_frames (ds_filter st) <> 0 ->
  audio_buffer (ds_filter st) = c :: rest ->
  loop (S fuel) mixers st = loop fuel mixers (turn mixers st c rest).
Proof.
  intros Hmax Hbuf Hfront. cbn [drain_loop].
  apply gtb_true in Hmax. apply Z.eqb_neq in Hbuf.
  rewrite Hmax, Hbuf, Hfront. reflexivity.
Qed.

End LoopEquations.

Section FrontPull.

Variable MAX_AUDIO_MIXES : nat.
Variable HEADER_SIZE : Z.
Variable a : obs_audio_data.
Variable filter : filter_t.
Variable rest : list chunk_t.
(** the frames of the front chunk drained so far, and the frames of
    this pull *)
Variable k n : Z.

#[local] Abbreviation nch := (Z.to_nat (audio_channels filter)).
#[local] Abbreviation pushed := (pushed_chunk HEADER_SIZE filter a).

Hypothesis header_positive : 0 < HEADER_SIZE.
Hypothesis in_range : frames_in_range a.
Hypothesis frames_positive : 0 < ad_frames a.
Hypothesis chunk_fits :
  HEADER_SIZE + 4 * ad_frames a * Z.of_nat nch < SIZE_MODULUS.
Hypothesis sized : planes_sized a.
Hypothesis whole : planes_whole a.
Hypothesis open : bridge_open filter.
Hypothesis front : audio_buffer filter = drained_to k pushed :: rest.
Hypothesis drained_so_far : 0 <= k.
Hypothesis taken : 0 < n.
Hypothesis within_chunk : k + n <= ad_frames a.
Hypothesis not_starved : n <= audio_buffer_frames filter < SIZE_MODULUS.

#[local] Abbreviation pull := (audio_input_callback n MAX_AUDIO_MIXES HEADER_SIZE).

Lemma front_conv :
  take
    (Z.to_nat
       ((wrap_size
           (HEADER_SIZE
            + channels (header (drained_to k pushed))
              * frames (header (drained_to k pushed)) * 4)
         - HEADER_SIZE) / 4))
    (payload (drained_to k pushed))
  = compute_payload nch a.
Proof using header_positive frames_positive chunk_fits sized whole.
  clear in_range open front drained_so_far taken within_chunk not_starved.
  simpl.
  rewrite (compute_header_channels HEADER_SIZE a nch header_positive frames_positive
             chunk_fits).
  rewrite compute_header_frames.
  pose proof (present_before_le a nch) as Hle.
  rewrite wrap_size_small by (unfold SIZE_MODULUS in *; nia).
  apply take_ge. rewrite (planes_length a frames_positive sized whole).
  replace (HEADER_SIZE + Z.of_nat (present_before a nch) * ad_frames a * 4 - HEADER_SIZE)
    with (Z.of_nat (present_before a nch) * ad_frames a * 4) by lia.
  rewrite Z.div_mul by lia. nia.
Qed.

(** One destination array under this pull. *)
Lemma front_channel_mix (ch : nat) (out : list sample) :
  (Z.to_nat n <= length out)%nat ->
  channel_mix HEADER_SIZE (header (drained_to k pushed)) (compute_payload nch a)
    n 0 ch out
  = if (ch <? nch)%nat && is_some (ad_data_at a ch)
    then mixed_into 0 out (front_window a k n ch)
    else out.
Proof using header_positive frames_positive chunk_fits sized whole drained_so_far taken
  within_chunk.
  clear in_range open front not_starved.
  intros Hout. unfold channel_mix.
  change (data_idx_at (header (drained_to k pushed)) ch)
    with (data_idx_at (compute_header HEADER_SIZE nch a) ch).
  destruct (Nat.ltb_spec ch nch) as [Hch | Hch]; cbn [andb].
  - rewrite (compute_header_data_idx HEADER_SIZE a nch header_positive frames_positive
               chunk_fits ch Hch).
    destruct (is_some (ad_data_at a ch)) eqn:Hpresent.
    + pose proof (present_before_le a ch) as Hle.
      replace (HEADER_SIZE + Z.of_nat (present_before a ch) * ad_frames a * 4 =? 0)
        with false by (symmetry; apply Z.eqb_neq; nia).
      assert (Hpos' : in_position HEADER_SIZE (header (drained_to k pushed)) ch
                      = (present_before a ch * Z.to_nat (ad_frames a) + Z.to_nat k)%nat).
      { unfold in_position.
        change (data_idx_at (header (drained_to k pushed)) ch)
          with (data_idx_at (compute_header HEADER_SIZE nch a) ch).
        rewrite (compute_header_data_idx HEADER_SIZE a nch header_positive
                   frames_positive chunk_fits ch Hch), Hpresent.
        change (offset (header (drained_to k pushed))) with k.
        replace (HEADER_SIZE + Z.of_nat (present_before a ch) * ad_frames a * 4
                 - HEADER_SIZE)
          with (Z.of_nat (present_before a ch) * ad_frames a * 4) by lia.
        rewrite Z.div_mul by lia. nia. }
      rewrite Hpos'.
      assert (Hnext : (present_before a ch + 1 <= present_before a nch)%nat).
      { pose proof (present_before_mono a (S ch) nch ltac:(lia)) as Hm.
        simpl in Hm. rewrite Hpresent in Hm. exact Hm. }
      rewrite accumulate_mixed.
      * unfold front_window.
        rewrite (payload_window a nch frames_positive sized whole ch (Z.to_nat k) (Z.to_nat n) Hch Hpresent)
          by lia.
        reflexivity.
      * simpl. lia.
      * rewrite (planes_length a frames_positive sized whole). nia.
    + reflexivity.
  - destruct (data_idx_at (compute_header HEADER_SIZE nch a) ch =? 0) eqn:Hz;
      [reflexivity |].
    exfalso. apply Z.eqb_neq in Hz. apply Hz.
    destruct (header_after_spec HEADER_SIZE a nch header_positive frames_positive
                chunk_fits nch) as (_ & _ & Hd); [lia |].
    unfold compute_header. rewrite Hd.
    replace (ch <? nch)%nat with false by (symmetry; apply Nat.ltb_ge; lia).
    reflexivity.
Qed.

(** The pull returns; the deque keeps the front chunk with its offset
    advanced, or loses it when the pull took all that was left of it;
    every destination array of a selected bus and a present channel has
    the window of the chunk mixed onto its first frames; every other
    array is as it was. *)
Lemma pull_front (start_ts_in mixers : Z) (mixes : mixes_t) :
  exists r,
    pull true filter start_ts_in mixers mixes = Done r
    /\ res_filter r = after_front_pull HEADER_SIZE a filter rest k n
    /\ res_drained r = n
    /\ res_log r = []
    /\ forall m ch out,
         bus_channel mixes m ch = Some out ->
         (Z.to_nat n <= length out)%nat ->
         bus_channel (res_mixes r) m ch
         = Some (if bus_selected MAX_AUDIO_MIXES mixers m
                    && (ch <? nch)%nat && is_some (ad_data_at a ch)
                 then mixed_into 0 out (front_window a k n ch)
                 else out).
Proof using All.
  destruct open as [Hactive Hsource].
  unfold frames_in_range, UINT32_MODULUS in in_range.
  unfold audio_input_callback. rewrite Hactive.
  replace (audio_source_type_eqb (audio_source_type filter) AUDIO_SOURCE_TYPE_SILENCE)
    with false by (destruct (audio_source_type filter); try reflexivity; congruence).
  cbn [negb orb].
  replace (audio_buffer_frames filter <? n) with false
    by (symmetry; apply Z.ltb_ge; lia).
  change (audio_buffer (set_audio_skip 0 filter)) with (audio_buffer filter).
  erewrite drain_loop_turn; [| simpl; lia | simpl; lia | simpl; exact front].
  rewrite drain_loop_done.
  2: { unfold drain_chunk. cbn [ds_max_frames].
       change (frames (header (drained_to k pushed)))
         with (frames (compute_header HEADER_SIZE nch a)).
       change (offset (header (drained_to k pushed))) with k.
       rewrite compute_header_frames.
       rewrite (wrap_size_small (ad_frames a - k)) by (unfold SIZE_MODULUS; lia).
       destruct (ad_frames a - k >? n) eqn:Hcmp.
       - rewrite Z.sub_diag. reflexivity.
       - apply gtb_false in Hcmp. replace (ad_frames a - k) with n by lia.
         rewrite Z.sub_diag. reflexivity. }
  eexists. split; [reflexivity |].
  unfold drain_chunk. cbn [res_filter res_drained res_log res_mixes ds_filter
                             ds_max_frames ds_mixes].
  rewrite front_conv.
  change (frames (header (drained_to k pushed)))
    with (frames (compute_header HEADER_SIZE nch a)).
  change (offset (header (drained_to k pushed))) with k.
  rewrite compute_header_frames.
  rewrite (wrap_size_small (ad_frames a - k)) by (unfold SIZE_MODULUS; lia).
  assert (Htake : (if ad_frames a - k >? n then n else ad_frames a - k) = n).
  { destruct (ad_frames a - k >? n) eqn:Hcmp; [reflexivity |].
    apply gtb_false in Hcmp. lia. }
  rewrite Htake.
  change (audio_buffer_frames (set_audio_skip 0 filter))
    with (audio_buffer_frames filter).
  change (audio_channels (set_audio_skip 0 filter)) with (audio_channels filter).
  rewrite Z.sub_diag, wrap_size_0.
  rewrite (wrap_size_small (audio_buffer_frames filter - n))
    by (unfold SIZE_MODULUS in *; lia).
  rewrite (wrap_size_small (k + n)) by (unfold SIZE_MODULUS; lia).
  split.
  { unfold after_front_pull.
    replace (n =? ad_frames a - k) with (k + n =? ad_frames a)
      by (destruct (Z.eqb_spec (k + n) (ad_frames a)), (Z.eqb_spec n (ad_frames a - k));
          try reflexivity; lia).
    reflexivity. }
  split; [lia |].
  split; [reflexivity |].
  intros m ch out Hbus Hlen.
  rewrite mix_chunk_channel, Hbus. cbn [fmap option_fmap option_map].
  destruct (bus_selected MAX_AUDIO_MIXES mixers m); cbn [andb].
  - destruct (Nat.ltb_spec ch nch) as [Hch | Hch]; cbn [andb].
    + rewrite (front_channel_mix ch out Hlen).
      replace (ch <? nch)%nat with true by (symmetry; apply Nat.ltb_lt; lia).
      reflexivity.
    + reflexivity.
  - reflexivity.
Qed.

End FrontPull.

(** ** Mixed destinations, sample by sample *)

Lemma mixed_into_front (out w : list sample) :
  mixed_into 0 out w = zip_with mix_sample (take (length w) out) w ++ drop (length w) out.
Proof. unfold mixed_into. rewrite take_0, drop_0. reflexivity. Qed.

Lemma take_mixed_into (out w : list sample) :
  (length w <= length out)%nat ->
  take (length w) (mixed_into 0 out w) = zip_with mix_sample (take (length w) out) w.
Proof.
  intros Hlen. rewrite mixed_into_front.
  apply take_app_length'. rewrite length_zip_with, length_take. lia.
Qed.

Lemma mixed_into_lookup (out w : list sample) (i : nat) (o x : sample) :
  out !! i = Some o ->
  w !! i = Some x ->
  mixed_into 0 out w !! i = Some (mix_sample o x).
Proof.
  intros Ho Hx. rewrite mixed_into_front.
  apply lookup_lt_Some in Hx as Hi.
  rewrite lookup_app_l by (rewrite length_zip_with, length_take;
                            apply lookup_lt_Some in Ho; lia).
  rewrite lookup_zip_with, lookup_take_lt by lia. rewrite Ho, Hx. reflexivity.
Qed.

Lemma mixed_into_length (out w : list sample) :
  (length w <= length out)%nat -> length (mixed_into 0 out w) = length out.
Proof.
  intros Hlen. rewrite mixed_into_front, length_app, length_zip_with,
    length_take, length_drop. lia.
Qed.

Lemma mix_onto_silence (w : list sample) :
  zip_with mix_sample (replicate (length w) f32_zero) w = map (mix_sample f32_zero) w.
Proof. induction w as [| x w IH]; simpl; [reflexivity | rewrite IH; reflexivity]. Qed.

(** The order of the binary32 numbers, read from either side. *)
Lemma SFcompare_swap (a b : sample) :
  SFcompare b a = option_map CompOpp (SFcompare a b).
Proof.
  destruct a as [sa | sa | | sa ma ea], b as [sb | sb | | sb mb eb]; simpl;
    try reflexivity; try (destruct sa; reflexivity); try (destruct sb; reflexivity);
    try (destruct sa, sb; reflexivity).
  destruct sa, sb; simpl; try reflexivity.
  - rewrite (Z.compare_antisym eb ea).
    destruct (eb ?= ea)%Z; simpl; try reflexivity.
    rewrite CompOpp_involutive. f_equal. symmetry. exact (Pos.compare_antisym mb ma).
  - rewrite (Z.compare_antisym eb ea).
    destruct (eb ?= ea)%Z; simpl; try reflexivity.
    f_equal. exact (Pos.compare_antisym ma mb).
Qed.

Lemma SFltb_false_le (a b : sample) :
  is_nan a = false -> is_nan b = false ->
  SFltb a b = false ->
  SFcompare b a = Some Lt \/ SFcompare b a = Some Eq.
Proof.
  intros Ha Hb Hlt. unfold SFltb in Hlt. rewrite (SFcompare_swap a b).
  destruct (SFcompare a b) as [[| |] |] eqn:Hc; simpl; try discriminate; auto.
  destruct a, b; try discriminate; simpl in Hc; discriminate.
Qed.

(** The innermost loop body is the sum of the library, hard-clipped. *)
Lemma mix_sample_sum (o x : sample) : mix_sample o x = clipped_sum o x.
Proof. reflexivity. Qed.

(** The hard clip of a number is within [-1, 1]; the hard clip of a NaN
    is the NaN. *)
Lemma hard_clip_range (s : sample) :
  is_nan s = false -> in_unit_range (hard_clip s).
Proof.
  intros Hs. unfold hard_clip.
  destruct (SFltb f32_one s) eqn:Hup.
  { split; [left | right]; reflexivity. }
  destruct (SFltb s f32_minus_one) eqn:Hdown.
  { split; [right | left]; reflexivity. }
  split.
  - apply SFltb_false_le; [exact Hs | reflexivity | exact Hdown].
  - apply SFltb_false_le; [reflexivity | exact Hs | exact Hup].
Qed.

Lemma hard_clip_nan (s : sample) : is_nan s = true -> hard_clip s = S754_nan.
Proof. destruct s; try discriminate. reflexivity. Qed.

Lemma nan_outside (s : sample) : is_nan s = true -> ~ in_unit_range s.
Proof. destruct s; try discriminate. intros _ [[H | H] _]; discriminate. Qed.

(** Onto silence a sample of [-1, 1] other than the negative zero comes
    out as it is. *)
Lemma plain_sample_passes (x : sample) :
  plain_sample x -> clipped_sum f32_zero x = x.
Proof.
  intros [[Hlow Hhigh] Hzero].
  assert (Hnum : is_nan x = false)
    by (destruct x; try reflexivity; destruct Hlow; discriminate).
  assert (Hsum : SFadd 24 128 f32_zero x = x).
  { destruct x as [[|] | | |]; try reflexivity; try discriminate.
    exfalso. apply Hzero. reflexivity. }
  unfold clipped_sum, hard_clip. rewrite Hsum.
  assert (Hup : SFltb f32_one x = false).
  { unfold SFltb. rewrite (SFcompare_swap x f32_one).
    destruct Hhigh as [-> | ->]; reflexivity. }
  assert (Hdown : SFltb x f32_minus_one = false).
  { unfold SFltb. rewrite (SFcompare_swap f32_minus_one x).
    destruct Hlow as [-> | ->]; reflexivity. }
  rewrite Hup, Hdown. reflexivity.
Qed.

Lemma mix_unchanged (w : list sample) :
  Forall plain_sample w -> map (mix_sample f32_zero) w = w.
Proof.
  induction 1 as [| x w Hx _ IH]; simpl; [reflexivity |].
  rewrite mix_sample_sum, (plain_sample_passes x Hx), IH. reflexivity.
Qed.

(** ** The filter between a push and the pulls that drain it *)

Lemma set_offset_same (h : audio_buffer_chunk_header_t) : set_offset (offset h) h = h.
Proof. destruct h. reflexivity. Qed.

Lemma pushed_chunk_undrained (HEADER_SIZE : Z) (filter : filter_t) (a : obs_audio_data) :
  drained_to 0 (pushed_chunk HEADER_SIZE filter a) = pushed_chunk HEADER_SIZE filter a.
Proof.
  unfold drained_to, pushed_chunk. simpl.
  rewrite <- (compute_header_offset HEADER_SIZE (Z.to_nat (audio_channels filter)) a)
    at 1.
  rewrite set_offset_same. reflexivity.
Qed.

Lemma pushed_chunk_channels (HEADER_SIZE : Z) (f g : filter_t) (a : obs_audio_data) :
  audio_channels f = audio_channels g ->
  pushed_chunk HEADER_SIZE f a = pushed_chunk HEADER_SIZE g a.
Proof. intros Heq. unfold pushed_chunk. rewrite Heq. reflexivity. Qed.

Lemma plane_window_whole (a : obs_audio_data) (ch : nat) :
  0 <= ad_frames a ->
  front_window a 0 (ad_frames a) ch = plane a ch.
Proof.
  intros Hframes. unfold front_window. simpl. rewrite drop_0.
  apply take_ge. unfold plane.
  destruct (ad_data_at a ch) as [xs |]; simpl; [| lia].
  rewrite length_take.
  assert (Hle : (ad_frames a * 4) mod UINT32_MODULUS / 4 <= ad_frames a).
  { apply Z.div_le_upper_bound; [lia |].
    pose proof (Z.mod_le (ad_frames a * 4) UINT32_MODULUS ltac:(lia)
                  ltac:(reflexivity)).
    lia. }
  lia.
Qed.

(** A push onto an open bridge with an empty buffer. *)
Lemma push_onto_empty (MAX_AUDIO_BUFFER_FRAMES HEADER_SIZE : Z) (filter : filter_t)
    (a : obs_audio_data) :
  bridge_open filter ->
  audio_buffer filter = [] ->
  audio_buffer_frames filter = 0 ->
  frames_in_range a ->
  0 < ad_frames a ->
  let f := fst (push_audio_to_buffer MAX_AUDIO_BUFFER_FRAMES HEADER_SIZE filter a) in
  bridge_open f
  /\ audio_channels f = audio_channels filter
  /\ audio_buffer f = [drained_to 0 (pushed_chunk HEADER_SIZE f a)]
  /\ audio_buffer_frames f = ad_frames a.
Proof.
  intros Hopen Hbuf Hcnt Hrange Hpos f.
  assert (Hacc : push_rejected filter a = false)
    by (apply bridge_open_not_rejected; [exact Hopen | lia]).
  destruct (push_accepted MAX_AUDIO_BUFFER_FRAMES HEADER_SIZE filter a Hacc)
    as (Hb & Hc & Ha & Hs & Hch & _).
  fold f in Hb, Hc, Ha, Hs, Hch.
  rewrite Hbuf in Hb. rewrite Hcnt in Hc.
  assert (Hkept : (if push_overflows MAX_AUDIO_BUFFER_FRAMES filter a
                   then [] else @nil chunk_t) = []) by (destruct push_overflows; reflexivity).
  assert (Hcounted : (if push_overflows MAX_AUDIO_BUFFER_FRAMES filter a
                      then 0 else 0) = 0) by (destruct push_overflows; reflexivity).
  rewrite Hkept in Hb. rewrite Hcounted in Hc. simpl in Hb.
  rewrite Z.add_0_l, wrap_size_small in Hc
    by (unfold frames_in_range, UINT32_MODULUS in Hrange; unfold SIZE_MODULUS; lia).
  split; [destruct Hopen; split; congruence |].
  split; [exact Hch |].
  split; [| exact Hc].
  rewrite pushed_chunk_undrained, (pushed_chunk_channels _ f filter a Hch). exact Hb.
Qed.

Lemma after_front_pull_state (HEADER_SIZE : Z) (a : obs_audio_data)
    (filter : filter_t) (rest : list chunk_t) (k n : Z) :
  let f := after_front_pull HEADER_SIZE a filter rest k n in
  (bridge_open filter -> bridge_open f)
  /\ audio_channels f = audio_channels filter
  /\ audio_buffer f
     = (if k + n =? ad_frames a then rest
        else drained_to (k + n) (pushed_chunk HEADER_SIZE f a) :: rest)
  /\ audio_buffer_frames f = audio_buffer_frames filter - n.
Proof.
  cbv zeta. split; [intros [Ha Hs]; split; [exact Ha | exact Hs] |].
  repeat split.
Qed.

(** ** Accumulation and clipping *)

Section Accumulation.

Variable MAX_AUDIO_BUFFER_FRAMES : Z.
Variable MAX_AUDIO_MIXES : nat.
Variable HEADER_SIZE : Z.

#[local] Abbreviation push :=
  (push_audio_to_buffer MAX_AUDIO_BUFFER_FRAMES HEADER_SIZE).
#[local] Abbreviation pull n := (audio_input_callback n MAX_AUDIO_MIXES HEADER_SIZE).
#[local] Abbreviation selected := (bus_selected MAX_AUDIO_MIXES).

(** A chunk pushed onto an empty buffer and pulled whole: the buffer is
    empty again, and every destination array of a selected bus and a
    present channel has the plane of the channel mixed onto it. *)
Lemma push_pull_whole (filter : filter_t) (a : obs_audio_data)
    (ts mixers : Z) (mixes : mixes_t) :
  0 < HEADER_SIZE ->
  HEADER_SIZE + 4 * ad_frames a * Z.of_nat (Z.to_nat (audio_channels filter))
  < SIZE_MODULUS ->
  bridge_open filter ->
  audio_buffer filter = [] ->
  audio_buffer_frames filter = 0 ->
  frames_in_range a ->
  0 < ad_frames a ->
  planes_sized a ->
  planes_whole a ->
  exists r,
    pull (ad_frames a) true (fst (push filter a)) ts mixers mixes = Done r
    /\ bridge_open (res_filter r)
    /\ audio_channels (res_filter r) = audio_channels filter
    /\ audio_buffer (res_filter r) = []
    /\ audio_buffer_frames (res_filter r) = 0
    /\ forall m ch out,
         bus_channel mixes m ch = Some out ->
         (Z.to_nat (ad_frames a) <= length out)%nat ->
         bus_channel (res_mixes r) m ch
         = Some (if selected mixers m
                    && (ch <? Z.to_nat (audio_channels filter))%nat
                    && is_some (ad_data_at a ch)
                 then mixed_into 0 out (plane a ch)
                 else out).
Proof.
  intros Hhdr Hfit Hopen Hbuf Hcnt Hrange Hpos Hsized Hwhole.
  destruct (push_onto_empty MAX_AUDIO_BUFFER_FRAMES HEADER_SIZE filter a
              Hopen Hbuf Hcnt Hrange Hpos) as (Hopen0 & Hch0 & Hbuf0 & Hcnt0).
  set (f0 := fst (push filter a)) in *.
  assert (Hfit0 : HEADER_SIZE + 4 * ad_frames a * Z.of_nat (Z.to_nat (audio_channels f0))
                  < SIZE_MODULUS) by (rewrite Hch0; exact Hfit).
  destruct (pull_front MAX_AUDIO_MIXES HEADER_SIZE a f0 [] 0 (ad_frames a) Hhdr Hrange
              Hpos Hfit0 Hsized Hwhole Hopen0 Hbuf0 ltac:(lia) Hpos ltac:(lia)
              ltac:(unfold frames_in_range, UINT32_MODULUS in Hrange;
                    unfold SIZE_MODULUS; lia) ts mixers mixes)
    as (r & Hrun & Hf & _ & _ & Hmix).
  destruct (after_front_pull_state HEADER_SIZE a f0 [] 0 (ad_frames a))
    as (Hopen1 & Hch1 & Hbuf1 & Hcnt1).
  rewrite <- Hf in Hopen1, Hch1, Hbuf1, Hcnt1.
  rewrite Z.add_0_l, Z.eqb_refl in Hbuf1.
  exists r. split; [exact Hrun |].
  split; [exact (Hopen1 Hopen0) |].
  split; [congruence |].
  split; [exact Hbuf1 |].
  split; [lia |].
  intros m ch out Hout Hlen. rewrite (Hmix m ch out Hout Hlen).
  rewrite Hch0, plane_window_whole by lia. reflexivity.
Qed.

(** The samples of a plane the push appends are the first [frames]
    samples of the array handed to it. *)
Lemma plane_lookup (a : obs_audio_data) (ch i : nat) (xs : list sample) :
  0 <= ad_frames a ->
  planes_whole a ->
  ad_data_at a ch = Some xs ->
  (i < Z.to_nat (ad_frames a))%nat ->
  plane a ch !! i = xs !! i.
Proof.
  intros Hframes Hwhole Hdata Hi. unfold plane, planes_whole in *. rewrite Hdata.
  rewrite Z.mod_small by lia. rewrite Z.div_mul by discriminate.
  apply lookup_take_lt. exact Hi.
Qed.

(** C6. Two chunks of as many frames as a pull requests are pushed and
    pulled one after the other onto the same destination arrays.  At
    every frame of every selected bus and channel below the channel
    count, the first pull leaves the sample that was there with the
    sample of the first chunk added, in binary32, and hard-clipped; the
    second pull leaves that with the sample of the second chunk added
    and hard-clipped: the destination is accumulated into, not
    overwritten.  Whenever the sum is a number the sample written is
    within [-1, 1]; when the sum is a NaN the NaN is written, which is
    not within [-1, 1].  Two samples 0.8 on top of silence leave exactly
    1.0, where the plain sum is 1.6. *)
Theorem accumulation_clips (filter : filter_t) (a b : obs_audio_data)
    (ts1 ts2 mixers1 mixers2 : Z) (mixes : mixes_t) :
  0 < HEADER_SIZE ->
  HEADER_SIZE + 4 * ad_frames a * Z.of_nat (Z.to_nat (audio_channels filter))
  < SIZE_MODULUS ->
  bridge_open filter ->
  audio_buffer filter = [] ->
  audio_buffer_frames filter = 0 ->
  frames_in_range a ->
  0 < ad_frames a ->
  ad_frames b = ad_frames a ->
  planes_sized a ->
  planes_sized b ->
  planes_whole a ->
  exists r1 r2,
    pull (ad_frames a) true (fst (push filter a)) ts1 mixers1 mixes = Done r1
    /\ pull (ad_frames a) true (fst (push (res_filter r1) b)) ts2 mixers2 (res_mixes r1)
       = Done r2
    /\ (forall m ch out xs ys i o x y,
          selected mixers1 m = true ->
          selected mixers2 m = true ->
          (ch < Z.to_nat (audio_channels filter))%nat ->
          bus_channel mixes m ch = Some out ->
          (Z.to_nat (ad_frames a) <= length out)%nat ->
          ad_data_at a ch = Some xs ->
          ad_data_at b ch = Some ys ->
          (i < Z.to_nat (ad_frames a))%nat ->
          out !! i = Some o ->
          xs !! i = Some x ->
          ys !! i = Some y ->
          exists got1 got2,
            bus_channel (res_mixes r1) m ch = Some got1
            /\ bus_channel (res_mixes r2) m ch = Some got2
            /\ got1 !! i = Some (hard_clip (SFadd 24 128 o x))
            /\ got2 !! i
               = Some (hard_clip (SFadd 24 128 (hard_clip (SFadd 24 128 o x)) y))
            /\ (o = f32_zero -> x = f32_0_8 -> y = f32_0_8 ->
                got2 !! i = Some f32_one))
    /\ (forall s, is_nan s = false -> in_unit_range (hard_clip s))
    /\ (forall s, is_nan s = true -> hard_clip s = s /\ ~ in_unit_range (hard_clip s))
    /\ SFadd 24 128 f32_0_8 f32_0_8 = S754_finite false 13421773 (-23).
Proof.
  intros Hhdr Hfit Hopen Hbuf Hcnt Hrange Hpos Hsame Hsa Hsb Hwa.
  destruct (push_pull_whole filter a ts1 mixers1 mixes Hhdr Hfit Hopen Hbuf Hcnt
              Hrange Hpos Hsa Hwa)
    as (r1 & Hrun1 & Hopen1 & Hch1 & Hbuf1 & Hcnt1 & Hmix1).
  assert (Hrange_b : frames_in_range b)
    by (unfold frames_in_range in *; rewrite Hsame; exact Hrange).
  assert (Hwb : planes_whole b)
    by (unfold planes_whole in *; rewrite Hsame; exact Hwa).
  assert (Hpos_b : 0 < ad_frames b) by (rewrite Hsame; exact Hpos).
  assert (Hfit_b : HEADER_SIZE
                   + 4 * ad_frames b * Z.of_nat (Z.to_nat (audio_channels (res_filter r1)))
                   < SIZE_MODULUS) by (rewrite Hsame, Hch1; exact Hfit).
  destruct (push_pull_whole (res_filter r1) b ts2 mixers2 (res_mixes r1) Hhdr Hfit_b
              Hopen1 Hbuf1 Hcnt1 Hrange_b Hpos_b Hsb Hwb)
    as (r2 & Hrun2 & _ & _ & _ & _ & Hmix2).
  rewrite Hsame in Hrun2, Hmix2.
  exists r1, r2. split; [exact Hrun1 |]. split; [exact Hrun2 |].
  split.
  2: { split; [exact hard_clip_range |].
       split; [| reflexivity].
       intros s Hs. rewrite (hard_clip_nan s Hs).
       split; [destruct s; try discriminate; reflexivity |].
       apply nan_outside. reflexivity. }
  intros m ch out xs ys i o x y Hs1 Hs2 Hch Hout Hlen Hda Hdb Hi Ho Hxs Hys.
  assert (Hx : plane a ch !! i = Some x)
    by (exact (eq_trans (plane_lookup a ch i xs ltac:(lia) Hwa Hda Hi) Hxs)).
  assert (Hy : plane b ch !! i = Some y).
  { refine (eq_trans (plane_lookup b ch i ys ltac:(lia) Hwb Hdb _) Hys).
    rewrite Hsame. exact Hi. }
  assert (Hpa : is_some (ad_data_at a ch) = true) by (rewrite Hda; reflexivity).
  assert (Hpb : is_some (ad_data_at b ch) = true) by (rewrite Hdb; reflexivity).
  specialize (Hmix1 m ch out Hout Hlen).
  rewrite Hs1, Hpa in Hmix1.
  replace (ch <? Z.to_nat (audio_channels filter))%nat with true in Hmix1
    by (symmetry; apply Nat.ltb_lt; exact Hch).
  cbn [andb] in Hmix1.
  assert (Hlen1 : length (plane a ch) = Z.to_nat (ad_frames a)).
  { rewrite (plane_length a Hpos Hsa Hwa), Hpa. reflexivity. }
  assert (Hgot1 : (Z.to_nat (ad_frames a) <= length (mixed_into 0 out (plane a ch)))%nat)
    by (rewrite mixed_into_length; lia).
  specialize (Hmix2 m ch _ Hmix1 Hgot1).
  rewrite Hs2, Hpb, Hch1 in Hmix2.
  replace (ch <? Z.to_nat (audio_channels filter))%nat with true in Hmix2
    by (symmetry; apply Nat.ltb_lt; exact Hch).
  cbn [andb] in Hmix2.
  pose proof (mixed_into_lookup out (plane a ch) i o x Ho Hx) as Hfirst.
  pose proof (mixed_into_lookup _ (plane b ch) i _ y Hfirst Hy) as Hsecond.
  rewrite !mix_sample_sum in Hfirst, Hsecond. unfold clipped_sum in Hfirst, Hsecond.
  eexists. eexists.
  split; [exact Hmix1 |]. split; [exact Hmix2 |].
  split; [exact Hfirst |]. split; [exact Hsecond |].
  intros -> -> ->. rewrite Hsecond. reflexivity.
Qed.

End Accumulation.

(** ** The ceiling of the buffer *)

Section Ceiling.

Variable MAX_AUDIO_BUFFER_FRAMES : Z.
Variable HEADER_SIZE : Z.

#[local] Abbreviation push :=
  (push_audio_to_buffer MAX_AUDIO_BUFFER_FRAMES HEADER_SIZE).

(** As long as no single chunk is larger than the ceiling, the frame
    counter stays under it after every push. *)
Lemma push_within_ceiling (filter : filter_t) (a : obs_audio_data) :
  frames_in_range a ->
  audio_buffer_frames filter <= MAX_AUDIO_BUFFER_FRAMES ->
  ad_frames a <= MAX_AUDIO_BUFFER_FRAMES ->
  audio_buffer_frames (fst (push filter a)) <= MAX_AUDIO_BUFFER_FRAMES.
Proof.
  intros Hrange Hbefore Hchunk.
  destruct (push_rejected filter a) eqn:Hrej.
  - unfold push_rejected in Hrej. unfold push_audio_to_buffer. rewrite Hrej.
    exact Hbefore.
  - destruct (push_accepted MAX_AUDIO_BUFFER_FRAMES HEADER_SIZE filter a Hrej)
      as (_ & Hcnt & _).
    rewrite Hcnt. unfold push_overflows.
    destruct (wrap_size (audio_buffer_frames filter + ad_frames a)
                >? MAX_AUDIO_BUFFER_FRAMES) eqn:Hover.
    + rewrite Z.add_0_l, wrap_size_small; [exact Hchunk |].
      unfold frames_in_range, UINT32_MODULUS in Hrange. unfold SIZE_MODULUS. lia.
    + apply gtb_false in Hover. exact Hover.
Qed.

End Ceiling.

(** C9 (where the code departs). One push of a chunk one frame larger
    than the ceiling, on an open bridge with an empty buffer: the push
    takes the overflow branch, logs, resets a buffer that is empty
    already, and appends; the frame counter is then above the ceiling. *)
Theorem oversized_push_exceeds_ceiling :
  push_rejected ex_open (ex_audio 131072 f32_zero f32_zero) = false
  /\ frames_in_range (ex_audio 131072 f32_zero f32_zero)
  /\ audio_buffer_frames
       (fst (push_audio_to_buffer EX_MAX_AUDIO_BUFFER_FRAMES EX_HEADER_SIZE ex_open
               (ex_audio 131072 f32_zero f32_zero)))
     = 131072
  /\ EX_MAX_AUDIO_BUFFER_FRAMES < 131072.
Proof.
  split; [reflexivity |].
  split; [unfold frames_in_range, UINT32_MODULUS, ex_audio, ad_frames; lia |].
  split; [| reflexivity].
  assert (Hacc : push_rejected ex_open (ex_audio 131072 f32_zero f32_zero) = false)
    by reflexivity.
  destruct (push_accepted EX_MAX_AUDIO_BUFFER_FRAMES EX_HEADER_SIZE ex_open _ Hacc)
    as (_ & Hcnt & _).
  rewrite Hcnt. reflexivity.
Qed.

(** ** The branches of video_tick *)

Section TickBranches.

Variable MAX_AUDIO_MIXES : nat.
Variable CONNECT_ATTEMPTING_TIMEOUT_NS : Z.
Variable AVAILAVILITY_CHECK_INTERVAL_NS : Z.

#[local] Abbreviation start := (start_output MAX_AUDIO_MIXES).
#[local] Abbreviation body := (start_body MAX_AUDIO_MIXES).
#[local] Abbreviation restart := (restart_output MAX_AUDIO_MIXES).
#[local] Abbreviation timed_out :=
  (connect_attempting_timed_out CONNECT_ATTEMPTING_TIMEOUT_NS).
#[local] Abbreviation tick :=
  (video_tick MAX_AUDIO_MIXES CONNECT_ATTEMPTING_TIMEOUT_NS
     AVAILAVILITY_CHECK_INTERVAL_NS).
#[local] Abbreviation due := (check_due AVAILAVILITY_CHECK_INTERVAL_NS).
#[local] Abbreviation checked := (after_check AVAILAVILITY_CHECK_INTERVAL_NS).

(** The tick down to the calls it makes. *)
Ltac tick_flow host :=
  unfold video_tick, source_available, bind, when, get, skip, ret, emit,
    modify, return_, call, run;
  fold (monitored_width host); fold (monitored_height host).

Ltac reduce_flow := cbv beta iota delta [negb orb andb fst snd].

Lemma tick_disabled (host : host_t) (f : filter_t) :
  filter_active f = false -> run (tick host) f = (f, []).
Proof. intros Hfa. tick_flow host. rewrite Hfa. reflexivity. Qed.

Lemma tick_waits (host : host_t) (f : filter_t) :
  output_active f = true ->
  host_obs_source_enabled host = true ->
  timed_out host f = false ->
  run (tick host) f = (f, []).
Proof.
  intros Hout Hen Htime. tick_flow host. rewrite Hout, Hen, Htime.
  destruct (filter_active f); reflexivity.
Qed.

Lemma tick_hidden (host : host_t) (f : filter_t) :
  host_obs_source_enabled host = false ->
  output_active f = false \/ host_obs_output_active host = false ->
  run (tick host) f = (f, []).
Proof.
  intros Hen Hoff. tick_flow host. rewrite Hen.
  destruct (filter_active f); [| reflexivity].
  destruct (output_active f); [| reflexivity].
  destruct Hoff as [Hoff | Hoff]; [discriminate |]. rewrite Hoff. reflexivity.
Qed.

Lemma tick_hides (host : host_t) (f : filter_t) :
  filter_active f = true ->
  output_active f = true ->
  host_obs_source_enabled host = false ->
  host_obs_output_active host = true ->
  run (tick host) f = (stopped f, stop_calls host f).
Proof.
  intros Hfa Hout Hen Hstream. rewrite <- stop_output_run.
  tick_flow host. rewrite Hfa, Hout, Hen, Hstream. reduce_flow.
  destruct (stop_output host f) as [[r f1] e1]. reduce_flow.
  cbn [app]; rewrite ?app_nil_r; reflexivity.
Qed.

Lemma tick_retries (host : host_t) (f : filter_t) :
  filter_active f = true ->
  output_active f = true ->
  host_obs_source_enabled host = true ->
  timed_out host f = true ->
  host_obs_output_active host = false ->
  run (tick host) f
  = (fst (run (start host (host_obs_source_get_settings host)) f),
     obs_log LOG_INFO reactivate_msg
     :: snd (run (start host (host_obs_source_get_settings host)) f)).
Proof.
  intros Hfa Hout Hen Htime Hstream.
  tick_flow host. rewrite Hfa, Hout, Hen, Htime, Hstream. reduce_flow.
  destruct (start_output MAX_AUDIO_MIXES host (host_obs_source_get_settings host) f)
    as [[r f1] e1].
  reduce_flow. cbn [app]; rewrite ?app_nil_r; reflexivity.
Qed.

Lemma monitoring_tests (host : host_t) (f : filter_t) :
  monitoring CONNECT_ATTEMPTING_TIMEOUT_NS host f ->
  filter_active f = true
  /\ output_active f = true
  /\ host_obs_source_enabled host = true
  /\ host_obs_output_active host = true
  /\ timed_out host f = true
  /\ (active_settings_rev f <? stored_settings_rev f) = false.
Proof.
  intros (Hfa & Hout & Hen & Hstream & Htime & Hrev).
  repeat (split; [assumption |]). apply Z.ltb_ge. exact Hrev.
Qed.

Lemma tick_zero_size (host : host_t) (f : filter_t) :
  monitoring CONNECT_ATTEMPTING_TIMEOUT_NS host f ->
  monitored_width host = 0 \/ monitored_height host = 0 ->
  run (tick host) f = (stopped f, stop_calls host f).
Proof.
  intros Hmon Hzero.
  destruct (monitoring_tests host f Hmon) as (Hfa & Hout & Hen & Hstream & Htime & Hrev).
  rewrite <- stop_output_run.
  assert (Hz : (monitored_width host =? 0) || (monitored_height host =? 0) = true).
  { apply orb_true_iff. destruct Hzero as [Hzero | Hzero]; [left | right];
      apply Z.eqb_eq; exact Hzero. }
  tick_flow host. rewrite Hfa, Hout, Hen, Hstream, Htime, Hrev, Hz. reduce_flow.
  destruct (stop_output host f) as [[r f1] e1]. reduce_flow.
  cbn [app]; rewrite ?app_nil_r; reflexivity.
Qed.

Lemma size_tests (host : host_t) :
  monitored_width host <> 0 ->
  monitored_height host <> 0 ->
  (monitored_width host =? 0) || (monitored_height host =? 0) = false.
Proof.
  intros Hw Hh. apply orb_false_iff. split; apply Z.eqb_neq; assumption.
Qed.

Lemma tick_source_gone (host : host_t) (f : filter_t) :
  monitoring CONNECT_ATTEMPTING_TIMEOUT_NS host f ->
  monitored_width host <> 0 ->
  monitored_height host <> 0 ->
  due host f = true ->
  source_found host = false ->
  run (tick host) f
  = (stopped (set_last_available_at (host_os_gettime_ns host) f),
     stop_calls host f).
Proof.
  intros Hmon Hw Hh Hdue Hfound.
  destruct (monitoring_tests host f Hmon) as (Hfa & Hout & Hen & Hstream & Htime & Hrev).
  pose proof (size_tests host Hw Hh) as Hz.
  unfold check_due in Hdue. apply negb_true_iff in Hdue.
  unfold source_found in Hfound. apply orb_false_iff in Hfound as [Hscene Hscenes].
  change (stop_calls host f)
    with (stop_calls host (set_last_available_at (host_os_gettime_ns host) f)).
  rewrite <- stop_output_run.
  tick_flow host. rewrite Hfa, Hout, Hen, Hstream, Htime, Hrev, Hz. reduce_flow.
  rewrite Hdue. reduce_flow. rewrite Hscene, Hscenes. reduce_flow.
  destruct (stop_output host (set_last_available_at (host_os_gettime_ns host) f))
    as [[r f1] e1].
  reduce_flow. cbn [app]; rewrite ?app_nil_r; reflexivity.
Qed.

Lemma tick_available (host : host_t) (f : filter_t) :
  monitoring CONNECT_ATTEMPTING_TIMEOUT_NS host f ->
  monitored_width host <> 0 ->
  monitored_height host <> 0 ->
  due host f = false \/ source_found host = true ->
  run (tick host) f
  = if negb (width f =? monitored_width host)
       || negb (height f =? monitored_height host)
    then (fst (run (start host (host_obs_source_get_settings host)) (checked host f)),
          obs_log LOG_INFO restart_msg
          :: snd (run (start host (host_obs_source_get_settings host))
                    (checked host f)))
    else (checked host f, []).
Proof.
  intros Hmon Hw Hh Havail.
  destruct (monitoring_tests host f Hmon) as (Hfa & Hout & Hen & Hstream & Htime & Hrev).
  pose proof (size_tests host Hw Hh) as Hz.
  unfold after_check, check_due, source_found in *.
  tick_flow host. rewrite Hfa, Hout, Hen, Hstream, Htime, Hrev, Hz.
  reduce_flow.
  destruct (wrap_u64 (host_os_gettime_ns host - last_available_at f)
              <? AVAILAVILITY_CHECK_INTERVAL_NS) eqn:Hdue; reduce_flow.
  - destruct (width f =? monitored_width host),
      (height f =? monitored_height host); reduce_flow; try reflexivity.
    all: destruct (start_output MAX_AUDIO_MIXES host
                     (host_obs_source_get_settings host) f) as [[r f1] e1].
    all: reduce_flow; cbn [app]; rewrite ?app_nil_r; reflexivity.
  - destruct Havail as [Hnot | Hfound]; [discriminate |].
    destruct (host_obs_scene_from_source host);
      [| simpl in Hfound; rewrite Hfound]; reduce_flow.
    all: destruct (width f =? monitored_width host),
      (height f =? monitored_height host); reduce_flow; try reflexivity.
    all: destruct (start_output MAX_AUDIO_MIXES host
                     (host_obs_source_get_settings host)
                     (set_last_available_at (host_os_gettime_ns host) f))
           as [[r f1] e1].
    all: reduce_flow; cbn [app]; rewrite ?app_nil_r; reflexivity.
Qed.

End TickBranches.

(** ** The outcomes of start_output *)

Lemma stop_calls_acquire_nothing (host : host_t) (f : filter_t) :
  existsb is_acquisition (stop_calls host f) = false.
Proof.
  destruct host, f. unfold stop_calls. simpl.
  repeat (split_match; simpl); reflexivity.
Qed.

(** The innermost condition a nest of branches waits for. *)
Ltac waits_for t :=
  lazymatch t with
  | match ?x with _ => _ end => waits_for x
  | (match ?x with _ => _ end) _ => waits_for x
  | _ => t
  end.

(** Case analysis on the condition the computation the goal is about
    waits for, remembered in the hypotheses when it is not a variable. *)
Ltac case_step :=
  let split_on t :=
    let h := waits_for t in
    first [is_var h; destruct h
          | lazymatch type of h with
            | bool => idtac
            | option _ => idtac
            end;
            let E := fresh "E" in destruct h eqn:E; try rewrite E in *] in
  lazymatch goal with
  | |- ?holds ?t => split_on t
  end.

(** The body of a start down to its steps. *)
Ltac body_flow :=
  unfold run, start_body, retrieve_audio_source, bind, when, skip,
    ret, emit, modify, get, return_, call.

(** A conjunction of tests that holds, test by test. *)
Ltac split_tests H :=
  repeat (let H' := fresh "Htest" in apply andb_prop in H as [H H']);
  repeat match goal with
         | H0 : negb _ = true |- _ => apply negb_true_iff in H0
         end.

(** The tests a leaf of the case analysis went through, one by one. *)
Ltac split_conditions :=
  repeat match goal with
         | H : _ && _ = true |- _ => apply andb_prop in H as [? ?]
         | H : _ || _ = false |- _ => apply orb_false_iff in H as [? ?]
         | H : negb _ = true |- _ => apply negb_true_iff in H
         | H : negb _ = false |- _ => apply negb_false_iff in H
         | H : _ && _ = false |- _ => apply andb_false_iff in H as [H | H]
         | H : _ || _ = true |- _ => apply orb_true_iff in H as [H | H]
         end.

Section StartOutcomes.

Variable MAX_AUDIO_MIXES : nat.

#[local] Abbreviation start := (start_output MAX_AUDIO_MIXES).
#[local] Abbreviation body := (start_body MAX_AUDIO_MIXES).

Lemma start_body_unadmitted (host : host_t) (settings : settings_t) (f : filter_t) :
  start_admitted host = false ->
  nothing_acquired host (stopped f) (run (body host settings) (stopped f)).
Proof.
  intros Hadm. unfold start_admitted in Hadm.
  destruct host as [init enabled parent video num den w h ? ? ? ? ? ? ? ? ? ? ? ? ? ? ? ? ? ? ? ?].
  destruct settings, f.
  unfold stopped. body_flow. simpl in *.
  destruct init, enabled, parent, video; simpl in *.
  all: try (unfold nothing_acquired, idle; simpl; repeat split; try reflexivity;
            intros; discriminate).
  destruct (wrap_u32 (w + Z.land w 1) =? 0), (wrap_u32 (h + Z.land h 1) =? 0),
    (den =? 0), (num =? 0); simpl in *; try discriminate Hadm.
  all: unfold nothing_acquired, idle; simpl; repeat split; try reflexivity;
    intros; discriminate.
Qed.

End StartOutcomes.

Lemma master_prefix_named (s : string) :
  String.prefix "master_track_" s = true ->
  nonempty s = true /\ String.eqb s "no_audio" = false.
Proof.
  destruct s as [| c s]; [discriminate |]. cbn [String.prefix].
  destruct (Ascii.ascii_dec _ c) as [<- | _]; [| discriminate].
  intros _. split; reflexivity.
Qed.

Section StartGranted.

Variable MAX_AUDIO_MIXES : nat.

#[local] Abbreviation start := (start_output MAX_AUDIO_MIXES).
#[local] Abbreviation body := (start_body MAX_AUDIO_MIXES).

#[local] Arguments nonempty : simpl never.
#[local] Arguments scan_track_no : simpl never.

Lemma start_body_all_granted (host : host_t) (settings : settings_t) (f : filter_t) :
  start_admitted host = true ->
  acquisition_fails host settings = false ->
  all_granted host f (run (body host settings) (stopped f)).
Proof.
  intros Hadm Hfail. unfold start_admitted in Hadm. split_tests Hadm.
  destruct host, settings, f.
  unfold acquisition_fails, audio_source_lost in Hfail.
  unfold stopped. body_flow.
  simpl in *. subst.
  repeat match goal with H : _ = false |- _ => rewrite H end.
  simpl.
  repeat (case_step; simpl in *; try discriminate Hfail; try discriminate Htest5).
  all: unfold all_granted, monitored_width, monitored_height; simpl.
  all: repeat split; try reflexivity; try discriminate.
  all: rewrite ?in_app_iff; simpl; tauto.
Qed.

Lemma start_body_audio_selected (host : host_t) (settings : settings_t)
    (f : filter_t) :
  reaches_audio host = true ->
  audio_selected MAX_AUDIO_MIXES host settings (run (body host settings) (stopped f)).
Proof.
  intros Hreach. unfold reaches_audio, start_admitted in Hreach. split_tests Hreach.
  pose proof (master_prefix_named (audio_source_uuid settings)) as Hnamed.
  destruct host, settings as [? custom uuid ? ? ?], f.
  unfold stopped. body_flow.
  simpl in *. subst.
  repeat match goal with H : _ = false |- _ => rewrite H end.
  simpl.
  repeat (case_step; simpl in *; try discriminate Htest8).
  all: split_conditions; try congruence.
  all: unfold audio_selected; simpl.
  all: repeat match goal with
              | |- _ /\ _ => split
              | |- _ -> _ => intro
              | H : _ \/ _ |- _ => destruct H
              | Hp : String.prefix _ _ = true |- _ =>
                  destruct (Hnamed Hp); clear Hnamed
              | E : ?c = _ |- context [if ?c then _ else _] => rewrite E
              end; try reflexivity; try discriminate; try congruence.
  all: rewrite ?in_app_iff; simpl; try tauto.
Qed.

End StartGranted.

Lemma stop_calls_register_nothing (host : host_t) (f : filter_t) :
  raw_callbacks_added (stop_calls host f) = []
  /\ capture_callbacks_added (stop_calls host f) = []
  /\ showing_raised (stop_calls host f) = [].
Proof.
  destruct host, f. unfold stop_calls. simpl.
  repeat (split_match; simpl); repeat split; reflexivity.
Qed.

Lemma stop_calls_ask_nothing (host : host_t) (f : filter_t) (k : resource_kind) :
  existsb (asks_for k) (stop_calls host f) = false.
Proof.
  destruct host, f, k. all: unfold stop_calls; simpl.
  all: repeat (split_match; simpl); reflexivity.
Qed.

Section StartPaired.

Variable MAX_AUDIO_MIXES : nat.

#[local] Abbreviation start := (start_output MAX_AUDIO_MIXES).
#[local] Abbreviation body := (start_body MAX_AUDIO_MIXES).

#[local] Arguments nonempty : simpl never.
#[local] Arguments scan_track_no : simpl never.

Lemma start_body_paired (host host' : host_t) (settings : settings_t) (f : filter_t) :
  callbacks_paired host' (run (body host settings) (stopped f)).
Proof.
  destruct host', host, settings, f.
  unfold stopped. body_flow. simpl.
  repeat (case_step; simpl in *).
  all: unfold callbacks_paired, stop_calls; simpl.
  all: repeat split; try reflexivity.
  all: split_match; reflexivity.
Qed.

Lemma start_body_released (host host' : host_t) (settings : settings_t)
    (f : filter_t) :
  released_by_stop host host' (run (body host settings) (stopped f)).
Proof.
  destruct host, settings, f.
  unfold stopped. body_flow. simpl.
  repeat (case_step; simpl in *).
  all: unfold released_by_stop, stop_calls; simpl.
  all: intros k got Hasked Hgranted.
  all: destruct k; simpl in *; try discriminate.
  all: injection Hgranted as <-.
  all: rewrite ?in_app_iff; simpl; tauto.
Qed.

Lemma start_body_active_holds (host : host_t) (settings : settings_t) (f : filter_t) :
  leaves active_holds (run (body host settings) (stopped f)).
Proof.
  destruct host, settings, f.
  unfold stopped. body_flow. simpl.
  repeat (case_step; simpl in *).
  all: unfold leaves, active_holds; simpl; intros Hactive; try discriminate Hactive.
  all: repeat match goal with
              | H : negb _ = false |- _ => apply negb_false_iff in H; rewrite H
              end.
  all: reflexivity.
Qed.

Lemma start_body_source_tracked (host : host_t) (settings : settings_t)
    (f : filter_t) :
  source_tracked (stopped f) ->
  leaves source_tracked (run (body host settings) (stopped f)).
Proof.
  intros Htracked.
  destruct host, settings, f.
  unfold stopped in *. body_flow. unfold source_tracked in Htracked. simpl in *.
  repeat (case_step; simpl in *).
  all: unfold leaves, source_tracked; simpl; try exact Htracked.
  all: intros Hheld; try discriminate Hheld; reflexivity.
Qed.

Lemma start_body_revisions (host : host_t) (settings : settings_t) (f : filter_t) :
  revisions_after_start f (run (body host settings) (stopped f)).
Proof.
  destruct host, settings, f.
  unfold stopped. body_flow. simpl.
  repeat (case_step; simpl in *).
  all: unfold revisions_after_start; simpl; split; [reflexivity |].
  all: first [left; reflexivity | right; reflexivity].
Qed.

End StartPaired.

(** ** Start and stop in sequence *)

Lemma audio_selected_after (MAX_AUDIO_MIXES : nat) (host : host_t)
    (settings : settings_t) (before : list event) (r : filter_t * list event) :
  audio_selected MAX_AUDIO_MIXES host settings r ->
  audio_selected MAX_AUDIO_MIXES host settings (fst r, before ++ snd r).
Proof.
  unfold audio_selected. cbn [fst snd].
  intros (Hfilter & Hsilence & Hmaster & Hnamed).
  split; [exact Hfilter |].
  split.
  { intros Hcustom Hnone. destruct (Hsilence Hcustom Hnone) as (? & ? & ?).
    repeat split; try assumption. apply in_or_app. right. assumption. }
  split.
  { intros Hcustom Hprefix. destruct (Hmaster Hcustom Hprefix) as [Hsrc Htrack].
    split; [exact Hsrc |].
    destruct (scan_track_no (audio_source_uuid settings) <=? Z.of_nat MAX_AUDIO_MIXES);
      [| exact Htrack].
    destruct Htrack as (? & ? & ?).
    repeat split; try assumption. apply in_or_app. right. assumption. }
  intros Hcustom Hne Hno Hprefix. specialize (Hnamed Hcustom Hne Hno Hprefix).
  destruct (host_obs_get_source_by_uuid host); [| exact Hnamed].
  destruct Hnamed as (? & ? & ? & Hadded).
  repeat split; try assumption.
  - apply in_or_app. right. assumption.
  - intros Hweak. apply in_or_app. right. exact (Hadded Hweak).
Qed.

Section StartTheorems.

Variable MAX_AUDIO_MIXES : nat.

#[local] Abbreviation start := (start_output MAX_AUDIO_MIXES).
#[local] Abbreviation body := (start_body MAX_AUDIO_MIXES).

(** X1. A start that is not admitted (the host is not initialised, the
    filter is disabled or has no parent, there is no video, or the
    even-rounded size or the frame rate is zero) releases what was held
    and returns: the filter is left Idle, the host is asked for nothing,
    the active settings revision is as before; an error is logged only
    when the filter has no parent. *)
Theorem unadmitted_start_acquires_nothing (host : host_t) (settings : settings_t)
    (f : filter_t) :
  start_admitted host = false ->
  idle (fst (run (start host settings) f))
  /\ existsb is_acquisition (snd (run (start host settings) f)) = false
  /\ active_settings_rev (fst (run (start host settings) f)) = active_settings_rev f
  /\ (existsb is_error_log (snd (run (start host settings) f)) = true ->
      host_obs_filter_get_parent host = None).
Proof.
  intros Hadm. rewrite start_output_run. cbn [fst snd].
  destruct (start_body_unadmitted MAX_AUDIO_MIXES host settings f Hadm)
    as (Hidle & Hasked & Hrev & Herr).
  split; [exact Hidle |].
  split; [rewrite existsb_app, (stop_calls_acquire_nothing host f); exact Hasked |].
  split; [exact Hrev |].
  rewrite existsb_app. destruct (stop_calls_quiet host f) as [-> _]. exact Herr.
Qed.

(** What the later ticks look at in a filter that was granted its start. *)
Lemma granted_start_state (host : host_t) (settings : settings_t) (f : filter_t) :
  start_admitted host = true ->
  acquisition_fails host settings = false ->
  output_active (fst (run (start host settings) f)) = host_obs_output_start host
  /\ connect_attempting_at (fst (run (start host settings) f))
     = host_os_gettime_ns host
  /\ width (fst (run (start host settings) f)) = monitored_width host
  /\ height (fst (run (start host settings) f)) = monitored_height host.
Proof.
  intros Hadm Hfail. rewrite start_output_run. cbn [fst].
  destruct (start_body_all_granted MAX_AUDIO_MIXES host settings f Hadm Hfail)
    as (_ & _ & _ & _ & _ & _ & _ & Hactive & Hat & Hwidth & Hheight & _).
  repeat split; assumption.
Qed.

(** X2. When a start is admitted and the host hands over every object
    it is asked for, the filter holds exactly those objects; its width
    and height are the source's rounded up to even, its audio format is
    the host's, the bridge is empty, the connection attempt is timed
    from the current time, and the active settings revision is the
    stored one.  The output is active exactly when the host started it;
    an error is logged exactly when it did not. *)
Theorem granted_start_holds (host : host_t) (settings : settings_t) (f : filter_t) :
  start_admitted host = true ->
  acquisition_fails host settings = false ->
  all_granted host f (run (start host settings) f).
Proof.
  intros Hadm Hfail. rewrite start_output_run.
  pose proof (start_body_all_granted MAX_AUDIO_MIXES host settings f Hadm Hfail)
    as Hbody.
  unfold all_granted in *. cbn [fst snd].
  destruct Hbody
    as (? & ? & ? & ? & ? & ? & ? & ? & ? & ? & ? & ? & ? & ? & ? & ? & ?
        & Hstarted & Herr & Hshown).
  repeat (split; [assumption |]).
  destruct (stop_calls_quiet host f) as [Hq1 Hq2].
  split; [rewrite existsb_app, Hstarted; apply orb_true_r |].
  split; [rewrite existsb_app, Hq1; exact Herr |].
  intros Hok. destruct (Hshown Hok) as [? ?].
  split; apply in_or_app; right; assumption.
Qed.

(** X3. The audio source a start selects once it has its service,
    stream output and view: the filter's own audio unless the settings
    ask for a custom source; silence for an empty name and for
    "no_audio"; for a name that starts with "master_track_", with N
    what sscanf's %zu reads behind that prefix (white space skipped,
    one sign accepted, a minus negating modulo 2^64, a value out of
    range read as 2^64 - 1, and 0 when no digit follows), the master
    track of mix index N - 1 (in size_t arithmetic), with the raw audio
    callback registered on it, as long as N is at most MAX_AUDIO_MIXES,
    and silence otherwise; for any other name the source the host finds
    under it, captured through its weak reference, and silence when the
    host finds none. *)
Theorem start_selects_audio_source (host : host_t) (settings : settings_t)
    (f : filter_t) :
  reaches_audio host = true ->
  audio_selected MAX_AUDIO_MIXES host settings (run (start host settings) f).
Proof.
  intros Hreach. rewrite start_output_run.
  apply (audio_selected_after MAX_AUDIO_MIXES host settings (stop_calls host f)
           (run (body host settings) (stopped f))).
  apply start_body_audio_selected. exact Hreach.
Qed.

(** X4. Whatever a start registered, the stop that follows undoes: the
    raw audio callbacks it removes are the ones the start registered, on
    the same mix index; it removes a capture callback, from the source
    the weak reference then resolves to, exactly when the start
    registered one; and it lowers the showing count of the parent once
    exactly when the start raised it. *)
Theorem stop_undoes_start (host host' : host_t) (settings : settings_t)
    (f : filter_t) :
  let r := run (start host settings) f in
  let s := run (stop_output host') (fst r) in
  raw_callbacks_removed (snd s) = raw_callbacks_added (snd r)
  /\ capture_callbacks_removed (snd s)
     = match capture_callbacks_added (snd r) with
       | [] => []
       | _ :: _ => option_list (host_obs_weak_source_get_source host')
       end
  /\ length (showing_lowered (snd s)) = length (showing_raised (snd r)).
Proof.
  intros r s. subst r s. rewrite stop_output_run, start_output_run. cbn [fst snd].
  destruct (start_body_paired MAX_AUDIO_MIXES host host' settings f)
    as (Hraw & Hcapture & Hshow).
  destruct (stop_calls_register_nothing host f) as (Hr & Hc & Hs).
  unfold raw_callbacks_added, capture_callbacks_added, showing_raised in *.
  rewrite !omap_app, Hr, Hc, Hs. cbn [app].
  split; [exact Hraw |]. split; [exact Hcapture | exact Hshow].
Qed.

(** X5. No object is lost between a start and the stop that follows:
    each object the start asked the host for and was handed (service,
    stream output, view, audio output, video and audio encoder) is
    released by that stop, wherever the start returned. *)
Theorem start_then_stop_releases (host host' : host_t) (settings : settings_t)
    (f : filter_t) (k : resource_kind) (h : handle) :
  let r := run (start host settings) f in
  existsb (asks_for k) (snd r) = true ->
  granted host k = Some h ->
  In (release_of k h) (snd (run (stop_output host') (fst r))).
Proof.
  intros r Hasked Hgranted. subst r.
  rewrite stop_output_run. rewrite start_output_run in *. cbn [fst snd] in *.
  rewrite existsb_app, (stop_calls_ask_nothing host f k) in Hasked.
  exact (start_body_released MAX_AUDIO_MIXES host host' settings f k h Hasked Hgranted).
Qed.

End StartTheorems.

(** ** What every tick keeps *)

Section TickTheorems.

Variable MAX_AUDIO_MIXES : nat.
Variable CONNECT_ATTEMPTING_TIMEOUT_NS : Z.
Variable AVAILAVILITY_CHECK_INTERVAL_NS : Z.

#[local] Abbreviation start := (start_output MAX_AUDIO_MIXES).
#[local] Abbreviation body := (start_body MAX_AUDIO_MIXES).
#[local] Abbreviation restart := (restart_output MAX_AUDIO_MIXES).
#[local] Abbreviation timed_out :=
  (connect_attempting_timed_out CONNECT_ATTEMPTING_TIMEOUT_NS).
#[local] Abbreviation tick :=
  (video_tick MAX_AUDIO_MIXES CONNECT_ATTEMPTING_TIMEOUT_NS
     AVAILAVILITY_CHECK_INTERVAL_NS).
#[local] Abbreviation due := (check_due AVAILAVILITY_CHECK_INTERVAL_NS).
#[local] Abbreviation checked := (after_check AVAILAVILITY_CHECK_INTERVAL_NS).

Lemma restart_inactive_run (host : host_t) (f : filter_t) :
  output_active f = false ->
  run (restart host) f
  = if nonempty (server (host_obs_source_get_settings host))
    then run (start host (host_obs_source_get_settings host)) f
    else (f, []).
Proof.
  intros Hout. unfold restart_output. rewrite run_get_then, Hout.
  unfold when at 1. rewrite run_skip_then.
  destruct (nonempty (server (host_obs_source_get_settings host))); unfold when.
  - apply run_call.
  - reflexivity.
Qed.

Lemma tick_shows (host : host_t) (f : filter_t) :
  filter_active f = true ->
  output_active f = false ->
  host_obs_source_enabled host = true ->
  run (tick host) f = run (restart host) f.
Proof.
  intros Hfa Hout Hen. unfold video_tick.
  rewrite run_get_then. rewrite Hfa, Hout, Hen. unfold when at 1. simpl.
  rewrite run_skip_then. unfold when. apply run_call_return.
Qed.

Section Invariant.

Variable P : filter_t -> Prop.
Hypothesis kept_by_stop : forall f, P f -> P (stopped f).
Hypothesis kept_by_check : forall f now, P f -> P (set_last_available_at now f).
Hypothesis kept_by_body :
  forall host settings f,
    P (stopped f) -> P (fst (run (body host settings) (stopped f))).

Lemma start_keeps (host : host_t) (settings : settings_t) (f : filter_t) :
  P f -> P (fst (run (start host settings) f)).
Proof.
  intros HP. rewrite start_output_run. cbn [fst].
  apply kept_by_body, kept_by_stop, HP.
Qed.

Lemma stop_keeps (host : host_t) (f : filter_t) :
  P f -> P (fst (run (stop_output host) f)).
Proof. intros HP. rewrite stop_output_run. apply kept_by_stop, HP. Qed.

Lemma restart_keeps (host : host_t) (f : filter_t) :
  P f -> P (fst (run (restart host) f)).
Proof.
  intros HP. destruct (output_active f) eqn:Hout.
  - rewrite (restart_active_run MAX_AUDIO_MIXES host f Hout).
    destruct (nonempty (server (host_obs_source_get_settings host))); cbn [fst].
    + apply kept_by_body, kept_by_stop, HP.
    + apply kept_by_stop, HP.
  - rewrite (restart_inactive_run host f Hout).
    destruct (nonempty (server (host_obs_source_get_settings host)));
      [apply start_keeps, HP | exact HP].
Qed.

Lemma tick_keeps (host : host_t) (f : filter_t) :
  P f -> P (fst (run (tick host) f)).
Proof.
  intros HP.
  destruct (filter_active f) eqn:Hfa;
    [| rewrite (tick_disabled _ _ _ host f Hfa); exact HP].
  destruct (host_obs_source_enabled host) eqn:Hen.
  - destruct (output_active f) eqn:Hout;
      [| rewrite (tick_shows host f Hfa Hout Hen); apply restart_keeps, HP].
    destruct (timed_out host f) eqn:Htime;
      [| rewrite (tick_waits _ _ _ host f Hout Hen Htime); exact HP].
    destruct (host_obs_output_active host) eqn:Hstream;
      [| rewrite (tick_retries _ _ _ host f Hfa Hout Hen Htime Hstream);
         apply start_keeps, HP].
    destruct (Z.lt_ge_cases (active_settings_rev f) (stored_settings_rev f))
      as [Hgap | Hnogap].
    { rewrite (tick_gap_restarts MAX_AUDIO_MIXES CONNECT_ATTEMPTING_TIMEOUT_NS
                 AVAILAVILITY_CHECK_INTERVAL_NS host f Hfa Hen Hout Hstream Htime Hgap).
      apply restart_keeps, HP. }
    assert (Hmon : monitoring CONNECT_ATTEMPTING_TIMEOUT_NS host f)
      by (repeat split; assumption).
    destruct (Z.eq_dec (monitored_width host) 0) as [Hw | Hw];
      [rewrite (tick_zero_size _ _ _ host f Hmon (or_introl Hw));
       apply kept_by_stop, HP |].
    destruct (Z.eq_dec (monitored_height host) 0) as [Hh | Hh];
      [rewrite (tick_zero_size _ _ _ host f Hmon (or_intror Hh));
       apply kept_by_stop, HP |].
    assert (Hchecked : P (checked host f)).
    { unfold after_check. destruct (due host f); [apply kept_by_check |]; exact HP. }
    destruct (due host f) eqn:Hdue.
    + destruct (source_found host) eqn:Hfound.
      * rewrite (tick_available _ _ _ host f Hmon Hw Hh (or_intror Hfound)).
        destruct (negb (width f =? monitored_width host)
                  || negb (height f =? monitored_height host));
          [apply start_keeps |]; exact Hchecked.
      * rewrite (tick_source_gone _ _ _ host f Hmon Hw Hh Hdue Hfound).
        apply kept_by_stop, kept_by_check, HP.
    + rewrite (tick_available _ _ _ host f Hmon Hw Hh (or_introl Hdue)).
      destruct (negb (width f =? monitored_width host)
                || negb (height f =? monitored_height host));
        [apply start_keeps |]; exact Hchecked.
  - destruct (output_active f) eqn:Hout;
      [| rewrite (tick_hidden _ _ _ host f Hen (or_introl Hout)); exact HP].
    destruct (host_obs_output_active host) eqn:Hstream.
    + rewrite (tick_hides _ _ _ host f Hfa Hout Hen Hstream).
      apply kept_by_stop, HP.
    + rewrite (tick_hidden _ _ _ host f Hen (or_intror Hstream)). exact HP.
Qed.

End Invariant.

Lemma active_holds_stopped (f : filter_t) : active_holds (stopped f).
Proof. unfold active_holds. simpl. discriminate. Qed.

Lemma source_tracked_stopped (f : filter_t) :
  source_tracked f -> source_tracked (stopped f).
Proof.
  unfold source_tracked. simpl. intros Htracked Hheld.
  destruct (audio_source_type f); try discriminate Hheld;
    discriminate (Htracked Hheld).
Qed.

(** X6. An active output holds every object it runs on (service, stream
    output, view, video output, audio output, both encoders): a start
    and a stop leave the filter so from any filter, and a tick, a
    restart and a settings update keep it so. *)
Theorem active_output_holds (host : host_t) (settings : settings_t) (f : filter_t) :
  active_holds (fst (run (start host settings) f))
  /\ active_holds (fst (run (stop_output host) f))
  /\ (active_holds f ->
      active_holds (fst (run (tick host) f))
      /\ active_holds (fst (run (restart host) f))
      /\ active_holds (fst (run (update settings) f))).
Proof.
  assert (Hbody : forall host settings f,
             active_holds (stopped f) ->
             active_holds (fst (run (body host settings) (stopped f)))).
  { intros host0 settings0 f0 _.
    exact (start_body_active_holds MAX_AUDIO_MIXES host0 settings0 f0). }
  split.
  { rewrite start_output_run. apply Hbody, active_holds_stopped. }
  split; [rewrite stop_output_run; apply active_holds_stopped |].
  intros Hheld.
  split; [| split].
  - apply (tick_keeps active_holds); try assumption.
    + intros; apply active_holds_stopped.
    + intros g now Hg. exact Hg.
  - apply (restart_keeps active_holds); try assumption.
    intros; apply active_holds_stopped.
  - exact Hheld.
Qed.

(** X7. The active settings revision never overtakes the stored one:
    a tick, a start, a restart and a stop keep the order and leave the
    stored revision alone; an update raises the stored revision by one
    and leaves the active one alone. *)
Theorem revision_order_kept (host : host_t) (settings : settings_t) (f : filter_t) :
  active_settings_rev f <= stored_settings_rev f ->
  revisions_kept f (fst (run (tick host) f))
  /\ revisions_kept f (fst (run (start host settings) f))
  /\ revisions_kept f (fst (run (restart host) f))
  /\ revisions_kept f (fst (run (stop_output host) f))
  /\ (0 <= stored_settings_rev f < SIZE_MODULUS - 1 ->
      stored_settings_rev (fst (run (update settings) f)) = stored_settings_rev f + 1
      /\ active_settings_rev (fst (run (update settings) f)) = active_settings_rev f).
Proof.
  intros Hordered.
  assert (Hstop : forall g, revisions_kept f g -> revisions_kept f (stopped g))
    by (intros g Hg; exact Hg).
  assert (Hbody : forall host settings g,
             revisions_kept f (stopped g) ->
             revisions_kept f (fst (run (body host settings) (stopped g)))).
  { intros host0 settings0 g [Hle Hsame].
    destruct (start_body_revisions MAX_AUDIO_MIXES host0 settings0 g)
      as [Hstored [Hactive | Hactive]].
    all: unfold revisions_kept; rewrite Hstored, Hactive; simpl in *; lia. }
  assert (Hf : revisions_kept f f) by (split; [exact Hordered | reflexivity]).
  split; [apply (tick_keeps (revisions_kept f)); try assumption;
          intros g now Hg; exact Hg |].
  split; [apply (start_keeps (revisions_kept f)); assumption |].
  split; [apply (restart_keeps (revisions_kept f)); assumption |].
  split; [rewrite stop_output_run; exact Hf |].
  intros Hrange. unfold update, run, bind, emit, get, modify. simpl.
  split; [| reflexivity].
  apply wrap_size_small. lia.
Qed.


(** X8. The tick leaves the filter as it is and asks nothing of the
    host: when the filter is not active; while the connection attempt
    of an active output is not timed out and the source is enabled,
    whatever has happened to the stream, the settings or the source; and
    when the source is disabled and there is no active stream to stop. *)
Theorem tick_leaves_alone (host : host_t) (f : filter_t) :
  filter_active f = false
  \/ (output_active f = true
      /\ host_obs_source_enabled host = true
      /\ timed_out host f = false)
  \/ (host_obs_source_enabled host = false
      /\ (output_active f = false \/ host_obs_output_active host = false)) ->
  run (tick host) f = (f, []).
Proof.
  intros [Hfa | [(Hout & Hen & Htime) | (Hen & Hoff)]].
  - apply tick_disabled. exact Hfa.
  - apply tick_waits; assumption.
  - apply tick_hidden; assumption.
Qed.


(** X10. Hiding the filter stops the output: a tick that finds the
    source disabled while the output and the stream are active is a
    stop, which leaves the filter Idle.  While the source stays
    disabled the ticks that follow do nothing; the first tick that
    finds it enabled again, with a server configured, starts the output
    on the current settings. *)
Theorem hidden_filter_stops (host hidden shown : host_t) (f : filter_t) :
  filter_active f = true ->
  output_active f = true ->
  host_obs_source_enabled host = false ->
  host_obs_output_active host = true ->
  let r := run (tick host) f in
  r = run (stop_output host) f
  /\ idle (fst r)
  /\ (host_obs_source_enabled hidden = false ->
      run (tick hidden) (fst r) = (fst r, []))
  /\ (host_obs_source_enabled shown = true ->
      nonempty (server (host_obs_source_get_settings shown)) = true ->
      run (tick shown) (fst r)
      = run (start shown (host_obs_source_get_settings shown)) (fst r)).
Proof.
  intros Hfa Hout Hen Hstream r. subst r.
  rewrite (tick_hides _ _ _ host f Hfa Hout Hen Hstream), stop_output_run.
  split; [reflexivity |]. cbn [fst].
  split; [apply stopped_idle |].
  split.
  - intros Hhidden. apply tick_hidden; [exact Hhidden | left; reflexivity].
  - intros Hshown Hserver.
    apply tick_inactive_starts; try assumption; reflexivity.
Qed.

(** X11. While it monitors the source, a tick that finds the
    even-rounded width or height of the source zero is a stop; so is a
    tick whose availability check is due and finds the source in no
    scene, after it has recorded the time of the check.  Either way the
    filter is left Idle and the host is asked for nothing. *)
Theorem lost_source_stops_output (host : host_t) (f : filter_t) :
  monitoring CONNECT_ATTEMPTING_TIMEOUT_NS host f ->
  (monitored_width host = 0 \/ monitored_height host = 0 ->
   run (tick host) f = run (stop_output host) f)
  /\ (monitored_width host <> 0 ->
      monitored_height host <> 0 ->
      due host f = true ->
      source_found host = false ->
      run (tick host) f
      = run (stop_output host) (set_last_available_at (host_os_gettime_ns host) f))
  /\ (monitored_width host = 0 \/ monitored_height host = 0
      \/ (due host f = true /\ source_found host = false) ->
      idle (fst (run (tick host) f))
      /\ existsb is_acquisition (snd (run (tick host) f)) = false).
Proof.
  intros Hmon.
  assert (Hzero : monitored_width host = 0 \/ monitored_height host = 0 ->
                  run (tick host) f = run (stop_output host) f).
  { intros Hz. rewrite stop_output_run. apply tick_zero_size; assumption. }
  assert (Hgone : monitored_width host <> 0 ->
                  monitored_height host <> 0 ->
                  due host f = true ->
                  source_found host = false ->
                  run (tick host) f
                  = run (stop_output host)
                      (set_last_available_at (host_os_gettime_ns host) f)).
  { intros Hw Hh Hdue Hfound. rewrite stop_output_run.
    rewrite (tick_source_gone _ _ _ host f Hmon Hw Hh Hdue Hfound). reflexivity. }
  split; [exact Hzero |]. split; [exact Hgone |].
  intros Hlost.
  assert (Hstop : exists g, run (tick host) f = run (stop_output host) g).
  { destruct (Z.eq_dec (monitored_width host) 0) as [Hw | Hw];
      [exists f; apply Hzero; left; exact Hw |].
    destruct (Z.eq_dec (monitored_height host) 0) as [Hh | Hh];
      [exists f; apply Hzero; right; exact Hh |].
    destruct Hlost as [Hz | [Hz | [Hdue Hfound]]]; try contradiction.
    eexists. apply Hgone; assumption. }
  destruct Hstop as [g ->]. rewrite stop_output_run. cbn [fst snd].
  split; [apply stopped_idle | apply stop_calls_acquire_nothing].
Qed.

(** X12. While it monitors a source that is there (its even-rounded
    size is not zero, and the availability check is not due or finds
    it), a tick compares that size with the size the output was started
    on: when they differ it logs the restart and starts the output
    again on the current settings, and a start that is granted
    everything takes the new size; when they agree it issues no call
    and changes nothing but the time of the availability check. *)
Theorem resize_restarts_output (host : host_t) (f : filter_t) :
  monitoring CONNECT_ATTEMPTING_TIMEOUT_NS host f ->
  monitored_width host <> 0 ->
  monitored_height host <> 0 ->
  due host f = false \/ source_found host = true ->
  let settings := host_obs_source_get_settings host in
  let r := run (tick host) f in
  (width f <> monitored_width host \/ height f <> monitored_height host ->
   r = (fst (run (start host settings) (checked host f)),
        obs_log LOG_INFO restart_msg
        :: snd (run (start host settings) (checked host f)))
   /\ (start_admitted host = true ->
       acquisition_fails host settings = false ->
       width (fst r) = monitored_width host
       /\ height (fst r) = monitored_height host))
  /\ (width f = monitored_width host ->
      height f = monitored_height host ->
      r = (checked host f, [])).
Proof.
  intros Hmon Hw Hh Havail settings r. subst r.
  rewrite (tick_available _ _ _ host f Hmon Hw Hh Havail). fold settings.
  split.
  - intros Hresized.
    assert (Htest : negb (width f =? monitored_width host)
                    || negb (height f =? monitored_height host) = true).
    { apply orb_true_iff.
      destruct Hresized as [Hne | Hne]; [left | right];
        apply negb_true_iff, Z.eqb_neq; exact Hne. }
    rewrite Htest. split; [reflexivity |].
    intros Hadm Hgrant. cbn [fst].
    destruct (granted_start_state MAX_AUDIO_MIXES host settings
                (checked host f) Hadm Hgrant)
      as (_ & _ & Hwidth & Hheight).
    split; assumption.
  - intros Hsame_w Hsame_h.
    apply Z.eqb_eq in Hsame_w, Hsame_h. rewrite Hsame_w, Hsame_h. reflexivity.
Qed.

Variable MAX_AUDIO_BUFFER_FRAMES : Z.
Variable HEADER_SIZE : Z.

(** X13. A weak reference to an audio source is held only while the
    source type is the capture one: a tick, a start, a restart and a
    stop keep it so.  On such a filter the filter's own audio and the
    captured audio never both reach the buffer: of the filter audio
    callback and the capture callback at least one returns without
    pushing. *)
Theorem capture_reference_tracked (host : host_t) (settings : settings_t)
    (f : filter_t) (own captured : obs_audio_data) (muted : bool) :
  source_tracked f ->
  source_tracked (fst (run (tick host) f))
  /\ source_tracked (fst (run (start host settings) f))
  /\ source_tracked (fst (run (restart host) f))
  /\ source_tracked (fst (run (stop_output host) f))
  /\ (audio_filter_callback MAX_AUDIO_BUFFER_FRAMES HEADER_SIZE f own = (f, [])
      \/ audio_capture_callback MAX_AUDIO_BUFFER_FRAMES HEADER_SIZE f captured muted
         = (f, [])).
Proof.
  intros Htracked.
  assert (Hbody : forall host settings g,
             source_tracked (stopped g) ->
             source_tracked (fst (run (body host settings) (stopped g)))).
  { intros host0 settings0 g Hg.
    exact (start_body_source_tracked MAX_AUDIO_MIXES host0 settings0 g Hg). }
  split; [apply (tick_keeps source_tracked); try assumption;
          [apply source_tracked_stopped | intros g now Hg; exact Hg] |].
  split; [apply (start_keeps source_tracked); try assumption;
          apply source_tracked_stopped |].
  split; [apply (restart_keeps source_tracked); try assumption;
          apply source_tracked_stopped |].
  split; [rewrite stop_output_run; apply source_tracked_stopped, Htracked |].
  unfold audio_filter_callback, audio_capture_callback.
  unfold source_tracked in Htracked.
  destruct (audio_source_type f) eqn:Htype; try (left; reflexivity).
  right. destruct (audio_source f); [discriminate (Htracked eq_refl) |].
  rewrite orb_true_r. reflexivity.
Qed.

End TickTheorems.

(** ** Draining across chunks *)

Lemma mixed_into_nothing (pos : nat) (out : list sample) : mixed_into pos out [] = out.
Proof.
  unfold mixed_into. simpl. rewrite Nat.add_0_r. apply take_drop.
Qed.

Lemma mixed_into_length_at (pos : nat) (out w : list sample) :
  (pos + length w <= length out)%nat -> length (mixed_into pos out w) = length out.
Proof.
  intros Hfit. unfold mixed_into.
  rewrite !length_app, length_zip_with, !length_take, !length_drop. lia.
Qed.

Lemma mixed_into_parts (pre mid post w : list sample) :
  length mid = length w ->
  mixed_into (length pre) (pre ++ mid ++ post) w
  = pre ++ zip_with mix_sample mid w ++ post.
Proof.
  intros Hlen. unfold mixed_into.
  rewrite take_app_length, drop_app_length.
  rewrite <- Hlen, take_app_length. f_equal. f_equal.
  rewrite <- drop_drop, !drop_app_length. reflexivity.
Qed.

(** Mixing two windows in, one behind the other, is mixing their
    concatenation in. *)
Lemma mixed_into_app (pos : nat) (out w1 w2 : list sample) :
  (pos + length w1 + length w2 <= length out)%nat ->
  mixed_into (pos + length w1) (mixed_into pos out w1) w2
  = mixed_into pos out (w1 ++ w2).
Proof.
  intros Hfit.
  set (pre := take pos out).
  set (m1 := take (length w1) (drop pos out)).
  set (m2 := take (length w2) (drop (pos + length w1) out)).
  set (post := drop (pos + length w1 + length w2) out).
  assert (Hout : out = pre ++ m1 ++ m2 ++ post).
  { subst pre m1 m2 post.
    rewrite <- (take_drop pos out) at 1. f_equal.
    rewrite <- (take_drop (length w1) (drop pos out)) at 1. f_equal.
    rewrite drop_drop.
    rewrite <- (take_drop (length w2) (drop (pos + length w1) out)) at 1. f_equal.
    rewrite drop_drop. reflexivity. }
  assert (Hpre : length pre = pos) by (subst pre; rewrite length_take; lia).
  assert (Hm1 : length m1 = length w1)
    by (subst m1; rewrite length_take, length_drop; lia).
  assert (Hm2 : length m2 = length w2)
    by (subst m2; rewrite length_take, length_drop; lia).
  clearbody pre m1 m2 post. subst out pos.
  rewrite (mixed_into_parts pre m1 (m2 ++ post) w1 Hm1).
  assert (Hat : (length pre + length w1)%nat
                = length (pre ++ zip_with mix_sample m1 w1))
    by (rewrite length_app, length_zip_with; lia).
  rewrite Hat, (app_assoc pre (zip_with mix_sample m1 w1) (m2 ++ post)).
  rewrite (mixed_into_parts (pre ++ zip_with mix_sample m1 w1) m2 post w2 Hm2).
  rewrite (app_assoc m1 m2 post).
  rewrite (mixed_into_parts pre (m1 ++ m2) post (w1 ++ w2))
    by (rewrite !length_app; lia).
  rewrite zip_with_app by exact Hm1.
  rewrite <- !app_assoc. reflexivity.
Qed.

Section Stream.

Variable AUDIO_OUTPUT_FRAMES : Z.
Variable MAX_AUDIO_MIXES : nat.
Variable HEADER_SIZE : Z.
(** the filter the chunks were pushed on: its channel count lays them out *)
Variable filter : filter_t.
Variable mixers : Z.

Hypothesis header_positive : 0 < HEADER_SIZE.
Hypothesis output_frames_bounded : AUDIO_OUTPUT_FRAMES < SIZE_MODULUS.

#[local] Abbreviation nch := (Z.to_nat (audio_channels filter)).
#[local] Abbreviation pushed := (pushed_chunk HEADER_SIZE filter).
#[local] Abbreviation loop :=
  (drain_loop AUDIO_OUTPUT_FRAMES MAX_AUDIO_MIXES HEADER_SIZE).
#[local] Abbreviation turn :=
  (drain_chunk AUDIO_OUTPUT_FRAMES MAX_AUDIO_MIXES HEADER_SIZE).
#[local] Abbreviation selected := (bus_selected MAX_AUDIO_MIXES mixers).
#[local] Abbreviation sendable := (pushable HEADER_SIZE filter).

Lemma chunks_of_undrained (stream : list obs_audio_data) :
  chunks_of HEADER_SIZE filter stream 0 = map pushed stream.
Proof.
  destruct stream as [| a rest]; [reflexivity |].
  simpl. rewrite pushed_chunk_undrained. reflexivity.
Qed.

Lemma stream_rest_nothing (stream : list obs_audio_data) :
  Forall sendable stream ->
  stream_rest HEADER_SIZE filter stream 0 0 = map pushed stream.
Proof.
  intros Hok. destruct stream as [| a rest]; [reflexivity |].
  apply Forall_cons in Hok as [(_ & Hpos & _) _].
  cbn [stream_rest].
  replace (0 <? ad_frames a - 0) with true by (symmetry; apply Z.ltb_lt; lia).
  apply chunks_of_undrained.
Qed.

Lemma front_window_length (a : obs_audio_data) (k t : Z) (ch : nat) :
  (length (front_window a k t ch) <= Z.to_nat t)%nat.
Proof. unfold front_window. rewrite length_take. lia. Qed.

(** One destination array under one turn of the loop, somewhere into
    the array. *)
Lemma channel_mix_at (a : obs_audio_data) (k t pos : Z) (ch : nat)
    (out : list sample) :
  sendable a ->
  0 <= k ->
  0 < t ->
  k + t <= ad_frames a ->
  0 <= pos ->
  (Z.to_nat pos + Z.to_nat t <= length out)%nat ->
  channel_mix HEADER_SIZE (header (drained_to k (pushed a))) (compute_payload nch a)
    t pos ch out
  = if (ch <? nch)%nat && is_some (ad_data_at a ch)
    then mixed_into (Z.to_nat pos) out (front_window a k t ch)
    else out.
Proof using header_positive.
  clear output_frames_bounded.
  intros (Hrange & Hframes & Hfits & Hsized & Hwhole) Hk Ht Hwithin Hpos Hout.
  unfold channel_mix.
  change (data_idx_at (header (drained_to k (pushed a))) ch)
    with (data_idx_at (compute_header HEADER_SIZE nch a) ch).
  destruct (Nat.ltb_spec ch nch) as [Hch | Hch]; cbn [andb].
  - rewrite (compute_header_data_idx HEADER_SIZE a nch header_positive Hframes
               Hfits ch Hch).
    destruct (is_some (ad_data_at a ch)) eqn:Hpresent; [| reflexivity].
    pose proof (present_before_le a ch) as Hle.
    replace (HEADER_SIZE + Z.of_nat (present_before a ch) * ad_frames a * 4 =? 0)
      with false by (symmetry; apply Z.eqb_neq; nia).
    assert (Hin : in_position HEADER_SIZE (header (drained_to k (pushed a))) ch
                  = (present_before a ch * Z.to_nat (ad_frames a) + Z.to_nat k)%nat).
    { unfold in_position.
      change (data_idx_at (header (drained_to k (pushed a))) ch)
        with (data_idx_at (compute_header HEADER_SIZE nch a) ch).
      rewrite (compute_header_data_idx HEADER_SIZE a nch header_positive
                 Hframes Hfits ch Hch), Hpresent.
      change (offset (header (drained_to k (pushed a)))) with k.
      replace (HEADER_SIZE + Z.of_nat (present_before a ch) * ad_frames a * 4
               - HEADER_SIZE)
        with (Z.of_nat (present_before a ch) * ad_frames a * 4) by lia.
      rewrite Z.div_mul by lia. nia. }
    rewrite Hin.
    assert (Hnext : (present_before a ch + 1 <= present_before a nch)%nat).
    { pose proof (present_before_mono a (S ch) nch ltac:(lia)) as Hm.
      simpl in Hm. rewrite Hpresent in Hm. exact Hm. }
    rewrite accumulate_mixed.
    + unfold front_window.
      rewrite (payload_window a nch Hframes Hsized Hwhole ch (Z.to_nat k) (Z.to_nat t)
                 Hch Hpresent)
        by lia.
      reflexivity.
    + exact Hout.
    + rewrite (planes_length a Hframes Hsized Hwhole). nia.
  - destruct (data_idx_at (compute_header HEADER_SIZE nch a) ch =? 0) eqn:Hz;
      [reflexivity |].
    exfalso. apply Z.eqb_neq in Hz. apply Hz.
    destruct (header_after_spec HEADER_SIZE a nch header_positive Hframes
                Hfits nch) as (_ & _ & Hd); [lia |].
    unfold compute_header. rewrite Hd.
    replace (ch <? nch)%nat with false by (symmetry; apply Nat.ltb_ge; lia).
    reflexivity.
Qed.

(** One turn of the loop on the chunk pushed for [a], [k] frames of it
    drained before. *)
Lemma drain_turn (st : drain_state) (a : obs_audio_data) (k : Z)
    (rest : list chunk_t) :
  sendable a ->
  0 <= k < ad_frames a ->
  audio_channels (ds_filter st) = audio_channels filter ->
  0 < ds_max_frames st <= AUDIO_OUTPUT_FRAMES ->
  let t := Z.min (ad_frames a - k) (ds_max_frames st) in
  turn mixers st (drained_to k (pushed a)) rest
  = {| ds_filter :=
         set_audio_buffer_frames
           (wrap_size (audio_buffer_frames (ds_filter st) - t))
           (set_audio_buffer
              (if ds_max_frames st <? ad_frames a - k
               then drained_to (k + t) (pushed a) :: rest
               else rest)
              (ds_filter st));
       ds_max_frames := ds_max_frames st - t;
       ds_mixes :=
         mix_chunk MAX_AUDIO_MIXES HEADER_SIZE nch mixers
           (header (drained_to k (pushed a))) (compute_payload nch a) t
           (AUDIO_OUTPUT_FRAMES - ds_max_frames st) (ds_mixes st) |}.
Proof using header_positive output_frames_bounded.
  intros (Hrange & Hframes & Hfits & Hsized & Hbytes) Hk Hchannels Hmax t.
  unfold frames_in_range, UINT32_MODULUS in Hrange.
  unfold drain_chunk.
  rewrite (front_conv HEADER_SIZE a filter k header_positive Hframes Hfits Hsized
             Hbytes).
  change (frames (header (drained_to k (pushed a))))
    with (frames (compute_header HEADER_SIZE nch a)).
  change (offset (header (drained_to k (pushed a)))) with k.
  rewrite compute_header_frames, Hchannels.
  rewrite (wrap_size_small (ad_frames a - k)) by (unfold SIZE_MODULUS; lia).
  assert (Htaken : (if ad_frames a - k >? ds_max_frames st
                    then ds_max_frames st else ad_frames a - k) = t).
  { subst t. destruct (ad_frames a - k >? ds_max_frames st) eqn:Hcmp.
    - apply gtb_true in Hcmp. lia.
    - apply gtb_false in Hcmp. lia. }
  rewrite Htaken.
  assert (Hwhole : (t =? ad_frames a - k) = negb (ds_max_frames st <? ad_frames a - k)).
  { subst t. destruct (Z.ltb_spec (ds_max_frames st) (ad_frames a - k));
      cbn [negb]; [apply Z.eqb_neq | apply Z.eqb_eq]; lia. }
  rewrite Hwhole.
  rewrite (wrap_size_small (AUDIO_OUTPUT_FRAMES - ds_max_frames st))
    by (unfold SIZE_MODULUS in *; lia).
  rewrite (wrap_size_small (ds_max_frames st - t))
    by (subst t; unfold SIZE_MODULUS in *; lia).
  rewrite (wrap_size_small (k + t)) by (subst t; unfold SIZE_MODULUS; lia).
  destruct (ds_max_frames st <? ad_frames a - k); reflexivity.
Qed.


(** One destination array after one turn. *)
Lemma drain_turn_channel (mixes : mixes_t) (a : obs_audio_data) (k t pos : Z)
    (m ch : nat) (out : list sample) :
  sendable a ->
  0 <= k ->
  0 < t ->
  k + t <= ad_frames a ->
  0 <= pos ->
  (Z.to_nat pos + Z.to_nat t <= length out)%nat ->
  bus_channel mixes m ch = Some out ->
  bus_channel
    (mix_chunk MAX_AUDIO_MIXES HEADER_SIZE nch mixers
       (header (drained_to k (pushed a))) (compute_payload nch a) t pos mixes)
    m ch
  = Some (if selected m && (ch <? nch)%nat
          then if is_some (ad_data_at a ch)
               then mixed_into (Z.to_nat pos) out (front_window a k t ch)
               else out
          else out).
Proof using header_positive.
  clear output_frames_bounded.
  intros Hok Hk Ht Hwithin Hpos Hout Hbus.
  rewrite mix_chunk_channel, Hbus. cbn [fmap option_fmap option_map].
  destruct (selected m); cbn [andb]; [| reflexivity].
  destruct (Nat.ltb_spec ch nch) as [Hch | Hch]; [| reflexivity].
  rewrite (channel_mix_at a k t pos ch out Hok Hk Ht Hwithin Hpos Hout).
  replace (ch <? nch)%nat with true by (symmetry; apply Nat.ltb_lt; lia).
  reflexivity.
Qed.

(** The loop on a deque that holds a stream of pushed chunks: it drains
    the frames it is asked for, chunk after chunk. *)
Lemma drain_stream (stream : list obs_audio_data) :
  forall (k : Z) (st : drain_state) (fuel : nat),
    Forall sendable stream ->
    audio_buffer (ds_filter st) = chunks_of HEADER_SIZE filter stream k ->
    audio_channels (ds_filter st) = audio_channels filter ->
    audio_buffer_frames (ds_filter st) = stream_frames stream - k ->
    0 <= k ->
    (forall a rest, stream = a :: rest -> k < ad_frames a) ->
    0 < ds_max_frames st <= AUDIO_OUTPUT_FRAMES ->
    ds_max_frames st <= stream_frames stream - k ->
    stream_frames stream - k < SIZE_MODULUS ->
    (length stream <= fuel)%nat ->
    exists st',
      loop fuel mixers st = Done st'
      /\ ds_max_frames st' = 0
      /\ ds_filter st'
         = set_audio_buffer_frames (stream_frames stream - k - ds_max_frames st)
             (set_audio_buffer
                (stream_rest HEADER_SIZE filter stream k (ds_max_frames st))
                (ds_filter st))
      /\ forall m ch out,
           bus_channel (ds_mixes st) m ch = Some out ->
           (Z.to_nat AUDIO_OUTPUT_FRAMES <= length out)%nat ->
           bus_channel (ds_mixes st') m ch
           = Some (if selected m && (ch <? nch)%nat
                   then stream_mix stream k (ds_max_frames st)
                          (Z.to_nat (AUDIO_OUTPUT_FRAMES - ds_max_frames st)) ch out
                   else out).
Proof using header_positive output_frames_bounded.
  induction stream as [| a rest IH];
    intros k st fuel Hok Hbuffer Hchannels Hcount Hk Hfront Hmax Hheld Hfits Hfuel.
  { exfalso. simpl in Hheld. lia. }
  apply Forall_cons in Hok as [Ha Hrest].
  pose proof Ha as (Hrange & Hframes & _ & _).
  specialize (Hfront a rest eq_refl).
  destruct fuel as [| fuel]; [simpl in Hfuel; lia |].
  cbn [chunks_of] in Hbuffer. cbn [stream_frames foldr] in Hcount, Hheld, Hfits.
  fold (stream_frames rest) in Hcount, Hheld, Hfits.
  rewrite (drain_loop_turn AUDIO_OUTPUT_FRAMES MAX_AUDIO_MIXES HEADER_SIZE fuel
             mixers st _ _ ltac:(lia) ltac:(lia) Hbuffer).
  rewrite (drain_turn st a k (map pushed rest) Ha ltac:(lia) Hchannels Hmax).
  rewrite Hcount.
  set (t := Z.min (ad_frames a - k) (ds_max_frames st)).
  rewrite (wrap_size_small (ad_frames a + stream_frames rest - k - t))
    by (subst t; unfold SIZE_MODULUS in *; lia).
  destruct (Z.ltb_spec (ds_max_frames st) (ad_frames a - k)) as [Hpart | Hwhole].
  - (* the chunk outlasts the pull *)
    assert (Ht : t = ds_max_frames st) by (subst t; lia).
    rewrite drain_loop_done by (cbn [ds_max_frames]; lia).
    eexists. split; [reflexivity |]. cbn [ds_max_frames ds_filter ds_mixes].
    split; [lia |].
    split.
    { cbn [stream_rest stream_frames foldr]. fold (stream_frames rest).
      replace (ds_max_frames st <? ad_frames a - k) with true
        by (symmetry; apply Z.ltb_lt; lia).
      rewrite Ht. reflexivity. }
    intros m ch out Hbus Hlen.
    rewrite (drain_turn_channel (ds_mixes st) a k t
               (AUDIO_OUTPUT_FRAMES - ds_max_frames st) m ch out Ha)
      by (try assumption; lia).
    cbn [stream_mix]. fold t.
    replace (ds_max_frames st <=? ad_frames a - k) with true
      by (symmetry; apply Z.leb_le; lia).
    reflexivity.
  - (* the pull takes what is left of the chunk *)
    assert (Ht : t = ad_frames a - k) by (subst t; lia).
    destruct (Z.eq_dec (ds_max_frames st) (ad_frames a - k)) as [Hexact | Hmore].
    + rewrite drain_loop_done by (cbn [ds_max_frames]; lia).
      eexists. split; [reflexivity |]. cbn [ds_max_frames ds_filter ds_mixes].
      split; [lia |].
      split.
      { cbn [stream_rest stream_frames foldr]. fold (stream_frames rest).
        replace (ds_max_frames st <? ad_frames a - k) with false
          by (symmetry; apply Z.ltb_ge; lia).
        replace (ds_max_frames st - (ad_frames a - k)) with 0 by lia.
        rewrite (stream_rest_nothing rest Hrest).
        f_equal. lia. }
      intros m ch out Hbus Hlen.
      rewrite (drain_turn_channel (ds_mixes st) a k t
                 (AUDIO_OUTPUT_FRAMES - ds_max_frames st) m ch out Ha)
        by (try assumption; lia).
      cbn [stream_mix]. fold t.
      replace (ds_max_frames st <=? ad_frames a - k) with true
        by (symmetry; apply Z.leb_le; lia).
      reflexivity.
    + match goal with
      | |- context [loop fuel mixers ?s] => set (st1 := s)
      end.
      destruct (IH 0 st1 fuel Hrest) as (st' & Hloop & Hdone & Hfilter & Hmixes).
      * subst st1. cbn [ds_filter audio_buffer set_audio_buffer_frames
                          set_audio_buffer].
        symmetry. apply chunks_of_undrained.
      * subst st1. exact Hchannels.
      * subst st1. cbn [ds_filter audio_buffer_frames set_audio_buffer_frames].
        lia.
      * lia.
      * intros b rest' ->. apply Forall_cons in Hrest as [(_ & Hb & _) _]. exact Hb.
      * subst st1. cbn [ds_max_frames]. lia.
      * subst st1. cbn [ds_max_frames]. lia.
      * lia.
      * simpl in Hfuel. lia.
      * exists st'. split; [exact Hloop |]. split; [exact Hdone |].
        split.
        { rewrite Hfilter. subst st1. cbn [ds_filter ds_max_frames].
          cbn [stream_rest stream_frames foldr]. fold (stream_frames rest).
          replace (ds_max_frames st <? ad_frames a - k) with false
            by (symmetry; apply Z.ltb_ge; lia).
          rewrite Ht.
          replace (stream_frames rest - 0 - (ds_max_frames st - (ad_frames a - k)))
            with (ad_frames a + stream_frames rest - k - ds_max_frames st) by lia.
          reflexivity. }
        intros m ch out Hbus Hlen.
        pose proof (drain_turn_channel (ds_mixes st) a k t
                      (AUDIO_OUTPUT_FRAMES - ds_max_frames st) m ch out Ha
                      ltac:(lia) ltac:(lia) ltac:(lia) ltac:(lia) ltac:(lia) Hbus)
          as Hturn.
        assert (Hwindow : (length (front_window a k t ch) <= Z.to_nat t)%nat)
          by apply front_window_length.
        rewrite (Hmixes m ch _ Hturn).
        2: { destruct (selected m && (ch <? nch)%nat); [| exact Hlen].
             destruct (is_some (ad_data_at a ch)); [| exact Hlen].
             rewrite mixed_into_length_at by lia. exact Hlen. }
        subst st1. cbn [ds_max_frames].
        cbn [stream_mix]. fold t.
        replace (ds_max_frames st <=? ad_frames a - k) with false
          by (symmetry; apply Z.leb_gt; lia).
        replace (Z.to_nat (AUDIO_OUTPUT_FRAMES - (ds_max_frames st - t)))
          with (Z.to_nat (AUDIO_OUTPUT_FRAMES - ds_max_frames st) + Z.to_nat t)%nat
          by lia.
        destruct (selected m && (ch <? nch)%nat); reflexivity.
Qed.

End Stream.

(** ** The order of the samples *)

Lemma stream_plane_cons (a : obs_audio_data) (rest : list obs_audio_data) (ch : nat) :
  stream_plane (a :: rest) ch = plane a ch ++ stream_plane rest ch.
Proof. reflexivity. Qed.

Lemma present_plane_length (a : obs_audio_data) (ch : nat) :
  0 < ad_frames a ->
  planes_sized a ->
  planes_whole a ->
  is_some (ad_data_at a ch) = true ->
  length (plane a ch) = Z.to_nat (ad_frames a).
Proof.
  intros Hframes Hsized Hwhole Hpresent.
  rewrite (plane_length a Hframes Hsized Hwhole), Hpresent. reflexivity.
Qed.

(** On a channel that is there throughout, the stream is mixed in as one
    run of samples, in the order pushed. *)
Lemma stream_mix_in_order (HEADER_SIZE : Z) (filter : filter_t) (ch : nat)
    (stream : list obs_audio_data) :
  forall (k n : Z) (pos : nat) (out : list sample),
    Forall (pushable HEADER_SIZE filter) stream ->
    channel_throughout stream ch ->
    0 <= k ->
    (forall a rest, stream = a :: rest -> k < ad_frames a) ->
    0 < n <= stream_frames stream - k ->
    (pos + Z.to_nat n <= length out)%nat ->
    stream_mix stream k n pos ch out
    = mixed_into pos out
        (take (Z.to_nat n) (drop (Z.to_nat k) (stream_plane stream ch))).
Proof.
  induction stream as [| a rest IH]; intros k n pos out Hok Hthere Hk Hfront Hn Hfit.
  { exfalso. simpl in Hn. lia. }
  apply Forall_cons in Hok as [(Hrange & Hframes & _ & Hsized & Hwhole) Hrest].
  apply Forall_cons in Hthere as [Hpresent Hthere].
  specialize (Hfront a rest eq_refl).
  cbn [stream_frames foldr] in Hn. fold (stream_frames rest) in Hn.
  pose proof (present_plane_length a ch Hframes Hsized Hwhole Hpresent) as Hplane.
  cbn [stream_mix]. rewrite Hpresent, stream_plane_cons.
  rewrite drop_app_le by lia.
  destruct (Z.leb_spec n (ad_frames a - k)) as [Hwithin | Hbeyond].
  - replace (Z.min (ad_frames a - k) n) with n by lia.
    unfold front_window.
    rewrite take_app_le by (rewrite length_drop; lia).
    reflexivity.
  - replace (Z.min (ad_frames a - k) n) with (ad_frames a - k) by lia.
    assert (Hwindow : front_window a k (ad_frames a - k) ch
                      = drop (Z.to_nat k) (plane a ch)).
    { unfold front_window. apply take_ge. rewrite length_drop. lia. }
    assert (Hleft : length (drop (Z.to_nat k) (plane a ch))
                    = Z.to_nat (ad_frames a - k))
      by (rewrite length_drop; lia).
    rewrite Hwindow.
    rewrite IH; try assumption; try lia.
    + replace (pos + Z.to_nat (ad_frames a - k))%nat
        with (pos + length (drop (Z.to_nat k) (plane a ch)))%nat by lia.
      rewrite mixed_into_app.
      * f_equal. change (Z.to_nat 0) with 0%nat. rewrite drop_0.
        rewrite take_app_ge by lia. f_equal. f_equal. lia.
      * rewrite length_take. lia.
    + intros b rest' ->. apply Forall_cons in Hrest as [(_ & Hb & _) _]. exact Hb.
    + rewrite mixed_into_length_at by lia. lia.
Qed.

Lemma stream_frames_app (done stream : list obs_audio_data) :
  stream_frames (done ++ stream) = stream_frames done + stream_frames stream.
Proof.
  induction done as [| a done IH]; simpl; [reflexivity |].
  fold (stream_frames (done ++ stream)) (stream_frames done). lia.
Qed.

Lemma stream_frames_nonneg (stream : list obs_audio_data) :
  Forall frames_in_range stream -> 0 <= stream_frames stream.
Proof.
  induction 1 as [| a rest Ha _ IH]; simpl; [lia |].
  fold (stream_frames rest). unfold frames_in_range in Ha. lia.
Qed.

Lemma stream_plane_length (HEADER_SIZE : Z) (filter : filter_t)
    (stream : list obs_audio_data) (ch : nat) :
  Forall (pushable HEADER_SIZE filter) stream ->
  channel_throughout stream ch ->
  length (stream_plane stream ch) = Z.to_nat (stream_frames stream).
Proof.
  induction stream as [| a rest IH]; intros Hok Hthere; [reflexivity |].
  apply Forall_cons in Hok as [(Hrange & Hframes & _ & Hsized & Hwhole) Hrest].
  apply Forall_cons in Hthere as [Hpresent Hthere].
  rewrite stream_plane_cons, length_app, (IH Hrest Hthere).
  rewrite (present_plane_length a ch Hframes Hsized Hwhole Hpresent).
  cbn [stream_frames foldr]. fold (stream_frames rest).
  assert (0 <= stream_frames rest).
  { apply stream_frames_nonneg. eapply Forall_impl; [exact Hrest |].
    intros b Hb. apply Hb. }
  lia.
Qed.

Section Pushes.

Variable MAX_AUDIO_BUFFER_FRAMES : Z.
Variable HEADER_SIZE : Z.
Variable filter : filter_t.

#[local] Abbreviation push :=
  (push_audio_to_buffer MAX_AUDIO_BUFFER_FRAMES HEADER_SIZE).
#[local] Abbreviation pushed := (pushed_chunk HEADER_SIZE filter).
#[local] Abbreviation after := (pushes MAX_AUDIO_BUFFER_FRAMES HEADER_SIZE).

Hypothesis ceiling_in_range : MAX_AUDIO_BUFFER_FRAMES < SIZE_MODULUS.

(** Pushes that stay below the ceiling append their chunks, in order. *)
Lemma pushes_append (stream : list obs_audio_data) :
  forall (done : list obs_audio_data) (f : filter_t),
    bridge_open f ->
    audio_channels f = audio_channels filter ->
    audio_buffer f = map pushed done ->
    audio_buffer_frames f = stream_frames done ->
    Forall frames_in_range done ->
    Forall (fun a => frames_in_range a /\ 0 < ad_frames a) stream ->
    stream_frames done + stream_frames stream <= MAX_AUDIO_BUFFER_FRAMES ->
    bridge_open (after f stream)
    /\ audio_channels (after f stream) = audio_channels filter
    /\ audio_buffer (after f stream) = map pushed (done ++ stream)
    /\ audio_buffer_frames (after f stream) = stream_frames (done ++ stream)
    /\ audio_skip (after f stream) = audio_skip f.
Proof using ceiling_in_range.
  induction stream as [| a rest IH];
    intros done f Hopen Hchannels Hbuffer Hcount Hdone Hstream Hbelow.
  { simpl. rewrite app_nil_r. destruct Hopen.
    repeat split; first [assumption | reflexivity]. }
  apply Forall_cons in Hstream as [[Hrange Hframes] Hrest].
  cbn [stream_frames foldr] in Hbelow. fold (stream_frames rest) in Hbelow.
  pose proof (stream_frames_nonneg done Hdone) as Hsofar.
  pose proof (stream_frames_nonneg rest
                (Forall_impl _ _ _ Hrest (fun _ H => proj1 H))) as Htocome.
  assert (Haccepted : push_rejected f a = false)
    by (apply bridge_open_not_rejected; [exact Hopen | lia]).
  destruct (push_accepted MAX_AUDIO_BUFFER_FRAMES HEADER_SIZE f a Haccepted)
    as (Hbuf & Hcnt & Hactive & Htype & Hch & Hskip).
  assert (Hroom : push_overflows MAX_AUDIO_BUFFER_FRAMES f a = false).
  { unfold push_overflows. apply gtb_false. rewrite Hcount.
    rewrite wrap_size_small by (unfold SIZE_MODULUS in *; lia). lia. }
  rewrite Hroom in Hbuf, Hcnt.
  change (after f (a :: rest)) with (after (fst (push f a)) rest).
  replace (done ++ a :: rest) with ((done ++ [a]) ++ rest)
    by (rewrite <- app_assoc; reflexivity).
  destruct (IH (done ++ [a]) (fst (push f a))) as (H1 & H2 & H3 & H4 & H5).
  - destruct Hopen as [Hon Hsource]. split; [rewrite Hactive; exact Hon |].
    rewrite Htype. exact Hsource.
  - rewrite Hch. exact Hchannels.
  - rewrite Hbuf, Hbuffer, map_app. cbn [map]. f_equal. f_equal.
    apply pushed_chunk_channels. exact Hchannels.
  - rewrite Hcnt, Hcount, stream_frames_app. cbn [stream_frames foldr].
    rewrite wrap_size_small by (unfold SIZE_MODULUS in *; lia). lia.
  - apply Forall_app. split; [exact Hdone |]. constructor; [exact Hrange | constructor].
  - exact Hrest.
  - rewrite stream_frames_app. cbn [stream_frames foldr]. lia.
  - repeat split; try assumption; try apply H1. rewrite H5. exact Hskip.
Qed.

End Pushes.

Section StreamPull.

Variable MAX_AUDIO_BUFFER_FRAMES : Z.
Variable AUDIO_OUTPUT_FRAMES : Z.
Variable MAX_AUDIO_MIXES : nat.
Variable HEADER_SIZE : Z.

#[local] Abbreviation pull :=
  (audio_input_callback AUDIO_OUTPUT_FRAMES MAX_AUDIO_MIXES HEADER_SIZE).
#[local] Abbreviation loop :=
  (drain_loop AUDIO_OUTPUT_FRAMES MAX_AUDIO_MIXES HEADER_SIZE).
#[local] Abbreviation selected := (bus_selected MAX_AUDIO_MIXES).

(** A pull that is let through and finds enough frames is the loop. *)
Lemma pull_drains (filter : filter_t) (ts mixers : Z) (mixes : mixes_t) :
  bridge_open filter ->
  AUDIO_OUTPUT_FRAMES <= audio_buffer_frames filter ->
  pull true filter ts mixers mixes
  = match
      loop (S (length (audio_buffer filter))) mixers
        {| ds_filter := set_audio_skip 0 filter;
           ds_max_frames := AUDIO_OUTPUT_FRAMES; ds_mixes := mixes |}
    with
    | Done st =>
        Done {| res_filter := ds_filter st; res_mixes := ds_mixes st;
                res_out_ts := ts; res_return := true; res_log := [];
                res_drained := AUDIO_OUTPUT_FRAMES - ds_max_frames st |}
    | OutOfContract => OutOfContract
    | OutOfFuel => OutOfFuel
    end.
Proof.
  intros [Hactive Hsource] Henough.
  unfold audio_input_callback. rewrite Hactive.
  replace (audio_source_type_eqb (audio_source_type filter) AUDIO_SOURCE_TYPE_SILENCE)
    with false by (destruct (audio_source_type filter); try reflexivity; congruence).
  cbn [negb orb].
  replace (audio_buffer_frames filter <? AUDIO_OUTPUT_FRAMES) with false
    by (symmetry; apply Z.ltb_ge; lia).
  reflexivity.
Qed.

(** X14. A pull on a deque that holds a stream of pushed chunks (each
    of fewer than 2^30 frames, so that its planes went in whole), the
    first of them partly drained, with at least AUDIO_OUTPUT_FRAMES
    frames left: it returns, drains exactly AUDIO_OUTPUT_FRAMES frames
    and leaves the deque with the chunks it finished gone and the
    offset of the chunk it stopped in advanced.  The destination array
    of every channel below the channel count, on every selected bus,
    has the frames of the chunks mixed in one chunk behind the other,
    a chunk without the channel leaving its stretch as it was; every
    other array is untouched. *)
Theorem pull_drains_stream (filter : filter_t) (stream : list obs_audio_data)
    (k ts mixers : Z) (mixes : mixes_t) :
  0 < HEADER_SIZE ->
  bridge_open filter ->
  Forall (pushable HEADER_SIZE filter) stream ->
  audio_buffer filter = chunks_of HEADER_SIZE filter stream k ->
  audio_buffer_frames filter = stream_frames stream - k ->
  0 <= k ->
  (forall a rest, stream = a :: rest -> k < ad_frames a) ->
  0 < AUDIO_OUTPUT_FRAMES <= audio_buffer_frames filter ->
  audio_buffer_frames filter < SIZE_MODULUS ->
  exists r,
    pull true filter ts mixers mixes = Done r
    /\ res_drained r = AUDIO_OUTPUT_FRAMES
    /\ res_filter r
       = set_audio_buffer_frames (audio_buffer_frames filter - AUDIO_OUTPUT_FRAMES)
           (set_audio_buffer
              (stream_rest HEADER_SIZE filter stream k AUDIO_OUTPUT_FRAMES)
              (set_audio_skip 0 filter))
    /\ forall m ch out,
         bus_channel mixes m ch = Some out ->
         (Z.to_nat AUDIO_OUTPUT_FRAMES <= length out)%nat ->
         bus_channel (res_mixes r) m ch
         = Some (if selected mixers m && (ch <? Z.to_nat (audio_channels filter))%nat
                 then stream_mix stream k AUDIO_OUTPUT_FRAMES 0 ch out
                 else out).
Proof.
  intros Hheader Hopen Hok Hbuffer Hcount Hk Hfront Hasked Hfits.
  rewrite (pull_drains filter ts mixers mixes Hopen) by lia.
  destruct (drain_stream AUDIO_OUTPUT_FRAMES MAX_AUDIO_MIXES HEADER_SIZE filter
              mixers Hheader ltac:(lia) stream k
              {| ds_filter := set_audio_skip 0 filter;
                 ds_max_frames := AUDIO_OUTPUT_FRAMES; ds_mixes := mixes |}
              (S (length (audio_buffer filter))))
    as (st & Hloop & Hdone & Hfilter & Hmixes);
    cbn [ds_filter ds_max_frames ds_mixes]; try assumption; try lia;
    try reflexivity.
  { rewrite Hbuffer. destruct stream; simpl; [lia |]. rewrite length_map. lia. }
  rewrite Hloop. eexists. split; [reflexivity |].
  cbn [res_drained res_filter res_mixes].
  split; [lia |].
  split.
  { rewrite Hfilter. cbn [ds_filter ds_max_frames]. rewrite <- Hcount. reflexivity. }
  intros m ch out Hbus Hlen.
  rewrite (Hmixes m ch out Hbus Hlen). cbn [ds_max_frames].
  rewrite Z.sub_diag. reflexivity.
Qed.

(** X15. From pushes to a pull, the samples keep their order: after a
    stream of audio data (each of fewer than 2^30 frames) is pushed onto
    an empty bridge, without reaching the ceiling, a pull mixes into each selected destination
    array of a channel that is there throughout the first
    AUDIO_OUTPUT_FRAMES samples of that channel, in the order pushed,
    whatever the chunk boundaries; onto silence, samples of [-1, 1]
    other than the negative zero come out as they went in.  The frames
    left are the frames pushed less AUDIO_OUTPUT_FRAMES. *)
Theorem push_pull_keeps_order (filter : filter_t) (stream : list obs_audio_data)
    (ts mixers : Z) (mixes : mixes_t) :
  0 < HEADER_SIZE ->
  MAX_AUDIO_BUFFER_FRAMES < SIZE_MODULUS ->
  bridge_open filter ->
  audio_buffer filter = [] ->
  audio_buffer_frames filter = 0 ->
  Forall (pushable HEADER_SIZE filter) stream ->
  stream_frames stream <= MAX_AUDIO_BUFFER_FRAMES ->
  0 < AUDIO_OUTPUT_FRAMES <= stream_frames stream ->
  exists r,
    pull true (pushes MAX_AUDIO_BUFFER_FRAMES HEADER_SIZE filter stream) ts mixers mixes
    = Done r
    /\ res_drained r = AUDIO_OUTPUT_FRAMES
    /\ audio_buffer_frames (res_filter r) = stream_frames stream - AUDIO_OUTPUT_FRAMES
    /\ forall m ch out,
         selected mixers m = true ->
         (ch < Z.to_nat (audio_channels filter))%nat ->
         channel_throughout stream ch ->
         bus_channel mixes m ch = Some out ->
         (Z.to_nat AUDIO_OUTPUT_FRAMES <= length out)%nat ->
         let sent := take (Z.to_nat AUDIO_OUTPUT_FRAMES) (stream_plane stream ch) in
         bus_channel (res_mixes r) m ch = Some (mixed_into 0 out sent)
         /\ (take (Z.to_nat AUDIO_OUTPUT_FRAMES) out
             = replicate (Z.to_nat AUDIO_OUTPUT_FRAMES) f32_zero ->
             Forall plain_sample sent ->
             take (Z.to_nat AUDIO_OUTPUT_FRAMES) (mixed_into 0 out sent) = sent).
Proof.
  intros Hheader Hceiling Hopen Hempty Hnone Hok Hbelow Hasked.
  set (f := pushes MAX_AUDIO_BUFFER_FRAMES HEADER_SIZE filter stream).
  assert (Hranges : Forall (fun a => frames_in_range a /\ 0 < ad_frames a) stream).
  { eapply Forall_impl; [exact Hok |]. intros a (? & ? & _). split; assumption. }
  destruct (pushes_append MAX_AUDIO_BUFFER_FRAMES HEADER_SIZE filter Hceiling stream
              [] filter Hopen eq_refl Hempty Hnone (Forall_nil_2 _) Hranges
              ltac:(simpl; lia))
    as (Hopen' & Hchannels & Hbuffer & Hcount & _).
  fold f in Hopen', Hchannels, Hbuffer, Hcount. cbn [app] in Hbuffer, Hcount.
  assert (Hok' : Forall (pushable HEADER_SIZE f) stream).
  { eapply Forall_impl; [exact Hok |]. intros a (? & ? & ? & ? & ?).
    unfold pushable. rewrite Hchannels.
    split; [assumption | split; [assumption | split; [assumption | split; assumption]]]. }
  assert (Hsame : forall s, map (pushed_chunk HEADER_SIZE filter) s
                            = map (pushed_chunk HEADER_SIZE f) s).
  { intros s. apply map_ext. intros a. apply pushed_chunk_channels.
    symmetry. exact Hchannels. }
  rewrite (pull_drains f ts mixers mixes Hopen') by lia.
  destruct (drain_stream AUDIO_OUTPUT_FRAMES MAX_AUDIO_MIXES HEADER_SIZE f
              mixers Hheader ltac:(lia) stream 0
              {| ds_filter := set_audio_skip 0 f;
                 ds_max_frames := AUDIO_OUTPUT_FRAMES; ds_mixes := mixes |}
              (S (length (audio_buffer f))))
    as (st & Hloop & Hdone & Hfilter & Hmixes);
    cbn [ds_filter ds_max_frames ds_mixes]; try assumption; try lia.
  { change (audio_buffer (set_audio_skip 0 f)) with (audio_buffer f).
    rewrite Hbuffer, Hsame. symmetry. apply chunks_of_undrained. }
  { reflexivity. }
  { change (audio_buffer_frames (set_audio_skip 0 f)) with (audio_buffer_frames f).
    lia. }
  { intros a rest ->. apply Forall_cons in Hok as [(_ & Ha & _) _]. exact Ha. }
  { rewrite Hbuffer, length_map. lia. }
  rewrite Hloop. eexists. split; [reflexivity |].
  cbn [res_drained res_filter res_mixes].
  split; [lia |].
  split; [rewrite Hfilter; simpl; lia |].
  intros m ch out Hselected Hch Hthere Hbus Hlen.
  set (sent := take (Z.to_nat AUDIO_OUTPUT_FRAMES) (stream_plane stream ch)).
  rewrite (Hmixes m ch out Hbus Hlen). cbn [ds_max_frames].
  rewrite Hselected, Hchannels.
  replace (ch <? Z.to_nat (audio_channels filter))%nat with true
    by (symmetry; apply Nat.ltb_lt; exact Hch).
  cbn [andb]. rewrite Z.sub_diag. change (Z.to_nat 0) with 0%nat.
  rewrite (stream_mix_in_order HEADER_SIZE f ch stream 0 AUDIO_OUTPUT_FRAMES 0%nat out
             Hok' Hthere ltac:(lia));
    [| intros a rest ->; apply Forall_cons in Hok as [(_ & Ha & _) _]; exact Ha
     | lia | simpl; lia].
  change (Z.to_nat 0) with 0%nat. rewrite drop_0. fold sent.
  split; [reflexivity |].
  intros Hsilent Hclean.
  assert (Hsent : length sent = Z.to_nat AUDIO_OUTPUT_FRAMES).
  { subst sent. rewrite length_take.
    rewrite (stream_plane_length HEADER_SIZE f stream ch Hok' Hthere). lia. }
  rewrite <- Hsent in *.
  rewrite mixed_into_front.
  rewrite take_app_length'
    by (rewrite length_zip_with, length_take; lia).
  rewrite Hsilent, mix_onto_silence.
  apply mix_unchanged. exact Hclean.
Qed.

End StreamPull.

(** ** Pulls in sequence *)

Lemma stream_rest_advance (HEADER_SIZE : Z) (filter : filter_t)
    (stream : list obs_audio_data) :
  forall k n,
    stream_rest HEADER_SIZE filter stream k n
    = chunks_of HEADER_SIZE filter (fst (stream_advance stream k n))
        (snd (stream_advance stream k n)).
Proof.
  induction stream as [| a rest IH]; intros k n; [reflexivity |].
  cbn [stream_rest stream_advance].
  destruct (n <? ad_frames a - k); [reflexivity | apply IH].
Qed.

(** What is left of a stream is a stream of the same kind. *)
Lemma stream_advance_state (stream : list obs_audio_data) :
  forall k n,
    Forall (fun a => 0 < ad_frames a) stream ->
    0 <= k ->
    (forall a rest, stream = a :: rest -> k < ad_frames a) ->
    0 <= n <= stream_frames stream - k ->
    let left := stream_advance stream k n in
    (exists done, stream = done ++ fst left)
    /\ 0 <= snd left
    /\ (forall a rest, fst left = a :: rest -> snd left < ad_frames a)
    /\ stream_frames (fst left) - snd left = stream_frames stream - k - n.
Proof.
  induction stream as [| a rest IH]; intros k n Hpos Hk Hfront Hn.
  { cbn in *. split; [exists []; reflexivity |]. split; [lia |].
    split; [intros ? ? [=] | lia]. }
  apply Forall_cons in Hpos as [Ha Hrest].
  specialize (Hfront a rest eq_refl) as Hka.
  cbn [stream_frames foldr] in Hn. fold (stream_frames rest) in Hn.
  cbn [stream_advance].
  destruct (Z.ltb_spec n (ad_frames a - k)) as [Hwithin | Hbeyond]; cbn [fst snd].
  - split; [exists []; reflexivity |]. split; [lia |].
    split; [intros b rest' [= <- _]; lia |].
    cbn [stream_frames foldr]. fold (stream_frames rest). lia.
  - destruct (IH 0 (n - (ad_frames a - k)) Hrest ltac:(lia)) as ([done Hdone] & H0 & H1 & H2).
    + intros b rest' ->. apply Forall_cons in Hrest as [Hb _]. exact Hb.
    + lia.
    + split; [exists (a :: done); rewrite Hdone at 1; reflexivity |].
      split; [exact H0 |]. split; [exact H1 |].
      cbn [stream_frames foldr]. fold (stream_frames rest). lia.
Qed.

Lemma stream_rest_more (HEADER_SIZE : Z) (filter : filter_t)
    (stream : list obs_audio_data) :
  forall k n n',
    0 <= n -> 0 <= n' ->
    stream_rest HEADER_SIZE filter (fst (stream_advance stream k n))
      (snd (stream_advance stream k n)) n'
    = stream_rest HEADER_SIZE filter stream k (n + n').
Proof.
  induction stream as [| a rest IH]; intros k n n' Hn Hn'; [reflexivity |].
  cbn [stream_advance].
  destruct (Z.ltb_spec n (ad_frames a - k)) as [Hwithin | Hbeyond]; cbn [fst snd].
  - cbn [stream_rest].
    destruct (Z.ltb_spec n' (ad_frames a - (k + n))),
             (Z.ltb_spec (n + n') (ad_frames a - k)); try lia.
    + f_equal. lia.
    + f_equal. lia.
  - rewrite IH by lia. cbn [stream_rest].
    destruct (Z.ltb_spec (n + n') (ad_frames a - k)); [lia |].
    f_equal. lia.
Qed.

Lemma stream_rest_zero (HEADER_SIZE : Z) (filter : filter_t)
    (stream : list obs_audio_data) (k : Z) :
  (forall a rest, stream = a :: rest -> k < ad_frames a) ->
  stream_rest HEADER_SIZE filter stream k 0 = chunks_of HEADER_SIZE filter stream k.
Proof.
  intros Hfront. destruct stream as [| a rest]; [reflexivity |].
  specialize (Hfront a rest eq_refl). cbn [stream_rest].
  replace (0 <? ad_frames a - k) with true by (symmetry; apply Z.ltb_lt; lia).
  rewrite Z.add_0_r. reflexivity.
Qed.

Lemma chunks_of_channels (HEADER_SIZE : Z) (f g : filter_t)
    (stream : list obs_audio_data) (k : Z) :
  audio_channels f = audio_channels g ->
  chunks_of HEADER_SIZE f stream k = chunks_of HEADER_SIZE g stream k.
Proof.
  intros Hsame. destruct stream as [| a rest]; [reflexivity |].
  cbn [chunks_of]. rewrite (pushed_chunk_channels HEADER_SIZE f g a Hsame).
  f_equal. apply map_ext. intros b. apply pushed_chunk_channels. exact Hsame.
Qed.

(** The planes the push appends are the frames handed to it. *)
Lemma plane_pushed (a : obs_audio_data) (ch : nat) :
  0 <= ad_frames a ->
  planes_whole a ->
  plane a ch = pushed_frames a ch.
Proof.
  intros Hframes Hwhole. unfold plane, pushed_frames, planes_whole in *.
  destruct (ad_data_at a ch) as [xs |]; cbn [default].
  - rewrite Z.mod_small by lia. rewrite Z.div_mul by discriminate. reflexivity.
  - rewrite take_nil. reflexivity.
Qed.

Lemma stream_plane_pushed (HEADER_SIZE : Z) (filter : filter_t)
    (stream : list obs_audio_data) (ch : nat) :
  Forall (pushable HEADER_SIZE filter) stream ->
  stream_plane stream ch = stream_pushed stream ch.
Proof.
  induction 1 as [| a rest (_ & Hframes & _ & _ & Hwhole) _ IH]; [reflexivity |].
  unfold stream_plane, stream_pushed in *. cbn [map concat].
  rewrite IH, (plane_pushed a ch) by (first [lia | assumption]). reflexivity.
Qed.

(** The frames left of a channel that is there throughout are the frames
    of what is left of the stream. *)
Lemma stream_advance_plane (HEADER_SIZE : Z) (filter : filter_t) (ch : nat)
    (stream : list obs_audio_data) :
  forall k n,
    Forall (pushable HEADER_SIZE filter) stream ->
    channel_throughout stream ch ->
    0 <= k ->
    (forall a rest, stream = a :: rest -> k < ad_frames a) ->
    0 <= n <= stream_frames stream - k ->
    drop (Z.to_nat (snd (stream_advance stream k n)))
      (stream_plane (fst (stream_advance stream k n)) ch)
    = drop (Z.to_nat (k + n)) (stream_plane stream ch).
Proof.
  induction stream as [| a rest IH]; intros k n Hok Hthere Hk Hfront Hn.
  { cbn. rewrite !drop_nil. reflexivity. }
  apply Forall_cons in Hok as [(Hrange & Hframes & _ & Hsized & Hwhole) Hrest].
  apply Forall_cons in Hthere as [Hpresent Hthere].
  specialize (Hfront a rest eq_refl) as Hka.
  cbn [stream_frames foldr] in Hn. fold (stream_frames rest) in Hn.
  cbn [stream_advance].
  destruct (Z.ltb_spec n (ad_frames a - k)) as [Hwithin | Hbeyond]; cbn [fst snd];
    [reflexivity |].
  rewrite IH; try assumption; try lia.
  - rewrite stream_plane_cons.
    pose proof (present_plane_length a ch Hframes Hsized Hwhole Hpresent) as Hplane.
    rewrite drop_app_ge by lia. f_equal. lia.
  - intros b rest' ->. apply Forall_cons in Hrest as [(_ & Hb & _) _]. exact Hb.
Qed.

Lemma channel_throughout_left (stream done left : list obs_audio_data) (ch : nat) :
  stream = done ++ left -> channel_throughout stream ch -> channel_throughout left ch.
Proof.
  intros -> Hthere. unfold channel_throughout in *.
  apply Forall_app in Hthere as [_ Hleft]. exact Hleft.
Qed.

Section Pulls.

Variable AUDIO_OUTPUT_FRAMES : Z.
Variable MAX_AUDIO_MIXES : nat.
Variable HEADER_SIZE : Z.

Hypothesis header_positive : 0 < HEADER_SIZE.
Hypothesis frames_asked : 0 < AUDIO_OUTPUT_FRAMES.

#[local] Abbreviation pull :=
  (audio_input_callback AUDIO_OUTPUT_FRAMES MAX_AUDIO_MIXES HEADER_SIZE).
#[local] Abbreviation each :=
  (pull_each AUDIO_OUTPUT_FRAMES MAX_AUDIO_MIXES HEADER_SIZE).
#[local] Abbreviation selected := (bus_selected MAX_AUDIO_MIXES).
#[local] Abbreviation asked := (Z.to_nat AUDIO_OUTPUT_FRAMES).

(** A pull that finds enough frames of a stream of pushed chunks, on a
    filter of the channel count the chunks were pushed with. *)
Lemma pull_stream_step (filter f : filter_t) (stream : list obs_audio_data)
    (k ts mixers : Z) (mixes : mixes_t) :
  bridge_open f ->
  audio_channels f = audio_channels filter ->
  Forall (pushable HEADER_SIZE filter) stream ->
  audio_buffer f = chunks_of HEADER_SIZE filter stream k ->
  audio_buffer_frames f = stream_frames stream - k ->
  0 <= k ->
  (forall a rest, stream = a :: rest -> k < ad_frames a) ->
  AUDIO_OUTPUT_FRAMES <= audio_buffer_frames f ->
  audio_buffer_frames f < SIZE_MODULUS ->
  exists r,
    pull true f ts mixers mixes = Done r
    /\ res_drained r = AUDIO_OUTPUT_FRAMES
    /\ res_filter r
       = set_audio_buffer_frames (audio_buffer_frames f - AUDIO_OUTPUT_FRAMES)
           (set_audio_buffer
              (stream_rest HEADER_SIZE filter stream k AUDIO_OUTPUT_FRAMES)
              (set_audio_skip 0 f))
    /\ forall m ch out,
         bus_channel mixes m ch = Some out ->
         (asked <= length out)%nat ->
         bus_channel (res_mixes r) m ch
         = Some (if selected mixers m && (ch <? Z.to_nat (audio_channels filter))%nat
                 then stream_mix stream k AUDIO_OUTPUT_FRAMES 0 ch out
                 else out).
Proof using header_positive frames_asked.
  intros Hopen Hchannels Hok Hbuffer Hcount Hk Hfront Henough Hfits.
  rewrite (pull_drains AUDIO_OUTPUT_FRAMES MAX_AUDIO_MIXES HEADER_SIZE f ts mixers
             mixes Hopen Henough).
  destruct (drain_stream AUDIO_OUTPUT_FRAMES MAX_AUDIO_MIXES HEADER_SIZE filter
              mixers header_positive ltac:(lia) stream k
              {| ds_filter := set_audio_skip 0 f;
                 ds_max_frames := AUDIO_OUTPUT_FRAMES; ds_mixes := mixes |}
              (S (length (audio_buffer f))))
    as (st & Hloop & Hdone & Hfilter & Hmixes);
    cbn [ds_filter ds_max_frames ds_mixes]; try assumption; try lia;
    try reflexivity.
  { rewrite Hbuffer. destruct stream; simpl; [lia |]. rewrite length_map. lia. }
  rewrite Hloop. eexists. split; [reflexivity |].
  cbn [res_drained res_filter res_mixes].
  split; [lia |].
  split.
  { rewrite Hfilter. cbn [ds_filter ds_max_frames]. rewrite <- Hcount. reflexivity. }
  intros m ch out Hbus Hlen.
  rewrite (Hmixes m ch out Hbus Hlen). cbn [ds_max_frames].
  rewrite Z.sub_diag. reflexivity.
Qed.

End Pulls.

Section PullsOfStream.

Variable AUDIO_OUTPUT_FRAMES : Z.
Variable MAX_AUDIO_MIXES : nat.
Variable HEADER_SIZE : Z.
Variable filter : filter_t.

Hypothesis header_positive : 0 < HEADER_SIZE.
Hypothesis frames_asked : 0 < AUDIO_OUTPUT_FRAMES.

#[local] Abbreviation pull :=
  (audio_input_callback AUDIO_OUTPUT_FRAMES MAX_AUDIO_MIXES HEADER_SIZE).
#[local] Abbreviation each :=
  (pull_each AUDIO_OUTPUT_FRAMES MAX_AUDIO_MIXES HEADER_SIZE).
#[local] Abbreviation selected := (bus_selected MAX_AUDIO_MIXES).
#[local] Abbreviation asked := (Z.to_nat AUDIO_OUTPUT_FRAMES).
#[local] Abbreviation nch := (Z.to_nat (audio_channels filter)).
#[local] Abbreviation sendable := (pushable HEADER_SIZE filter).

(** As many pulls as the stream has frames for: each takes
    AUDIO_OUTPUT_FRAMES frames, where the one before stopped; the arrays
    of a bus it does not select are as they were, and the array of a
    selected bus, for a channel that is there throughout, has the frames
    it took mixed in. *)
Lemma pulls_of_stream (calls : list pull_call) :
  forall (f : filter_t) (stream : list obs_audio_data) (k : Z),
    bridge_open f ->
    audio_channels f = audio_channels filter ->
    Forall sendable stream ->
    audio_buffer f = chunks_of HEADER_SIZE filter stream k ->
    audio_buffer_frames f = stream_frames stream - k ->
    0 <= k ->
    (forall a rest, stream = a :: rest -> k < ad_frames a) ->
    audio_buffer_frames f < SIZE_MODULUS ->
    Z.of_nat (length calls) * AUDIO_OUTPUT_FRAMES <= audio_buffer_frames f ->
    exists g rs,
      each f calls = Done (g, rs)
      /\ length rs = length calls
      /\ bridge_open g
      /\ audio_channels g = audio_channels filter
      /\ audio_buffer g
         = stream_rest HEADER_SIZE filter stream k
             (Z.of_nat (length calls) * AUDIO_OUTPUT_FRAMES)
      /\ audio_buffer_frames g
         = audio_buffer_frames f - Z.of_nat (length calls) * AUDIO_OUTPUT_FRAMES
      /\ forall i c r,
           calls !! i = Some c ->
           rs !! i = Some r ->
           res_drained r = AUDIO_OUTPUT_FRAMES
           /\ audio_buffer (res_filter r)
              = stream_rest HEADER_SIZE filter stream k
                  (Z.of_nat (S i) * AUDIO_OUTPUT_FRAMES)
           /\ audio_buffer_frames (res_filter r)
              = audio_buffer_frames f - Z.of_nat (S i) * AUDIO_OUTPUT_FRAMES
           /\ forall m ch out,
                bus_channel (pc_mixes c) m ch = Some out ->
                (asked <= length out)%nat ->
                (selected (pc_mixers c) m = false \/ (nch <= ch)%nat ->
                 bus_channel (res_mixes r) m ch = Some out)
                /\ (selected (pc_mixers c) m = true ->
                    (ch < nch)%nat ->
                    channel_throughout stream ch ->
                    bus_channel (res_mixes r) m ch
                    = Some (mixed_into 0 out
                              (take asked
                                 (drop (Z.to_nat (k + Z.of_nat i * AUDIO_OUTPUT_FRAMES))
                                    (stream_plane stream ch))))).
Proof using header_positive frames_asked.
  induction calls as [| c calls IH];
    intros f stream k Hopen Hchannels Hok Hbuffer Hcount Hk Hfront Hfits Hroom.
  { exists f, []. split; [reflexivity |]. split; [reflexivity |].
    split; [exact Hopen |]. split; [exact Hchannels |].
    split.
    { cbn [length]. change (Z.of_nat 0 * AUDIO_OUTPUT_FRAMES) with 0.
      rewrite (stream_rest_zero HEADER_SIZE filter stream k Hfront).
      exact Hbuffer. }
    split; [cbn [length]; lia |].
    intros i c r Hc. rewrite lookup_nil in Hc. discriminate. }
  cbn [length] in Hroom. rewrite Nat2Z.inj_succ in Hroom.
  assert (Hrest : 0 <= Z.of_nat (length calls) * AUDIO_OUTPUT_FRAMES) by lia.
  assert (Henough : AUDIO_OUTPUT_FRAMES <= audio_buffer_frames f) by lia.
  destruct (pull_stream_step AUDIO_OUTPUT_FRAMES MAX_AUDIO_MIXES HEADER_SIZE
              header_positive frames_asked filter f stream k (pc_start_ts c)
              (pc_mixers c) (pc_mixes c) Hopen Hchannels Hok Hbuffer Hcount Hk
              Hfront Henough Hfits)
    as (r & Hrun & Hdrained & Hfilter & Hmixes).
  assert (Hframes : Forall (fun a => 0 < ad_frames a) stream).
  { eapply Forall_impl; [exact Hok |]. intros a (_ & Ha & _). exact Ha. }
  destruct (stream_advance_state stream k AUDIO_OUTPUT_FRAMES Hframes Hk Hfront
              ltac:(lia))
    as ([done Hdone] & Hk1 & Hfront1 & Hcount1).
  set (left := stream_advance stream k AUDIO_OUTPUT_FRAMES) in *.
  assert (Hok1 : Forall sendable (fst left)).
  { rewrite Hdone in Hok. apply Forall_app in Hok as [_ Hleft]. exact Hleft. }
  assert (Hopen1 : bridge_open (res_filter r)).
  { rewrite Hfilter. destruct Hopen as [Hactive Hsource]. split; assumption. }
  assert (Hchannels1 : audio_channels (res_filter r) = audio_channels filter)
    by (rewrite Hfilter; exact Hchannels).
  assert (Hbuffer1 : audio_buffer (res_filter r)
                     = chunks_of HEADER_SIZE filter (fst left) (snd left)).
  { rewrite Hfilter. cbn [audio_buffer set_audio_buffer_frames set_audio_buffer].
    apply stream_rest_advance. }
  assert (Hcounted1 : audio_buffer_frames (res_filter r)
                      = audio_buffer_frames f - AUDIO_OUTPUT_FRAMES)
    by (rewrite Hfilter; reflexivity).
  destruct (IH (res_filter r) (fst left) (snd left) Hopen1 Hchannels1 Hok1 Hbuffer1
              ltac:(lia) Hk1 Hfront1 ltac:(lia) ltac:(lia))
    as (g & rs & Heach & Hlength & Hopen' & Hchannels' & Hbuffer' & Hcount' & Hcalls).
  exists g, (r :: rs).
  split; [cbn [pull_each]; rewrite Hrun, Heach; reflexivity |].
  split; [cbn [length]; rewrite Hlength; reflexivity |].
  split; [exact Hopen' |]. split; [exact Hchannels' |].
  assert (Hsum : forall n : nat,
            Z.of_nat (S n) * AUDIO_OUTPUT_FRAMES
            = AUDIO_OUTPUT_FRAMES + Z.of_nat n * AUDIO_OUTPUT_FRAMES)
    by (intros n; lia).
  split.
  { rewrite Hbuffer'. cbn [length]. rewrite Hsum.
    apply stream_rest_more; lia. }
  split; [cbn [length]; lia |].
  intros [| i] c' r' Hc Hr; cbn in Hc, Hr.
  - injection Hc as <-. injection Hr as <-.
    split; [exact Hdrained |].
    split.
    { rewrite Hfilter. cbn [audio_buffer set_audio_buffer_frames set_audio_buffer].
      f_equal. lia. }
    split; [lia |].
    intros m ch out Hbus Hlen. rewrite (Hmixes m ch out Hbus Hlen).
    split.
    + intros [-> | Hch]; [reflexivity |].
      replace (ch <? nch)%nat with false by (symmetry; apply Nat.ltb_ge; exact Hch).
      rewrite andb_false_r. reflexivity.
    + intros -> Hch Hthere.
      replace (ch <? nch)%nat with true by (symmetry; apply Nat.ltb_lt; exact Hch).
      cbn [andb].
      rewrite (stream_mix_in_order HEADER_SIZE filter ch stream k AUDIO_OUTPUT_FRAMES
                 0 out Hok Hthere Hk Hfront ltac:(lia) ltac:(lia)).
      repeat f_equal. lia.
  - destruct (Hcalls i c' r' Hc Hr) as (Hd & Hb & Hn & Hm).
    split; [exact Hd |].
    split.
    { rewrite Hb, (Hsum (S i)). apply stream_rest_more; lia. }
    split; [lia |].
    intros m ch out Hbus Hlen. destruct (Hm m ch out Hbus Hlen) as [Hoff Hon].
    split; [exact Hoff |].
    intros Hsel Hch Hthere.
    assert (Hleft : channel_throughout (fst left) ch)
      by (exact (channel_throughout_left stream done (fst left) ch Hdone Hthere)).
    rewrite (Hon Hsel Hch Hleft). do 3 f_equal.
   
    replace (Z.to_nat (snd left + Z.of_nat i * AUDIO_OUTPUT_FRAMES))
      with (Z.to_nat (snd left) + Z.to_nat (Z.of_nat i * AUDIO_OUTPUT_FRAMES))%nat
      by lia.
    rewrite <- drop_drop. unfold left.
    rewrite (stream_advance_plane HEADER_SIZE filter ch stream k AUDIO_OUTPUT_FRAMES
               Hok Hthere Hk Hfront ltac:(lia)).
    rewrite drop_drop. f_equal. lia.
Qed.

End PullsOfStream.

(** ** What the pulls write, put end to end *)

Lemma windows_concat (n : nat) (xs : list sample) (outs : list (list sample)) :
  forall (gots : list (list sample)) (base : nat),
    length gots = length outs ->
    (base + length outs * n <= length xs)%nat ->
    (forall i out got,
       outs !! i = Some out ->
       gots !! i = Some got ->
       length out = n
       /\ got = zip_with clipped_sum out (take n (drop (base + i * n) xs))) ->
    concat gots
    = zip_with clipped_sum (concat outs) (take (length outs * n) (drop base xs)).
Proof.
  induction outs as [| out outs IH]; intros gots base Hlength Hroom Heach.
  { destruct gots; [reflexivity | discriminate]. }
  destruct gots as [| got gots]; [discriminate |].
  cbn [length] in Hlength, Hroom. injection Hlength as Hlength.
  destruct (Heach 0%nat out got eq_refl eq_refl) as [Hout ->].
  cbn [concat length].
  rewrite (IH gots (base + n)%nat Hlength ltac:(lia)).
  2: { intros i out' got' Ho Hg.
       destruct (Heach (S i) out' got' Ho Hg) as [Hlen ->].
       split; [exact Hlen |]. do 3 f_equal. lia. }
  replace (S (length outs) * n)%nat with (n + length outs * n)%nat by lia.
  rewrite <- (take_take_drop (drop base xs) n (length outs * n)).
  rewrite zip_with_app by (rewrite length_take, length_drop; lia).
  rewrite Nat.add_0_r, drop_drop. reflexivity.
Qed.

Lemma clipped_onto_silence (w : list sample) :
  Forall plain_sample w ->
  zip_with clipped_sum (replicate (length w) f32_zero) w = w.
Proof.
  intros Hplain.
  change (zip_with clipped_sum) with (zip_with mix_sample).
  rewrite mix_onto_silence. apply mix_unchanged. exact Hplain.
Qed.

Section PullRunLemmas.

Variable AUDIO_OUTPUT_FRAMES : Z.
Variable MAX_AUDIO_MIXES : nat.
Variable HEADER_SIZE : Z.

#[local] Abbreviation pull :=
  (audio_input_callback AUDIO_OUTPUT_FRAMES MAX_AUDIO_MIXES HEADER_SIZE).
#[local] Abbreviation each :=
  (pull_each AUDIO_OUTPUT_FRAMES MAX_AUDIO_MIXES HEADER_SIZE).

Lemma pull_each_app (calls more : list pull_call) :
  forall (f g h : filter_t) (rs rs' : list audio_input_result),
    each f calls = Done (g, rs) ->
    each g more = Done (h, rs') ->
    each f (calls ++ more) = Done (h, rs ++ rs').
Proof.
  induction calls as [| c calls IH]; intros f g h rs rs' Hfirst Hmore.
  { cbn in Hfirst. injection Hfirst as <- <-. exact Hmore. }
  cbn [pull_each app] in *.
  destruct (pull true f (pc_start_ts c) (pc_mixers c) (pc_mixes c)) as [r | |];
    try discriminate.
  destruct (each (res_filter r) calls) as [[g' rs0] | |] eqn:Hrest; try discriminate.
  injection Hfirst as <- <-.
  rewrite (IH (res_filter r) g' h rs0 rs' Hrest Hmore). reflexivity.
Qed.

(** Pulls that find fewer frames than they ask for take none and write
    to no bus. *)
Lemma pulls_starved (calls : list pull_call) :
  forall f : filter_t,
    bridge_open f ->
    audio_buffer_frames f < AUDIO_OUTPUT_FRAMES ->
    exists g rs,
      each f calls = Done (g, rs)
      /\ length rs = length calls
      /\ audio_buffer_frames g = audio_buffer_frames f
      /\ audio_buffer g = audio_buffer f
      /\ forall i c r,
           calls !! i = Some c -> rs !! i = Some r ->
           res_drained r = 0 /\ res_mixes r = pc_mixes c.
Proof.
  induction calls as [| c calls IH]; intros f Hopen Hstarved.
  { exists f, []. do 4 (split; [reflexivity |]).
    intros i c r Hc. rewrite lookup_nil in Hc. discriminate. }
  assert (Hrun : exists r,
            pull true f (pc_start_ts c) (pc_mixers c) (pc_mixes c) = Done r
            /\ res_drained r = 0 /\ res_mixes r = pc_mixes c
            /\ bridge_open (res_filter r)
            /\ audio_buffer_frames (res_filter r) = audio_buffer_frames f
            /\ audio_buffer (res_filter r) = audio_buffer f).
  { destruct Hopen as [Hactive Hsource].
    unfold audio_input_callback. rewrite Hactive.
    replace (audio_source_type_eqb (audio_source_type f) AUDIO_SOURCE_TYPE_SILENCE)
      with false by (destruct (audio_source_type f); try reflexivity; congruence).
    cbn [negb orb].
    replace (audio_buffer_frames f <? AUDIO_OUTPUT_FRAMES) with true
      by (symmetry; apply Z.ltb_lt; exact Hstarved).
    eexists. split; [reflexivity |]. cbn.
    repeat split; assumption. }
  destruct Hrun as (r & Hrun & Hdrained & Hmixes & Hopen1 & Hcount1 & Hbuffer1).
  destruct (IH (res_filter r) Hopen1 ltac:(lia))
    as (g & rs & Heach & Hlength & Hcount & Hbuffer & Hcalls).
  exists g, (r :: rs).
  split; [cbn [pull_each]; rewrite Hrun, Heach; reflexivity |].
  split; [cbn [length]; rewrite Hlength; reflexivity |].
  split; [lia |]. split; [congruence |].
  intros [| i] c' r' Hc Hr; cbn in Hc, Hr.
  - injection Hc as <-. injection Hr as <-. split; assumption.
  - exact (Hcalls i c' r' Hc Hr).
Qed.

End PullRunLemmas.

Lemma pulled_frames (n : Z) (mixes : mixes_t) (m ch : nat) (out w : list sample) :
  bus_channel mixes m ch = Some (mixed_into 0 out w) ->
  length w = Z.to_nat n ->
  (Z.to_nat n <= length out)%nat ->
  bus_frames n mixes m ch = zip_with clipped_sum (take (Z.to_nat n) out) w.
Proof.
  intros Hbus Hw Hout. unfold bus_frames. rewrite Hbus. simpl default.
  rewrite <- Hw. rewrite take_mixed_into by lia. reflexivity.
Qed.

Lemma to_nat_times (i : nat) (n : Z) :
  0 <= n -> Z.to_nat (Z.of_nat i * n) = (i * Z.to_nat n)%nat.
Proof. intros Hn. rewrite Z2Nat.inj_mul, Nat2Z.id by lia. reflexivity. Qed.

(** ** Partial-chunk resumption *)

Section Resumption.

Variable MAX_AUDIO_BUFFER_FRAMES : Z.
Variable AUDIO_OUTPUT_FRAMES : Z.
Variable MAX_AUDIO_MIXES : nat.
Variable HEADER_SIZE : Z.

#[local] Abbreviation push :=
  (push_audio_to_buffer MAX_AUDIO_BUFFER_FRAMES HEADER_SIZE).
#[local] Abbreviation each :=
  (pull_each AUDIO_OUTPUT_FRAMES MAX_AUDIO_MIXES HEADER_SIZE).
#[local] Abbreviation asked := (Z.to_nat AUDIO_OUTPUT_FRAMES).

(** C5. A chunk is pushed onto an open bridge with an empty buffer and
    then pulled as often as it has AUDIO_OUTPUT_FRAMES frames for; a
    pull takes AUDIO_OUTPUT_FRAMES frames, the same number at every
    call.  The pulls return.  After the push the deque holds the chunk;
    after a pull that leaves frames of it the deque holds the same
    chunk, in place, with only the offset of its header advanced by the
    frames taken so far; the pull that takes all that is left pops the
    chunk.  For every bus the pulls select and every channel present in
    the chunk, the frames the pulls wrote, put end to end, are the
    frames pushed for the channel, in order, as many as were taken, each
    added once to the sample that was at its place in the destination
    and hard-clipped; onto silence, frames of [-1, 1] other than the
    negative zero arrive as they were pushed. *)
Theorem partial_chunk_resumption (filter : filter_t) (a : obs_audio_data)
    (calls : list pull_call) :
  0 < HEADER_SIZE ->
  0 < AUDIO_OUTPUT_FRAMES ->
  bridge_open filter ->
  audio_buffer filter = [] ->
  audio_buffer_frames filter = 0 ->
  pushable HEADER_SIZE filter a ->
  Z.of_nat (length calls) * AUDIO_OUTPUT_FRAMES <= ad_frames a ->
  let chunk := pushed_chunk HEADER_SIZE filter a in
  let f0 := fst (push filter a) in
  exists g rs,
    each f0 calls = Done (g, rs)
    /\ length rs = length calls
    /\ audio_buffer f0 = [chunk]
    /\ (forall i r,
          rs !! i = Some r ->
          res_drained r = AUDIO_OUTPUT_FRAMES
          /\ audio_buffer (res_filter r)
             = if Z.of_nat (S i) * AUDIO_OUTPUT_FRAMES <? ad_frames a
               then [drained_to (Z.of_nat (S i) * AUDIO_OUTPUT_FRAMES) chunk]
               else [])
    /\ forall m ch,
         (ch < Z.to_nat (audio_channels filter))%nat ->
         is_some (ad_data_at a ch) = true ->
         Forall (fun c => serves AUDIO_OUTPUT_FRAMES MAX_AUDIO_MIXES c m ch) calls ->
         let taken := (length calls * asked)%nat in
         let handed :=
           concat (map (fun c => bus_frames AUDIO_OUTPUT_FRAMES (pc_mixes c) m ch) calls) in
         let written :=
           concat (map (fun r => bus_frames AUDIO_OUTPUT_FRAMES (res_mixes r) m ch) rs) in
         written
         = zip_with (fun o x => hard_clip (SFadd 24 128 o x)) handed
             (take taken (pushed_frames a ch))
         /\ (handed = replicate taken f32_zero ->
             Forall plain_sample (take taken (pushed_frames a ch)) ->
             written = take taken (pushed_frames a ch)).
Proof.
  intros Hheader Hasked Hopen Hempty Hnone Hok Hroom chunk f0.
  pose proof Hok as (Hrange & Hframes & Hfits & Hsized & Hwhole).
  destruct (push_onto_empty MAX_AUDIO_BUFFER_FRAMES HEADER_SIZE filter a
              Hopen Hempty Hnone Hrange Hframes) as (Hopen0 & Hch0 & Hbuf0 & Hcnt0).
  fold f0 in Hopen0, Hch0, Hbuf0, Hcnt0.
  rewrite (pushed_chunk_channels HEADER_SIZE f0 filter a Hch0) in Hbuf0.
  fold chunk in Hbuf0.
  assert (Hstream : Forall (pushable HEADER_SIZE filter) [a])
    by (constructor; [exact Hok | constructor]).
  assert (Hcount : audio_buffer_frames f0 = stream_frames [a] - 0)
    by (cbn [stream_frames foldr]; lia).
  assert (Hfront : forall b rest, [a] = b :: rest -> 0 < ad_frames b)
    by (intros b rest [= <- _]; exact Hframes).
  assert (Hin : audio_buffer_frames f0 < SIZE_MODULUS)
    by (unfold frames_in_range, UINT32_MODULUS in Hrange; unfold SIZE_MODULUS; lia).
  destruct (pulls_of_stream AUDIO_OUTPUT_FRAMES MAX_AUDIO_MIXES HEADER_SIZE filter
              Hheader Hasked calls f0 [a] 0 Hopen0 Hch0 Hstream Hbuf0 Hcount
              ltac:(lia) Hfront Hin ltac:(lia))
    as (g & rs & Heach & Hlength & _ & _ & _ & _ & Hcalls).
  exists g, rs.
  split; [exact Heach |]. split; [exact Hlength |].
  split; [rewrite Hbuf0; unfold chunk; rewrite pushed_chunk_undrained; reflexivity |].
  split.
  { intros i r Hr.
    assert (Hi : (i < length calls)%nat)
      by (rewrite <- Hlength; exact (lookup_lt_Some _ _ _ Hr)).
    destruct (lookup_lt_is_Some_2 calls i Hi) as [c Hc].
    destruct (Hcalls i c r Hc Hr) as (Hdrained & Hbuffer & _).
    split; [exact Hdrained |].
    rewrite Hbuffer. cbn [stream_rest]. rewrite Z.sub_0_r, Z.add_0_l.
    destruct (Z.of_nat (S i) * AUDIO_OUTPUT_FRAMES <? ad_frames a); reflexivity. }
  intros m ch Hch Hpresent Hserved taken handed written.
  assert (Hthere : channel_throughout [a] ch)
    by (constructor; [exact Hpresent | constructor]).
  assert (Hplane : stream_plane [a] ch = pushed_frames a ch).
  { rewrite (stream_plane_pushed HEADER_SIZE filter [a] ch Hstream).
    unfold stream_pushed. cbn [map concat]. apply app_nil_r. }
  assert (Hpushed : length (pushed_frames a ch) = Z.to_nat (ad_frames a)).
  { rewrite <- (plane_pushed a ch) by (first [lia | assumption]).
    apply present_plane_length; assumption. }
  assert (Htaken : (taken <= Z.to_nat (ad_frames a))%nat).
  { unfold taken. rewrite <- (to_nat_times (length calls) AUDIO_OUTPUT_FRAMES) by lia.
    apply Z2Nat.inj_le; lia. }
  assert (Hwritten :
    written = zip_with clipped_sum handed (take taken (pushed_frames a ch))).
  { unfold written, handed, taken.
    rewrite <- (length_map (fun c => bus_frames AUDIO_OUTPUT_FRAMES (pc_mixes c) m ch)
                  calls).
    rewrite <- (drop_0 (pushed_frames a ch)) at 1.
    apply windows_concat.
    - rewrite !length_map. exact Hlength.
    - rewrite length_map, Hpushed. fold taken. lia.
    - intros i out got Hout Hgot.
      rewrite list_lookup_fmap in Hout. rewrite list_lookup_fmap in Hgot.
      destruct (calls !! i) as [c |] eqn:Hc; [| discriminate].
      destruct (rs !! i) as [r |] eqn:Hr; [| discriminate].
      cbn in Hout, Hgot. injection Hout as <-. injection Hgot as <-.
      destruct (proj1 (Forall_lookup _ calls) Hserved i c Hc)
        as (Hselected & out & Hbus & Hlen).
      destruct (Hcalls i c r Hc Hr) as (_ & _ & _ & Hmixed).
      destruct (Hmixed m ch out Hbus Hlen) as [_ Hon].
      specialize (Hon Hselected Hch Hthere). rewrite Hplane in Hon.
      assert (Hi : (i < length calls)%nat) by exact (lookup_lt_Some _ _ _ Hc).
      assert (Hat : Z.to_nat (0 + Z.of_nat i * AUDIO_OUTPUT_FRAMES) = (0 + i * asked)%nat)
        by (rewrite Z.add_0_l; apply to_nat_times; lia).
      rewrite Hat in Hon.
      assert (Hwindow : length (take asked (drop (0 + i * asked) (pushed_frames a ch)))
                        = asked).
      { rewrite length_take, length_drop, Hpushed. unfold taken in Htaken. nia. }
      split.
      + unfold bus_frames. rewrite Hbus. simpl default.
        rewrite length_take. lia.
      + rewrite (pulled_frames AUDIO_OUTPUT_FRAMES (res_mixes r) m ch out _ Hon Hwindow
                   Hlen).
        unfold bus_frames. rewrite Hbus. reflexivity. }
  split; [exact Hwritten |].
  intros Hsilent Hplain. rewrite Hwritten, Hsilent.
  replace taken with (length (take taken (pushed_frames a ch))) at 1
    by (rewrite length_take, Hpushed; lia).
  apply clipped_onto_silence. exact Hplain.
Qed.

End Resumption.

(** ** Frame conservation *)

Section FramesConserved.

Variable MAX_AUDIO_BUFFER_FRAMES : Z.
Variable AUDIO_OUTPUT_FRAMES : Z.
Variable MAX_AUDIO_MIXES : nat.
Variable HEADER_SIZE : Z.

#[local] Abbreviation each :=
  (pull_each AUDIO_OUTPUT_FRAMES MAX_AUDIO_MIXES HEADER_SIZE).
#[local] Abbreviation selected := (bus_selected MAX_AUDIO_MIXES).
#[local] Abbreviation asked := (Z.to_nat AUDIO_OUTPUT_FRAMES).

(** C3. A stream of audio data totalling F frames is pushed onto an open
    bridge with an empty buffer, without reaching the ceiling, and then
    pulled any number of times.  The pulls return.  Each of the first
    F / AUDIO_OUTPUT_FRAMES pulls takes AUDIO_OUTPUT_FRAMES frames out
    of the buffer, every later one takes none and writes to no bus: the
    frames taken and the frames left in the buffer add up to F.  The
    frames a pull takes are accumulated into the buses its mask
    selects, and into those only: on a selected bus, for a channel that
    is there throughout the stream, the first AUDIO_OUTPUT_FRAMES
    frames of the array are the frames pushed, from where the pull
    before stopped, added to what was there and hard-clipped, and the
    rest of the array is as it was; the arrays of a bus that is not
    selected are as they were. *)
Theorem frame_conservation (filter : filter_t) (stream : list obs_audio_data)
    (calls : list pull_call) :
  0 < HEADER_SIZE ->
  0 < AUDIO_OUTPUT_FRAMES ->
  MAX_AUDIO_BUFFER_FRAMES < SIZE_MODULUS ->
  bridge_open filter ->
  audio_buffer filter = [] ->
  audio_buffer_frames filter = 0 ->
  Forall (pushable HEADER_SIZE filter) stream ->
  stream_frames stream <= MAX_AUDIO_BUFFER_FRAMES ->
  let F := stream_frames stream in
  let f0 := pushes MAX_AUDIO_BUFFER_FRAMES HEADER_SIZE filter stream in
  let served := Z.min (Z.of_nat (length calls)) (F / AUDIO_OUTPUT_FRAMES) in
  exists g rs,
    each f0 calls = Done (g, rs)
    /\ length rs = length calls
    /\ audio_buffer_frames f0 = F
    /\ served * AUDIO_OUTPUT_FRAMES + audio_buffer_frames g = F
    /\ forall i c r,
         calls !! i = Some c ->
         rs !! i = Some r ->
         (F / AUDIO_OUTPUT_FRAMES <= Z.of_nat i ->
          res_drained r = 0 /\ res_mixes r = pc_mixes c)
         /\ (Z.of_nat i < F / AUDIO_OUTPUT_FRAMES ->
             res_drained r = AUDIO_OUTPUT_FRAMES
             /\ forall m ch out,
                  bus_channel (pc_mixes c) m ch = Some out ->
                  (asked <= length out)%nat ->
                  (selected (pc_mixers c) m = false ->
                   bus_channel (res_mixes r) m ch = Some out)
                  /\ (selected (pc_mixers c) m = true ->
                      (ch < Z.to_nat (audio_channels filter))%nat ->
                      channel_throughout stream ch ->
                      exists got,
                        bus_channel (res_mixes r) m ch = Some got
                        /\ take asked got
                           = zip_with (fun o x => hard_clip (SFadd 24 128 o x))
                               (take asked out)
                               (take asked
                                  (drop (i * asked) (stream_pushed stream ch)))
                        /\ drop asked got = drop asked out)).
Proof.
  intros Hheader Hasked Hceiling Hopen Hempty Hnone Hok Hbelow F f0 served.
  assert (Hranges : Forall (fun a => frames_in_range a /\ 0 < ad_frames a) stream).
  { eapply Forall_impl; [exact Hok |]. intros a (? & ? & _). split; assumption. }
  destruct (pushes_append MAX_AUDIO_BUFFER_FRAMES HEADER_SIZE filter Hceiling stream
              [] filter Hopen eq_refl Hempty Hnone (Forall_nil_2 _) Hranges
              ltac:(simpl; lia))
    as (Hopen0 & Hch0 & Hbuf0 & Hcnt0 & _).
  fold f0 in Hopen0, Hch0, Hbuf0, Hcnt0. cbn [app] in Hbuf0, Hcnt0. fold F in Hcnt0.
  rewrite <- (chunks_of_undrained HEADER_SIZE filter stream) in Hbuf0.
  assert (HF : 0 <= F).
  { apply stream_frames_nonneg. eapply Forall_impl; [exact Hok |].
    intros a Ha. apply Ha. }
  assert (Hquot : 0 <= F / AUDIO_OUTPUT_FRAMES) by (apply Z.div_pos; lia).
  assert (Hfloor : F / AUDIO_OUTPUT_FRAMES * AUDIO_OUTPUT_FRAMES <= F)
    by (rewrite Z.mul_comm; apply Z.mul_div_le; lia).
  assert (Hrem : F - F / AUDIO_OUTPUT_FRAMES * AUDIO_OUTPUT_FRAMES < AUDIO_OUTPUT_FRAMES).
  { pose proof (Z.mod_pos_bound F AUDIO_OUTPUT_FRAMES Hasked) as Hmod.
    rewrite Z.mod_eq in Hmod by lia. lia. }
  set (s := Z.to_nat served).
  assert (Hs : Z.of_nat s = served) by (unfold s, served; lia).
  assert (Hsplit : calls = take s calls ++ drop s calls)
    by (symmetry; apply take_drop).
  assert (Htaken : length (take s calls) = s)
    by (rewrite length_take; unfold s, served; lia).
  assert (Hfront : forall a rest, stream = a :: rest -> 0 < ad_frames a).
  { intros a rest ->. apply Forall_cons in Hok as [(_ & Ha & _) _]. exact Ha. }
  destruct (pulls_of_stream AUDIO_OUTPUT_FRAMES MAX_AUDIO_MIXES HEADER_SIZE filter
              Hheader Hasked (take s calls) f0 stream 0 Hopen0 Hch0 Hok Hbuf0
              ltac:(lia) ltac:(lia) Hfront ltac:(lia)
              ltac:(rewrite Htaken, Hs; unfold served; nia))
    as (g1 & rs1 & Heach1 & Hlength1 & Hopen1 & _ & _ & Hcount1 & Hcalls1).
  rewrite Htaken, Hs in Hcount1.
  assert (Hlater : drop s calls = [] \/ audio_buffer_frames g1 < AUDIO_OUTPUT_FRAMES).
  { destruct (Z.le_gt_cases (Z.of_nat (length calls)) (F / AUDIO_OUTPUT_FRAMES))
      as [Hall | Hmore].
    - left. apply drop_ge. unfold s, served. lia.
    - right. rewrite Hcount1, Hcnt0. unfold served.
      rewrite Z.min_r by lia. lia. }
  assert (Hrest : exists g rs2,
            each g1 (drop s calls) = Done (g, rs2)
            /\ length rs2 = length (drop s calls)
            /\ audio_buffer_frames g = audio_buffer_frames g1
            /\ forall i c r,
                 drop s calls !! i = Some c -> rs2 !! i = Some r ->
                 res_drained r = 0 /\ res_mixes r = pc_mixes c).
  { destruct Hlater as [Hnone' | Hstarved].
    - rewrite Hnone'. exists g1, []. do 3 (split; [reflexivity |]).
      intros i c r Hc. rewrite lookup_nil in Hc. discriminate.
    - destruct (pulls_starved AUDIO_OUTPUT_FRAMES MAX_AUDIO_MIXES HEADER_SIZE
                  (drop s calls) g1 Hopen1 Hstarved)
        as (g & rs2 & Heach2 & Hlength2 & Hcount2 & _ & Hcalls2).
      exists g, rs2.
      split; [exact Heach2 |]. split; [exact Hlength2 |].
      split; [exact Hcount2 | exact Hcalls2]. }
  destruct Hrest as (g & rs2 & Heach2 & Hlength2 & Hcount2 & Hcalls2).
  exists g, (rs1 ++ rs2).
  split.
  { rewrite Hsplit at 1.
    exact (pull_each_app AUDIO_OUTPUT_FRAMES MAX_AUDIO_MIXES HEADER_SIZE _ _ _ _ _ _ _
             Heach1 Heach2). }
  split.
  { rewrite length_app, Hlength1, Hlength2, <- length_app, <- Hsplit. reflexivity. }
  split; [exact Hcnt0 |].
  split; [rewrite Hcount2, Hcount1, Hcnt0; lia |].
  intros i c r Hc Hr.
  assert (Hi : (i < length calls)%nat) by exact (lookup_lt_Some _ _ _ Hc).
  destruct (Nat.lt_ge_cases i s) as [Hin | Hout].
  - rewrite lookup_app_l in Hr by lia.
    assert (Hc1 : take s calls !! i = Some c) by (rewrite lookup_take_lt by lia; exact Hc).
    destruct (Hcalls1 i c r Hc1 Hr) as (Hdrained & _ & _ & Hmixed).
    split; [intros Hlate; exfalso; unfold s, served in Hin; lia |].
    intros _. split; [exact Hdrained |].
    intros m ch out Hbus Hlen. destruct (Hmixed m ch out Hbus Hlen) as [Hoff Hon].
    split; [intros Hsel; apply Hoff; left; exact Hsel |].
    intros Hsel Hch Hthere.
    specialize (Hon Hsel Hch Hthere).
    rewrite (stream_plane_pushed HEADER_SIZE filter stream ch Hok) in Hon.
    assert (Hat : Z.to_nat (0 + Z.of_nat i * AUDIO_OUTPUT_FRAMES) = (i * asked)%nat)
      by (rewrite Z.add_0_l; apply to_nat_times; lia).
    rewrite Hat in Hon.
    assert (Hwindow :
      length (take asked (drop (i * asked) (stream_pushed stream ch))) = asked).
    { rewrite length_take, length_drop.
      rewrite <- (stream_plane_pushed HEADER_SIZE filter stream ch Hok).
      rewrite (stream_plane_length HEADER_SIZE filter stream ch Hok Hthere).
      fold F. unfold s, served in Hin.
      assert (Z.of_nat (S i) * AUDIO_OUTPUT_FRAMES <= F) by nia.
      assert (Z.to_nat (Z.of_nat (S i) * AUDIO_OUTPUT_FRAMES) = (S i * asked)%nat)
        by (apply to_nat_times; lia).
      assert (S i * asked <= Z.to_nat F)%nat by lia.
      lia. }
    eexists. split; [exact Hon |].
    split.
    + rewrite <- Hwindow at 1. rewrite take_mixed_into by (rewrite Hwindow; exact Hlen).
      rewrite Hwindow. reflexivity.
    + rewrite mixed_into_front, Hwindow.
      rewrite drop_app_length'
        by (rewrite length_zip_with, length_take, Hwindow; lia).
      reflexivity.
  - rewrite lookup_app_r in Hr by lia. rewrite Hlength1, Htaken in Hr.
    assert (Hc2 : drop s calls !! (i - s)%nat = Some c).
    { rewrite lookup_drop. replace (s + (i - s))%nat with i by lia. exact Hc. }
    split; [intros _; exact (Hcalls2 (i - s)%nat c r Hc2 Hr) |].
    intros Hearly. exfalso. unfold s, served in Hout. lia.
Qed.

End FramesConserved.

(** ** Invariants of the bridge *)

Section BridgeInvariants.

Variable MAX_AUDIO_BUFFER_FRAMES : Z.
Variable AUDIO_OUTPUT_FRAMES : Z.
Variable MAX_AUDIO_MIXES : nat.
Variable HEADER_SIZE : Z.

#[local] Abbreviation push :=
  (push_audio_to_buffer MAX_AUDIO_BUFFER_FRAMES HEADER_SIZE).
#[local] Abbreviation pull :=
  (audio_input_callback AUDIO_OUTPUT_FRAMES MAX_AUDIO_MIXES HEADER_SIZE).
#[local] Abbreviation loop :=
  (drain_loop AUDIO_OUTPUT_FRAMES MAX_AUDIO_MIXES HEADER_SIZE).
#[local] Abbreviation turn :=
  (drain_chunk AUDIO_OUTPUT_FRAMES MAX_AUDIO_MIXES HEADER_SIZE).
#[local] Abbreviation step :=
  (bridge_step MAX_AUDIO_BUFFER_FRAMES AUDIO_OUTPUT_FRAMES MAX_AUDIO_MIXES HEADER_SIZE).
#[local] Abbreviation run_ops :=
  (bridge_run MAX_AUDIO_BUFFER_FRAMES AUDIO_OUTPUT_FRAMES MAX_AUDIO_MIXES HEADER_SIZE).
#[local] Abbreviation fits := (scratch_fits HEADER_SIZE).




(** *** Runs of pushes and pulls *)

Section RunInvariant.

Variable Inv : filter_t -> Prop.
Variable allowed : bridge_op -> Prop.
Hypothesis push_keeps :
  forall f a, Inv f -> allowed (Push a) -> Inv (fst (push f a)).
Hypothesis pull_keeps :
  forall f info ts mixers mixes,
    Inv f -> exists r, pull info f ts mixers mixes = Done r /\ Inv (res_filter r).

Lemma bridge_run_keeps (ops : list bridge_op) :
  forall t,
    Inv (t_filter t) ->
    Forall allowed ops ->
    exists t', run_ops t ops = Done t' /\ Inv (t_filter t').
Proof.
  induction ops as [| o ops IH]; intros t Hinv Hallowed.
  { exists t. split; [reflexivity | exact Hinv]. }
  apply Forall_cons in Hallowed as [Ho Hops].
  cbn [bridge_run]. destruct o as [a | info ts mixers mixes]; cbn [bridge_step].
  - apply IH; [| exact Hops]. cbn [t_filter]. apply push_keeps; assumption.
  - destruct (pull_keeps (t_filter t) info ts mixers mixes Hinv) as (r & -> & Hr).
    apply IH; [exact Hr | exact Hops].
Qed.

End RunInvariant.

(** X17. As long as no push hands over more than
    MAX_AUDIO_BUFFER_FRAMES frames at once (nor 2^30 frames or more,
    whose planes would not go in whole), the buffer never holds more
    than MAX_AUDIO_BUFFER_FRAMES frames: from a consistent buffer within
    the ceiling, every run of pushes and pulls returns and leaves the
    frame counter within the ceiling and in agreement with the deque. *)
Theorem bridge_run_within_ceiling (filter : filter_t) (ops : list bridge_op) :
  MAX_AUDIO_BUFFER_FRAMES < SIZE_MODULUS - UINT32_MODULUS ->
  buffer_consistent filter ->
  audio_buffer_frames filter <= MAX_AUDIO_BUFFER_FRAMES ->
  Forall (push_sized MAX_AUDIO_BUFFER_FRAMES) ops ->
  exists t,
    run_ops (start_tally filter) ops = Done t
    /\ buffer_consistent (t_filter t)
    /\ audio_buffer_frames (t_filter t) <= MAX_AUDIO_BUFFER_FRAMES.
Proof.
  intros Hceiling Hcons Hwithin Hsized.
  apply (bridge_run_keeps
           (fun f => buffer_consistent f
                     /\ audio_buffer_frames f <= MAX_AUDIO_BUFFER_FRAMES)
           (push_sized MAX_AUDIO_BUFFER_FRAMES)).
  - intros f a [Hf Hle] (Hrange & _ & Hsize).
    split.
    + apply (push_consistent MAX_AUDIO_BUFFER_FRAMES HEADER_SIZE f a Hceiling Hrange Hf).
    + apply push_within_ceiling; assumption.
  - intros f info ts mixers mixes [Hf Hle].
    destruct (pull_consistent AUDIO_OUTPUT_FRAMES MAX_AUDIO_MIXES HEADER_SIZE
                info f ts mixers mixes Hf)
      as (r & Hrun & Hr & Hsum & Hdrained & _).
    exists r. split; [exact Hrun |]. split; [exact Hr | lia].
  - split; assumption.
  - exact Hsized.
Qed.


(** *** The scratch buffer *)

Lemma push_scratch (filter : filter_t) (a : obs_audio_data) :
  fits filter ->
  fits (fst (push filter a))
  /\ audio_conv_buffer_size filter <= audio_conv_buffer_size (fst (push filter a)).
Proof.
  intros Hfits. unfold push_audio_to_buffer.
  destruct (negb (output_active filter)
            || audio_source_type_eqb (audio_source_type filter)
                 AUDIO_SOURCE_TYPE_SILENCE
            || (ad_frames a =? 0)); [split; [exact Hfits | simpl; lia] |].
  cbv zeta.
  set (full := wrap_size (audio_buffer_frames filter + ad_frames a)
               >? MAX_AUDIO_BUFFER_FRAMES).
  set (filter1 := if full then set_audio_buffer_frames 0 (set_audio_buffer [] filter)
                  else filter).
  assert (Hsize1 : audio_conv_buffer_size filter1 = audio_conv_buffer_size filter)
    by (subst filter1; destruct full; reflexivity).
  assert (Hfits1 : Forall (fun c => chunk_data_size HEADER_SIZE c
                                    <= audio_conv_buffer_size filter)
                     (audio_buffer filter1)).
  { subst filter1. destruct full; [constructor | exact Hfits]. }
  set (hdr := compute_header HEADER_SIZE (Z.to_nat (audio_channels filter1)) a).
  set (data_size := wrap_size (HEADER_SIZE + channels hdr * ad_frames a * 4)).
  assert (Hchunk : chunk_data_size HEADER_SIZE
                     {| header := hdr;
                        payload := compute_payload
                                     (Z.to_nat (audio_channels filter1)) a |}
                   = data_size).
  { unfold chunk_data_size. cbn [header]. subst hdr data_size.
    rewrite compute_header_frames. reflexivity. }
  cbn [fst]. unfold scratch_fits.
  destruct (data_size >? audio_conv_buffer_size
                           (set_audio_buffer
                              (audio_buffer filter1
                               ++ [{| header := hdr;
                                      payload := compute_payload
                                                   (Z.to_nat (audio_channels filter1))
                                                   a |}])
                              filter1)) eqn:Hgrow;
    cbn [audio_conv_buffer_size audio_buffer set_audio_buffer_frames
           set_audio_conv_buffer_size set_audio_buffer] in *;
    rewrite ?Hsize1 in *.
  - apply gtb_true in Hgrow. split; [| lia].
    apply Forall_app. split.
    + eapply Forall_impl; [exact Hfits1 |]. intros c Hc. simpl in Hc. lia.
    + constructor; [rewrite Hchunk; lia | constructor].
  - apply gtb_false in Hgrow. split; [| lia].
    apply Forall_app. split; [exact Hfits1 |].
    constructor; [rewrite Hchunk; exact Hgrow | constructor].
Qed.

Lemma drain_chunk_scratch (mixers : Z) (st : drain_state) (c : chunk_t)
    (rest : list chunk_t) :
  fits (ds_filter st) ->
  audio_buffer (ds_filter st) = c :: rest ->
  fits (ds_filter (turn mixers st c rest))
  /\ audio_conv_buffer_size (ds_filter (turn mixers st c rest))
     = audio_conv_buffer_size (ds_filter st).
Proof.
  unfold scratch_fits. intros Hfits Hbuffer. rewrite Hbuffer in Hfits.
  apply Forall_cons in Hfits as [Hc Hrest].
  unfold drain_chunk. cbn [ds_filter audio_buffer audio_conv_buffer_size
                             set_audio_buffer_frames set_audio_buffer].
  split; [| reflexivity].
  match goal with
  | |- context [if ?b then _ else _] => destruct b
  end; [exact Hrest |].
  constructor; [exact Hc | exact Hrest].
Qed.

Lemma drain_loop_scratch (mixers : Z) (fuel : nat) :
  forall st st',
    fits (ds_filter st) ->
    loop fuel mixers st = Done st' ->
    fits (ds_filter st')
    /\ audio_conv_buffer_size (ds_filter st') = audio_conv_buffer_size (ds_filter st).
Proof.
  induction fuel as [| fuel IH]; intros st st' Hfits Hrun; simpl in Hrun.
  - destruct ((ds_max_frames st >? 0)
              && negb (audio_buffer_frames (ds_filter st) =? 0));
      [discriminate |].
    injection Hrun as <-. split; [exact Hfits | reflexivity].
  - destruct ((ds_max_frames st >? 0)
              && negb (audio_buffer_frames (ds_filter st) =? 0)).
    + destruct (audio_buffer (ds_filter st)) as [| c rest] eqn:Hbuffer;
        [discriminate |].
      destruct (drain_chunk_scratch mixers st c rest Hfits Hbuffer) as [Hturn Hsize].
      destruct (IH _ _ Hturn Hrun) as [Hend Hsize'].
      split; [exact Hend | congruence].
    + injection Hrun as <-. split; [exact Hfits | reflexivity].
Qed.

Lemma pull_scratch (info : bool) (filter : filter_t) (ts mixers : Z)
    (mixes : mixes_t) (r : audio_input_result) :
  fits filter ->
  pull info filter ts mixers mixes = Done r ->
  fits (res_filter r)
  /\ audio_conv_buffer_size (res_filter r) = audio_conv_buffer_size filter.
Proof.
  intros Hfits. unfold audio_input_callback.
  destruct (negb (output_active filter)
            || audio_source_type_eqb (audio_source_type filter)
                 AUDIO_SOURCE_TYPE_SILENCE
            || negb info);
    [intros [= <-]; split; [exact Hfits | reflexivity] |].
  destruct (audio_buffer_frames filter <? AUDIO_OUTPUT_FRAMES);
    [intros [= <-]; split; [exact Hfits | reflexivity] |].
  destruct (loop (S (length (audio_buffer (set_audio_skip 0 filter)))) mixers
              {| ds_filter := set_audio_skip 0 filter;
                 ds_max_frames := AUDIO_OUTPUT_FRAMES; ds_mixes := mixes |})
    as [st | |] eqn:Hrun; try discriminate.
  intros [= <-]. cbn [res_filter].
  exact (drain_loop_scratch mixers _
           {| ds_filter := set_audio_skip 0 filter;
              ds_max_frames := AUDIO_OUTPUT_FRAMES; ds_mixes := mixes |}
           st Hfits Hrun).
Qed.

(** X18. The scratch buffer the pull copies a chunk to is large enough
    for every chunk in the deque: from a consistent buffer for which
    that holds, every run of pulls and of pushes of fewer than 2^30
    frames each returns and leaves it so, and never shrinks the scratch
    buffer. *)
Theorem scratch_holds_every_chunk (filter : filter_t) (ops : list bridge_op) :
  MAX_AUDIO_BUFFER_FRAMES < SIZE_MODULUS - UINT32_MODULUS ->
  buffer_consistent filter ->
  fits filter ->
  Forall push_in_range ops ->
  exists t,
    run_ops (start_tally filter) ops = Done t
    /\ fits (t_filter t)
    /\ audio_conv_buffer_size filter <= audio_conv_buffer_size (t_filter t).
Proof.
  intros Hceiling Hcons Hfits Hranges.
  destruct (bridge_run_keeps
              (fun f => buffer_consistent f /\ fits f
                        /\ audio_conv_buffer_size filter <= audio_conv_buffer_size f)
              push_in_range) with (ops := ops) (t := start_tally filter)
    as (t & Hrun & _ & Hend & Hsize).
  - intros f a (Hf & Hs & Hle) [Hrange _].
    destruct (push_scratch f a Hs) as [Hs' Hgrown].
    split; [| split; [exact Hs' | lia]].
    apply (push_consistent MAX_AUDIO_BUFFER_FRAMES HEADER_SIZE f a Hceiling Hrange Hf).
  - intros f info ts mixers mixes (Hf & Hs & Hle).
    destruct (pull_consistent AUDIO_OUTPUT_FRAMES MAX_AUDIO_MIXES HEADER_SIZE
                info f ts mixers mixes Hf)
      as (r & Hrun & Hr & _).
    destruct (pull_scratch info f ts mixers mixes r Hs Hrun) as [Hs' Hsize].
    exists r. split; [exact Hrun |]. split; [exact Hr |]. split; [exact Hs' | lia].
  - split; [exact Hcons |]. split; [exact Hfits | cbn [t_filter start_tally]; lia].
  - exact Hranges.
  - exists t. split; [exact Hrun |]. split; [exact Hend | exact Hsize].
Qed.

(** X19. The bridge writes to the bridge only: a run of pulls and of
    pushes of fewer than 2^30 frames each on a consistent buffer returns and leaves every field of the
    filter but the deque, its frame counter, the scratch size and the
    starvation streak as it was; the bridge stays open if it was. *)
Theorem bridge_leaves_lifecycle_alone (filter : filter_t) (ops : list bridge_op) :
  MAX_AUDIO_BUFFER_FRAMES < SIZE_MODULUS - UINT32_MODULUS ->
  buffer_consistent filter ->
  Forall push_in_range ops ->
  exists t,
    run_ops (start_tally filter) ops = Done t
    /\ same_outside_bridge filter (t_filter t)
    /\ (bridge_open filter -> bridge_open (t_filter t)).
Proof.
  intros Hceiling Hcons Hranges.
  destruct (bridge_run_keeps
              (fun f => buffer_consistent f /\ same_outside_bridge filter f)
              push_in_range) with (ops := ops) (t := start_tally filter)
    as (t & Hrun & _ & Hsame).
  - intros f a [Hf Hs] [Hrange _].
    split.
    + apply (push_consistent MAX_AUDIO_BUFFER_FRAMES HEADER_SIZE f a Hceiling Hrange Hf).
    + exact (same_outside_bridge_trans _ _ _ Hs
               (push_same_outside MAX_AUDIO_BUFFER_FRAMES HEADER_SIZE f a)).
  - intros f info ts mixers mixes [Hf Hs].
    destruct (pull_consistent AUDIO_OUTPUT_FRAMES MAX_AUDIO_MIXES HEADER_SIZE
                info f ts mixers mixes Hf)
      as (r & Hrun & Hr & _ & _ & Hs').
    exists r. split; [exact Hrun |]. split; [exact Hr |].
    exact (same_outside_bridge_trans _ _ _ Hs Hs').
  - split; [exact Hcons | reflexivity].
  - exact Hranges.
  - exists t. split; [exact Hrun |]. split; [exact Hsame |].
    apply same_outside_bridge_open. exact Hsame.
Qed.

(** X20. Once the output is stopped the bridge is shut: on the filter
    stop_output leaves, the filter audio callback, the capture callback
    and the master audio callback push nothing, and the pull writes to
    no bus and drains nothing. *)
Theorem stopped_bridge_is_shut (host : host_t) (filter : filter_t)
    (a : obs_audio_data) (muted info : bool) (ts mixers : Z) (mixes : mixes_t) :
  let f := fst (run (stop_output host) filter) in
  audio_filter_callback MAX_AUDIO_BUFFER_FRAMES HEADER_SIZE f a = (f, [])
  /\ audio_capture_callback MAX_AUDIO_BUFFER_FRAMES HEADER_SIZE f a muted = (f, [])
  /\ master_audio_callback MAX_AUDIO_BUFFER_FRAMES HEADER_SIZE f a = (f, [])
  /\ pull info f ts mixers mixes
     = Done {| res_filter := f; res_mixes := mixes; res_out_ts := ts;
               res_return := true; res_log := []; res_drained := 0 |}.
Proof.
  intros f. subst f. rewrite stop_output_run. cbn [fst].
  assert (Hshut : forall b, push (stopped filter) b = (stopped filter, []))
    by (intros b; reflexivity).
  split; [reflexivity |].
  split.
  { unfold audio_capture_callback.
    destruct (muted || negb (is_some (audio_source (stopped filter))));
      [reflexivity | apply Hshut]. }
  split; [apply Hshut | reflexivity].
Qed.

End BridgeInvariants.

(** ** The life of a filter instance *)

Lemma destroy_run (host : host_t) (f : filter_t) :
  run (destroy host) f
  = (stopped f,
     obs_log LOG_DEBUG destroying_msg
     :: stop_calls host f ++ [obs_log LOG_INFO destroyed_msg]).
Proof.
  unfold destroy, run, bind, emit, call.
  rewrite (stop_output_run host f). reflexivity.
Qed.

Lemma update_run (settings : settings_t) (f : filter_t) :
  run (update settings) f
  = (set_stored_settings_rev (wrap_size (stored_settings_rev f + 1)) f,
     [obs_log LOG_DEBUG updating_msg; obs_data_save_json_safe settings;
      obs_log LOG_INFO updated_msg]).
Proof. reflexivity. Qed.

Section InstanceTheorems.

Variable MAX_AUDIO_MIXES : nat.
Variable CONNECT_ATTEMPTING_TIMEOUT_NS : Z.
Variable AVAILAVILITY_CHECK_INTERVAL_NS : Z.

#[local] Abbreviation start := (start_output MAX_AUDIO_MIXES).
#[local] Abbreviation calls_of :=
  (instance_calls MAX_AUDIO_MIXES CONNECT_ATTEMPTING_TIMEOUT_NS
     AVAILAVILITY_CHECK_INTERVAL_NS).

(** X21. Destroying a filter loses nothing: whatever state a start left
    the filter in, the destroy that follows releases every object the
    start asked the host for and was handed, removes the raw audio
    callbacks the start registered, lowers the showing count as often
    as the start raised it, asks the host for nothing, and leaves the
    filter idle between its two log lines. *)
Theorem destroy_releases_everything (host host' : host_t) (settings : settings_t)
    (f : filter_t) :
  let r := run (start host settings) f in
  let d := run (destroy host') (fst r) in
  idle (fst d)
  /\ existsb is_acquisition (snd d) = false
  /\ (forall k h,
        existsb (asks_for k) (snd r) = true ->
        granted host k = Some h ->
        In (release_of k h) (snd d))
  /\ raw_callbacks_removed (snd d) = raw_callbacks_added (snd r)
  /\ length (showing_lowered (snd d)) = length (showing_raised (snd r))
  /\ head (snd d) = Some (obs_log LOG_DEBUG destroying_msg)
  /\ last (snd d) = Some (obs_log LOG_INFO destroyed_msg).
Proof.
  intros r d. subst r d. rewrite destroy_run, start_output_run. cbn [fst snd].
  split; [apply stopped_idle |].
  split.
  { cbn [existsb is_acquisition orb].
    rewrite existsb_app, stop_calls_acquire_nothing. reflexivity. }
  split.
  { intros k h Hasked Hgranted.
    rewrite existsb_app, (stop_calls_ask_nothing host f k) in Hasked.
    right. apply in_or_app. left.
    exact (start_body_released MAX_AUDIO_MIXES host host' settings f k h Hasked
             Hgranted). }
  destruct (start_body_paired MAX_AUDIO_MIXES host host' settings f)
    as (Hraw & _ & Hshow).
  destruct (stop_calls_register_nothing host f) as (Hr & _ & Hs).
  assert (Hlog : forall (B : Type) (g : event -> option B) (l : list event),
            g (obs_log LOG_DEBUG destroying_msg) = None ->
            g (obs_log LOG_INFO destroyed_msg) = None ->
            omap g (obs_log LOG_DEBUG destroying_msg
                    :: l ++ [obs_log LOG_INFO destroyed_msg])
            = omap g l).
  { intros B g l Hfirst Hlast.
    change (omap g ([obs_log LOG_DEBUG destroying_msg]
                    ++ l ++ [obs_log LOG_INFO destroyed_msg]) = omap g l).
    rewrite !omap_app. cbn. rewrite Hfirst, Hlast. cbn. apply app_nil_r. }
  unfold raw_callbacks_removed, raw_callbacks_added, showing_lowered,
    showing_raised in *.
  rewrite !Hlog by reflexivity. rewrite !omap_app, Hr, Hs. cbn [app].
  split; [exact Hraw |]. split; [exact Hshow |].
  split; [reflexivity |].
  rewrite app_comm_cons. apply last_snoc.
Qed.

Section CreatedSettings.

Variable item : Type.
Variable item_string : item -> string.
Variable copy_item : option item -> item -> option item.
Variable obs_data_get_json : obs_data_t item -> string.
Variable ZERO_AUDIO_SOURCE_TYPE : audio_source_type_t.

#[local] Abbreviation created :=
  (create item item_string copy_item obs_data_get_json ZERO_AUDIO_SOURCE_TYPE).
#[local] Abbreviation get_string := (obs_data_get_string item item_string).

Lemma load_recently_lookup (recently_settings : option (obs_data_t item))
    (settings : obs_data_t item) (name : string) :
  fst (load_recently item copy_item recently_settings settings) !! name
  = match recently_settings with
    | Some recently =>
        if bool_decide (In name own_names) then settings !! name
        else match recently !! name with
             | Some i => copy_item (settings !! name) i
             | None => settings !! name
             end
    | None => settings !! name
    end.
Proof.
  unfold load_recently, obs_data_apply, obs_data_erase, obs_data_t in *.
  cbn [fst].
  destruct recently_settings as [recently |]; [| reflexivity].
  rewrite lookup_merge.
  case_bool_decide as Hown.
  - assert (Herased :
      delete "audio_source"
        (delete "custom_audio_source" (delete "key" (delete "server" recently)))
      !! name = None).
    { unfold own_names in Hown. cbn [In] in Hown.
      destruct Hown as [<- | [<- | [<- | [<- | []]]]];
        repeat (rewrite lookup_delete_eq || (rewrite lookup_delete_ne by discriminate));
        reflexivity. }
    rewrite Herased. destruct (settings !! name); reflexivity.
  - assert (Hkept :
      delete "audio_source"
        (delete "custom_audio_source" (delete "key" (delete "server" recently)))
      !! name = recently !! name).
    { unfold own_names in Hown. cbn [In] in Hown.
      rewrite !lookup_delete_ne; [reflexivity | | | |]; intros <-; tauto. }
    rewrite Hkept.
    destruct (settings !! name), (recently !! name); reflexivity.
Qed.

(** X22. A new filter never takes its destination from the recently
    saved settings: the settings [create] leaves have the server, the
    key and the two audio source settings as they were given, and the
    filter is active exactly when the settings given name a server.
    Under every other name the settings are the ones given, with the
    items of the settings file copied over them when the JSON text of
    the settings given is [{}] and the file could be read.  The filter
    created holds nothing, both settings revisions are zero, and the
    function issues log lines only. *)
Theorem new_filter_keeps_own_destination
    (recently_settings : option (obs_data_t item)) (settings : obs_data_t item) :
  let filter := fst (fst (created recently_settings settings)) in
  let settings' := snd (fst (created recently_settings settings)) in
  (forall name, In name own_names -> settings' !! name = settings !! name)
  /\ filter_active filter = nonempty (get_string settings "server")
  /\ (forall name,
        ~ In name own_names ->
        settings' !! name
        = match recently_settings with
          | Some recently =>
              if String.eqb (obs_data_get_json settings) "{}"
              then match recently !! name with
                   | Some i => copy_item (settings !! name) i
                   | None => settings !! name
                   end
              else settings !! name
          | None => settings !! name
          end)
  /\ holds_nothing filter
  /\ stored_settings_rev filter = 0
  /\ active_settings_rev filter = 0
  /\ forallb is_log (snd (created recently_settings settings)) = true.
Proof.
  intros filter settings'. subst filter settings'. unfold create. cbn [fst snd].
  assert (Hown : forall name,
            In name own_names ->
            fst (if String.eqb (obs_data_get_json settings) "{}"
                 then load_recently item copy_item recently_settings settings
                 else (settings, [])) !! name
            = settings !! name).
  { intros name Hname.
    destruct (String.eqb (obs_data_get_json settings) "{}"); [| reflexivity].
    rewrite load_recently_lookup.
    destruct recently_settings; [| reflexivity].
    rewrite bool_decide_eq_true_2 by exact Hname. reflexivity. }
  split; [exact Hown |].
  split.
  { unfold obs_data_get_string.
    rewrite (Hown "server"%string) by (left; reflexivity). reflexivity. }
  split.
  { intros name Hname.
    destruct (String.eqb (obs_data_get_json settings) "{}").
    - rewrite load_recently_lookup.
      destruct recently_settings; [| reflexivity].
      rewrite bool_decide_eq_false_2 by exact Hname. reflexivity.
    - destruct recently_settings; reflexivity. }
  split; [repeat split |].
  split; [reflexivity |]. split; [reflexivity |].
  destruct (String.eqb (obs_data_get_json settings) "{}"); reflexivity.
Qed.

Lemma tick_disabled_run (host : host_t) (f : filter_t) :
  filter_active f = false ->
  run (video_tick MAX_AUDIO_MIXES CONNECT_ATTEMPTING_TIMEOUT_NS
         AVAILAVILITY_CHECK_INTERVAL_NS host) f
  = (f, []).
Proof. apply tick_disabled. Qed.

Lemma disabled_calls (calls : list instance_call) (f : filter_t) :
  filter_active f = false ->
  holds_nothing f ->
  0 <= stored_settings_rev f < SIZE_MODULUS ->
  let r := run (calls_of calls) f in
  filter_active (fst r) = false
  /\ holds_nothing (fst r)
  /\ forallb is_update_event (snd r) = true
  /\ active_settings_rev (fst r) = active_settings_rev f
  /\ stored_settings_rev (fst r)
     = wrap_size (stored_settings_rev f
                  + Z.of_nat (length (List.filter is_update_call calls))).
Proof.
  revert f. induction calls as [| c rest IH]; intros f Hoff Hnothing Hrange.
  { cbn. repeat split; try assumption; try apply Hnothing.
    rewrite Z.add_0_r. symmetry. apply wrap_size_small. exact Hrange. }
  cbn [instance_calls]. rewrite run_call_then.
  destruct c as [host | settings]; cbn [instance_step].
  - rewrite tick_disabled_run by exact Hoff. cbn [fst snd app].
    destruct (IH f Hoff Hnothing Hrange) as (H1 & H2 & H3 & H4 & H5).
    cbn [List.filter is_update_call].
    repeat split; try assumption; apply H2.
  - rewrite update_run. cbn [fst snd].
    set (g := set_stored_settings_rev _ f).
    assert (Hrange' : 0 <= stored_settings_rev g < SIZE_MODULUS).
    { unfold g. cbn [stored_settings_rev set_stored_settings_rev].
      unfold wrap_size. apply Z.mod_pos_bound. reflexivity. }
    destruct (IH g Hoff Hnothing Hrange') as (H1 & H2 & H3 & H4 & H5).
    cbn [List.filter is_update_call length app forallb is_update_event andb].
    split; [exact H1 |]. split; [exact H2 |]. split; [exact H3 |].
    split; [exact H4 |].
    rewrite H5. unfold g. cbn [stored_settings_rev set_stored_settings_rev].
    rewrite Nat2Z.inj_succ.
    unfold wrap_size. rewrite Zplus_mod_idemp_l. f_equal. lia.
Qed.

(** X23. A filter created from settings that name no server never
    streams: whatever ticks and settings updates follow, the filter
    stays inactive and holds nothing, the host is asked for nothing but
    the saves and log lines of the updates, and the updates are counted
    in the stored revision without ever reaching the active one. *)
Theorem filter_without_server_never_streams
    (recently_settings : option (obs_data_t item)) (settings : obs_data_t item)
    (calls : list instance_call) :
  get_string settings "server" = EmptyString ->
  let filter := fst (fst (created recently_settings settings)) in
  let r := run (calls_of calls) filter in
  filter_active (fst r) = false
  /\ holds_nothing (fst r)
  /\ forallb is_update_event (snd r) = true
  /\ active_settings_rev (fst r) = 0
  /\ stored_settings_rev (fst r)
     = wrap_size (Z.of_nat (length (List.filter is_update_call calls))).
Proof.
  intros Hserver filter r. subst r.
  assert (Hoff : filter_active filter = false).
  { unfold filter, create. cbn [fst snd filter_active set_filter_active].
    assert (Hsame :
      obs_data_get_string item item_string
        (fst (if String.eqb (obs_data_get_json settings) "{}"
              then load_recently item copy_item recently_settings settings
              else (settings, []))) "server"
      = get_string settings "server").
    { unfold obs_data_get_string.
      destruct (String.eqb (obs_data_get_json settings) "{}"); [| reflexivity].
      rewrite load_recently_lookup.
      destruct recently_settings; reflexivity. }
    rewrite Hsame, Hserver. reflexivity. }
  assert (Hnothing : holds_nothing filter) by (repeat split).
  assert (Hrange : 0 <= stored_settings_rev filter < SIZE_MODULUS)
    by (split; [reflexivity | reflexivity]).
  destruct (disabled_calls calls filter Hoff Hnothing Hrange)
    as (H1 & H2 & H3 & H4 & H5).
  split; [exact H1 |]. split; [exact H2 |]. split; [exact H3 |].
  split; [rewrite H4; reflexivity |].
  rewrite H5. reflexivity.
Qed.

(** X24. Whether a filter is active is settled when it is created and
    never changes afterwards: through every tick and settings update,
    and the starts, stops and restarts the ticks make, [filter_active]
    stays what [create] made it, true exactly when the settings the
    filter was created from name a server. *)
Theorem activation_settled_at_creation
    (recently_settings : option (obs_data_t item)) (settings : obs_data_t item)
    (calls : list instance_call) :
  let filter := fst (fst (created recently_settings settings)) in
  filter_active (fst (run (calls_of calls) filter))
  = nonempty (get_string settings "server").
Proof.
  intros filter.
  assert (Hcreated : filter_active filter = nonempty (get_string settings "server")).
  { unfold filter, create. cbn [fst snd filter_active set_filter_active].
    unfold obs_data_get_string.
    destruct (String.eqb (obs_data_get_json settings) "{}"); [| reflexivity].
    rewrite load_recently_lookup.
    destruct recently_settings; reflexivity. }
  rewrite <- Hcreated. clear Hcreated. generalize filter. clear filter.
  induction calls as [| c rest IH]; intros f; [reflexivity |].
  cbn [instance_calls]. rewrite run_call_then. cbn [fst].
  rewrite IH.
  destruct c as [host | updated]; cbn [instance_step].
  - apply (tick_keeps MAX_AUDIO_MIXES CONNECT_ATTEMPTING_TIMEOUT_NS
             AVAILAVILITY_CHECK_INTERVAL_NS
             (fun g => filter_active g = filter_active f)).
    + intros g Hg. exact Hg.
    + intros g now Hg. exact Hg.
    + intros host0 settings0 g Hg.
      destruct (start_body_keeps MAX_AUDIO_MIXES host0 settings0 g) as [_ Hfa].
      rewrite Hfa. exact Hg.
    + reflexivity.
  - reflexivity.
Qed.

End CreatedSettings.

End InstanceTheorems.

(** * The properties at concrete inputs *)

Lemma ex_audio_sized (n : Z) (x y : sample) : planes_sized (ex_audio n x y).
Proof.
  intros ch xs Hdata. unfold ad_data_at, ex_audio in Hdata. simpl in *.
  destruct ch as [| [| ch]]; simpl in Hdata; try discriminate;
    injection Hdata as <-; rewrite length_replicate; lia.
Qed.

Lemma ex_audio_pushable (f : filter_t) (n : Z) (x y : sample) :
  audio_channels f = 2 ->
  0 < n < 1000000 ->
  pushable EX_HEADER_SIZE f (ex_audio n x y).
Proof.
  intros Hchannels Hn.
  unfold pushable, frames_in_range, planes_whole, UINT32_MODULUS, SIZE_MODULUS,
    EX_HEADER_SIZE.
  rewrite Hchannels. cbn [ex_audio ad_frames].
  split; [lia |]. split; [lia |]. split; [lia |].
  split; [apply ex_audio_sized | lia].
Qed.

Lemma ex_open_is_open : bridge_open ex_open.
Proof. split; [reflexivity | discriminate]. Defined.

Lemma ex_open_consistent : buffer_consistent ex_open.
Proof.
  unfold buffer_consistent. simpl.
  split; [constructor |]. split; [reflexivity |].
  unfold SIZE_MODULUS, UINT32_MODULUS. lia.
Defined.

Lemma ex_idle_is_idle : idle ex_idle.
Proof. unfold idle. simpl. repeat split; reflexivity. Defined.

(** C10 at a push of four frames on the idle filter. *)
Lemma push_guard_leaves_filter_witness :
  (output_active ex_idle = false
   \/ audio_source_type ex_idle = AUDIO_SOURCE_TYPE_SILENCE
   \/ ad_frames (ex_audio 4 f32_0_8 f32_zero) = 0)
  /\ push_audio_to_buffer EX_MAX_AUDIO_BUFFER_FRAMES EX_HEADER_SIZE ex_idle
       (ex_audio 4 f32_0_8 f32_zero)
     = (ex_idle, []).
Proof.
  split; [left; reflexivity |].
  apply push_guard_leaves_filter. left. reflexivity.
Defined.

(** C4 at a pull on the open bridge with nothing buffered. *)
Lemma starved_pull_writes_nothing_witness :
  audio_buffer_frames ex_open < EX_AUDIO_OUTPUT_FRAMES
  /\ exists r,
       audio_input_callback EX_AUDIO_OUTPUT_FRAMES EX_MAX_AUDIO_MIXES EX_HEADER_SIZE
         true ex_open 0 3 (ex_mixes 1024)
       = Done r
       /\ res_mixes r = ex_mixes 1024
       /\ audio_skip (res_filter r) = 1
       /\ res_log r = [obs_log LOG_DEBUG wait_msg].
Proof.
  assert (Hstarved : audio_buffer_frames ex_open < EX_AUDIO_OUTPUT_FRAMES)
    by (unfold EX_AUDIO_OUTPUT_FRAMES; simpl; lia).
  split; [exact Hstarved |].
  destruct (starved_pull_writes_nothing EX_AUDIO_OUTPUT_FRAMES EX_MAX_AUDIO_MIXES
              EX_HEADER_SIZE true ex_open 0 3 (ex_mixes 1024) Hstarved)
    as (r & Hrun & Hmixes & _ & _ & _ & Hreached & _).
  destruct (Hreached eq_refl) as (Hfilter & Hlog & _).
  exists r. split; [exact Hrun |]. split; [exact Hmixes |].
  split; [rewrite Hfilter; reflexivity | exact Hlog].
Defined.

(** C1 as stated fails: 127 chunks of 1024 frames are buffered, the
    128th push would take the counter to 131072, past the ceiling; after
    that push the counter is 1024, the frames of the chunk that
    triggered the reset, and not 0. *)
Lemma overflow_reset_counterexample :
  audio_buffer_frames (ex_filled 127) = 130048
  /\ push_rejected (ex_filled 127) (ex_audio 1024 f32_0_8 f32_0_8) = false
  /\ push_overflows EX_MAX_AUDIO_BUFFER_FRAMES (ex_filled 127)
       (ex_audio 1024 f32_0_8 f32_0_8) = true
  /\ audio_buffer_frames (ex_filled 128) = 1024
  /\ length (audio_buffer (ex_filled 128)) = 1%nat.
Proof. vm_compute. repeat split; reflexivity. Qed.

(** C1 (as the code has it) at that push. *)
Lemma overflowing_push_keeps_trigger_witness :
  (push_rejected (ex_filled 127) (ex_audio 1024 f32_0_8 f32_0_8) = false
   /\ frames_in_range (ex_audio 1024 f32_0_8 f32_0_8)
   /\ push_overflows EX_MAX_AUDIO_BUFFER_FRAMES (ex_filled 127)
        (ex_audio 1024 f32_0_8 f32_0_8) = true)
  /\ audio_buffer_frames
       (fst (push_audio_to_buffer EX_MAX_AUDIO_BUFFER_FRAMES EX_HEADER_SIZE
               (ex_filled 127) (ex_audio 1024 f32_0_8 f32_0_8)))
     = 1024.
Proof.
  assert (Hacc : push_rejected (ex_filled 127) (ex_audio 1024 f32_0_8 f32_0_8) = false)
    by (vm_compute; reflexivity).
  assert (Hrange : frames_in_range (ex_audio 1024 f32_0_8 f32_0_8))
    by (unfold frames_in_range, UINT32_MODULUS, ex_audio, ad_frames; lia).
  assert (Hover : push_overflows EX_MAX_AUDIO_BUFFER_FRAMES (ex_filled 127)
                    (ex_audio 1024 f32_0_8 f32_0_8) = true)
    by (vm_compute; reflexivity).
  split; [exact (conj Hacc (conj Hrange Hover)) |].
  destruct (overflowing_push_keeps_trigger EX_MAX_AUDIO_BUFFER_FRAMES EX_HEADER_SIZE
              (ex_filled 127) (ex_audio 1024 f32_0_8 f32_0_8) Hacc Hrange Hover)
    as (_ & _ & _ & Hcnt & _).
  exact Hcnt.
Defined.

(** C3 (as the code has it) at 1500 and 1000 frames pushed and three
    pulls of 1024: two are served, the third is starved, and 452 frames
    stay buffered. *)
Lemma frame_conservation_witness :
  (0 < EX_HEADER_SIZE
   /\ 0 < EX_AUDIO_OUTPUT_FRAMES
   /\ EX_MAX_AUDIO_BUFFER_FRAMES < SIZE_MODULUS
   /\ bridge_open ex_open
   /\ audio_buffer ex_open = []
   /\ audio_buffer_frames ex_open = 0
   /\ Forall (pushable EX_HEADER_SIZE ex_open) ex_long_stream
   /\ stream_frames ex_long_stream <= EX_MAX_AUDIO_BUFFER_FRAMES)
  /\ exists g rs,
       pull_each EX_AUDIO_OUTPUT_FRAMES EX_MAX_AUDIO_MIXES EX_HEADER_SIZE
         (pushes EX_MAX_AUDIO_BUFFER_FRAMES EX_HEADER_SIZE ex_open ex_long_stream)
         [ex_call 1024; ex_call 1024; ex_call 1024]
       = Done (g, rs)
       /\ length rs = 3%nat
       /\ 2 * 1024 + audio_buffer_frames g = 2500.
Proof.
  assert (Hheader : 0 < EX_HEADER_SIZE) by reflexivity.
  assert (Hasked : 0 < EX_AUDIO_OUTPUT_FRAMES) by reflexivity.
  assert (Hceiling : EX_MAX_AUDIO_BUFFER_FRAMES < SIZE_MODULUS) by reflexivity.
  assert (Hok : Forall (pushable EX_HEADER_SIZE ex_open) ex_long_stream).
  { unfold ex_long_stream.
    apply Forall_cons_2; [apply ex_audio_pushable; [reflexivity | lia] |].
    apply Forall_cons_2; [apply ex_audio_pushable; [reflexivity | lia] |].
    apply Forall_nil_2. }
  assert (Hbelow : stream_frames ex_long_stream <= EX_MAX_AUDIO_BUFFER_FRAMES)
    by (vm_compute; discriminate).
  split;
    [split; [exact Hheader |];
     split; [exact Hasked |];
     split; [exact Hceiling |];
     split; [exact ex_open_is_open |];
     split; [reflexivity |];
     split; [reflexivity |];
     split; [exact Hok | exact Hbelow] |].
  destruct (frame_conservation EX_MAX_AUDIO_BUFFER_FRAMES EX_AUDIO_OUTPUT_FRAMES
              EX_MAX_AUDIO_MIXES EX_HEADER_SIZE ex_open ex_long_stream
              [ex_call 1024; ex_call 1024; ex_call 1024]
              Hheader Hasked Hceiling ex_open_is_open eq_refl eq_refl Hok Hbelow)
    as (g & rs & Hrun & Hlength & _ & Hsum & _).
  exists g, rs. split; [exact Hrun |]. split; [exact Hlength | exact Hsum].
Defined.

(** C3 as stated fails when a pull selects no bus: 1024 frames are
    pushed and pulled with the mask 0; the pull takes the 1024 frames
    out of the buffer, none is left, and no bus has a frame accumulated
    into it. *)
Lemma unselected_pull_counterexample :
  match
    pull_each EX_AUDIO_OUTPUT_FRAMES EX_MAX_AUDIO_MIXES EX_HEADER_SIZE
      (pushes EX_MAX_AUDIO_BUFFER_FRAMES EX_HEADER_SIZE ex_open
         [ex_audio 1024 f32_0_8 f32_0_8])
      [ex_call_unselected 1024]
  with
  | Done (g, [r]) =>
      audio_buffer_frames g = 0
      /\ audio_buffer g = []
      /\ res_drained r = 1024
      /\ res_mixes r = ex_mixes 1024
  | _ => False
  end.
Proof. vm_compute. repeat split; reflexivity. Qed.

Example bridge_run_numbers :
  exists t,
    bridge_run EX_MAX_AUDIO_BUFFER_FRAMES EX_AUDIO_OUTPUT_FRAMES EX_MAX_AUDIO_MIXES
      EX_HEADER_SIZE (start_tally ex_open) ex_ops
    = Done t
    /\ t_pushed t = 2500
    /\ t_drained t = 2048
    /\ audio_buffer_frames (t_filter t) = 452
    /\ t_reset t = false.
Proof. eexists. split; [vm_compute; reflexivity |]. repeat split. Qed.

(** C8 at the idle filter and at the running one. *)
Lemma stop_output_idempotent_witness :
  idle ex_idle
  /\ run (call (stop_output (ex_host 0 (ex_settings ex_server) None)) ;;
          call (stop_output (ex_host 0 (ex_settings ex_server) None))) ex_idle
     = (ex_idle, [])
  /\ idle (fst (run (stop_output (ex_host 0 (ex_settings ex_server) None)) ex_open)).
Proof.
  destruct (stop_output_idempotent (ex_host 0 (ex_settings ex_server) None)
              (ex_host 0 (ex_settings ex_server) None) ex_idle) as (Htwice & _).
  destruct (stop_output_idempotent (ex_host 0 (ex_settings ex_server) None)
              (ex_host 0 (ex_settings ex_server) None) ex_open) as (_ & Hidle & _).
  split; [exact ex_idle_is_idle |].
  split; [exact (Htwice ex_idle_is_idle) | exact Hidle].
Defined.



(** C7 as stated fails: the output and the stream are active, the
    attempt timed out 16 s ago, the active revision is 3 and the stored
    one 5, and the current settings name no server; the tick stops the
    output and starts nothing: the active revision stays 3. *)
Lemma revision_gap_counterexample :
  filter_active ex_behind = true
  /\ output_active ex_behind = true
  /\ host_obs_source_enabled (ex_host 17000000000 (ex_settings "") (Some 2%positive)) = true
  /\ host_obs_output_active (ex_host 17000000000 (ex_settings "") (Some 2%positive)) = true
  /\ connect_attempting_timed_out EX_CONNECT_ATTEMPTING_TIMEOUT_NS
       (ex_host 17000000000 (ex_settings "") (Some 2%positive)) ex_behind = true
  /\ active_settings_rev ex_behind = 3
  /\ stored_settings_rev ex_behind = 5
  /\ active_settings_rev
       (fst (run (video_tick EX_MAX_AUDIO_MIXES EX_CONNECT_ATTEMPTING_TIMEOUT_NS
                    EX_AVAILAVILITY_CHECK_INTERVAL_NS
                    (ex_host 17000000000 (ex_settings "") (Some 2%positive)))
               ex_behind))
     = 3
  /\ output_active
       (fst (run (video_tick EX_MAX_AUDIO_MIXES EX_CONNECT_ATTEMPTING_TIMEOUT_NS
                    EX_AVAILAVILITY_CHECK_INTERVAL_NS
                    (ex_host 17000000000 (ex_settings "") (Some 2%positive)))
               ex_behind))
     = false
  /\ existsb is_service_create
       (snd (run (video_tick EX_MAX_AUDIO_MIXES EX_CONNECT_ATTEMPTING_TIMEOUT_NS
                    EX_AVAILAVILITY_CHECK_INTERVAL_NS
                    (ex_host 17000000000 (ex_settings "") (Some 2%positive)))
               ex_behind))
     = false.
Proof. vm_compute. repeat split; reflexivity. Qed.

(** C7 (as the code has it) at the same tick with a server configured. *)
Lemma revision_gap_restarts_witness :
  (filter_active ex_behind = true
   /\ host_obs_source_enabled
        (ex_host 17000000000 (ex_settings ex_server) (Some 2%positive)) = true
   /\ output_active ex_behind = true
   /\ stream_output ex_behind = Some 3%positive
   /\ host_obs_output_active
        (ex_host 17000000000 (ex_settings ex_server) (Some 2%positive)) = true
   /\ connect_attempting_timed_out EX_CONNECT_ATTEMPTING_TIMEOUT_NS
        (ex_host 17000000000 (ex_settings ex_server) (Some 2%positive)) ex_behind = true
   /\ active_settings_rev ex_behind < stored_settings_rev ex_behind)
  /\ active_settings_rev
       (fst (run (video_tick EX_MAX_AUDIO_MIXES EX_CONNECT_ATTEMPTING_TIMEOUT_NS
                    EX_AVAILAVILITY_CHECK_INTERVAL_NS
                    (ex_host 17000000000 (ex_settings ex_server) (Some 2%positive)))
               ex_behind))
     = stored_settings_rev ex_behind
  /\ output_active
       (fst (run (video_tick EX_MAX_AUDIO_MIXES EX_CONNECT_ATTEMPTING_TIMEOUT_NS
                    EX_AVAILAVILITY_CHECK_INTERVAL_NS
                    (ex_host 17000000000 (ex_settings ex_server) (Some 2%positive)))
               ex_behind))
     = true.
Proof.
  assert (Htime : connect_attempting_timed_out EX_CONNECT_ATTEMPTING_TIMEOUT_NS
                    (ex_host 17000000000 (ex_settings ex_server) (Some 2%positive))
                    ex_behind = true) by reflexivity.
  assert (Hgap : active_settings_rev ex_behind < stored_settings_rev ex_behind)
    by (simpl; lia).
  split.
  { repeat split; first [reflexivity | exact Hgap]. }
  destruct (revision_gap_restarts EX_MAX_AUDIO_MIXES EX_CONNECT_ATTEMPTING_TIMEOUT_NS
              EX_AVAILAVILITY_CHECK_INTERVAL_NS
              (ex_host 17000000000 (ex_settings ex_server) (Some 2%positive))
              ex_behind 3%positive eq_refl eq_refl eq_refl eq_refl eq_refl Htime Hgap)
    as (_ & _ & _ & _ & Hstart & _).
  destruct (Hstart eq_refl eq_refl) as (Hrev & _ & Hactive).
  exact (conj Hrev (Hactive eq_refl eq_refl)).
Defined.

(** C5 (as the code has it) at a stereo chunk of 100 frames and four
    pulls of 25 frames onto silence: on the right channel of bus 0 the
    frames written, end to end, are the 100 frames pushed. *)
Lemma partial_chunk_resumption_witness :
  (0 < EX_HEADER_SIZE
   /\ 0 < 25
   /\ bridge_open ex_open
   /\ audio_buffer ex_open = []
   /\ audio_buffer_frames ex_open = 0
   /\ pushable EX_HEADER_SIZE ex_open (ex_audio 100 f32_0_8 f32_minus_one)
   /\ Z.of_nat (length (replicate 4 (ex_call 25))) * 25
      <= ad_frames (ex_audio 100 f32_0_8 f32_minus_one))
  /\ exists g rs,
       pull_each 25 EX_MAX_AUDIO_MIXES EX_HEADER_SIZE
         (fst (push_audio_to_buffer EX_MAX_AUDIO_BUFFER_FRAMES EX_HEADER_SIZE ex_open
                 (ex_audio 100 f32_0_8 f32_minus_one)))
         (replicate 4 (ex_call 25))
       = Done (g, rs)
       /\ length rs = 4%nat
       /\ concat (map (fun r => bus_frames 25 (res_mixes r) 0 1) rs)
          = replicate 100 f32_minus_one.
Proof.
  assert (Hheader : 0 < EX_HEADER_SIZE) by reflexivity.
  assert (Hasked : 0 < 25) by reflexivity.
  assert (Hok : pushable EX_HEADER_SIZE ex_open (ex_audio 100 f32_0_8 f32_minus_one))
    by (apply ex_audio_pushable; [reflexivity | lia]).
  assert (Hroom : Z.of_nat (length (replicate 4 (ex_call 25))) * 25
                  <= ad_frames (ex_audio 100 f32_0_8 f32_minus_one))
    by (vm_compute; discriminate).
  split;
    [split; [exact Hheader |];
     split; [exact Hasked |];
     split; [exact ex_open_is_open |];
     split; [reflexivity |];
     split; [reflexivity |];
     split; [exact Hok | exact Hroom] |].
  destruct (partial_chunk_resumption EX_MAX_AUDIO_BUFFER_FRAMES 25 EX_MAX_AUDIO_MIXES
              EX_HEADER_SIZE ex_open (ex_audio 100 f32_0_8 f32_minus_one)
              (replicate 4 (ex_call 25)) Hheader Hasked ex_open_is_open eq_refl
              eq_refl Hok Hroom)
    as (g & rs & Hrun & Hlength & _ & _ & Hwritten).
  exists g, rs. split; [exact Hrun |]. split; [exact Hlength |].
  assert (Hserved :
    Forall (fun c => serves 25 EX_MAX_AUDIO_MIXES c 0 1) (replicate 4 (ex_call 25))).
  { apply Forall_replicate. split; [reflexivity |].
    exists (replicate 25 f32_zero). split; [reflexivity | vm_compute; lia]. }
  destruct (Hwritten 0%nat 1%nat ltac:(vm_compute; lia) eq_refl Hserved)
    as [_ Hsame].
  apply Hsame; [vm_compute; reflexivity |].
  change (Forall plain_sample (replicate 100 f32_minus_one)).
  apply Forall_replicate.
  split; [split; [right | left]; reflexivity | discriminate].
Defined.

(** C5 as stated fails on a sample outside [-1, 1]: a chunk of 100
    frames of 1.5 on the left channel is pushed and drained by four
    pulls of 25 frames onto silence; the chunk is popped, and the frames
    written, end to end, are 100 frames of 1.0, not the frames
    pushed. *)
Lemma clipped_resumption_counterexample :
  match
    pull_each 25 EX_MAX_AUDIO_MIXES EX_HEADER_SIZE
      (fst (push_audio_to_buffer EX_MAX_AUDIO_BUFFER_FRAMES EX_HEADER_SIZE ex_open
              (ex_audio 100 f32_1_5 f32_0_8)))
      (replicate 4 (ex_call 25))
  with
  | Done (g, rs) =>
      audio_buffer g = []
      /\ concat (map (fun r => bus_frames 25 (res_mixes r) 0 0) rs)
         = replicate 100 f32_one
  | _ => False
  end
  /\ pushed_frames (ex_audio 100 f32_1_5 f32_0_8) 0 = replicate 100 f32_1_5
  /\ f32_one <> f32_1_5.
Proof.
  split; [vm_compute; split; reflexivity |].
  split; [vm_compute; reflexivity | discriminate].
Qed.

(** With AUDIO_OUTPUT_FRAMES at 30 the chunk of 100 frames is not
    drained as 30, 30 and 40: the third pull takes 30 frames as the
    first two, the header offset stands at 90, and a fourth pull finds
    10 frames, takes none and writes nothing. *)
Example thirty_frames_run :
  match
    pull_each 30 EX_MAX_AUDIO_MIXES EX_HEADER_SIZE
      (fst (push_audio_to_buffer EX_MAX_AUDIO_BUFFER_FRAMES EX_HEADER_SIZE ex_open
              (ex_audio 100 f32_0_8 f32_minus_one)))
      (replicate 4 (ex_call 30))
  with
  | Done (g, rs) =>
      map res_drained rs = [30; 30; 30; 0]
      /\ map (fun r => map (fun c => offset (header c)) (audio_buffer (res_filter r))) rs
         = [[30]; [60]; [90]; [90]]
      /\ audio_buffer_frames g = 10
  | _ => False
  end.
Proof. vm_compute. repeat split; reflexivity. Qed.

(** C6 (as the code has it) at two stereo chunks of 1024 frames of 0.8:
    at frame 7 of the left channel of bus 1, silence, then the clipped
    sum 0.8, then 1.0. *)
Lemma accumulation_clips_witness :
  (0 < EX_HEADER_SIZE
   /\ EX_HEADER_SIZE
      + 4 * ad_frames (ex_audio 1024 f32_0_8 f32_0_8)
        * Z.of_nat (Z.to_nat (audio_channels ex_open))
      < SIZE_MODULUS
   /\ bridge_open ex_open
   /\ audio_buffer ex_open = []
   /\ audio_buffer_frames ex_open = 0
   /\ frames_in_range (ex_audio 1024 f32_0_8 f32_0_8)
   /\ 0 < ad_frames (ex_audio 1024 f32_0_8 f32_0_8)
   /\ planes_sized (ex_audio 1024 f32_0_8 f32_0_8)
   /\ planes_whole (ex_audio 1024 f32_0_8 f32_0_8))
  /\ exists r1 r2 got1 got2,
       audio_input_callback (ad_frames (ex_audio 1024 f32_0_8 f32_0_8))
         EX_MAX_AUDIO_MIXES EX_HEADER_SIZE true
         (fst (push_audio_to_buffer EX_MAX_AUDIO_BUFFER_FRAMES EX_HEADER_SIZE ex_open
                 (ex_audio 1024 f32_0_8 f32_0_8)))
         0 3 (ex_mixes 1024)
       = Done r1
       /\ audio_input_callback (ad_frames (ex_audio 1024 f32_0_8 f32_0_8))
            EX_MAX_AUDIO_MIXES EX_HEADER_SIZE true
            (fst (push_audio_to_buffer EX_MAX_AUDIO_BUFFER_FRAMES EX_HEADER_SIZE
                    (res_filter r1) (ex_audio 1024 f32_0_8 f32_0_8)))
            0 3 (res_mixes r1)
          = Done r2
       /\ bus_channel (res_mixes r1) 1 0 = Some got1
       /\ bus_channel (res_mixes r2) 1 0 = Some got2
       /\ got1 !! 7%nat = Some f32_0_8
       /\ got2 !! 7%nat = Some f32_one.
Proof.
  assert (Hhdr : 0 < EX_HEADER_SIZE) by (unfold EX_HEADER_SIZE; lia).
  assert (Hfit : EX_HEADER_SIZE
                 + 4 * ad_frames (ex_audio 1024 f32_0_8 f32_0_8)
                   * Z.of_nat (Z.to_nat (audio_channels ex_open))
                 < SIZE_MODULUS)
    by (unfold EX_HEADER_SIZE, SIZE_MODULUS; simpl; lia).
  assert (Hrange : frames_in_range (ex_audio 1024 f32_0_8 f32_0_8))
    by (unfold frames_in_range, UINT32_MODULUS, ex_audio, ad_frames; lia).
  assert (Hpos : 0 < ad_frames (ex_audio 1024 f32_0_8 f32_0_8))
    by (unfold ex_audio, ad_frames; lia).
  assert (Hwhole : planes_whole (ex_audio 1024 f32_0_8 f32_0_8))
    by (unfold planes_whole, UINT32_MODULUS, ex_audio, ad_frames; lia).
  split.
  { exact (conj Hhdr (conj Hfit (conj ex_open_is_open (conj eq_refl (conj eq_refl
             (conj Hrange (conj Hpos
                (conj (ex_audio_sized 1024 f32_0_8 f32_0_8) Hwhole)))))))). }
  destruct (accumulation_clips EX_MAX_AUDIO_BUFFER_FRAMES EX_MAX_AUDIO_MIXES
              EX_HEADER_SIZE ex_open (ex_audio 1024 f32_0_8 f32_0_8)
              (ex_audio 1024 f32_0_8 f32_0_8) 0 0 3 3 (ex_mixes 1024)
              Hhdr Hfit ex_open_is_open eq_refl eq_refl Hrange Hpos eq_refl
              (ex_audio_sized 1024 f32_0_8 f32_0_8)
              (ex_audio_sized 1024 f32_0_8 f32_0_8) Hwhole)
    as (r1 & r2 & Hrun1 & Hrun2 & Hmixed & _).
  assert (Hframe : (7 < Z.to_nat (ad_frames (ex_audio 1024 f32_0_8 f32_0_8)))%nat)
    by (vm_compute; lia).
  destruct (Hmixed 1%nat 0%nat (replicate 1024 f32_zero) (replicate 1024 f32_0_8)
              (replicate 1024 f32_0_8) 7%nat f32_zero f32_0_8 f32_0_8
              eq_refl eq_refl ltac:(vm_compute; lia) eq_refl
              ltac:(vm_compute; lia) eq_refl eq_refl Hframe eq_refl eq_refl eq_refl)
    as (got1 & got2 & Hgot1 & Hgot2 & Hfirst & _ & Hsecond).
  exists r1, r2, got1, got2.
  split; [exact Hrun1 |]. split; [exact Hrun2 |].
  split; [exact Hgot1 |]. split; [exact Hgot2 |].
  split; [exact Hfirst | exact (Hsecond eq_refl eq_refl eq_refl)].
Defined.

(** C6 as stated fails on a NaN: a chunk whose left channel holds NaN is
    pulled onto silence; the destination holds the NaN at every frame,
    which is not within [-1, 1]; the right channel holds 0.8. *)
Lemma nan_sample_counterexample :
  match
    audio_input_callback 1024 EX_MAX_AUDIO_MIXES EX_HEADER_SIZE true
      (fst (push_audio_to_buffer EX_MAX_AUDIO_BUFFER_FRAMES EX_HEADER_SIZE ex_open
              (ex_audio 1024 S754_nan f32_0_8)))
      0 3 (ex_mixes 1024)
  with
  | Done r =>
      bus_channel (res_mixes r) 0 0 = Some (replicate 1024 S754_nan)
      /\ bus_channel (res_mixes r) 0 1 = Some (replicate 1024 f32_0_8)
  | _ => False
  end
  /\ ~ in_unit_range S754_nan.
Proof.
  split; [vm_compute; split; reflexivity |].
  intros [[H | H] _]; discriminate.
Qed.

(** The two pulls of that witness, run: the destination holds 1.0 at
    every frame. *)
Example two_pulls_run :
  match
    audio_input_callback 1024 EX_MAX_AUDIO_MIXES EX_HEADER_SIZE true
      (fst (push_audio_to_buffer EX_MAX_AUDIO_BUFFER_FRAMES EX_HEADER_SIZE ex_open
              (ex_audio 1024 f32_0_8 f32_0_8)))
      0 3 (ex_mixes 1024)
  with
  | Done r1 =>
      match
        audio_input_callback 1024 EX_MAX_AUDIO_MIXES EX_HEADER_SIZE true
          (fst (push_audio_to_buffer EX_MAX_AUDIO_BUFFER_FRAMES EX_HEADER_SIZE
                  (res_filter r1) (ex_audio 1024 f32_0_8 f32_0_8)))
          0 3 (res_mixes r1)
      with
      | Done r2 => bus_channel (res_mixes r2) 1 0
      | _ => None
      end
  | _ => None
  end
  = Some (replicate 1024 f32_one).
Proof. vm_compute. reflexivity. Qed.

(** X1 at a start on a hidden filter whose output was running: the
    objects held are released, none is asked for. *)
Lemma unadmitted_start_acquires_nothing_witness :
  start_admitted (ex_host_at false true true 1920 1080 2000000000 (ex_settings ex_server))
  = false
  /\ idle (fst (run (start_output EX_MAX_AUDIO_MIXES
                      (ex_host_at false true true 1920 1080 2000000000
                         (ex_settings ex_server))
                      (ex_settings ex_server)) ex_open))
  /\ existsb is_acquisition
       (snd (run (start_output EX_MAX_AUDIO_MIXES
                    (ex_host_at false true true 1920 1080 2000000000
                       (ex_settings ex_server))
                    (ex_settings ex_server)) ex_open))
     = false.
Proof.
  assert (Hadm : start_admitted
                   (ex_host_at false true true 1920 1080 2000000000
                      (ex_settings ex_server)) = false) by reflexivity.
  split; [exact Hadm |].
  destruct (unadmitted_start_acquires_nothing EX_MAX_AUDIO_MIXES
              (ex_host_at false true true 1920 1080 2000000000 (ex_settings ex_server))
              (ex_settings ex_server) ex_open Hadm)
    as (Hidle & Hasked & _).
  split; [exact Hidle | exact Hasked].
Defined.

(** X2 at a start of the idle filter on a host that grants everything. *)
Lemma granted_start_holds_witness :
  start_admitted (ex_host 2000000000 (ex_settings ex_server) (Some 2%positive)) = true
  /\ acquisition_fails (ex_host 2000000000 (ex_settings ex_server) (Some 2%positive))
       (ex_settings ex_server) = false
  /\ all_granted (ex_host 2000000000 (ex_settings ex_server) (Some 2%positive)) ex_idle
       (run (start_output EX_MAX_AUDIO_MIXES
               (ex_host 2000000000 (ex_settings ex_server) (Some 2%positive))
               (ex_settings ex_server)) ex_idle).
Proof.
  assert (Hadm : start_admitted
                   (ex_host 2000000000 (ex_settings ex_server) (Some 2%positive))
                 = true) by reflexivity.
  assert (Hgrant : acquisition_fails
                     (ex_host 2000000000 (ex_settings ex_server) (Some 2%positive))
                     (ex_settings ex_server) = false) by reflexivity.
  split; [exact Hadm |]. split; [exact Hgrant |].
  exact (granted_start_holds EX_MAX_AUDIO_MIXES
           (ex_host 2000000000 (ex_settings ex_server) (Some 2%positive))
           (ex_settings ex_server) ex_idle Hadm Hgrant).
Defined.

(** The filter that start leaves: active, every object held, the second
    master track not involved. *)
Example granted_start_run :
  let r := run (start_output EX_MAX_AUDIO_MIXES
                  (ex_host 2000000000 (ex_settings ex_server) (Some 2%positive))
                  (ex_settings ex_server)) ex_idle in
  output_active (fst r) = true
  /\ stream_output (fst r) = Some 3%positive
  /\ active_settings_rev (fst r) = 5
  /\ connect_attempting_at (fst r) = 2000000000
  /\ audio_source_type (fst r) = AUDIO_SOURCE_TYPE_FILTER
  /\ length (snd r) = 20%nat.
Proof. vm_compute. repeat split; reflexivity. Qed.

(** X3 at settings that ask for the second master track. *)
Lemma start_selects_audio_source_witness :
  reaches_audio (ex_host 2000000000 (ex_settings_audio "master_track_2")
                   (Some 2%positive)) = true
  /\ audio_selected EX_MAX_AUDIO_MIXES
       (ex_host 2000000000 (ex_settings_audio "master_track_2") (Some 2%positive))
       (ex_settings_audio "master_track_2")
       (run (start_output EX_MAX_AUDIO_MIXES
               (ex_host 2000000000 (ex_settings_audio "master_track_2")
                  (Some 2%positive))
               (ex_settings_audio "master_track_2")) ex_idle).
Proof.
  assert (Hreach : reaches_audio
                     (ex_host 2000000000 (ex_settings_audio "master_track_2")
                        (Some 2%positive)) = true) by reflexivity.
  split; [exact Hreach |].
  exact (start_selects_audio_source EX_MAX_AUDIO_MIXES
           (ex_host 2000000000 (ex_settings_audio "master_track_2") (Some 2%positive))
           (ex_settings_audio "master_track_2") ex_idle Hreach).
Defined.

Example master_track_run :
  let start (uuid : string) :=
    run (start_output EX_MAX_AUDIO_MIXES
           (ex_host 2000000000 (ex_settings_audio uuid) (Some 2%positive))
           (ex_settings_audio uuid)) ex_idle in
  audio_source_type (fst (start "master_track_2"%string)) = AUDIO_SOURCE_TYPE_MASTER
  /\ audio_mix_idx (fst (start "master_track_2"%string)) = 1
  /\ raw_callbacks_added (snd (start "master_track_2"%string)) = [1]
  /\ audio_source_type (fst (start "master_track_7"%string)) = AUDIO_SOURCE_TYPE_SILENCE
  /\ raw_callbacks_added (snd (start "master_track_7"%string)) = []
  /\ audio_mix_idx (fst (start "master_track_0"%string)) = 18446744073709551615
  /\ audio_source_type (fst (start "master_track_-1"%string)) = AUDIO_SOURCE_TYPE_SILENCE
  /\ raw_callbacks_added (snd (start "master_track_-1"%string)) = []
  /\ audio_mix_idx (fst (start "master_track_ +3"%string)) = 2
  /\ audio_source_type (fst (start "no_audio"%string)) = AUDIO_SOURCE_TYPE_SILENCE.
Proof. vm_compute. repeat split; reflexivity. Qed.

(** The conversion of the track number: a plain number; a number behind
    white space and a plus sign; no digit; a minus sign, which negates in
    size_t; a number past the largest size_t. *)
Example scan_track_no_run :
  scan_track_no "master_track_2" = 2
  /\ scan_track_no "master_track_ +3" = 3
  /\ scan_track_no "master_track_" = 0
  /\ scan_track_no "master_track_x1" = 0
  /\ scan_track_no "master_track_-1" = 18446744073709551615
  /\ scan_track_no "master_track_-2" = 18446744073709551614
  /\ scan_track_no "master_track_99999999999999999999" = 18446744073709551615.
Proof. vm_compute. repeat split; reflexivity. Qed.

(** X5 at the service of a start that is granted everything. *)
Lemma start_then_stop_releases_witness :
  existsb (asks_for SERVICE)
    (snd (run (start_output EX_MAX_AUDIO_MIXES
                 (ex_host 2000000000 (ex_settings ex_server) (Some 2%positive))
                 (ex_settings ex_server)) ex_idle))
  = true
  /\ granted (ex_host 2000000000 (ex_settings ex_server) (Some 2%positive)) SERVICE
     = Some 2%positive
  /\ In (release_of SERVICE 2%positive)
       (snd (run (stop_output
                    (ex_host 3000000000 (ex_settings ex_server) (Some 2%positive)))
               (fst (run (start_output EX_MAX_AUDIO_MIXES
                            (ex_host 2000000000 (ex_settings ex_server)
                               (Some 2%positive))
                            (ex_settings ex_server)) ex_idle)))).
Proof.
  assert (Hasked :
    existsb (asks_for SERVICE)
      (snd (run (start_output EX_MAX_AUDIO_MIXES
                   (ex_host 2000000000 (ex_settings ex_server) (Some 2%positive))
                   (ex_settings ex_server)) ex_idle))
    = true) by (vm_compute; reflexivity).
  assert (Hgranted :
    granted (ex_host 2000000000 (ex_settings ex_server) (Some 2%positive)) SERVICE
    = Some 2%positive) by reflexivity.
  split; [exact Hasked |]. split; [exact Hgranted |].
  exact (start_then_stop_releases EX_MAX_AUDIO_MIXES
           (ex_host 2000000000 (ex_settings ex_server) (Some 2%positive))
           (ex_host 3000000000 (ex_settings ex_server) (Some 2%positive))
           (ex_settings ex_server) ex_idle SERVICE 2%positive Hasked Hgranted).
Defined.

(** X7 at the filter with two settings updates pending. *)
Lemma revision_order_kept_witness :
  active_settings_rev ex_behind <= stored_settings_rev ex_behind
  /\ revisions_kept ex_behind
       (fst (run (video_tick EX_MAX_AUDIO_MIXES EX_CONNECT_ATTEMPTING_TIMEOUT_NS
                    EX_AVAILAVILITY_CHECK_INTERVAL_NS
                    (ex_host 20000000000 (ex_settings ex_server) (Some 2%positive)))
               ex_behind))
  /\ stored_settings_rev (fst (run (update (ex_settings ex_server)) ex_behind)) = 6.
Proof.
  assert (Hordered : active_settings_rev ex_behind <= stored_settings_rev ex_behind)
    by (simpl; lia).
  split; [exact Hordered |].
  destruct (revision_order_kept EX_MAX_AUDIO_MIXES EX_CONNECT_ATTEMPTING_TIMEOUT_NS
              EX_AVAILAVILITY_CHECK_INTERVAL_NS
              (ex_host 20000000000 (ex_settings ex_server) (Some 2%positive))
              (ex_settings ex_server) ex_behind Hordered)
    as (Htick & _ & _ & _ & Hupdate).
  split; [exact Htick |].
  apply Hupdate. unfold SIZE_MODULUS. simpl. lia.
Defined.

(** X8 at a tick one second after the connection attempt of the running
    output, with settings updates pending. *)
Lemma tick_leaves_alone_witness :
  (filter_active ex_behind = false
   \/ (output_active ex_behind = true
       /\ host_obs_source_enabled
            (ex_host 2000000000 (ex_settings ex_server) (Some 2%positive)) = true
       /\ connect_attempting_timed_out EX_CONNECT_ATTEMPTING_TIMEOUT_NS
            (ex_host 2000000000 (ex_settings ex_server) (Some 2%positive)) ex_behind
          = false)
   \/ (host_obs_source_enabled
         (ex_host 2000000000 (ex_settings ex_server) (Some 2%positive)) = false
       /\ (output_active ex_behind = false
           \/ host_obs_output_active
                (ex_host 2000000000 (ex_settings ex_server) (Some 2%positive))
              = false)))
  /\ run (video_tick EX_MAX_AUDIO_MIXES EX_CONNECT_ATTEMPTING_TIMEOUT_NS
            EX_AVAILAVILITY_CHECK_INTERVAL_NS
            (ex_host 2000000000 (ex_settings ex_server) (Some 2%positive)))
       ex_behind
     = (ex_behind, []).
Proof.
  assert (Hcase :
    filter_active ex_behind = false
    \/ (output_active ex_behind = true
        /\ host_obs_source_enabled
             (ex_host 2000000000 (ex_settings ex_server) (Some 2%positive)) = true
        /\ connect_attempting_timed_out EX_CONNECT_ATTEMPTING_TIMEOUT_NS
             (ex_host 2000000000 (ex_settings ex_server) (Some 2%positive)) ex_behind
           = false)
    \/ (host_obs_source_enabled
          (ex_host 2000000000 (ex_settings ex_server) (Some 2%positive)) = false
        /\ (output_active ex_behind = false
            \/ host_obs_output_active
                 (ex_host 2000000000 (ex_settings ex_server) (Some 2%positive))
               = false)))
    by (right; left; repeat split; reflexivity).
  split; [exact Hcase |].
  exact (tick_leaves_alone EX_MAX_AUDIO_MIXES EX_CONNECT_ATTEMPTING_TIMEOUT_NS
           EX_AVAILAVILITY_CHECK_INTERVAL_NS
           (ex_host 2000000000 (ex_settings ex_server) (Some 2%positive))
           ex_behind Hcase).
Defined.


(** X10 at a tick that finds the eye icon of the running filter off. *)
Lemma hidden_filter_stops_witness :
  (filter_active ex_open = true
   /\ output_active ex_open = true
   /\ host_obs_source_enabled
        (ex_host_at false true true 1920 1080 2000000000 (ex_settings ex_server))
      = false
   /\ host_obs_output_active
        (ex_host_at false true true 1920 1080 2000000000 (ex_settings ex_server))
      = true)
  /\ idle
       (fst (run (video_tick EX_MAX_AUDIO_MIXES EX_CONNECT_ATTEMPTING_TIMEOUT_NS
                    EX_AVAILAVILITY_CHECK_INTERVAL_NS
                    (ex_host_at false true true 1920 1080 2000000000
                       (ex_settings ex_server)))
               ex_open)).
Proof.
  assert (Hfa : filter_active ex_open = true) by reflexivity.
  assert (Hout : output_active ex_open = true) by reflexivity.
  assert (Hen : host_obs_source_enabled
                  (ex_host_at false true true 1920 1080 2000000000
                     (ex_settings ex_server)) = false) by reflexivity.
  assert (Hstream : host_obs_output_active
                      (ex_host_at false true true 1920 1080 2000000000
                         (ex_settings ex_server)) = true) by reflexivity.
  split; [repeat split; assumption |].
  destruct (hidden_filter_stops EX_MAX_AUDIO_MIXES
              EX_CONNECT_ATTEMPTING_TIMEOUT_NS EX_AVAILAVILITY_CHECK_INTERVAL_NS
              (ex_host_at false true true 1920 1080 2000000000 (ex_settings ex_server))
              (ex_host_at false true true 1920 1080 2000000000 (ex_settings ex_server))
              (ex_host_at true true true 1920 1080 2000000000 (ex_settings ex_server))
              ex_open Hfa Hout Hen Hstream)
    as (_ & Hidle & _).
  exact Hidle.
Defined.

Lemma ex_open_monitored (found : bool) (w h : Z) :
  monitoring EX_CONNECT_ATTEMPTING_TIMEOUT_NS
    (ex_host_at true true found w h 20000000000 (ex_settings ex_server)) ex_open.
Proof.
  unfold monitoring. simpl. repeat split; try reflexivity; try lia.
Defined.

(** X11 at a tick that finds the source 0 pixels wide. *)
Lemma lost_source_stops_output_witness :
  monitoring EX_CONNECT_ATTEMPTING_TIMEOUT_NS
    (ex_host_at true true true 0 1080 20000000000 (ex_settings ex_server)) ex_open
  /\ run (video_tick EX_MAX_AUDIO_MIXES EX_CONNECT_ATTEMPTING_TIMEOUT_NS
            EX_AVAILAVILITY_CHECK_INTERVAL_NS
            (ex_host_at true true true 0 1080 20000000000 (ex_settings ex_server)))
       ex_open
     = run (stop_output
              (ex_host_at true true true 0 1080 20000000000 (ex_settings ex_server)))
         ex_open.
Proof.
  split; [apply ex_open_monitored |].
  destruct (lost_source_stops_output EX_MAX_AUDIO_MIXES
              EX_CONNECT_ATTEMPTING_TIMEOUT_NS EX_AVAILAVILITY_CHECK_INTERVAL_NS
              (ex_host_at true true true 0 1080 20000000000 (ex_settings ex_server))
              ex_open (ex_open_monitored true 0 1080))
    as (Hzero & _).
  apply Hzero. left. reflexivity.
Defined.

(** X12 at a tick that finds the 1920x1080 source of the running output
    at 1279x720: the output starts again at 1280x720. *)
Lemma resize_restarts_output_witness :
  (monitoring EX_CONNECT_ATTEMPTING_TIMEOUT_NS
     (ex_host_at true true true 1279 720 20000000000 (ex_settings ex_server)) ex_open
   /\ monitored_width
        (ex_host_at true true true 1279 720 20000000000 (ex_settings ex_server)) <> 0
   /\ monitored_height
        (ex_host_at true true true 1279 720 20000000000 (ex_settings ex_server)) <> 0
   /\ (check_due EX_AVAILAVILITY_CHECK_INTERVAL_NS
         (ex_host_at true true true 1279 720 20000000000 (ex_settings ex_server))
         ex_open = false
       \/ source_found
            (ex_host_at true true true 1279 720 20000000000 (ex_settings ex_server))
          = true))
  /\ width
       (fst (run (video_tick EX_MAX_AUDIO_MIXES EX_CONNECT_ATTEMPTING_TIMEOUT_NS
                    EX_AVAILAVILITY_CHECK_INTERVAL_NS
                    (ex_host_at true true true 1279 720 20000000000
                       (ex_settings ex_server)))
               ex_open))
     = 1280
  /\ height
       (fst (run (video_tick EX_MAX_AUDIO_MIXES EX_CONNECT_ATTEMPTING_TIMEOUT_NS
                    EX_AVAILAVILITY_CHECK_INTERVAL_NS
                    (ex_host_at true true true 1279 720 20000000000
                       (ex_settings ex_server)))
               ex_open))
     = 720.
Proof.
  assert (Hw : monitored_width
                 (ex_host_at true true true 1279 720 20000000000
                    (ex_settings ex_server)) <> 0) by (vm_compute; discriminate).
  assert (Hh : monitored_height
                 (ex_host_at true true true 1279 720 20000000000
                    (ex_settings ex_server)) <> 0) by (vm_compute; discriminate).
  assert (Havail :
    check_due EX_AVAILAVILITY_CHECK_INTERVAL_NS
      (ex_host_at true true true 1279 720 20000000000 (ex_settings ex_server))
      ex_open = false
    \/ source_found
         (ex_host_at true true true 1279 720 20000000000 (ex_settings ex_server))
       = true) by (right; reflexivity).
  split;
    [split; [exact (ex_open_monitored true 1279 720) | repeat split; assumption] |].
  destruct (resize_restarts_output EX_MAX_AUDIO_MIXES
              EX_CONNECT_ATTEMPTING_TIMEOUT_NS EX_AVAILAVILITY_CHECK_INTERVAL_NS
              (ex_host_at true true true 1279 720 20000000000 (ex_settings ex_server))
              ex_open (ex_open_monitored true 1279 720) Hw Hh Havail)
    as (Hresized & _).
  assert (Hdiffers :
    width ex_open
    <> monitored_width
         (ex_host_at true true true 1279 720 20000000000 (ex_settings ex_server))
    \/ height ex_open
       <> monitored_height
            (ex_host_at true true true 1279 720 20000000000 (ex_settings ex_server)))
    by (left; vm_compute; discriminate).
  destruct (Hresized Hdiffers) as (_ & Hsize).
  destruct (Hsize eq_refl eq_refl) as [Hwidth Hheight].
  split; [rewrite Hwidth | rewrite Hheight]; reflexivity.
Defined.

(** X13 at a filter that captures the audio of a source. *)
Lemma capture_reference_tracked_witness :
  source_tracked ex_capturing
  /\ source_tracked
       (fst (run (stop_output
                    (ex_host 2000000000 (ex_settings ex_server) (Some 2%positive)))
               ex_capturing))
  /\ (audio_filter_callback EX_MAX_AUDIO_BUFFER_FRAMES EX_HEADER_SIZE ex_capturing
        (ex_audio 4 f32_0_8 f32_zero)
      = (ex_capturing, [])
      \/ audio_capture_callback EX_MAX_AUDIO_BUFFER_FRAMES EX_HEADER_SIZE ex_capturing
           (ex_audio 4 f32_zero f32_0_8) false
         = (ex_capturing, [])).
Proof.
  assert (Htracked : source_tracked ex_capturing) by (intros _; reflexivity).
  split; [exact Htracked |].
  destruct (capture_reference_tracked EX_MAX_AUDIO_MIXES
              EX_CONNECT_ATTEMPTING_TIMEOUT_NS EX_AVAILAVILITY_CHECK_INTERVAL_NS
              EX_MAX_AUDIO_BUFFER_FRAMES EX_HEADER_SIZE
              (ex_host 2000000000 (ex_settings ex_server) (Some 2%positive))
              (ex_settings ex_server) ex_capturing
              (ex_audio 4 f32_0_8 f32_zero) (ex_audio 4 f32_zero f32_0_8) false
              Htracked)
    as (_ & _ & _ & Hstop & Hone).
  split; [exact Hstop | exact Hone].
Defined.

Lemma ex_stream_pushable (f : filter_t) :
  audio_channels f = 2 ->
  Forall (pushable EX_HEADER_SIZE f) ex_stream.
Proof.
  intros Hchannels. unfold ex_stream, pushable, frames_in_range.
  rewrite Hchannels.
  repeat constructor; simpl; unfold UINT32_MODULUS, SIZE_MODULUS, EX_HEADER_SIZE;
    try lia; apply ex_audio_sized.
Qed.

Lemma ex_stream_front (k : Z) :
  k < 4 -> forall a rest, ex_stream = a :: rest -> k < ad_frames a.
Proof. intros Hk a rest [= <- _]. exact Hk. Qed.

Lemma ex_streamed_is_open : bridge_open ex_streamed.
Proof. split; [reflexivity | discriminate]. Qed.

(** X14 at a pull of six frames on the two chunks of the stream. *)
Lemma pull_drains_stream_witness :
  (0 < EX_HEADER_SIZE
   /\ bridge_open ex_streamed
   /\ Forall (pushable EX_HEADER_SIZE ex_streamed) ex_stream
   /\ audio_buffer ex_streamed = chunks_of EX_HEADER_SIZE ex_streamed ex_stream 0
   /\ audio_buffer_frames ex_streamed = stream_frames ex_stream - 0
   /\ 0 < 6 <= audio_buffer_frames ex_streamed
   /\ audio_buffer_frames ex_streamed < SIZE_MODULUS)
  /\ exists r,
       audio_input_callback 6 EX_MAX_AUDIO_MIXES EX_HEADER_SIZE true ex_streamed 0 3
         (ex_mixes 6)
       = Done r
       /\ res_drained r = 6
       /\ audio_buffer (res_filter r)
          = stream_rest EX_HEADER_SIZE ex_streamed ex_stream 0 6.
Proof.
  assert (Hheader : 0 < EX_HEADER_SIZE) by reflexivity.
  assert (Hok : Forall (pushable EX_HEADER_SIZE ex_streamed) ex_stream)
    by (apply ex_stream_pushable; reflexivity).
  assert (Hbuffer : audio_buffer ex_streamed
                    = chunks_of EX_HEADER_SIZE ex_streamed ex_stream 0)
    by (vm_compute; reflexivity).
  assert (Hcount : audio_buffer_frames ex_streamed = stream_frames ex_stream - 0)
    by (vm_compute; reflexivity).
  assert (Hasked : 0 < 6 <= audio_buffer_frames ex_streamed)
    by (vm_compute; split; [reflexivity | discriminate]).
  assert (Hfits : audio_buffer_frames ex_streamed < SIZE_MODULUS)
    by (vm_compute; reflexivity).
  split;
    [split; [exact Hheader |];
     split; [exact ex_streamed_is_open |];
     split; [exact Hok |];
     split; [exact Hbuffer |];
     split; [exact Hcount |];
     split; [exact Hasked | exact Hfits] |].
  destruct (pull_drains_stream 6 EX_MAX_AUDIO_MIXES EX_HEADER_SIZE ex_streamed
              ex_stream 0 0 3 (ex_mixes 6) Hheader ex_streamed_is_open Hok Hbuffer
              Hcount ltac:(lia) (ex_stream_front 0 ltac:(lia)) Hasked Hfits)
    as (r & Hrun & Hdrained & Hfilter & _).
  exists r. split; [exact Hrun |]. split; [exact Hdrained |].
  rewrite Hfilter. reflexivity.
Defined.

(** X15 at the pushes of the stream onto the open bridge and a pull of
    six frames. *)
Lemma push_pull_keeps_order_witness :
  (0 < EX_HEADER_SIZE
   /\ EX_MAX_AUDIO_BUFFER_FRAMES < SIZE_MODULUS
   /\ bridge_open ex_open
   /\ audio_buffer ex_open = []
   /\ audio_buffer_frames ex_open = 0
   /\ Forall (pushable EX_HEADER_SIZE ex_open) ex_stream
   /\ stream_frames ex_stream <= EX_MAX_AUDIO_BUFFER_FRAMES
   /\ 0 < 6 <= stream_frames ex_stream)
  /\ exists r,
       audio_input_callback 6 EX_MAX_AUDIO_MIXES EX_HEADER_SIZE true
         (pushes EX_MAX_AUDIO_BUFFER_FRAMES EX_HEADER_SIZE ex_open ex_stream) 0 3
         (ex_mixes 6)
       = Done r
       /\ res_drained r = 6
       /\ audio_buffer_frames (res_filter r) = stream_frames ex_stream - 6.
Proof.
  assert (Hheader : 0 < EX_HEADER_SIZE) by reflexivity.
  assert (Hceiling : EX_MAX_AUDIO_BUFFER_FRAMES < SIZE_MODULUS) by reflexivity.
  assert (Hok : Forall (pushable EX_HEADER_SIZE ex_open) ex_stream)
    by (apply ex_stream_pushable; reflexivity).
  assert (Hbelow : stream_frames ex_stream <= EX_MAX_AUDIO_BUFFER_FRAMES)
    by (vm_compute; discriminate).
  assert (Hasked : 0 < 6 <= stream_frames ex_stream)
    by (vm_compute; split; [reflexivity | discriminate]).
  split;
    [split; [exact Hheader |];
     split; [exact Hceiling |];
     split; [exact ex_open_is_open |];
     split; [reflexivity |];
     split; [reflexivity |];
     split; [exact Hok |];
     split; [exact Hbelow | exact Hasked] |].
  destruct (push_pull_keeps_order EX_MAX_AUDIO_BUFFER_FRAMES 6 EX_MAX_AUDIO_MIXES
              EX_HEADER_SIZE ex_open ex_stream 0 3 (ex_mixes 6) Hheader Hceiling
              ex_open_is_open eq_refl eq_refl Hok Hbelow Hasked)
    as (r & Hrun & Hdrained & Hleft & _).
  exists r. split; [exact Hrun |]. split; [exact Hdrained | exact Hleft].
Defined.

(** The pull of six frames on the stream: the four frames of the first
    chunk, then two of the second, on both selected buses; three frames
    of the second chunk stay buffered. *)
Example stream_pull_run :
  match
    audio_input_callback 6 EX_MAX_AUDIO_MIXES EX_HEADER_SIZE true ex_streamed 0 3
      (ex_mixes 6)
  with
  | Done r =>
      bus_channel (res_mixes r) 0 0
      = Some [f32_0_8; f32_0_8; f32_0_8; f32_0_8; f32_zero; f32_zero]
      /\ bus_channel (res_mixes r) 1 1
         = Some [f32_zero; f32_zero; f32_zero; f32_zero; f32_0_8; f32_0_8]
      /\ audio_buffer_frames (res_filter r) = 3
      /\ map (fun c => offset (header c)) (audio_buffer (res_filter r)) = [2]
  | _ => False
  end.
Proof. vm_compute. repeat split; reflexivity. Qed.



Lemma ex_ops_sized : Forall (push_sized EX_MAX_AUDIO_BUFFER_FRAMES) ex_ops.
Proof.
  unfold ex_ops, push_sized, frames_in_range, UINT32_MODULUS,
    EX_MAX_AUDIO_BUFFER_FRAMES.
  repeat constructor; simpl; lia.
Qed.

Lemma ex_ops_in_range : Forall push_in_range ex_ops.
Proof.
  unfold ex_ops, push_in_range, frames_in_range, UINT32_MODULUS.
  repeat constructor; simpl; lia.
Qed.

(** X17 at the run of two pushes and three pulls. *)
Lemma bridge_run_within_ceiling_witness :
  (EX_MAX_AUDIO_BUFFER_FRAMES < SIZE_MODULUS - UINT32_MODULUS
   /\ buffer_consistent ex_open
   /\ audio_buffer_frames ex_open <= EX_MAX_AUDIO_BUFFER_FRAMES
   /\ Forall (push_sized EX_MAX_AUDIO_BUFFER_FRAMES) ex_ops)
  /\ exists t,
       bridge_run EX_MAX_AUDIO_BUFFER_FRAMES EX_AUDIO_OUTPUT_FRAMES EX_MAX_AUDIO_MIXES
         EX_HEADER_SIZE (start_tally ex_open) ex_ops
       = Done t
       /\ buffer_consistent (t_filter t)
       /\ audio_buffer_frames (t_filter t) <= EX_MAX_AUDIO_BUFFER_FRAMES.
Proof.
  assert (Hceiling : EX_MAX_AUDIO_BUFFER_FRAMES < SIZE_MODULUS - UINT32_MODULUS)
    by reflexivity.
  assert (Hwithin : audio_buffer_frames ex_open <= EX_MAX_AUDIO_BUFFER_FRAMES)
    by discriminate.
  split;
    [split; [exact Hceiling |];
     split; [exact ex_open_consistent |];
     split; [exact Hwithin | exact ex_ops_sized] |].
  exact (bridge_run_within_ceiling EX_MAX_AUDIO_BUFFER_FRAMES EX_AUDIO_OUTPUT_FRAMES
           EX_MAX_AUDIO_MIXES EX_HEADER_SIZE ex_open ex_ops Hceiling
           ex_open_consistent Hwithin ex_ops_sized).
Defined.

Lemma ex_open_scratch : scratch_fits EX_HEADER_SIZE ex_open.
Proof. constructor. Qed.

(** X18 at that run: the scratch buffer ends as large as the larger of
    the two chunks. *)
Lemma scratch_holds_every_chunk_witness :
  (EX_MAX_AUDIO_BUFFER_FRAMES < SIZE_MODULUS - UINT32_MODULUS
   /\ buffer_consistent ex_open
   /\ scratch_fits EX_HEADER_SIZE ex_open
   /\ Forall push_in_range ex_ops)
  /\ exists t,
       bridge_run EX_MAX_AUDIO_BUFFER_FRAMES EX_AUDIO_OUTPUT_FRAMES EX_MAX_AUDIO_MIXES
         EX_HEADER_SIZE (start_tally ex_open) ex_ops
       = Done t
       /\ scratch_fits EX_HEADER_SIZE (t_filter t)
       /\ audio_conv_buffer_size ex_open <= audio_conv_buffer_size (t_filter t).
Proof.
  assert (Hceiling : EX_MAX_AUDIO_BUFFER_FRAMES < SIZE_MODULUS - UINT32_MODULUS)
    by reflexivity.
  split;
    [split; [exact Hceiling |];
     split; [exact ex_open_consistent |];
     split; [exact ex_open_scratch | exact ex_ops_in_range] |].
  exact (scratch_holds_every_chunk EX_MAX_AUDIO_BUFFER_FRAMES EX_AUDIO_OUTPUT_FRAMES
           EX_MAX_AUDIO_MIXES EX_HEADER_SIZE ex_open ex_ops Hceiling
           ex_open_consistent ex_open_scratch ex_ops_in_range).
Defined.

(** X19 at that run. *)
Lemma bridge_leaves_lifecycle_alone_witness :
  (EX_MAX_AUDIO_BUFFER_FRAMES < SIZE_MODULUS - UINT32_MODULUS
   /\ buffer_consistent ex_open
   /\ Forall push_in_range ex_ops)
  /\ exists t,
       bridge_run EX_MAX_AUDIO_BUFFER_FRAMES EX_AUDIO_OUTPUT_FRAMES EX_MAX_AUDIO_MIXES
         EX_HEADER_SIZE (start_tally ex_open) ex_ops
       = Done t
       /\ same_outside_bridge ex_open (t_filter t)
       /\ (bridge_open ex_open -> bridge_open (t_filter t)).
Proof.
  assert (Hceiling : EX_MAX_AUDIO_BUFFER_FRAMES < SIZE_MODULUS - UINT32_MODULUS)
    by reflexivity.
  split;
    [split; [exact Hceiling |];
     split; [exact ex_open_consistent | exact ex_ops_in_range] |].
  exact (bridge_leaves_lifecycle_alone EX_MAX_AUDIO_BUFFER_FRAMES
           EX_AUDIO_OUTPUT_FRAMES EX_MAX_AUDIO_MIXES EX_HEADER_SIZE ex_open ex_ops
           Hceiling ex_open_consistent ex_ops_in_range).
Defined.

Example scratch_run :
  match
    bridge_run EX_MAX_AUDIO_BUFFER_FRAMES EX_AUDIO_OUTPUT_FRAMES EX_MAX_AUDIO_MIXES
      EX_HEADER_SIZE (start_tally ex_open) ex_ops
  with
  | Done t => audio_conv_buffer_size (t_filter t) = 96 + 2 * 1500 * 4
  | _ => False
  end.
Proof. vm_compute. reflexivity. Qed.

(** A filter created from empty settings takes the encoder of the
    recently saved settings, not their server, key or audio source, and
    is not active; one created from settings that name a server is
    active and keeps its settings. *)
Example create_run :
  let created := ex_create (Some ex_recently) ∅ in
  let named := ex_create (Some ex_recently) ex_named in
  map_to_list (snd (fst created)) = [("video_encoder", "obs_x264")]%string
  /\ filter_active (fst (fst created)) = false
  /\ snd created
     = [obs_log LOG_DEBUG creating_msg; obs_log LOG_DEBUG settings_json_msg;
        obs_log LOG_DEBUG loading_msg; obs_log LOG_INFO loaded_msg;
        obs_log LOG_INFO created_msg]
  /\ map_to_list (snd (fst named)) = [("server", "rtmp://own.example/live")]%string
  /\ filter_active (fst (fst named)) = true.
Proof. vm_compute. repeat split; reflexivity. Qed.

(** X23 at a filter created from empty settings, then updated twice
    with a server named, with a tick on an enabled source in between. *)
Lemma filter_without_server_never_streams_witness :
  obs_data_get_string string id ∅ "server" = EmptyString
  /\ let calls :=
       [update_call (ex_settings ex_server);
        tick_call (ex_host 2000000000 (ex_settings ex_server) (Some 2%positive));
        update_call (ex_settings ex_server)] in
     let r :=
       run (instance_calls EX_MAX_AUDIO_MIXES EX_CONNECT_ATTEMPTING_TIMEOUT_NS
              EX_AVAILAVILITY_CHECK_INTERVAL_NS calls)
         (fst (fst (ex_create (Some ex_recently) ∅))) in
     filter_active (fst r) = false
     /\ holds_nothing (fst r)
     /\ forallb is_update_event (snd r) = true
     /\ active_settings_rev (fst r) = 0
     /\ stored_settings_rev (fst r) = 2.
Proof.
  assert (Hserver : obs_data_get_string string id ∅ "server" = EmptyString)
    by reflexivity.
  split; [exact Hserver |].
  exact (filter_without_server_never_streams EX_MAX_AUDIO_MIXES
           EX_CONNECT_ATTEMPTING_TIMEOUT_NS EX_AVAILAVILITY_CHECK_INTERVAL_NS
           string id ex_copy_item ex_get_json AUDIO_SOURCE_TYPE_SILENCE
           (Some ex_recently) ∅
           [update_call (ex_settings ex_server);
            tick_call (ex_host 2000000000 (ex_settings ex_server) (Some 2%positive));
            update_call (ex_settings ex_server)]
           Hserver).
Defined.
